(** * ESP32 MQTT broker: a shallow embedding of the protocol engine

    The development follows the Arduino sketches of the repository:
    - [Topic]: [splitTopic] and [topicMatches], shared by all brokers;
    - [Codec]: the Remaining Length encoder of [sendMQTTPacket] and the
      decoder [decodeRemainingLength];
    - [QoSBroker]: the broker with the QoS 1/2 engine
      (Arduino_ESP32_MQTT_Broker_Webinterface_QOS1_2.ino);
    - [WebBroker]: the broker with [distributeMessage] and [removeClient];
    - [ExampleBroker]: the minimal example broker.

    Integers of the C++ code are modelled as [Z] with the wrap-around of
    their width written out, a [String] as a [string], a [std::vector] as a
    list read and written by index, a [std::map] as a [gmap] that is
    traversed in key order. *)

From Stdlib Require Import ZArith Zbitwise String Ascii DecimalString Lia Bool.
From stdpp Require Import base option list strings gmap sorting.

Local Open Scope string_scope.
Local Open Scope list_scope.
Local Open Scope Z_scope.

(** ** Arduino core: the [String] operations the sketches use *)

Module Arduino.

(** [strchr]: offset of the first occurrence of [ch]. *)
Fixpoint strchr (ch : ascii) (s : string) : option nat :=
  match s with
  | EmptyString => None
  | String c s' =>
      if Ascii.eqb c ch then Some O else S <$> strchr ch s'
  end.

Fixpoint drop_chars (n : nat) (s : string) : string :=
  match n, s with
  | O, _ => s
  | S _, EmptyString => EmptyString
  | S n', String _ s' => drop_chars n' s'
  end.

Definition len (s : string) : Z := Z.of_nat (String.length s).

(** [String::indexOf(char, fromIndex)]: -1 when [fromIndex] is past the
    end or the character does not occur. *)
Definition indexOf (s : string) (ch : ascii) (fromIndex : Z) : Z :=
  if len s <=? fromIndex then -1
  else match strchr ch (drop_chars (Z.to_nat fromIndex) s) with
       | None => -1
       | Some k => fromIndex + Z.of_nat k
       end.

(** [String::substring(left, right)]: swaps the bounds when reversed,
    is empty when [left] is past the end, and clips [right]. *)
Definition substring (s : string) (left right : Z) : string :=
  let '(l, r) := if right <? left then (right, left) else (left, right) in
  if len s <=? l then EmptyString
  else
    let r := if len s <? r then len s else r in
    String.substring (Z.to_nat l) (Z.to_nat (r - l)) s.

(** [String::substring(beginIndex)]. *)
Definition substring_from (s : string) (beginIndex : Z) : string :=
  substring s beginIndex (len s).

(** A [char] of a buffer as a byte value and back. *)
Definition byte_of_char (c : ascii) : Z := Z.of_N (N_of_ascii c).
Definition char_of_byte (b : Z) : ascii := ascii_of_N (Z.to_N b).

(** [for (char c : s) v.push_back(c)]. *)
Fixpoint bytes_of_String (s : string) : list Z :=
  match s with
  | EmptyString => []
  | String c s' => byte_of_char c :: bytes_of_String s'
  end.

(** [String(const char* )]: the characters up to the first NUL. *)
Fixpoint String_of_cstr (buf : list Z) : string :=
  match buf with
  | [] => EmptyString
  | b :: buf' =>
      if b =? 0 then EmptyString
      else String (char_of_byte b) (String_of_cstr buf')
  end.

End Arduino.

(** ** Topic matcher *)

Module Topic.
Import Arduino.

Definition slash : ascii := "/"%char.

(** The [while (idx != -1)] loop of [splitTopic]; every iteration moves
    [start] past one separator, so [S (length topic)] iterations are
    enough.  Out of fuel the result is [[]], which [splitTopic] never
    returns otherwise. *)
Fixpoint splitTopic_loop (fuel : nat) (topic : string) (start idx : Z)
    (parts : list string) : list string :=
  match fuel with
  | O => []
  | S fuel' =>
      if idx =? -1 then parts ++ [substring_from topic start]
      else
        let parts := parts ++ [substring topic start idx] in
        let start := idx + 1 in
        splitTopic_loop fuel' topic start (indexOf topic slash start) parts
  end.

Definition splitTopic (topic : string) : list string :=
  splitTopic_loop (S (String.length topic)) topic 0 (indexOf topic slash 0) [].

(** [v[i]] on a vector of [String]; the loops below keep [i] in range. *)
Definition at_ (v : list string) (i : nat) : string := default "" (v !! i).

(** [for (size_t i = from; i < from + n; ++i)] with the body shared by
    both loops of [topicMatches]: [false] stands for [return false],
    [true] for falling out of the loop. *)
Fixpoint matchParts (n : nat) (i : nat) (topicParts filterParts : list string)
    : bool :=
  match n with
  | O => true
  | S n' =>
      if String.eqb (at_ filterParts i) "+" then
        matchParts n' (S i) topicParts filterParts
      else if negb (String.eqb (at_ topicParts i) (at_ filterParts i)) then false
      else matchParts n' (S i) topicParts filterParts
  end.

(** [filterParts.back()]. *)
Definition back (v : list string) : string := default "" (last v).

Definition topicMatches (topic filter : string) : bool :=
  if String.eqb filter "#" then true
  else
    let topicParts := splitTopic topic in
    let filterParts := splitTopic filter in
    if negb (bool_decide (filterParts = [])) && String.eqb (back filterParts) "#" then
      if (length filterParts - 1 <=? length topicParts)%nat then
        matchParts (length filterParts - 1) 0 topicParts filterParts
      else false
    else if negb (length topicParts =? length filterParts)%nat then false
    else matchParts (length topicParts) 0 topicParts filterParts.

(** The segments of a topic, read off character by character. *)
Fixpoint segments (s : string) : list string :=
  match s with
  | EmptyString => [EmptyString]
  | String c s' =>
      if Ascii.eqb c slash then EmptyString :: segments s'
      else match segments s' with
           | p :: ps => String c p :: ps
           | [] => [String c EmptyString]
           end
  end.

End Topic.

(** ** Remaining Length: the encoder of [sendMQTTPacket] and
       [decodeRemainingLength] *)

Module Codec.

(** The [do ... while (remLen > 0)] loop of [sendMQTTPacket] (the same
    loop is inlined in [sendPublish] of the other sketches).  [room] is
    the number of free slots of [uint8_t encodedRemLen[4]]: storing a
    fifth digit would write past the array, which is [None] here. *)
Fixpoint encode_loop (room : nat) (remLen : Z) (encodedRemLen : list Z)
    : option (list Z) :=
  match room with
  | O => None
  | S room' =>
      let digit := Z.rem remLen 128 in
      let remLen := Z.quot remLen 128 in
      let digit := if 0 <? remLen then Z.lor digit 0x80 else digit in
      let encodedRemLen := encodedRemLen ++ [digit] in
      if 0 <? remLen then encode_loop room' remLen encodedRemLen
      else Some encodedRemLen
  end.

Definition encodeRemainingLength (remLen : Z) : option (list Z) :=
  encode_loop 4 remLen [].

(** The [do ... while] loop of [decodeRemainingLength] on the bytes
    that arrive on the stream: the result and the unread rest.  An
    empty stream is the [waitForBytes] timeout. *)
Fixpoint decode_loop (rx : list Z) (multiplier value : Z) : Z * list Z :=
  match rx with
  | [] => (-1, [])
  | encodedByte :: rx' =>
      let value := value + Z.land encodedByte 127 * multiplier in
      let multiplier := multiplier * 128 in
      if 128 * 128 * 128 <? multiplier then (-1, rx')
      else if Z.land encodedByte 128 =? 0 then (value, rx')
      else decode_loop rx' multiplier value
  end.

Definition decodeRemainingLength (rx : list Z) : Z * list Z :=
  decode_loop rx 1 0.

(** The largest Remaining Length of MQTT 3.1.1 (four digits). *)
Definition MAX_REMAINING_LENGTH : Z := 268435455.

End Codec.

(** ** The socket and the integers of the sketches *)

Module WiFi.

(** [unsigned long], [uint16_t] and [uint8_t] arithmetic. *)
Definition u32 (x : Z) : Z := x mod 2 ^ 32.
Definition u16 (x : Z) : Z := x mod 2 ^ 16.
Definition u8 (x : Z) : Z := x mod 2 ^ 8.

(** A [WiFiClient]: whether the socket is open, the bytes that can be
    read from it, and the bytes written to it so far. *)
Record WiFiClient := {
  connected : bool;
  rx : list Z;
  tx : list Z
}.

(** [client.available() >= length], once [waitForBytes] has waited:
    [rx] holds the bytes that arrive before its timeout. *)
Definition waitForBytes (w : WiFiClient) (length_ : Z) : bool :=
  length_ <=? Z.of_nat (length (rx w)).

(** [client.read()] stored in a [byte] or a [char]: the [-1] of an
    empty stream becomes 255. *)
Definition read (w : WiFiClient) : Z * WiFiClient :=
  match rx w with
  | [] => (255, w)
  | x :: rest => (x, {| connected := connected w; rx := rest; tx := tx w |})
  end.

(** [for (int i = 0; i < n; i++) buf[i] = client.read();] *)
Fixpoint readBytes (n : nat) (w : WiFiClient) : list Z * WiFiClient :=
  match n with
  | O => ([], w)
  | S n' =>
      let '(x, w) := read w in
      let '(buf, w) := readBytes n' w in
      (x :: buf, w)
  end.

(** [client.write(buf, n)]: a closed socket takes no bytes. *)
Definition write (bytes : list Z) (w : WiFiClient) : WiFiClient :=
  if connected w then {| connected := true; rx := rx w; tx := tx w ++ bytes |}
  else w.

(** [client.stop()]. *)
Definition stop (w : WiFiClient) : WiFiClient :=
  {| connected := false; rx := []; tx := tx w |}.

(** [(msb << 8) | lsb]. *)
Definition word (msb lsb : Z) : Z := Z.lor (Z.shiftl msb 8) lsb.

(** The two bytes [(x >> 8) & 0xFF], [x & 0xFF]. *)
Definition be16 (x : Z) : list Z :=
  [Z.land (Z.shiftr x 8) 0xFF; Z.land x 0xFF].

End WiFi.

(** ** The broker with the QoS 1/2 engine
       (Arduino_ESP32_MQTT_Broker_Webinterface_QOS1_2.ino) *)

Module QoSBroker.
Import Arduino Topic Codec WiFi.

Definition QoS_TIMEOUT_MS : Z := 5000.
Definition MAX_QOS_RETRIES : Z := 3.

Record Message := {
  msg_topic : string;
  msg_payload : string;
  msg_timestamp : Z
}.

Record OutgoingMessage := {
  out_topic : string;
  out_payload : string;
  out_qos : Z;
  out_retain : bool;
  out_packetId : Z;
  timestampSent : Z;
  retryCount : Z;
  out_state : Z
}.

Record IncomingQoS2State := {
  in_topic : string;
  in_payload : string;
  in_qos : Z;
  in_packetId : Z;
  timestampReceived : Z;
  in_state : Z
}.

Record MQTTClientState := {
  client : WiFiClient;
  clientId : string;
  lastSeen : Z;
  willTopic : string;
  willMessage : string;
  hasLWT : bool;
  connectedACKSent : bool;
  subscribedTopics : list string;
  clientKeepAliveSec : Z;
  outgoingQoSMessages : gmap Z OutgoingMessage;
  incomingQoS2Messages : gmap Z IncomingQoS2State;
  nextOutgoingPacketId : Z
}.

(** [clientState] is a pointer into [connectedMQTTClients]: the position
    of the element it points to. *)
Record ActiveSubscription := {
  clientState : nat;
  topicFilter : string;
  sub_qos : Z
}.

(** The line [sendPublish] prints once it has sent a PUBLISH, with the
    position of the receiver in [connectedMQTTClients] for its client
    identifier.  The other lines of [Serial] are not recorded. *)
Record PublishSent := {
  sent_to : nat;
  sent_topic : string;
  sent_payload : string;
  sent_qos : Z;
  sent_packetId : Z;
  sent_retain : bool
}.

(** The globals of the sketch. *)
Record Broker := {
  connectedMQTTClients : list MQTTClientState;
  activeSubscriptions : list ActiveSubscription;
  retainedMessages : gmap string string;
  messageLog : list Message;
  serial : list PublishSent
}.

(** *** Field updates *)

Definition set_client (w : WiFiClient) (c : MQTTClientState) : MQTTClientState :=
  {| client := w; clientId := clientId c; lastSeen := lastSeen c;
     willTopic := willTopic c; willMessage := willMessage c; hasLWT := hasLWT c;
     connectedACKSent := connectedACKSent c; subscribedTopics := subscribedTopics c;
     clientKeepAliveSec := clientKeepAliveSec c;
     outgoingQoSMessages := outgoingQoSMessages c;
     incomingQoS2Messages := incomingQoS2Messages c;
     nextOutgoingPacketId := nextOutgoingPacketId c |}.

Definition set_lastSeen (t : Z) (c : MQTTClientState) : MQTTClientState :=
  {| client := client c; clientId := clientId c; lastSeen := t;
     willTopic := willTopic c; willMessage := willMessage c; hasLWT := hasLWT c;
     connectedACKSent := connectedACKSent c; subscribedTopics := subscribedTopics c;
     clientKeepAliveSec := clientKeepAliveSec c;
     outgoingQoSMessages := outgoingQoSMessages c;
     incomingQoS2Messages := incomingQoS2Messages c;
     nextOutgoingPacketId := nextOutgoingPacketId c |}.

Definition set_subscribedTopics (l : list string) (c : MQTTClientState) : MQTTClientState :=
  {| client := client c; clientId := clientId c; lastSeen := lastSeen c;
     willTopic := willTopic c; willMessage := willMessage c; hasLWT := hasLWT c;
     connectedACKSent := connectedACKSent c; subscribedTopics := l;
     clientKeepAliveSec := clientKeepAliveSec c;
     outgoingQoSMessages := outgoingQoSMessages c;
     incomingQoS2Messages := incomingQoS2Messages c;
     nextOutgoingPacketId := nextOutgoingPacketId c |}.

Definition set_outgoing (m : gmap Z OutgoingMessage) (c : MQTTClientState) : MQTTClientState :=
  {| client := client c; clientId := clientId c; lastSeen := lastSeen c;
     willTopic := willTopic c; willMessage := willMessage c; hasLWT := hasLWT c;
     connectedACKSent := connectedACKSent c; subscribedTopics := subscribedTopics c;
     clientKeepAliveSec := clientKeepAliveSec c;
     outgoingQoSMessages := m;
     incomingQoS2Messages := incomingQoS2Messages c;
     nextOutgoingPacketId := nextOutgoingPacketId c |}.

Definition set_incoming (m : gmap Z IncomingQoS2State) (c : MQTTClientState) : MQTTClientState :=
  {| client := client c; clientId := clientId c; lastSeen := lastSeen c;
     willTopic := willTopic c; willMessage := willMessage c; hasLWT := hasLWT c;
     connectedACKSent := connectedACKSent c; subscribedTopics := subscribedTopics c;
     clientKeepAliveSec := clientKeepAliveSec c;
     outgoingQoSMessages := outgoingQoSMessages c;
     incomingQoS2Messages := m;
     nextOutgoingPacketId := nextOutgoingPacketId c |}.

Definition set_nextOutgoingPacketId (n : Z) (c : MQTTClientState) : MQTTClientState :=
  {| client := client c; clientId := clientId c; lastSeen := lastSeen c;
     willTopic := willTopic c; willMessage := willMessage c; hasLWT := hasLWT c;
     connectedACKSent := connectedACKSent c; subscribedTopics := subscribedTopics c;
     clientKeepAliveSec := clientKeepAliveSec c;
     outgoingQoSMessages := outgoingQoSMessages c;
     incomingQoS2Messages := incomingQoS2Messages c;
     nextOutgoingPacketId := n |}.

Definition set_clients (l : list MQTTClientState) (b : Broker) : Broker :=
  {| connectedMQTTClients := l; activeSubscriptions := activeSubscriptions b;
     retainedMessages := retainedMessages b; messageLog := messageLog b;
     serial := serial b |}.

Definition set_subscriptions (l : list ActiveSubscription) (b : Broker) : Broker :=
  {| connectedMQTTClients := connectedMQTTClients b; activeSubscriptions := l;
     retainedMessages := retainedMessages b; messageLog := messageLog b;
     serial := serial b |}.

Definition set_retained (m : gmap string string) (b : Broker) : Broker :=
  {| connectedMQTTClients := connectedMQTTClients b;
     activeSubscriptions := activeSubscriptions b;
     retainedMessages := m; messageLog := messageLog b; serial := serial b |}.

Definition set_messageLog (l : list Message) (b : Broker) : Broker :=
  {| connectedMQTTClients := connectedMQTTClients b;
     activeSubscriptions := activeSubscriptions b;
     retainedMessages := retainedMessages b; messageLog := l; serial := serial b |}.

Definition set_serial (l : list PublishSent) (b : Broker) : Broker :=
  {| connectedMQTTClients := connectedMQTTClients b;
     activeSubscriptions := activeSubscriptions b;
     retainedMessages := retainedMessages b; messageLog := messageLog b;
     serial := l |}.

(** [connectedMQTTClients[i] = f(connectedMQTTClients[i])]; nothing
    happens when [i] is not a position of the vector. *)
Definition update_client (i : nat) (f : MQTTClientState → MQTTClientState)
    (b : Broker) : Broker :=
  match connectedMQTTClients b !! i with
  | Some c => set_clients (<[i := f c]> (connectedMQTTClients b)) b
  | None => b
  end.

(** *** Senders *)

Definition sendMQTTPacket (w : WiFiClient) (fixedHeader : Z)
    (variableHeaderAndPayload : list Z) : WiFiClient :=
  if negb (connected w) then w
  else
    match encodeRemainingLength (Z.of_nat (length variableHeaderAndPayload)) with
    | Some encodedRemLen =>
        write variableHeaderAndPayload (write encodedRemLen (write [fixedHeader] w))
    | None => w
    end.

(** The fixed header of an outgoing PUBLISH: [base] is [0x30], or
    [0x38] for a retransmission. *)
Definition publishHeader (base qos : Z) (retain : bool) : Z :=
  let fixedHeader := u8 (Z.lor base (Z.shiftl qos 1)) in
  if retain then Z.lor fixedHeader 0x01 else fixedHeader.

Definition publishBody (topic payload : string) (qos packetId : Z) : list Z :=
  be16 (len topic) ++ bytes_of_String topic
  ++ (if 0 <? qos then be16 packetId else [])
  ++ bytes_of_String payload.

(** [sendPublish(clientState, topic, payload, qos, retain)] on the
    client at position [j]. *)
Definition sendPublish (now : Z) (j : nat) (topic payload : string) (qos : Z)
    (retain : bool) (b : Broker) : Broker :=
  match connectedMQTTClients b !! j with
  | None => b
  | Some c =>
      if negb (connected (client c)) then b
      else
        let packetId := if 0 <? qos then nextOutgoingPacketId c else 0 in
        let c :=
          if 0 <? qos then
            let next := u16 (nextOutgoingPacketId c + 1) in
            let next := if next =? 0 then 1 else next in
            let outMsg := {| out_topic := topic; out_payload := payload;
                             out_qos := qos; out_retain := retain;
                             out_packetId := packetId; timestampSent := now;
                             retryCount := 0; out_state := 0 |} in
            set_outgoing (<[packetId := outMsg]> (outgoingQoSMessages c))
              (set_nextOutgoingPacketId next c)
          else c in
        let w := sendMQTTPacket (client c) (publishHeader 0x30 qos retain)
                   (publishBody topic payload qos packetId) in
        let line := {| sent_to := j; sent_topic := topic; sent_payload := payload;
                       sent_qos := qos; sent_packetId := packetId;
                       sent_retain := retain |} in
        set_serial (serial b ++ [line])
          (set_clients (<[j := set_client w c]> (connectedMQTTClients b)) b)
  end.

Definition sendPubAck (w : WiFiClient) (packetId : Z) : WiFiClient :=
  sendMQTTPacket w 0x40 (be16 packetId).

Definition sendPubRec (w : WiFiClient) (packetId : Z) : WiFiClient :=
  sendMQTTPacket w 0x50 (be16 packetId).

Definition sendPubRel (w : WiFiClient) (packetId : Z) : WiFiClient :=
  sendMQTTPacket w 0x62 (be16 packetId).

Definition sendPubComp (w : WiFiClient) (packetId : Z) : WiFiClient :=
  sendMQTTPacket w 0x70 (be16 packetId).

(** *** Blocks shared by the handlers *)

(** [messageLog.push_back(msg); if (messageLog.size() > 50)
    messageLog.erase(messageLog.begin());] *)
Definition logMessage (now : Z) (topic payload : string) (b : Broker) : Broker :=
  let log := messageLog b
               ++ [{| msg_topic := topic; msg_payload := payload; msg_timestamp := now |}] in
  set_messageLog (if (50 <? length log)%nat then tail log else log) b.

(** The body of [if (retain)] in [handlePublish]. *)
Definition updateRetained (topic payload : string) (b : Broker) : Broker :=
  if len payload =? 0 then set_retained (delete topic (retainedMessages b)) b
  else set_retained (<[topic := payload]> (retainedMessages b)) b.

(** The body of [for (auto &sub : activeSubscriptions)], which sends
    with the QoS of the subscription. *)
Definition forwardTo (now : Z) (topic payload : string) (retain : bool)
    (b : Broker) (sub : ActiveSubscription) : Broker :=
  match connectedMQTTClients b !! clientState sub with
  | Some c =>
      if connected (client c) && topicMatches topic (topicFilter sub) then
        sendPublish now (clientState sub) topic payload (sub_qos sub) retain b
      else b
  | None => b
  end.

Definition forward (now : Z) (topic payload : string) (retain : bool)
    (b : Broker) : Broker :=
  foldl (forwardTo now topic payload retain) b (activeSubscriptions b).

(** *** Handlers *)

(** The reads of [handlePublish]: topic, packet identifier (0 at QoS 0)
    and payload. *)
Definition readPublish (qos remainingLength : Z) (w : WiFiClient)
    : string * Z * string * WiFiClient :=
  let '(topicLenMsb, w) := read w in
  let '(topicLenLsb, w) := read w in
  let topicLen := word topicLenMsb topicLenLsb in
  let '(topicChar, w) := readBytes (Z.to_nat topicLen) w in
  let topic := String_of_cstr topicChar in
  let '(packetId, w) :=
    if 0 <? qos then
      let '(packetIdMsb, w) := read w in
      let '(packetIdLsb, w) := read w in
      (u16 (word packetIdMsb packetIdLsb), w)
    else (0, w) in
  let payloadLen := remainingLength - (2 + topicLen) in
  let payloadLen := if 0 <? qos then payloadLen - 2 else payloadLen in
  let '(payload, w) :=
    if 0 <? payloadLen then
      let '(payloadChar, w) := readBytes (Z.to_nat payloadLen) w in
      (String_of_cstr payloadChar, w)
    else ("", w) in
  (topic, packetId, payload, w).

Definition handlePublish (now : Z) (i : nat) (header remainingLength : Z)
    (b : Broker) : Broker :=
  match connectedMQTTClients b !! i with
  | None => b
  | Some c =>
      let qos := Z.land (Z.shiftr header 1) 0x03 in
      let retain := negb (Z.land header 0x01 =? 0) in
      let dup := negb (Z.land (Z.shiftr header 3) 0x01 =? 0) in
      if negb (waitForBytes (client c) remainingLength) then b
      else
        let '(topic, packetId, payload, w) :=
          readPublish qos remainingLength (client c) in
        let c := set_client w c in
        (* the duplicate of a PUBLISH that is held in state 0 *)
        let duplicate :=
          match incomingQoS2Messages c !! packetId with
          | Some inMsg => (in_state inMsg =? 0) && dup
          | None => false
          end in
        if (qos =? 2) && duplicate then
          update_client i (λ _, set_client (sendPubRec (client c) packetId) c) b
        else
          let c :=
            if qos =? 1 then set_client (sendPubAck (client c) packetId) c
            else if qos =? 2 then
              let inMsg := {| in_topic := topic; in_payload := payload; in_qos := qos;
                              in_packetId := packetId; timestampReceived := now;
                              in_state := 1 |} in
              set_incoming (<[packetId := inMsg]> (incomingQoS2Messages c))
                (set_client (sendPubRec (client c) packetId) c)
            else c in
          let b := update_client i (λ _, c) b in
          if qos =? 0 then
            let b := logMessage now topic payload b in
            let b := if retain then updateRetained topic payload b else b in
            forward now topic payload retain b
          else b
  end.

(** The two reads that every acknowledgement handler starts with. *)
Definition readPacketId (w : WiFiClient) : Z * WiFiClient :=
  let '(packetIdMsb, w) := read w in
  let '(packetIdLsb, w) := read w in
  (u16 (word packetIdMsb packetIdLsb), w).

Definition handlePubAck (i : nat) (remainingLength : Z) (b : Broker) : Broker :=
  match connectedMQTTClients b !! i with
  | None => b
  | Some c =>
      if negb (waitForBytes (client c) remainingLength) then b
      else
        let '(packetId, w) := readPacketId (client c) in
        let c := set_client w c in
        let c :=
          match outgoingQoSMessages c !! packetId with
          | Some _ => set_outgoing (delete packetId (outgoingQoSMessages c)) c
          | None => c
          end in
        update_client i (λ _, c) b
  end.

Definition handlePubRec (now : Z) (i : nat) (remainingLength : Z) (b : Broker)
    : Broker :=
  match connectedMQTTClients b !! i with
  | None => b
  | Some c =>
      if negb (waitForBytes (client c) remainingLength) then b
      else
        let '(packetId, w) := readPacketId (client c) in
        let c := set_client w c in
        let c :=
          match outgoingQoSMessages c !! packetId with
          | Some outMsg =>
              if (out_qos outMsg =? 2) && (out_state outMsg =? 0) then
                let outMsg := {| out_topic := out_topic outMsg;
                                 out_payload := out_payload outMsg;
                                 out_qos := out_qos outMsg;
                                 out_retain := out_retain outMsg;
                                 out_packetId := out_packetId outMsg;
                                 timestampSent := now; retryCount := 0;
                                 out_state := 1 |} in
                set_outgoing (<[packetId := outMsg]> (outgoingQoSMessages c))
                  (set_client (sendPubRel (client c) packetId) c)
              else c
          | None => set_client (sendPubRel (client c) packetId) c
          end in
        update_client i (λ _, c) b
  end.

Definition handlePubRel (now : Z) (i : nat) (remainingLength : Z) (b : Broker)
    : Broker :=
  match connectedMQTTClients b !! i with
  | None => b
  | Some c =>
      if negb (waitForBytes (client c) remainingLength) then b
      else
        let '(packetId, w) := readPacketId (client c) in
        let c := set_client w c in
        match incomingQoS2Messages c !! packetId with
        | Some inMsg =>
            if in_state inMsg =? 1 then
              let inMsg2 := {| in_topic := in_topic inMsg; in_payload := in_payload inMsg;
                               in_qos := in_qos inMsg; in_packetId := in_packetId inMsg;
                               timestampReceived := timestampReceived inMsg;
                               in_state := 2 |} in
              let c := set_incoming (<[packetId := inMsg2]> (incomingQoS2Messages c))
                         (set_client (sendPubComp (client c) packetId) c) in
              let b := update_client i (λ _, c) b in
              let b := logMessage now (in_topic inMsg) (in_payload inMsg) b in
              let b := forward now (in_topic inMsg) (in_payload inMsg)
                         ((in_qos inMsg =? 2) && (in_qos inMsg =? 2)) b in
              update_client i
                (λ c, set_incoming (delete packetId (incomingQoS2Messages c)) c) b
            else
              update_client i (λ _, set_client (sendPubComp (client c) packetId) c) b
        | None =>
            match outgoingQoSMessages c !! packetId with
            | Some outMsg =>
                if (out_qos outMsg =? 2) && (out_state outMsg =? 1) then
                  let outMsg := {| out_topic := out_topic outMsg;
                                   out_payload := out_payload outMsg;
                                   out_qos := out_qos outMsg;
                                   out_retain := out_retain outMsg;
                                   out_packetId := out_packetId outMsg;
                                   timestampSent := now; retryCount := 0;
                                   out_state := 2 |} in
                  update_client i
                    (λ _, set_outgoing (<[packetId := outMsg]> (outgoingQoSMessages c))
                            (set_client (sendPubComp (client c) packetId) c)) b
                else update_client i (λ _, c) b
            | None =>
                update_client i (λ _, set_client (sendPubComp (client c) packetId) c) b
            end
        end
  end.

Definition handlePubComp (i : nat) (remainingLength : Z) (b : Broker) : Broker :=
  match connectedMQTTClients b !! i with
  | None => b
  | Some c =>
      if negb (waitForBytes (client c) remainingLength) then b
      else
        let '(packetId, w) := readPacketId (client c) in
        let c := set_client w c in
        let c :=
          match outgoingQoSMessages c !! packetId with
          | Some _ => set_outgoing (delete packetId (outgoingQoSMessages c)) c
          | None => c
          end in
        update_client i (λ _, c) b
  end.

(** [std::map<String, String>] is walked in the order of its keys. *)
Definition key_leb (a b : string * string) : Prop := String.leb a.1 b.1 = true.

#[global] Instance key_leb_dec : RelDecision key_leb :=
  λ a b, decide (String.leb a.1 b.1 = true).

Definition retainedInOrder (m : gmap string string) : list (string * string) :=
  merge_sort key_leb (map_to_list m).

(** [byte grantedQoS = requestedQoS; if (grantedQoS > 2) grantedQoS = 0;] *)
Definition grantQoS (requestedQoS : Z) : Z :=
  if 2 <? requestedQoS then 0 else requestedQoS.

Definition handleSubscribe (now : Z) (i : nat) (header remainingLength : Z)
    (b : Broker) : Broker :=
  match connectedMQTTClients b !! i with
  | None => b
  | Some c =>
      if negb (waitForBytes (client c) remainingLength) then b
      else
        let w := client c in
        let '(packetIdMsb, w) := read w in
        let '(packetIdLsb, w) := read w in
        let '(topicLenMsb, w) := read w in
        let '(topicLenLsb, w) := read w in
        let topicLen := word topicLenMsb topicLenLsb in
        let '(topicChar, w) := readBytes (Z.to_nat topicLen) w in
        let topic := String_of_cstr topicChar in
        let '(requestedQoS, w) := read w in
        let grantedQoS := grantQoS requestedQoS in
        let w := write [0x90; 0x03; packetIdMsb; packetIdLsb; grantedQoS] w in
        let newSub := {| clientState := i; topicFilter := topic; sub_qos := grantedQoS |} in
        let c := set_subscribedTopics (subscribedTopics c ++ [topic]) (set_client w c) in
        let b := set_subscriptions (activeSubscriptions b ++ [newSub])
                   (update_client i (λ _, c) b) in
        foldl (λ b (kv : string * string),
                 if topicMatches kv.1 topic
                 then sendPublish now i kv.1 kv.2 grantedQoS true b else b)
          b (retainedInOrder (retainedMessages b))
  end.

Definition handlePingReq (now : Z) (i : nat) (b : Broker) : Broker :=
  update_client i
    (λ c, set_lastSeen now (set_client (write [0xD0; 0x00] (client c)) c)) b.

(** *** [processMQTTClient] *)

(** [std::map<uint16_t, ...>] is walked in the order of its keys. *)
Definition pid_le {V} (a b : Z * V) : Prop := a.1 <= b.1.

#[global] Instance pid_le_dec {V} : RelDecision (@pid_le V) :=
  λ a b, decide (a.1 <= b.1).

Definition inOrder {V} (m : gmap Z V) : list (Z * V) :=
  merge_sort pid_le (map_to_list m).

(** [millis() - t] on [unsigned long]. *)
Definition elapsed (now t : Z) : Z := u32 (now - t).

(** [outMsg.retryCount++; outMsg.timestampSent = millis();] *)
Definition countRetry (now : Z) (outMsg : OutgoingMessage) : OutgoingMessage :=
  {| out_topic := out_topic outMsg; out_payload := out_payload outMsg;
     out_qos := out_qos outMsg; out_retain := out_retain outMsg;
     out_packetId := out_packetId outMsg; timestampSent := now;
     retryCount := u8 (retryCount outMsg + 1); out_state := out_state outMsg |}.

(** The packet a retransmission writes: the PUBLISH with DUP=1, the
    PUBREL or the PUBCOMP, after the QoS and state of the entry. *)
Definition resend (outMsg : OutgoingMessage) (w : WiFiClient) : WiFiClient :=
  if (out_qos outMsg =? 1) || ((out_qos outMsg =? 2) && (out_state outMsg =? 0)) then
    sendMQTTPacket w (publishHeader 0x38 (out_qos outMsg) (out_retain outMsg))
      (be16 (len (out_topic outMsg)) ++ bytes_of_String (out_topic outMsg)
       ++ be16 (out_packetId outMsg) ++ bytes_of_String (out_payload outMsg))
  else if (out_qos outMsg =? 2) && (out_state outMsg =? 1) then
    sendPubRel w (out_packetId outMsg)
  else if (out_qos outMsg =? 2) && (out_state outMsg =? 2) then
    sendPubComp w (out_packetId outMsg)
  else w.

(** The retransmission loop over [outgoingQoSMessages]; the flag tells
    that the loop left [processMQTTClient] by [return]. *)
Fixpoint retransmitOutgoing (now : Z) (entries : list (Z * OutgoingMessage))
    (c : MQTTClientState) : MQTTClientState * bool :=
  match entries with
  | [] => (c, false)
  | (packetId, outMsg) :: entries' =>
      if QoS_TIMEOUT_MS <? elapsed now (timestampSent outMsg) then
        if retryCount outMsg <? MAX_QOS_RETRIES then
          let outMsg := countRetry now outMsg in
          retransmitOutgoing now entries'
            (set_outgoing (<[packetId := outMsg]> (outgoingQoSMessages c))
               (set_client (resend outMsg (client c)) c))
        else
          (set_outgoing (delete packetId (outgoingQoSMessages c))
             (set_client (stop (client c)) c), true)
      else retransmitOutgoing now entries' c
  end.

(** The loop over [incomingQoS2Messages]: the last acknowledgement is
    sent again, without a retry count. *)
Definition resendAck (now : Z) (w : WiFiClient) (entry : Z * IncomingQoS2State)
    : WiFiClient :=
  let inMsg := entry.2 in
  if QoS_TIMEOUT_MS <? elapsed now (timestampReceived inMsg) then
    if in_state inMsg =? 1 then sendPubRec w (in_packetId inMsg)
    else if in_state inMsg =? 2 then sendPubComp w (in_packetId inMsg)
    else w
  else w.

(** [for (int i = 0; i < len && client.available(); ++i) client.read();] *)
Definition discard (len_ : Z) (w : WiFiClient) : WiFiClient :=
  {| connected := connected w; rx := drop (Z.to_nat len_) (rx w); tx := tx w |}.

(** The [switch (packetType)] of [processMQTTClient]. *)
Definition dispatch (now : Z) (i : nat) (b : Broker) : Broker :=
  match connectedMQTTClients b !! i with
  | None => b
  | Some c =>
      if 2 <=? Z.of_nat (length (rx (client c))) then
        let '(h, w) := read (client c) in
        let '(len_, w) := read w in
        let b := update_client i (set_client w) b in
        let packetType := Z.shiftr h 4 in
        if packetType =? 1 then update_client i (λ c, set_client (discard len_ (client c)) c) b
        else if packetType =? 3 then handlePublish now i h len_ b
        else if packetType =? 4 then handlePubAck i len_ b
        else if packetType =? 5 then handlePubRec now i len_ b
        else if packetType =? 6 then handlePubRel now i len_ b
        else if packetType =? 7 then handlePubComp i len_ b
        else if packetType =? 8 then handleSubscribe now i h len_ b
        else if packetType =? 12 then handlePingReq now i b
        else if packetType =? 14 then update_client i (λ c, set_client (stop (client c)) c) b
        else update_client i (λ c, set_client (stop (discard len_ (client c))) c) b
      else b
  end.

Definition processMQTTClient (now : Z) (i : nat) (b : Broker) : Broker :=
  match connectedMQTTClients b !! i with
  | None => b
  | Some c =>
      if negb (connected (client c)) then b
      else if (0 <? clientKeepAliveSec c)
              && (u32 (clientKeepAliveSec c * 1500) <? elapsed now (lastSeen c)) then
        let b := if hasLWT c then forward now (willTopic c) (willMessage c) false b
                 else b in
        update_client i (λ c, set_client (stop (client c)) c) b
      else
        let '(c, returned) := retransmitOutgoing now (inOrder (outgoingQoSMessages c)) c in
        if returned then update_client i (λ _, c) b
        else
          let w := foldl (resendAck now) (client c) (inOrder (incomingQoS2Messages c)) in
          dispatch now i (update_client i (λ _, set_client w c) b)
  end.

(** *** [loop] *)

Definition readLengthPrefixedString (w : WiFiClient) : string * WiFiClient :=
  if negb (waitForBytes w 2) then ("", w)
  else
    let '(lenMsb, w) := read w in
    let '(lenLsb, w) := read w in
    let len_ := word lenMsb lenLsb in
    if len_ =? 0 then ("", w)
    else if negb (waitForBytes w len_) then ("", w)
    else
      let '(buffer, w) := readBytes (Z.to_nat len_) w in
      (String_of_cstr buffer, w).

(** A client as [loop] creates it for a new TCP connection. *)
Definition newState (now : Z) (newClient : WiFiClient) : MQTTClientState :=
  {| client := newClient; clientId := ""; lastSeen := now;
     willTopic := ""; willMessage := ""; hasLWT := false;
     connectedACKSent := false; subscribedTopics := [];
     clientKeepAliveSec := 0; outgoingQoSMessages := ∅;
     incomingQoS2Messages := ∅; nextOutgoingPacketId := 1 |}.

(** [client.read()] as the [int] it returns: [-1] on an empty stream. *)
Definition readInt (w : WiFiClient) : Z * WiFiClient :=
  match rx w with
  | [] => (-1, w)
  | x :: rest => (x, {| connected := connected w; rx := rest; tx := tx w |})
  end.

(** The milliseconds [readLengthPrefixedString] spends waiting.  A
    [waitForBytes] that finds its bytes, or a closed socket, returns at
    once; one that fails on an open socket returns at the first
    [millis()] that is more than [timeout] = 1000 after its start, the
    clock moving with [delay(1)]. *)
Definition readLengthPrefixedStringTime (w : WiFiClient) : Z :=
  let expired := if connected w then 1001 else 0 in
  if negb (waitForBytes w 2) then expired
  else
    let '(lenMsb, w) := read w in
    let '(lenLsb, w) := read w in
    let len_ := word lenMsb lenLsb in
    if len_ =? 0 then 0
    else if negb (waitForBytes w len_) then expired
    else 0.

(** The CONNECT branch of [loop] for a client without CONNACK, entered
    at [millis() = now].  The two reads of the Keep-Alive are taken from
    left to right and combined as [int]s before the result is stored in
    the [uint16_t]; [waited] is the time the reads of the strings have
    taken when [lastSeen] is set. *)
Definition connectClient (now : Z) (c : MQTTClientState) : MQTTClientState :=
  let w := client c in
  match rx w with
  | header :: remainingLength :: _ =>
      if Z.shiftr header 4 =? 1 then
        let '(_, w) := read w in
        let '(_, w) := read w in
        if negb (waitForBytes w remainingLength) then set_client (stop w) c
        else
          let '(_, w) := readBytes 8 w in
          let '(connectFlags, w) := read w in
          let '(keepMsb, w) := readInt w in
          let '(keepLsb, w) := readInt w in
          let waited := readLengthPrefixedStringTime w in
          let '(id, w) := readLengthPrefixedString w in
          let willFlag := negb (Z.land (Z.shiftr connectFlags 2) 0x01 =? 0) in
          let waited :=
            if willFlag then waited + readLengthPrefixedStringTime w else waited in
          let '(wt, w) := if willFlag then readLengthPrefixedString w else (willTopic c, w) in
          let waited :=
            if willFlag then waited + readLengthPrefixedStringTime w else waited in
          let '(wm, w) := if willFlag then readLengthPrefixedString w else (willMessage c, w) in
          let userNameFlag := negb (Z.land (Z.shiftr connectFlags 7) 0x01 =? 0) in
          let waited :=
            if userNameFlag then waited + readLengthPrefixedStringTime w else waited in
          let w := if userNameFlag then (readLengthPrefixedString w).2 else w in
          let passwordFlag := negb (Z.land (Z.shiftr connectFlags 6) 0x01 =? 0) in
          let waited :=
            if passwordFlag then waited + readLengthPrefixedStringTime w else waited in
          let w := if passwordFlag then (readLengthPrefixedString w).2 else w in
          let w := write [0x20; 0x02; 0x00; 0x00] w in
          {| client := w; clientId := id; lastSeen := u32 (now + waited);
             willTopic := wt; willMessage := wm;
             hasLWT := if willFlag then true else hasLWT c;
             connectedACKSent := true; subscribedTopics := subscribedTopics c;
             clientKeepAliveSec := u16 (word keepMsb keepLsb);
             outgoingQoSMessages := outgoingQoSMessages c;
             incomingQoS2Messages := incomingQoS2Messages c;
             nextOutgoingPacketId := nextOutgoingPacketId c |}
      else set_client (stop w) c
  | _ => c
  end.

(** The [else] branch of [loop]: the client at position [i] has lost its
    connection.  Its subscriptions are those whose pointer is
    [&connectedMQTTClients[i]]. *)
Definition removeDisconnected (i : nat) (b : Broker) : Broker :=
  set_clients (delete i (connectedMQTTClients b))
    (set_subscriptions
       (filter (λ sub, clientState sub ≠ i) (activeSubscriptions b)) b).

Definition loopClient (now : Z) (i : nat) (b : Broker) : Broker :=
  match connectedMQTTClients b !! i with
  | None => b
  | Some c =>
      if connected (client c) then
        if negb (connectedACKSent c) then update_client i (connectClient now) b
        else processMQTTClient now i b
      else removeDisconnected i b
  end.

(** [for (int i = n - 1; i >= 0; --i)]. *)
Fixpoint loopClients (now : Z) (n : nat) (b : Broker) : Broker :=
  match n with
  | O => b
  | S i => loopClients now i (loopClient now i b)
  end.

(** One pass of [loop]: [newClient] is the connection that
    [mqttServer.available()] returns, if any. *)
Definition loop (now : Z) (newClient : option WiFiClient) (b : Broker) : Broker :=
  let b :=
    match newClient with
    | Some w => set_clients (connectedMQTTClients b ++ [newState now w]) b
    | None => b
    end in
  loopClients now (length (connectedMQTTClients b)) b.

(** *** The broker and its peers *)

Definition emptyBroker : Broker :=
  {| connectedMQTTClients := []; activeSubscriptions := [];
     retainedMessages := ∅; messageLog := []; serial := [] |}.

Definition freshSocket : WiFiClient := {| connected := true; rx := []; tx := [] |}.

(** What happens around the broker: bytes arrive on the socket of a
    client, a peer drops its TCP connection, or [loop] runs once. *)
Inductive Event :=
| Receive (i : nat) (bytes : list Z)
| PeerClose (i : nat)
| Loop (now : Z) (accept : bool).

Definition step (b : Broker) (e : Event) : Broker :=
  match e with
  | Receive i bytes =>
      update_client i
        (λ c, let w := client c in
              if connected w
              then set_client {| connected := true; rx := rx w ++ bytes; tx := tx w |} c
              else c) b
  | PeerClose i =>
      update_client i
        (λ c, set_client {| connected := false; rx := []; tx := tx (client c) |} c) b
  | Loop now accept => loop now (if accept then Some freshSocket else None) b
  end.

Definition run (events : list Event) (b : Broker) : Broker := foldl step b events.

End QoSBroker.

(** ** Sample sessions of the QoS broker *)

Module QoSExamples.
Import Arduino WiFi QoSBroker.

(** A client that has completed CONNECT. *)
Definition connectedClient (id : string) (lwt : bool) (inbox : list Z) : MQTTClientState :=
  {| client := {| connected := true; rx := inbox; tx := [] |};
     clientId := id; lastSeen := 0;
     willTopic := if lwt then "bye" else ""; willMessage := if lwt then "gone" else "";
     hasLWT := lwt; connectedACKSent := true; subscribedTopics := [];
     clientKeepAliveSec := 0; outgoingQoSMessages := ∅;
     incomingQoS2Messages := ∅; nextOutgoingPacketId := 1 |}.

(** Client 0 subscribes to [filter] with the granted QoS [granted];
    client 1 has [inbox] to be read. *)
Definition subscriberAndPublisher (filter : string) (granted : Z) (lwt : bool)
    (inbox : list Z) : Broker :=
  {| connectedMQTTClients := [connectedClient "sub" false []; connectedClient "pub" lwt inbox];
     activeSubscriptions := [{| clientState := 0; topicFilter := filter; sub_qos := granted |}];
     retainedMessages := ∅; messageLog := []; serial := [] |}.

(** A QoS-1 message to client 0 that was sent at time 0 and has not been
    sent again. *)
Definition sentAtZero : OutgoingMessage :=
  {| out_topic := "test"; out_payload := "hi!"; out_qos := 1; out_retain := false;
     out_packetId := 1; timestampSent := 0; retryCount := 0; out_state := 0 |}.

Definition awaitingPubAck : MQTTClientState :=
  set_outgoing {[ 1 := sentAtZero ]} (connectedClient "sub" false []).

(** The retransmission of a PUBLISH with its body, as the subscriber of
    [test] receives it. *)
Definition dupPublish : list Z :=
  [0x3C; 11; 0; 4] ++ bytes_of_String "test" ++ [0; 1] ++ bytes_of_String "hi!".

End QoSExamples.

(** ** The broker with [distributeMessage] and [removeClient] *)

Module WebBroker.
Import Arduino Topic Codec WiFi.

Record Message := {
  msg_topic : string;
  msg_payload : string;
  msg_timestamp : Z
}.

Record MQTTClientState := {
  client : WiFiClient;
  clientId : string;
  lastSeen : Z;
  willTopic : string;
  willMessage : string;
  hasLWT : bool;
  subscribedTopics : list string
}.

(** [clientState] is a pointer into [connectedMQTTClients]: the position
    of the element it points to. *)
Record ActiveSubscription := {
  clientState : nat;
  topicFilter : string
}.

Record QoS2Message := {
  q2_topic : string;
  q2_payload : string
}.

(** The globals of the sketch. *)
Record Broker := {
  connectedMQTTClients : list MQTTClientState;
  activeSubscriptions : list ActiveSubscription;
  retainedMessages : gmap string string;
  messageLog : list Message;
  pendingQoS2 : gmap string QoS2Message
}.

Definition set_client (w : WiFiClient) (c : MQTTClientState) : MQTTClientState :=
  {| client := w; clientId := clientId c; lastSeen := lastSeen c;
     willTopic := willTopic c; willMessage := willMessage c; hasLWT := hasLWT c;
     subscribedTopics := subscribedTopics c |}.

Definition set_lastSeen (t : Z) (c : MQTTClientState) : MQTTClientState :=
  {| client := client c; clientId := clientId c; lastSeen := t;
     willTopic := willTopic c; willMessage := willMessage c; hasLWT := hasLWT c;
     subscribedTopics := subscribedTopics c |}.

Definition set_subscribedTopics (l : list string) (c : MQTTClientState) : MQTTClientState :=
  {| client := client c; clientId := clientId c; lastSeen := lastSeen c;
     willTopic := willTopic c; willMessage := willMessage c; hasLWT := hasLWT c;
     subscribedTopics := l |}.

Definition set_clients (l : list MQTTClientState) (b : Broker) : Broker :=
  {| connectedMQTTClients := l; activeSubscriptions := activeSubscriptions b;
     retainedMessages := retainedMessages b; messageLog := messageLog b;
     pendingQoS2 := pendingQoS2 b |}.

Definition set_subscriptions (l : list ActiveSubscription) (b : Broker) : Broker :=
  {| connectedMQTTClients := connectedMQTTClients b; activeSubscriptions := l;
     retainedMessages := retainedMessages b; messageLog := messageLog b;
     pendingQoS2 := pendingQoS2 b |}.

Definition set_retained (m : gmap string string) (b : Broker) : Broker :=
  {| connectedMQTTClients := connectedMQTTClients b;
     activeSubscriptions := activeSubscriptions b;
     retainedMessages := m; messageLog := messageLog b; pendingQoS2 := pendingQoS2 b |}.

Definition set_messageLog (l : list Message) (b : Broker) : Broker :=
  {| connectedMQTTClients := connectedMQTTClients b;
     activeSubscriptions := activeSubscriptions b;
     retainedMessages := retainedMessages b; messageLog := l;
     pendingQoS2 := pendingQoS2 b |}.

Definition set_pendingQoS2 (m : gmap string QoS2Message) (b : Broker) : Broker :=
  {| connectedMQTTClients := connectedMQTTClients b;
     activeSubscriptions := activeSubscriptions b;
     retainedMessages := retainedMessages b; messageLog := messageLog b;
     pendingQoS2 := m |}.

Definition update_client (i : nat) (f : MQTTClientState → MQTTClientState)
    (b : Broker) : Broker :=
  match connectedMQTTClients b !! i with
  | Some c => set_clients (<[i := f c]> (connectedMQTTClients b)) b
  | None => b
  end.

(** [client.read()] as an [int]: -1 on an empty stream. *)
Definition readInt (w : WiFiClient) : Z * WiFiClient :=
  match rx w with
  | [] => (-1, w)
  | x :: rest => (x, {| connected := connected w; rx := rest; tx := tx w |})
  end.

(** [(client.read() << 8) | client.read()], the reads taken from left to
    right. *)
Definition readWord (w : WiFiClient) : Z * WiFiClient :=
  let '(msb, w) := readInt w in
  let '(lsb, w) := readInt w in
  (word msb lsb, w).

(** [sendPublish(client, topic, payload, qos, retain, packetId)]. *)
Definition sendPublish (w : WiFiClient) (topic payload : string) (qos : Z)
    (retain : bool) (packetId : Z) : WiFiClient :=
  if negb (connected w) then w
  else
    let fixedHeader := u8 (Z.lor 0x30 (Z.shiftl qos 1)) in
    let fixedHeader := if retain then Z.lor fixedHeader 0x01 else fixedHeader in
    let remLen := 2 + len topic + len payload in
    let remLen := if 0 <? qos then remLen + 2 else remLen in
    match encodeRemainingLength remLen with
    | Some encodedRemLen =>
        let w := write encodedRemLen (write [fixedHeader] w) in
        let w := write (bytes_of_String topic) (write (be16 (len topic)) w) in
        let w := if 0 <? qos then write (be16 packetId) w else w in
        write (bytes_of_String payload) w
    | None => w
    end.

Definition updateRetained (topic payload : string) (b : Broker) : Broker :=
  if len payload =? 0 then set_retained (delete topic (retainedMessages b)) b
  else set_retained (<[topic := payload]> (retainedMessages b)) b.

Definition logMessage (now : Z) (topic payload : string) (b : Broker) : Broker :=
  let log := messageLog b
               ++ [{| msg_topic := topic; msg_payload := payload; msg_timestamp := now |}] in
  set_messageLog (if (50 <? length log)%nat then tail log else log) b.

Definition forwardTo (topic payload : string) (retain : bool) (b : Broker)
    (sub : ActiveSubscription) : Broker :=
  match connectedMQTTClients b !! clientState sub with
  | Some c =>
      if connected (client c) && topicMatches topic (topicFilter sub) then
        update_client (clientState sub)
          (λ c, set_client (sendPublish (client c) topic payload 0 retain 0) c) b
      else b
  | None => b
  end.

Definition distributeMessage (now : Z) (topic payload : string) (retain : bool)
    (b : Broker) : Broker :=
  let b := logMessage now topic payload b in
  let b := if retain then updateRetained topic payload b else b in
  foldl (forwardTo topic payload retain) b (activeSubscriptions b).

(** [String(packetId)]: the decimal digits. *)
Definition decimal (n : Z) : string :=
  DecimalString.NilZero.string_of_uint (N.to_uint (Z.to_N n)).

(** [clientState.clientId + "-" + String(packetId)]. *)
Definition pendingKey (c : MQTTClientState) (packetId : Z) : string :=
  clientId c +:+ "-" +:+ decimal packetId.

Definition handlePublish (now : Z) (i : nat) (header remainingLength : Z)
    (b : Broker) : Broker :=
  match connectedMQTTClients b !! i with
  | None => b
  | Some c =>
      let qos := Z.land (Z.shiftr header 1) 0x03 in
      let retain := negb (Z.land header 0x01 =? 0) in
      let dup := negb (Z.land (Z.shiftr header 3) 0x01 =? 0) in
      if negb (waitForBytes (client c) remainingLength) then b
      else
        let '(topicLen, w) := readWord (client c) in
        if (topicLen <? 0) || (remainingLength - 2 <? topicLen) then
          update_client i (λ _, set_client (stop w) c) b
        else
          let '(topicChar, w) := readBytes (Z.to_nat topicLen) w in
          let topic := String_of_cstr topicChar in
          let payloadLen := remainingLength - (2 + topicLen) in
          if (0 <? qos) && (payloadLen <? 2) then
            update_client i (λ _, set_client (stop w) c) b
          else
            let '(packetId, w) :=
              if 0 <? qos then let '(x, w) := readWord w in (u16 x, w) else (0, w) in
            let payloadLen := if 0 <? qos then payloadLen - 2 else payloadLen in
            let '(payload, w) :=
              if 0 <? payloadLen then
                let '(payloadChar, w) := readBytes (Z.to_nat payloadLen) w in
                (String_of_cstr payloadChar, w)
              else ("", w) in
            if qos =? 2 then
              let w := write ([0x50; 0x02] ++ be16 packetId) w in
              let key := pendingKey c packetId in
              let b := update_client i (λ _, set_client w c) b in
              match dup, pendingQoS2 b !! key with
              | true, Some _ => b
              | _, _ =>
                  set_pendingQoS2
                    (<[key := {| q2_topic := topic; q2_payload := payload |}]>
                       (pendingQoS2 b)) b
              end
            else
              let b := update_client i (λ _, set_client w c) b in
              let b := distributeMessage now topic payload retain b in
              if qos =? 1 then
                update_client i
                  (λ c, set_client (write ([0x40; 0x02] ++ be16 packetId) (client c)) c) b
              else b
  end.

Definition handlePubRel (now : Z) (i : nat) (remainingLength : Z) (b : Broker)
    : Broker :=
  match connectedMQTTClients b !! i with
  | None => b
  | Some c =>
      if negb (waitForBytes (client c) 2) then b
      else
        let '(x, w) := readWord (client c) in
        let packetId := u16 x in
        let w := write ([0x70; 0x02] ++ be16 packetId) w in
        let b := update_client i (λ _, set_client w c) b in
        let key := pendingKey c packetId in
        match pendingQoS2 b !! key with
        | Some msg =>
            let b := distributeMessage now (q2_topic msg) (q2_payload msg) false b in
            set_pendingQoS2 (delete key (pendingQoS2 b)) b
        | None => b
        end
  end.

Definition retainedInOrder (m : gmap string string) : list (string * string) :=
  merge_sort QoSBroker.key_leb (map_to_list m).

(** The [while (bytesRead < remainingLength)] loop of [handleSubscribe];
    the flag is [false] for the [return] after a failed [waitForBytes].
    Every turn adds at least 2 to [bytesRead], so [remainingLength]
    turns are enough. *)
Fixpoint subscribeLoop (fuel : nat) (i : nat) (bytesRead remainingLength : Z)
    (b : Broker) : Broker * bool :=
  match fuel with
  | O => (b, true)
  | S fuel' =>
      if bytesRead <? remainingLength then
        match connectedMQTTClients b !! i with
        | None => (b, true)
        | Some c =>
            let '(topicLen, w) := readWord (client c) in
            if negb (waitForBytes w topicLen) then
              (update_client i (λ _, set_client w c) b, false)
            else
              let '(topicChar, w) := readBytes (Z.to_nat topicLen) w in
              let topic := String_of_cstr topicChar in
              let '(qos, w) := readInt w in
              let newSub := {| clientState := i; topicFilter := topic |} in
              let c := set_subscribedTopics (subscribedTopics c ++ [topic]) (set_client w c) in
              let b := set_subscriptions (activeSubscriptions b ++ [newSub])
                         (update_client i (λ _, c) b) in
              let b :=
                foldl (λ b (kv : string * string),
                         if topicMatches kv.1 topic
                         then update_client i
                                (λ c, set_client (sendPublish (client c) kv.1 kv.2 0 true 0) c) b
                         else b)
                  b (retainedInOrder (retainedMessages b)) in
              subscribeLoop fuel' i (bytesRead + (2 + topicLen + 1)) remainingLength b
        end
      else (b, true)
  end.

Definition handleSubscribe (i : nat) (header remainingLength : Z) (b : Broker)
    : Broker :=
  match connectedMQTTClients b !! i with
  | None => b
  | Some c =>
      if negb (waitForBytes (client c) remainingLength) then b
      else
        let '(x, w) := readWord (client c) in
        let packetId := u16 x in
        let b := update_client i (λ _, set_client w c) b in
        let '(b, completed) :=
          subscribeLoop (Z.to_nat remainingLength) i 2 remainingLength b in
        if completed then
          update_client i
            (λ c, set_client (write ([0x90; 0x03] ++ be16 packetId ++ [0x00]) (client c)) c)
            b
        else b
  end.

Definition handlePingReq (i : nat) (b : Broker) : Broker :=
  update_client i (λ c, set_client (write [0xD0; 0x00] (client c)) c) b.

Definition handleDisconnect (i : nat) (b : Broker) : Broker :=
  update_client i (λ c, set_client (stop (client c)) c) b.

(** [handlePubAck], [handlePubComp] and [handlePubRec] read the packet
    identifier and print it. *)
Definition handleAck (i : nat) (b : Broker) : Broker :=
  update_client i
    (λ c, if negb (waitForBytes (client c) 2) then c
          else set_client (readWord (client c)).2 c) b.

(** [sub.clientState->clientId == clientState.clientId]. *)
Definition subscriptionOf (b : Broker) (id : string) (sub : ActiveSubscription) : bool :=
  match connectedMQTTClients b !! clientState sub with
  | Some c => String.eqb (clientId c) id
  | None => false
  end.

Definition removeClient (now : Z) (index : nat) (b : Broker) : Broker :=
  match connectedMQTTClients b !! index with
  | None => b
  | Some c =>
      let b := if hasLWT c
               then distributeMessage now (willTopic c) (willMessage c) false b
               else b in
      let b := set_subscriptions
                 (List.filter (λ sub, negb (subscriptionOf b (clientId c) sub))
                    (activeSubscriptions b)) b in
      set_clients (delete index (connectedMQTTClients b)) b
  end.

(** The body of the [for] loop of [loop] for the client at position [i];
    the flag tells that the client was removed, so that the next client
    is at position [i] again. *)
Definition loopClient (now : Z) (i : nat) (b : Broker) : Broker * bool :=
  match connectedMQTTClients b !! i with
  | None => (b, false)
  | Some c =>
      if connected (client c) then
        match rx (client c) with
        | [] => (b, false)
        | header :: rest =>
            let w := {| connected := true; rx := rest; tx := tx (client c) |} in
            let '(remainingLength, rest') := decodeRemainingLength rest in
            let w := {| connected := true; rx := rest'; tx := tx (client c) |} in
            if remainingLength =? -1 then
              (update_client i (λ _, set_client (stop w) c) b, false)
            else
              let b := update_client i (λ _, set_lastSeen now (set_client w c)) b in
              let packetType := Z.land (Z.shiftr header 4) 0x0F in
              (if packetType =? 3 then handlePublish now i header remainingLength b
               else if packetType =? 8 then handleSubscribe i header remainingLength b
               else if packetType =? 12 then handlePingReq i b
               else if packetType =? 14 then handleDisconnect i b
               else if packetType =? 4 then handleAck i b
               else if packetType =? 5 then handleAck i b
               else if packetType =? 6 then handlePubRel now i remainingLength b
               else if packetType =? 7 then handleAck i b
               else update_client i (λ c, set_client (stop (client c)) c) b,
               false)
        end
      else (removeClient now i b, true)
  end.

(** [for (int i = 0; i < connectedMQTTClients.size(); ++i)]: [fuel]
    bounds the turns, one for every client at the start of the loop. *)
Fixpoint loopClients (fuel : nat) (now : Z) (i : nat) (b : Broker) : Broker :=
  match fuel with
  | O => b
  | S fuel' =>
      if (i <? length (connectedMQTTClients b))%nat then
        let '(b, removed) := loopClient now i b in
        loopClients fuel' now (if removed then i else S i) b
      else b
  end.

(** A length-prefixed field of CONNECT: [None] stands for
    [client.stop(); return] after a failed [waitForBytes]. *)
Definition readField (w : WiFiClient) : option (string * WiFiClient) :=
  let '(fieldLen, w) := readWord w in
  if negb (waitForBytes w fieldLen) then None
  else
    let '(buf, w) := readBytes (Z.to_nat fieldLen) w in
    Some (String_of_cstr buf, w).

Definition handleConnect (now : Z) (w : WiFiClient) (remainingLength : Z)
    (b : Broker) : Broker :=
  if negb (waitForBytes w remainingLength) then b
  else
    let '(protocolNameLen, w) := readWord w in
    let '(_, w) := readBytes (Z.to_nat protocolNameLen) w in
    let '(_, w) := read w in
    let '(connectFlags, w) := read w in
    let '(_, w) := read w in
    let '(_, w) := read w in
    match readField w with
    | None => b
    | Some (id, w) =>
        let lwt := negb (Z.land connectFlags 0x04 =? 0) in
        let will : option (string * string * WiFiClient) :=
          if lwt then
            match readField w with
            | None => None
            | Some (wt, w) =>
                match readField w with
                | None => None
                | Some (wm, w) => Some (wt, wm, w)
                end
            end
          else Some ("", "", w) in
        match will with
        | None => b
        | Some (wt, wm, w) =>
            let user : option WiFiClient :=
              if negb (Z.land connectFlags 0x80 =? 0) then snd <$> readField w
              else Some w in
            match user with
            | None => b
            | Some w =>
                let pass : option WiFiClient :=
                  if negb (Z.land connectFlags 0x40 =? 0) then snd <$> readField w
                  else Some w in
                match pass with
                | None => b
                | Some w =>
                    let newState :=
                      {| client := write [0x20; 0x02; 0x00; 0x00] w; clientId := id;
                         lastSeen := now; willTopic := wt; willMessage := wm;
                         hasLWT := lwt; subscribedTopics := [] |} in
                    set_clients (connectedMQTTClients b ++ [newState]) b
                end
            end
        end
    end.

(** The first part of [loop]: a new connection is taken up when its
    first packet is a CONNECT with a Remaining Length above 0. *)
Definition acceptClient (now : Z) (newClient : WiFiClient) (b : Broker) : Broker :=
  if negb (connected newClient) then b
  else
    match rx newClient with
    | [] => b
    | header :: rest =>
        if Z.land (Z.shiftr header 4) 0x0F =? 1 then
          let '(remainingLength, rest') := decodeRemainingLength rest in
          if 0 <? remainingLength then
            handleConnect now
              {| connected := true; rx := rest'; tx := tx newClient |} remainingLength b
          else b
        else b
    end.

(** One pass of [loop]: [newClient] is the connection that
    [mqttServer.available()] returns, if any.  When it is open and has
    sent nothing, [loop] stops it and returns without serving the
    clients. *)
Definition loop (now : Z) (newClient : option WiFiClient) (b : Broker) : Broker :=
  match newClient with
  | Some w =>
      if connected w && negb (waitForBytes w 1) then b
      else
        let b := acceptClient now w b in
        loopClients (length (connectedMQTTClients b)) now 0 b
  | None => loopClients (length (connectedMQTTClients b)) now 0 b
  end.

Definition emptyBroker : Broker :=
  {| connectedMQTTClients := []; activeSubscriptions := [];
     retainedMessages := ∅; messageLog := []; pendingQoS2 := ∅ |}.

(** What happens around the broker: bytes arrive on the socket of a
    client, a peer drops its TCP connection, or [loop] runs once, taking
    up a new connection that has sent [hello]. *)
Inductive Event :=
| Receive (i : nat) (bytes : list Z)
| PeerClose (i : nat)
| Loop (now : Z) (hello : option (list Z)).

Definition step (b : Broker) (e : Event) : Broker :=
  match e with
  | Receive i bytes =>
      update_client i
        (λ c, let w := client c in
              if connected w
              then set_client {| connected := true; rx := rx w ++ bytes; tx := tx w |} c
              else c) b
  | PeerClose i =>
      update_client i
        (λ c, set_client {| connected := false; rx := []; tx := tx (client c) |} c) b
  | Loop now hello =>
      loop now ((λ bytes, {| connected := true; rx := bytes; tx := [] |}) <$> hello) b
  end.

Definition run (events : list Event) (b : Broker) : Broker := foldl step b events.

End WebBroker.

Module WebExamples.
Import Arduino WiFi WebBroker.

(** CONNECT of the client [S], without a will. *)
Definition connectSubscriber : list Z :=
  [0x10; 13; 0; 4] ++ bytes_of_String "MQTT" ++ [4; 2; 0; 60; 0; 1] ++ bytes_of_String "S".

(** CONNECT of the client [P] with the will [gone] on the topic [bye]. *)
Definition connectWithWill : list Z :=
  [0x10; 24; 0; 4] ++ bytes_of_String "MQTT" ++ [4; 6; 0; 60; 0; 1] ++ bytes_of_String "P"
  ++ [0; 3] ++ bytes_of_String "bye" ++ [0; 4] ++ bytes_of_String "gone".

(** SUBSCRIBE, packet identifier 1, to the one filter [filter]. *)
Definition subscribeTo (filter : string) : list Z :=
  [0x82; 5 + len filter; 0; 1] ++ be16 (len filter) ++ bytes_of_String filter ++ [0].

(** [S] and [P] connect, and [S] subscribes to [filter]. *)
Definition twoClients (filter : string) : list Event :=
  [Loop 0 (Some connectSubscriber); Loop 1 (Some connectWithWill);
   Receive 0 (subscribeTo filter); Loop 2 None].

(** The PUBLISH of the will as a subscriber receives it. *)
Definition willPublish : list Z :=
  [0x30; 9; 0; 3] ++ bytes_of_String "bye" ++ bytes_of_String "gone".

End WebExamples.

(** ** The example broker (Arduino_ESP32_MQTT_Broker_Example.ino) *)

Module ExampleBroker.
Import Arduino.

(** The [for] loop of [splitTopic], one character a turn. *)
Fixpoint splitTopic_loop (topic : string) (part : string) (parts : list string)
    : list string :=
  match topic with
  | EmptyString => parts ++ [part]
  | String c topic' =>
      if Ascii.eqb c "/"%char then splitTopic_loop topic' "" (parts ++ [part])
      else splitTopic_loop topic' (part +:+ String c "") parts
  end.

Definition splitTopic (topic : string) : list string := splitTopic_loop topic "" [].

(** The [for] loop of [topicMatches(sub, pub)]: [Some r] stands for
    [return r], [None] for falling out of the loop. *)
Fixpoint topicMatches_loop (n i : nat) (s p : list string) : option bool :=
  match n with
  | O => None
  | S n' =>
      if (length p <=? i)%nat then Some false
      else if String.eqb (Topic.at_ s i) "#" then Some true
      else if String.eqb (Topic.at_ s i) "+" then topicMatches_loop n' (S i) s p
      else if negb (String.eqb (Topic.at_ s i) (Topic.at_ p i)) then Some false
      else topicMatches_loop n' (S i) s p
  end.

Definition topicMatches (sub pub : string) : bool :=
  let s := splitTopic sub in
  let p := splitTopic pub in
  match topicMatches_loop (length s) 0 s p with
  | Some r => r
  | None => (length s =? length p)%nat
  end.

(** [if (retain) retainedMessages[topic] = payload;] *)
Definition retainOnPublish (retain : bool) (topic payload : string)
    (retainedMessages : gmap string string) : gmap string string :=
  if retain then <[topic := payload]> retainedMessages else retainedMessages.

End ExampleBroker.

(** ** The topic matcher: segments and matching *)

Module TopicFacts.
Import Arduino Topic.

Lemma append_cons (c : ascii) (a b : string) :
  String c a +:+ b = String c (a +:+ b).
Proof. reflexivity. Qed.

Lemma length_append (a b : string) :
  String.length (a +:+ b) = (String.length a + String.length b)%nat.
Proof. induction a as [|c a IH]; simpl; [reflexivity | now rewrite IH]. Qed.

Lemma drop_chars_append (pre rest : string) :
  drop_chars (String.length pre) (pre +:+ rest) = rest.
Proof. induction pre as [|c pre IH]; simpl; [now destruct rest | exact IH]. Qed.

Lemma substring_here (seg rest : string) :
  String.substring 0 (String.length seg) (seg +:+ rest) = seg.
Proof.
  induction seg as [|c seg IH]; simpl.
  - now destruct rest.
  - now rewrite IH.
Qed.

Lemma substring_append (pre seg rest : string) :
  String.substring (String.length pre) (String.length seg) (pre +:+ seg +:+ rest) = seg.
Proof. induction pre as [|c pre IH]; [exact (substring_here seg rest) | simpl; exact IH]. Qed.

Lemma append_empty_r (a : string) : a +:+ "" = a.
Proof. induction a as [|c a IH]; [reflexivity | rewrite append_cons; f_equal; exact IH]. Qed.

Lemma strchr_None_segments (s : string) :
  strchr slash s = None → segments s = [s].
Proof.
  induction s as [|c s IH]; simpl; [reflexivity |].
  destruct (Ascii.eqb c slash); [discriminate |].
  destruct (strchr slash s); [discriminate |].
  intros _. now rewrite IH.
Qed.

Lemma strchr_Some_segments (s : string) (k : nat) :
  strchr slash s = Some k →
  ∃ seg rest, s = seg +:+ String slash rest ∧ String.length seg = k
              ∧ segments s = seg :: segments rest.
Proof.
  revert k. induction s as [|c s IH]; simpl; intros k; [discriminate |].
  destruct (Ascii.eqb c slash) eqn:Hc.
  - intros [= <-]. apply Ascii.eqb_eq in Hc as ->.
    exists "", s. repeat split.
  - destruct (strchr slash s) as [k'|]; [|discriminate].
    intros [= <-]. destruct (IH k' eq_refl) as (seg & rest & -> & <- & Hs).
    exists (String c seg), rest. simpl. rewrite Hs. repeat split.
Qed.

Lemma indexOf_append (pre rest : string) :
  indexOf (pre +:+ rest) slash (len pre) =
    match strchr slash rest with
    | None => -1
    | Some k => len pre + Z.of_nat k
    end.
Proof.
  unfold indexOf, len. rewrite length_append, Nat2Z.id, drop_chars_append.
  destruct (Z.leb_spec (Z.of_nat (String.length pre + String.length rest))
              (Z.of_nat (String.length pre))); [|reflexivity].
  destruct rest; [reflexivity | simpl in *; lia].
Qed.

Lemma substring_from_append (pre rest : string) :
  substring_from (pre +:+ rest) (len pre) = rest.
Proof.
  unfold substring_from, substring, len. rewrite length_append.
  destruct (Z.ltb_spec (Z.of_nat (String.length pre + String.length rest))
              (Z.of_nat (String.length pre))); [lia |].
  destruct (Z.leb_spec (Z.of_nat (String.length pre + String.length rest))
              (Z.of_nat (String.length pre))).
  - destruct rest; [reflexivity | simpl in *; lia].
  - rewrite Z.ltb_irrefl, Nat2Z.id.
    replace (Z.to_nat _) with (String.length rest) by lia.
    rewrite <- (append_empty_r rest) at 2. apply substring_append.
Qed.

Lemma substring_segment (pre seg rest : string) :
  substring (pre +:+ seg +:+ String slash rest) (len pre)
    (len pre + Z.of_nat (String.length seg)) = seg.
Proof.
  unfold substring, len. rewrite !length_append. simpl String.length.
  destruct (Z.ltb_spec (Z.of_nat (String.length pre) + Z.of_nat (String.length seg))
              (Z.of_nat (String.length pre))); [lia |].
  destruct (Z.leb_spec
              (Z.of_nat (String.length pre + (String.length seg + S (String.length rest))))
              (Z.of_nat (String.length pre))); [lia |].
  destruct (Z.ltb_spec
              (Z.of_nat (String.length pre + (String.length seg + S (String.length rest))))
              (Z.of_nat (String.length pre) + Z.of_nat (String.length seg))); [lia |].
  rewrite Nat2Z.id.
  replace (Z.to_nat _) with (String.length seg) by lia.
  apply substring_append.
Qed.

Lemma append_assoc (a b c : string) : (a +:+ b) +:+ c = a +:+ b +:+ c.
Proof. induction a as [|x a IH]; [reflexivity | rewrite !append_cons; f_equal; exact IH]. Qed.

(** The loop of [splitTopic], started behind a prefix [pre] that has
    been consumed, yields the segments of the rest. *)
Lemma splitTopic_loop_segments (fuel : nat) :
  ∀ (rest pre : string) (parts : list string),
    (String.length rest < fuel)%nat →
    splitTopic_loop fuel (pre +:+ rest) (len pre)
      (indexOf (pre +:+ rest) slash (len pre)) parts
    = parts ++ segments rest.
Proof.
  induction fuel as [|fuel IH]; intros rest pre parts Hf; [lia |].
  simpl. rewrite indexOf_append.
  destruct (strchr slash rest) as [k|] eqn:Hk.
  - destruct (strchr_Some_segments _ _ Hk) as (seg & rest' & -> & <- & Hs).
    destruct (Z.eqb_spec (len pre + Z.of_nat (String.length seg)) (-1));
      [unfold len in *; lia |].
    rewrite substring_segment, Hs.
    replace (len pre + Z.of_nat (String.length seg) + 1)
      with (len (pre +:+ seg +:+ String slash "")).
    2:{ unfold len. rewrite !length_append. simpl. lia. }
    replace (pre +:+ seg +:+ String slash rest')
      with ((pre +:+ seg +:+ String slash "") +:+ rest').
    2:{ now rewrite !append_assoc. }
    rewrite IH.
    + now rewrite <- app_assoc.
    + rewrite length_append in Hf. simpl in Hf. lia.
  - simpl. now rewrite substring_from_append, strchr_None_segments.
Qed.

(** [splitTopic] always has enough fuel and returns the segments. *)
Lemma splitTopic_segments (topic : string) : splitTopic topic = segments topic.
Proof.
  unfold splitTopic.
  apply (splitTopic_loop_segments (S (String.length topic)) topic "" []). lia.
Qed.

Lemma segments_nonempty (s : string) : segments s ≠ [].
Proof.
  induction s as [|c s IH]; simpl; [discriminate |].
  destruct (Ascii.eqb c slash); [discriminate |].
  destruct (segments s); [contradiction | discriminate].
Qed.

Lemma splitTopic_nonempty (topic : string) : splitTopic topic ≠ [].
Proof. rewrite splitTopic_segments. apply segments_nonempty. Qed.

(** What the loop of [topicMatches] decides. *)
Lemma matchParts_true (n i : nat) (tp fp : list string) :
  matchParts n i tp fp = true ↔
  ∀ j, (i ≤ j < i + n)%nat → at_ fp j = "+" ∨ at_ tp j = at_ fp j.
Proof.
  revert i. induction n as [|n IH]; intros i; simpl.
  - split; [intros _ j Hj; lia | reflexivity].
  - destruct (String.eqb_spec (at_ fp i) "+") as [Hp|Hp].
    + rewrite IH. split; intros H j Hj.
      * destruct (decide (j = i)) as [->|]; [now left | apply H; lia].
      * apply H; lia.
    + destruct (String.eqb_spec (at_ tp i) (at_ fp i)) as [He|He]; simpl.
      * rewrite IH. split; intros H j Hj.
        -- destruct (decide (j = i)) as [->|]; [now right | apply H; lia].
        -- apply H; lia.
      * split; [discriminate |]. intros H.
        destruct (H i) as [?|?]; [lia | contradiction | contradiction].
Qed.

Lemma matchParts_refl (n i : nat) (parts : list string) :
  matchParts n i parts parts = true.
Proof. apply matchParts_true. intros j _. now right. Qed.

(** A filter whose last segment is not [#] matches exactly the topics
    with as many segments that agree with it at every segment other
    than [+]. *)
Lemma topicMatches_exact (topic filter : string) :
  back (splitTopic filter) ≠ "#" →
  topicMatches topic filter = true ↔
    length (splitTopic topic) = length (splitTopic filter)
    ∧ ∀ j, (j < length (splitTopic filter))%nat →
           at_ (splitTopic filter) j = "+"
           ∨ at_ (splitTopic topic) j = at_ (splitTopic filter) j.
Proof.
  intros Hb. unfold topicMatches.
  destruct (String.eqb_spec filter "#") as [->|_]; [now contradict Hb |].
  destruct (String.eqb_spec (back (splitTopic filter)) "#"); [contradiction |].
  rewrite andb_false_r.
  destruct (Nat.eqb_spec (length (splitTopic topic)) (length (splitTopic filter)))
    as [He|He]; simpl.
  - rewrite matchParts_true, He. split.
    + intros H. split; [reflexivity |]. intros j Hj. apply H. lia.
    + intros [_ H] j Hj. apply H. lia.
  - split; [discriminate | intros [? _]; contradiction].
Qed.

(** A filter that ends in [#], other than [#] itself, matches the topics
    that have at least as many segments as the filter has before its
    [#] and agree with it at every such segment other than [+]. *)
Lemma topicMatches_prefix (topic filter : string) :
  filter ≠ "#" → back (splitTopic filter) = "#" →
  topicMatches topic filter = true ↔
    (length (splitTopic filter) - 1 ≤ length (splitTopic topic))%nat
    ∧ ∀ j, (j < length (splitTopic filter) - 1)%nat →
           at_ (splitTopic filter) j = "+"
           ∨ at_ (splitTopic topic) j = at_ (splitTopic filter) j.
Proof.
  intros Hf Hb. unfold topicMatches.
  destruct (String.eqb_spec filter "#") as [|_]; [contradiction |].
  rewrite Hb. change ("#" =? "#")%string with true.
  rewrite bool_decide_eq_false_2 by apply splitTopic_nonempty.
  cbn [negb andb].
  destruct (Nat.leb_spec (length (splitTopic filter) - 1) (length (splitTopic topic)))
    as [Hle|Hgt].
  - rewrite matchParts_true. split.
    + intros H. split; [exact Hle |]. intros j Hj. apply H. lia.
    + intros [_ H] j Hj. apply H. lia.
  - split; [discriminate | intros [? _]; lia].
Qed.

End TopicFacts.

(** ** The Remaining Length codec *)

Module CodecFacts.
Import Codec.

Lemma digit_bits (d : Z) :
  0 <= d < 128 →
  Z.lor d 128 = d + 128 ∧ Z.land (d + 128) 127 = d ∧ Z.land (d + 128) 128 = 128
  ∧ Z.land d 127 = d ∧ Z.land d 128 = 0.
Proof.
  intros Hd.
  assert (Hall : forallb (λ d, (Z.lor d 128 =? d + 128) && (Z.land (d + 128) 127 =? d)
                            && (Z.land (d + 128) 128 =? 128) && (Z.land d 127 =? d)
                            && (Z.land d 128 =? 0))
                   (map Z.of_nat (seq 0 128)) = true) by (vm_compute; reflexivity).
  rewrite forallb_forall in Hall.
  specialize (Hall d). rewrite !andb_true_iff, !Z.eqb_eq in Hall.
  assert (Hin : In d (map Z.of_nat (seq 0 128))).
  { apply in_map_iff. exists (Z.to_nat d). split; [lia |]. apply in_seq. lia. }
  destruct (Hall Hin) as [[[[? ?] ?] ?] ?]. auto.
Qed.

Lemma encode_loop_app (room : nat) :
  ∀ v enc, encode_loop room v enc = (app enc) <$> encode_loop room v [].
Proof.
  induction room as [|room IH]; intros v enc; simpl; [reflexivity |].
  destruct (0 <? Z.quot v 128).
  - rewrite IH, (IH _ [_]). destruct (encode_loop room _ []); simpl; [|reflexivity].
    now rewrite <- app_assoc.
  - reflexivity.
Qed.

(** The digits the encoder stores for [v], and what the decoder makes
    of them when it starts with multiplier [m] and value [acc]. *)
Lemma encode_decode_digits (room : nat) :
  ∀ v, (0 < room)%nat → 0 <= v < 128 ^ Z.of_nat room →
    ∃ ds, encode_loop room v [] = Some ds
          ∧ (0 < length ds ≤ room)%nat
          ∧ v < 128 ^ Z.of_nat (length ds)
          ∧ 128 ^ Z.of_nat (length ds) <= 128 * Z.max v 1
          ∧ ∀ rest m acc, 0 < m →
              (m * 128 ^ Z.of_nat (length ds) <= 128 * 128 * 128 →
               decode_loop (ds ++ rest) m acc = (acc + v * m, rest))
              ∧ (128 * 128 * 128 < m * 128 ^ Z.of_nat (length ds) →
                 (decode_loop (ds ++ rest) m acc).1 = -1).
Proof.
  induction room as [|room IH]; intros v Hroom Hv; [lia |].
  rewrite Nat2Z.inj_succ, Z.pow_succ_r in Hv by lia.
  simpl encode_loop.
  rewrite Z.rem_mod_nonneg, Z.quot_div_nonneg by lia.
  pose proof (Z.mod_pos_bound v 128 ltac:(lia)) as Hd.
  pose proof (Z.div_mod v 128 ltac:(lia)) as Hdm.
  destruct (digit_bits _ Hd) as (Hlor & Hl127 & Hl128 & Hs127 & Hs128).
  destruct (Z.ltb_spec 0 (v / 128)) as [Hq|Hq].
  - destruct (IH (v / 128)) as (ds & Henc & Hlen & Hub & Hlb & Hdec).
    { destruct room; [change (128 ^ Z.of_nat 0) with 1 in Hv |]; lia. }
    { split; [lia |]. apply Z.div_lt_upper_bound; lia. }
    rewrite encode_loop_app, Henc. simpl.
    exists (Z.lor (v mod 128) 128 :: ds). simpl length.
    rewrite Nat2Z.inj_succ, Z.pow_succ_r by lia.
    split; [reflexivity |]. split; [lia |]. split; [lia |]. split; [lia |].
    intros rest m acc Hm. simpl decode_loop. rewrite Hlor, Hl127, Hl128.
    assert (Hp : 1 <= 128 ^ Z.of_nat (length ds)) by (apply Z.pow_le_mono_r with (b := 0); lia).
    destruct (Hdec rest (m * 128) (acc + v mod 128 * m) ltac:(lia)) as [Hok Hbad].
    split; intros Hbound.
    + destruct (Z.ltb_spec (128 * 128 * 128) (m * 128)); [nia |].
      simpl. rewrite Hok by lia. f_equal. nia.
    + destruct (Z.ltb_spec (128 * 128 * 128) (m * 128)); [reflexivity |].
      simpl. apply Hbad. lia.
  - assert (v / 128 = 0) as Hq0 by (pose proof (Z.div_pos v 128); lia).
    assert (v mod 128 = v) as Hvd by lia.
    exists [v mod 128]. simpl length. change (128 ^ Z.of_nat 1) with 128.
    split; [reflexivity |]. split; [lia |]. split; [lia |]. split; [lia |].
    intros rest m acc Hm. simpl decode_loop. rewrite Hs127, Hs128.
    split; intros Hbound.
    + destruct (Z.ltb_spec (128 * 128 * 128) (m * 128)); [lia |].
      simpl. f_equal. nia.
    + destruct (Z.ltb_spec (128 * 128 * 128) (m * 128)); [reflexivity | lia].
Qed.

(** Lengths that need at most three digits survive the round trip. *)
Lemma decode_encode_three_digits (v : Z) (rest : list Z) :
  0 <= v < 128 * 128 * 128 →
  ∃ ds, encodeRemainingLength v = Some ds
        ∧ decodeRemainingLength (ds ++ rest) = (v, rest).
Proof.
  intros Hv. unfold encodeRemainingLength, decodeRemainingLength.
  destruct (encode_decode_digits 4 v ltac:(lia)
            ltac:(change (128 ^ Z.of_nat 4) with 268435456; lia))
    as (ds & Henc & Hlen & Hub & Hlb & Hdec).
  exists ds. split; [exact Henc |].
  destruct (Hdec rest 1 0 ltac:(lia)) as [Hok _].
  rewrite Hok; [f_equal; lia |].
  assert (length ds ≤ 3)%nat.
  { destruct (decide (length ds ≤ 3)%nat) as [|Hn]; [assumption |].
    assert (length ds = 4%nat) as Hl4 by lia. rewrite Hl4 in Hlb.
    change (128 ^ Z.of_nat 4) with 268435456 in Hlb. lia. }
  assert (128 ^ Z.of_nat (length ds) <= 128 ^ 3)
    by (apply Z.pow_le_mono_r; lia).
  change (128 ^ 3) with 2097152 in *. lia.
Qed.

(** A stream with three continuation bytes is rejected at its fourth
    byte, whatever that byte is. *)
Lemma decode_rejects_fourth_byte (b1 b2 b3 b4 : Z) (rest : list Z) :
  Z.land b1 128 ≠ 0 → Z.land b2 128 ≠ 0 → Z.land b3 128 ≠ 0 →
  decodeRemainingLength (b1 :: b2 :: b3 :: b4 :: rest) = (-1, rest).
Proof.
  intros H1 H2 H3. unfold decodeRemainingLength. simpl.
  destruct (Z.eqb_spec (Z.land b1 128) 0); [contradiction |].
  destruct (Z.eqb_spec (Z.land b2 128) 0); [contradiction |].
  destruct (Z.eqb_spec (Z.land b3 128) 0); [contradiction |].
  reflexivity.
Qed.

End CodecFacts.

(** ** Facts about the QoS broker *)

Module QoSFacts.
Import Arduino Topic Codec WiFi QoSBroker.

(** The PUBLISH packets sent so far, without their packet identifiers:
    receiver, topic, payload, QoS and RETAIN. *)
Definition delivery (line : PublishSent) : nat * string * string * Z * bool :=
  (sent_to line, sent_topic line, sent_payload line, sent_qos line, sent_retain line).

Definition deliveries (b : Broker) : list (nat * string * string * Z * bool) :=
  map delivery (serial b).

(** [sub.clientState->client.connected()]. *)
Definition isConnected (b : Broker) (j : nat) : bool :=
  match connectedMQTTClients b !! j with
  | Some c => connected (client c)
  | None => false
  end.

(** The subscriptions a message on [topic] is forwarded to. *)
Definition receivers (b : Broker) (topic : string) : list ActiveSubscription :=
  List.filter (λ sub, isConnected b (clientState sub) && topicMatches topic (topicFilter sub))
    (activeSubscriptions b).

(** *** The socket *)

Lemma write_connected (bytes : list Z) (w : WiFiClient) :
  connected (write bytes w) = connected w.
Proof. unfold write. destruct (connected w) eqn:H; simpl; congruence. Qed.

Lemma write_rx (bytes : list Z) (w : WiFiClient) : rx (write bytes w) = rx w.
Proof. unfold write. destruct (connected w); reflexivity. Qed.

Lemma write_tx (bytes : list Z) (w : WiFiClient) :
  connected w = true → tx (write bytes w) = tx w ++ bytes.
Proof. unfold write. intros ->. reflexivity. Qed.

Lemma sendMQTTPacket_connected (w : WiFiClient) (h : Z) (body : list Z) :
  connected (sendMQTTPacket w h body) = connected w.
Proof.
  unfold sendMQTTPacket. destruct (connected w) eqn:H; simpl; [|exact H].
  destruct (encodeRemainingLength _); [|exact H].
  now rewrite !write_connected.
Qed.

Lemma sendMQTTPacket_rx (w : WiFiClient) (h : Z) (body : list Z) :
  rx (sendMQTTPacket w h body) = rx w.
Proof.
  unfold sendMQTTPacket. destruct (negb _); [reflexivity |].
  destruct (encodeRemainingLength _); [|reflexivity].
  now rewrite !write_rx.
Qed.

(** An acknowledgement is the fixed header, the length 2 and the packet
    identifier. *)
Lemma sendMQTTPacket_ack (w : WiFiClient) (h packetId : Z) :
  connected w = true →
  sendMQTTPacket w h (be16 packetId)
  = {| connected := true; rx := rx w; tx := tx w ++ h :: 2 :: be16 packetId |}.
Proof.
  destruct w as [cn r t]. simpl. intros ->.
  unfold sendMQTTPacket, write. simpl. rewrite <- !app_assoc. reflexivity.
Qed.

(** *** [sendPublish] and the forwarding loop *)

Lemma sendPublish_subscriptions now j t p q r b :
  activeSubscriptions (sendPublish now j t p q r b) = activeSubscriptions b.
Proof.
  unfold sendPublish. destruct (_ !! j); [|reflexivity].
  destruct (negb _); reflexivity.
Qed.

Lemma sendPublish_retained now j t p q r b :
  retainedMessages (sendPublish now j t p q r b) = retainedMessages b.
Proof.
  unfold sendPublish. destruct (_ !! j); [|reflexivity].
  destruct (negb _); reflexivity.
Qed.

Lemma sendPublish_messageLog now j t p q r b :
  messageLog (sendPublish now j t p q r b) = messageLog b.
Proof.
  unfold sendPublish. destruct (_ !! j); [|reflexivity].
  destruct (negb _); reflexivity.
Qed.

Lemma sendPublish_isConnected now j t p q r b k :
  isConnected (sendPublish now j t p q r b) k = isConnected b k.
Proof.
  unfold sendPublish, isConnected.
  destruct (connectedMQTTClients b !! j) as [c|] eqn:Hj; [|reflexivity].
  destruct (connected (client c)) eqn:Hc; simpl; [|reflexivity].
  destruct (decide (k = j)) as [->|Hk].
  - rewrite list_lookup_insert_eq by (eapply lookup_lt_Some; eauto).
    rewrite Hj. simpl. rewrite sendMQTTPacket_connected.
    destruct (0 <? q); simpl; congruence.
  - now rewrite list_lookup_insert_ne by congruence.
Qed.

Lemma sendPublish_deliveries now j t p q r b :
  deliveries (sendPublish now j t p q r b)
  = deliveries b ++ (if isConnected b j then [(j, t, p, q, r)] else []).
Proof.
  unfold sendPublish, isConnected, deliveries.
  destruct (connectedMQTTClients b !! j) as [c|]; [|now rewrite app_nil_r].
  destruct (connected (client c)); simpl; [|now rewrite app_nil_r].
  now rewrite map_app.
Qed.

Lemma forwardTo_deliveries now t p r b sub :
  deliveries (forwardTo now t p r b sub)
  = deliveries b
    ++ (if isConnected b (clientState sub) && topicMatches t (topicFilter sub)
        then [(clientState sub, t, p, sub_qos sub, r)] else []).
Proof.
  unfold forwardTo, isConnected.
  destruct (connectedMQTTClients b !! clientState sub) as [c|] eqn:Hc;
    [|now rewrite app_nil_r].
  destruct (connected (client c) && topicMatches t (topicFilter sub)) eqn:Hm;
    [|now rewrite app_nil_r].
  rewrite sendPublish_deliveries. unfold isConnected. rewrite Hc.
  apply andb_true_iff in Hm as [-> _]. reflexivity.
Qed.

Lemma forwardTo_isConnected now t p r b sub k :
  isConnected (forwardTo now t p r b sub) k = isConnected b k.
Proof.
  unfold forwardTo. destruct (_ !! clientState sub); [|reflexivity].
  destruct (_ && _); [apply sendPublish_isConnected | reflexivity].
Qed.

Lemma forwardTo_subscriptions now t p r b sub :
  activeSubscriptions (forwardTo now t p r b sub) = activeSubscriptions b.
Proof.
  unfold forwardTo. destruct (_ !! clientState sub); [|reflexivity].
  destruct (_ && _); [apply sendPublish_subscriptions | reflexivity].
Qed.

Lemma forwardTo_retained now t p r b sub :
  retainedMessages (forwardTo now t p r b sub) = retainedMessages b.
Proof.
  unfold forwardTo. destruct (_ !! clientState sub); [|reflexivity].
  destruct (_ && _); [apply sendPublish_retained | reflexivity].
Qed.

Lemma forwardTo_messageLog now t p r b sub :
  messageLog (forwardTo now t p r b sub) = messageLog b.
Proof.
  unfold forwardTo. destruct (_ !! clientState sub); [|reflexivity].
  destruct (_ && _); [apply sendPublish_messageLog | reflexivity].
Qed.

(** The loop over a list of subscriptions, from any broker state. *)
Lemma foldl_forwardTo now t p r (subs : list ActiveSubscription) :
  ∀ b,
    let b' := foldl (forwardTo now t p r) b subs in
    deliveries b'
    = deliveries b
      ++ map (λ sub, (clientState sub, t, p, sub_qos sub, r))
           (List.filter (λ sub, isConnected b (clientState sub)
                                && topicMatches t (topicFilter sub)) subs)
    ∧ (∀ k, isConnected b' k = isConnected b k)
    ∧ activeSubscriptions b' = activeSubscriptions b
    ∧ retainedMessages b' = retainedMessages b
    ∧ messageLog b' = messageLog b.
Proof.
  induction subs as [|sub subs IH]; intros b; simpl.
  - rewrite app_nil_r. repeat split.
  - destruct (IH (forwardTo now t p r b sub)) as (Hd & Hc & Hs & Hr & Hl).
    rewrite Hd, forwardTo_deliveries, Hs, Hr, Hl.
    rewrite forwardTo_subscriptions, forwardTo_retained, forwardTo_messageLog.
    split; [|split; [|repeat split]].
    + rewrite <- app_assoc. f_equal.
      erewrite (List.filter_ext _ (λ sub0, isConnected b (clientState sub0)
                                           && topicMatches t (topicFilter sub0)));
        [|intros a; now rewrite forwardTo_isConnected].
      destruct (isConnected b (clientState sub) && topicMatches t (topicFilter sub));
        reflexivity.
    + intros k. now rewrite Hc, forwardTo_isConnected.
Qed.

Lemma forward_deliveries now t p r b :
  deliveries (forward now t p r b)
  = deliveries b ++ map (λ sub, (clientState sub, t, p, sub_qos sub, r)) (receivers b t).
Proof. apply (foldl_forwardTo now t p r (activeSubscriptions b) b). Qed.


Lemma forward_subscriptions now t p r b :
  activeSubscriptions (forward now t p r b) = activeSubscriptions b.
Proof. apply (foldl_forwardTo now t p r (activeSubscriptions b) b). Qed.

Lemma forward_retained now t p r b :
  retainedMessages (forward now t p r b) = retainedMessages b.
Proof. apply (foldl_forwardTo now t p r (activeSubscriptions b) b). Qed.

Lemma forward_messageLog now t p r b :
  messageLog (forward now t p r b) = messageLog b.
Proof. apply (foldl_forwardTo now t p r (activeSubscriptions b) b). Qed.

(** *** Updates of one client *)

Lemma update_client_lookup i f b :
  connectedMQTTClients (update_client i f b) !! i = f <$> connectedMQTTClients b !! i.
Proof.
  unfold update_client. destruct (connectedMQTTClients b !! i) as [c|] eqn:Hc; simpl.
  - apply list_lookup_insert_eq. eapply lookup_lt_Some; eauto.
  - now rewrite Hc.
Qed.

Lemma update_client_lookup_ne i j f b :
  i ≠ j →
  connectedMQTTClients (update_client i f b) !! j = connectedMQTTClients b !! j.
Proof.
  intros Hne. unfold update_client.
  destruct (connectedMQTTClients b !! i); [|reflexivity].
  simpl. now apply list_lookup_insert_ne.
Qed.

Lemma update_client_subscriptions i f b :
  activeSubscriptions (update_client i f b) = activeSubscriptions b.
Proof. unfold update_client. now destruct (_ !! i). Qed.

Lemma update_client_retained i f b :
  retainedMessages (update_client i f b) = retainedMessages b.
Proof. unfold update_client. now destruct (_ !! i). Qed.

Lemma update_client_messageLog i f b :
  messageLog (update_client i f b) = messageLog b.
Proof. unfold update_client. now destruct (_ !! i). Qed.

Lemma update_client_serial i f b : serial (update_client i f b) = serial b.
Proof. unfold update_client. now destruct (_ !! i). Qed.

Lemma update_client_deliveries i f b :
  deliveries (update_client i f b) = deliveries b.
Proof. unfold deliveries. now rewrite update_client_serial. Qed.


Lemma receivers_ext b b' t :
  activeSubscriptions b' = activeSubscriptions b →
  (∀ k, isConnected b' k = isConnected b k) →
  receivers b' t = receivers b t.
Proof.
  intros Hs Hc. unfold receivers. rewrite Hs.
  apply List.filter_ext. intros sub. now rewrite Hc.
Qed.

Lemma logMessage_deliveries now t p b : deliveries (logMessage now t p b) = deliveries b.
Proof. reflexivity. Qed.

Lemma logMessage_isConnected now t p b k :
  isConnected (logMessage now t p b) k = isConnected b k.
Proof. reflexivity. Qed.

(** *** Reading back what a peer has written *)

Fixpoint noNul (s : string) : bool :=
  match s with
  | EmptyString => true
  | String c s' => negb (Ascii.eqb c Ascii.zero) && noNul s'
  end.

Lemma char_of_byte_of_char (c : ascii) : char_of_byte (byte_of_char c) = c.
Proof. unfold char_of_byte, byte_of_char. now rewrite N2Z.id, ascii_N_embedding. Qed.

Lemma byte_of_char_zero (c : ascii) : byte_of_char c = 0 → c = Ascii.zero.
Proof.
  intros H. rewrite <- (char_of_byte_of_char c), H. reflexivity.
Qed.

Lemma String_of_cstr_bytes (s : string) :
  noNul s = true → String_of_cstr (bytes_of_String s) = s.
Proof.
  induction s as [|c s IH]; simpl; [reflexivity |].
  intros [Hc Hs]%andb_true_iff.
  destruct (Z.eqb_spec (byte_of_char c) 0) as [H0|_].
  - apply byte_of_char_zero in H0 as ->. discriminate.
  - now rewrite char_of_byte_of_char, IH.
Qed.

Lemma length_bytes_of_String (s : string) :
  length (bytes_of_String s) = String.length s.
Proof. induction s as [|c s IH]; simpl; [reflexivity | now rewrite IH]. Qed.

Lemma readBytes_app (l rest : list Z) (cn : bool) (t : list Z) :
  readBytes (length l) {| connected := cn; rx := l ++ rest; tx := t |}
  = (l, {| connected := cn; rx := rest; tx := t |}).
Proof.
  induction l as [|x l IH]; [reflexivity |].
  cbn [length readBytes app]. unfold read. cbn [rx connected tx].
  now rewrite IH.
Qed.

Lemma lor_shiftl_byte (a x : Z) :
  0 <= x < 256 → Z.lor (Z.shiftl a 8) x = a * 256 + x.
Proof.
  intros Hx.
  assert (Hland : Z.land (Z.shiftl a 8) x = 0).
  { apply Z.bits_inj'. intros n Hn. rewrite Z.land_spec, Z.bits_0.
    destruct (Z.lt_ge_cases n 8) as [Hlt|Hge].
    - now rewrite Z.shiftl_spec_low.
    - destruct (Z.eq_dec x 0) as [->|Hx0]; [now rewrite Z.bits_0, andb_false_r |].
      rewrite (Z.bits_above_log2 x n), andb_false_r; [reflexivity | lia |].
      assert (Z.log2 x < 8) by (apply Z.log2_lt_pow2; [lia | change (2 ^ 8) with 256; lia]).
      lia. }
  pose proof (Z.add_lor_land (Z.shiftl a 8) x) as Hadd.
  assert (Hs : Z.shiftl a 8 = a * 256) by (rewrite Z.shiftl_mul_pow2; lia).
  lia.
Qed.

Lemma word_be16 (x : Z) :
  0 <= x < 65536 → word (Z.land (Z.shiftr x 8) 0xFF) (Z.land x 0xFF) = x.
Proof.
  intros Hx. unfold word.
  change 0xFF with (Z.ones 8). rewrite !Z.land_ones by lia.
  rewrite Z.shiftr_div_pow2 by lia. change (2 ^ 8) with 256.
  rewrite lor_shiftl_byte by (apply Z.mod_pos_bound; lia).
  rewrite (Z.mod_small (x / 256))
    by (split; [apply Z.div_pos | apply Z.div_lt_upper_bound]; lia).
  pose proof (Z.div_mod x 256 ltac:(lia)). lia.
Qed.

Lemma u16_small (x : Z) : 0 <= x < 65536 → u16 x = x.
Proof. intros Hx. unfold u16. apply Z.mod_small. change (2 ^ 16) with 65536. lia. Qed.

(** *** [handlePublish] above QoS 0 *)

Lemma read_connected w : connected (read w).2 = connected w.
Proof. unfold read. now destruct (rx w). Qed.

Lemma read_tx w : tx (read w).2 = tx w.
Proof. unfold read. now destruct (rx w). Qed.

Lemma readBytes_connected n : ∀ w, connected (readBytes n w).2 = connected w.
Proof.
  induction n as [|n IH]; intros w; [reflexivity |].
  cbn [readBytes]. pose proof (read_connected w) as H1.
  destruct (read w) as [x w1]. pose proof (IH w1) as H2.
  destruct (readBytes n w1) as [buf w2]. cbn [snd] in *. congruence.
Qed.

Lemma readBytes_tx n : ∀ w, tx (readBytes n w).2 = tx w.
Proof.
  induction n as [|n IH]; intros w; [reflexivity |].
  cbn [readBytes]. pose proof (read_tx w) as H1.
  destruct (read w) as [x w1]. pose proof (IH w1) as H2.
  destruct (readBytes n w1) as [buf w2]. cbn [snd] in *. congruence.
Qed.

Lemma readPublish_socket qos len_ w :
  connected (readPublish qos len_ w).2 = connected w
  ∧ tx (readPublish qos len_ w).2 = tx w.
Proof.
  unfold readPublish.
  pose proof (read_connected w) as Hc1. pose proof (read_tx w) as Ht1.
  destruct (read w) as [a w1].
  pose proof (read_connected w1) as Hc2. pose proof (read_tx w1) as Ht2.
  destruct (read w1) as [a2 w2].
  pose proof (readBytes_connected (Z.to_nat (word a a2)) w2) as Hc3.
  pose proof (readBytes_tx (Z.to_nat (word a a2)) w2) as Ht3.
  destruct (readBytes _ w2) as [buf w3]. cbn [snd] in *.
  destruct (0 <? qos).
  - pose proof (read_connected w3) as Hc4. pose proof (read_tx w3) as Ht4.
    destruct (read w3) as [p1 w4].
    pose proof (read_connected w4) as Hc5. pose proof (read_tx w4) as Ht5.
    destruct (read w4) as [p2 w5]. cbn [snd] in *.
    destruct (0 <? _).
    + pose proof (readBytes_connected (Z.to_nat (len_ - (2 + word a a2) - 2)) w5) as Hc6.
      pose proof (readBytes_tx (Z.to_nat (len_ - (2 + word a a2) - 2)) w5) as Ht6.
      destruct (readBytes _ w5) as [pl w6]. cbn [snd] in *. split; congruence.
    + cbn [snd]. split; congruence.
  - destruct (0 <? _).
    + pose proof (readBytes_connected (Z.to_nat (len_ - (2 + word a a2))) w3) as Hc6.
      pose proof (readBytes_tx (Z.to_nat (len_ - (2 + word a a2))) w3) as Ht6.
      destruct (readBytes _ w3) as [pl w6]. cbn [snd] in *. split; congruence.
    + cbn [snd]. split; congruence.
Qed.

Lemma update_client_const_isConnected i c c' b :
  connectedMQTTClients b !! i = Some c →
  connected (client c') = connected (client c) →
  ∀ k, isConnected (update_client i (λ _, c') b) k = isConnected b k.
Proof.
  intros Hc Hcon k. unfold isConnected. destruct (decide (i = k)) as [<-|Hne].
  - rewrite update_client_lookup, Hc. simpl. exact Hcon.
  - now rewrite update_client_lookup_ne.
Qed.

(** A PUBLISH above QoS 0 changes nothing but the publishing client:
    nothing is logged, retained or forwarded by [handlePublish]. *)
Lemma handlePublish_not_delivered now i header len_ b :
  Z.land (Z.shiftr header 1) 0x03 ≠ 0 →
  let b' := handlePublish now i header len_ b in
  serial b' = serial b ∧ messageLog b' = messageLog b
  ∧ retainedMessages b' = retainedMessages b
  ∧ activeSubscriptions b' = activeSubscriptions b
  ∧ (∀ j, j ≠ i → connectedMQTTClients b' !! j = connectedMQTTClients b !! j)
  ∧ (∀ k, isConnected b' k = isConnected b k).
Proof.
  intros Hq. unfold handlePublish.
  destruct (connectedMQTTClients b !! i) as [c|] eqn:Hc; [|repeat split].
  destruct (negb _); [repeat split|].
  pose proof (readPublish_socket (Z.land (Z.shiftr header 1) 3) len_ (client c)) as [Hrc _].
  destruct (readPublish _ _ _) as [[[topic pid] payload] w]. cbn [snd] in Hrc.
  set (qos := Z.land (Z.shiftr header 1) 3) in *.
  assert (Hfinal : ∀ c', connected (client c') = connected (client c) →
    let b' := update_client i (λ _, c') b in
    serial b' = serial b ∧ messageLog b' = messageLog b
    ∧ retainedMessages b' = retainedMessages b
    ∧ activeSubscriptions b' = activeSubscriptions b
    ∧ (∀ j, j ≠ i → connectedMQTTClients b' !! j = connectedMQTTClients b !! j)
    ∧ (∀ k, isConnected b' k = isConnected b k)).
  { intros c' Hc'. cbv zeta.
    rewrite update_client_serial, update_client_messageLog, update_client_retained,
      update_client_subscriptions.
    repeat split.
    - intros j Hj. now apply update_client_lookup_ne.
    - now apply update_client_const_isConnected with (c := c). }
  destruct (Z.eqb_spec qos 0) as [|_]; [contradiction |].
  destruct (_ && _).
  { apply Hfinal. cbn. unfold sendPubRec. now rewrite sendMQTTPacket_connected. }
  destruct (qos =? 1).
  { apply Hfinal. cbn. unfold sendPubAck. now rewrite sendMQTTPacket_connected. }
  destruct (qos =? 2); [|apply Hfinal; exact Hrc].
  apply Hfinal. cbn. unfold sendPubRec. now rewrite sendMQTTPacket_connected.
Qed.

(** *** The QoS-2 handshake of a publisher *)

#[local] Arguments sendMQTTPacket : simpl never.
#[local] Arguments publishBody : simpl never.
#[local] Arguments topicMatches : simpl never.
#[local] Arguments u16 : simpl never.
#[local] Arguments word : simpl never.
#[local] Arguments be16 : simpl never.


(** What a client has in flight towards the broker: whether its socket
    is open, the unread bytes, and the stored QoS-2 messages. *)
Definition inbound (b : Broker) (k : nat)
    : option (bool * list Z * gmap Z IncomingQoS2State) :=
  (λ c, (connected (client c), rx (client c), incomingQoS2Messages c))
    <$> connectedMQTTClients b !! k.



Lemma inbound_isConnected b b' :
  (∀ k, inbound b' k = inbound b k) → ∀ k, isConnected b' k = isConnected b k.
Proof.
  intros H k. specialize (H k). unfold inbound, isConnected in *.
  destruct (connectedMQTTClients b' !! k), (connectedMQTTClients b !! k);
    simpl in H; congruence.
Qed.


Lemma readPacketId_be16 pid rest cn t :
  0 <= pid < 65536 →
  readPacketId {| connected := cn; rx := be16 pid ++ rest; tx := t |}
  = (pid, {| connected := cn; rx := rest; tx := t |}).
Proof.
  intros Hpid. unfold readPacketId, be16. cbn [app].
  unfold read at 1. cbn [rx connected tx]. unfold read at 1. cbn [rx connected tx].
  now rewrite word_be16, u16_small.
Qed.


Lemma inbound_update_client_ne i k f b :
  i ≠ k → inbound (update_client i f b) k = inbound b k.
Proof. intros Hne. unfold inbound. now rewrite update_client_lookup_ne. Qed.




(** *** Packets on the wire *)

(** The first byte of a PUBLISH a client sends. *)
Definition publishFlags (dup : bool) (qos : Z) (retain : bool) : Z :=
  0x30 + (if dup then 0x08 else 0) + 2 * qos + (if retain then 0x01 else 0).

Definition publishPacket (dup : bool) (qos : Z) (retain : bool)
    (topic payload : string) (pid : Z) : list Z :=
  publishFlags dup qos retain
  :: Z.of_nat (length (publishBody topic payload qos pid))
  :: publishBody topic payload qos pid.

Definition pubrelPacket (pid : Z) : list Z := 0x62 :: 2 :: be16 pid.









(** *** Forwarding at the QoS of the subscription *)

Lemma readPacketId_socket w :
  connected (readPacketId w).2 = connected w ∧ tx (readPacketId w).2 = tx w.
Proof.
  unfold readPacketId.
  pose proof (read_connected w) as Hc1. pose proof (read_tx w) as Ht1.
  destruct (read w) as [a w1].
  pose proof (read_connected w1) as Hc2. pose proof (read_tx w1) as Ht2.
  destruct (read w1) as [a2 w2]. cbn [snd] in *. split; congruence.
Qed.

(** [handlePubRel], whatever the bytes it reads: a stored message in
    state 1 is forwarded once to every receiver, with the QoS of each
    subscription. *)
Lemma handlePubRel_delivers now i len_ b c e :
  connectedMQTTClients b !! i = Some c →
  waitForBytes (client c) len_ = true →
  incomingQoS2Messages c !! (readPacketId (client c)).1 = Some e →
  in_state e = 1 →
  deliveries (handlePubRel now i len_ b)
  = deliveries b
    ++ map (λ sub, (clientState sub, in_topic e, in_payload e, sub_qos sub,
                    (in_qos e =? 2) && (in_qos e =? 2)))
         (receivers b (in_topic e)).
Proof.
  intros Hc Hw He Hst. unfold handlePubRel. rewrite Hc, Hw. cbn [negb].
  pose proof (readPacketId_socket (client c)) as [Hrc _].
  destruct (readPacketId (client c)) as [pid w]. cbn [fst snd] in *.
  cbn [incomingQoS2Messages set_client]. rewrite He, Hst.
  change (1 =? 1) with true. cbv iota.
  set (c1 := set_incoming _ _).
  assert (Hc1 : connected (client c1) = connected (client c)).
  { subst c1. cbn. unfold sendPubComp. now rewrite sendMQTTPacket_connected. }
  set (b1 := logMessage now (in_topic e) (in_payload e) (update_client i (λ _, c1) b)).
  rewrite update_client_deliveries, forward_deliveries.
  rewrite (receivers_ext b b1).
  - subst b1. now rewrite logMessage_deliveries, update_client_deliveries.
  - subst b1. cbn. apply update_client_subscriptions.
  - intros k. subst b1. rewrite logMessage_isConnected.
    now apply update_client_const_isConnected with (c := c).
Qed.

(** [handlePublish] at QoS 0, whatever the bytes it reads: the message is
    forwarded once to every receiver, with the QoS of each subscription. *)
Lemma handlePublish_qos0_delivers now i header len_ b c :
  connectedMQTTClients b !! i = Some c →
  Z.land (Z.shiftr header 1) 0x03 = 0 →
  waitForBytes (client c) len_ = true →
  let topic := (readPublish 0 len_ (client c)).1.1.1 in
  let payload := (readPublish 0 len_ (client c)).1.2 in
  deliveries (handlePublish now i header len_ b)
  = deliveries b
    ++ map (λ sub, (clientState sub, topic, payload, sub_qos sub,
                    negb (Z.land header 0x01 =? 0)))
         (receivers b topic).
Proof.
  intros Hc Hq Hw. cbv zeta. unfold handlePublish. rewrite Hc, Hw, Hq. cbn [negb].
  pose proof (readPublish_socket 0 len_ (client c)) as [Hrc _].
  destruct (readPublish 0 len_ (client c)) as [[[topic pid] payload] w].
  cbn [fst snd] in *.
  change (0 =? 1) with false. change (0 =? 2) with false. change (0 =? 0) with true.
  cbn [andb]. cbv iota.
  set (b0 := update_client i (λ _, set_client w c) b).
  assert (Hcon0 : ∀ k, isConnected b0 k = isConnected b k).
  { subst b0. now apply update_client_const_isConnected with (c := c). }
  assert (Hsub0 : activeSubscriptions b0 = activeSubscriptions b)
    by apply update_client_subscriptions.
  assert (Hdel0 : deliveries b0 = deliveries b) by apply update_client_deliveries.
  rewrite forward_deliveries.
  destruct (negb (Z.land header 1 =? 0)).
  - rewrite (receivers_ext b (updateRetained topic payload (logMessage now topic payload b0))).
    + unfold updateRetained. destruct (len payload =? 0); exact (f_equal (λ l, l ++ _) Hdel0).
    + unfold updateRetained. destruct (len payload =? 0); exact Hsub0.
    + intros k. unfold updateRetained. destruct (len payload =? 0); apply Hcon0.
  - rewrite (receivers_ext b (logMessage now topic payload b0)) by assumption.
    exact (f_equal (λ l, l ++ _) Hdel0).
Qed.

(** The QoS bits of the header that [sendPublish] writes are the QoS it
    was called with. *)
Lemma publishHeader_qos qos retain :
  0 <= qos <= 3 → Z.land (Z.shiftr (publishHeader 0x30 qos retain) 1) 0x03 = qos.
Proof.
  intros Hq. assert (qos = 0 ∨ qos = 1 ∨ qos = 2 ∨ qos = 3) as Hcases by lia.
  destruct Hcases as [H|[H|[H|H]]]; subst qos; destruct retain; reflexivity.
Qed.

(** *** [handleSubscribe] *)

Lemma sendMQTTPacket_tx w h body :
  ∃ more, tx (sendMQTTPacket w h body) = tx w ++ more.
Proof.
  unfold sendMQTTPacket. destruct (connected w) eqn:Hc; simpl;
    [|exists []; now rewrite app_nil_r].
  destruct (encodeRemainingLength _) as [enc|]; [|exists []; now rewrite app_nil_r].
  exists ([h] ++ enc ++ body).
  rewrite !write_tx by (rewrite ?write_connected; exact Hc).
  now rewrite <- !app_assoc.
Qed.

(** What [sendPublish] leaves alone in a client, whoever receives. *)
Lemma sendPublish_client now j t p q r b i c :
  connectedMQTTClients b !! i = Some c →
  ∃ c' more,
    connectedMQTTClients (sendPublish now j t p q r b) !! i = Some c'
    ∧ tx (client c') = tx (client c) ++ more
    ∧ rx (client c') = rx (client c)
    ∧ subscribedTopics c' = subscribedTopics c.
Proof.
  intros Hi. unfold sendPublish.
  destruct (connectedMQTTClients b !! j) as [cj|] eqn:Hj;
    [|exists c, []; now rewrite app_nil_r].
  destruct (connected (client cj)) eqn:Hcj; simpl;
    [|exists c, []; now rewrite app_nil_r].
  destruct (decide (i = j)) as [->|Hne].
  - rewrite Hj in Hi. injection Hi as ->.
    rewrite list_lookup_insert_eq by (eapply lookup_lt_Some; eauto).
    match goal with
    | |- context [sendMQTTPacket ?w ?h ?body] =>
        destruct (sendMQTTPacket_tx w h body) as [more Hmore];
        pose proof (sendMQTTPacket_rx w h body) as Hrx
    end.
    eexists _, more. split; [reflexivity |]. cbn [client set_client].
    rewrite Hmore, Hrx. destruct (0 <? q); repeat split.
  - rewrite list_lookup_insert_ne by congruence.
    exists c, []. now rewrite app_nil_r.
Qed.

(** The replay of the retained messages to a new subscriber. *)
Lemma replay_client now i topic granted (kvs : list (string * string)) :
  ∀ b c,
    connectedMQTTClients b !! i = Some c →
    let b' := foldl (λ b (kv : string * string),
                       if topicMatches kv.1 topic
                       then sendPublish now i kv.1 kv.2 granted true b else b) b kvs in
    activeSubscriptions b' = activeSubscriptions b
    ∧ ∃ c' more,
        connectedMQTTClients b' !! i = Some c'
        ∧ tx (client c') = tx (client c) ++ more
        ∧ rx (client c') = rx (client c)
        ∧ subscribedTopics c' = subscribedTopics c.
Proof.
  induction kvs as [|kv kvs IH]; intros b c Hc; cbv zeta.
  - split; [reflexivity |]. exists c, []. now rewrite app_nil_r.
  - cbn [foldl]. destruct (topicMatches kv.1 topic).
    + destruct (sendPublish_client now i kv.1 kv.2 granted true b i c Hc)
        as (c1 & more1 & Hc1 & Htx1 & Hrx1 & Hst1).
      destruct (IH _ c1 Hc1) as (Hsub & c2 & more2 & Hc2 & Htx2 & Hrx2 & Hst2).
      split; [now rewrite Hsub, sendPublish_subscriptions |].
      exists c2, (more1 ++ more2). split; [exact Hc2 |].
      rewrite Htx2, Htx1, Hrx2, Hrx1, Hst2, Hst1. now rewrite app_assoc.
    + apply IH. exact Hc.
Qed.

(** [handleSubscribe] on a SUBSCRIBE that carries [filter] with
    [requestedQoS] first and [more] after it. *)
Lemma handleSubscribe_first_filter now i header len_ b c
    packetIdMsb packetIdLsb filter requestedQoS more :
  connectedMQTTClients b !! i = Some c →
  connected (client c) = true →
  rx (client c)
  = [packetIdMsb; packetIdLsb] ++ be16 (len filter) ++ bytes_of_String filter
    ++ [requestedQoS] ++ more →
  waitForBytes (client c) len_ = true →
  noNul filter = true → len filter < 65536 →
  let b' := handleSubscribe now i header len_ b in
  let grantedQoS := if 2 <? requestedQoS then 0 else requestedQoS in
  activeSubscriptions b'
  = activeSubscriptions b
    ++ [{| clientState := i; topicFilter := filter; sub_qos := grantedQoS |}]
  ∧ ∃ c' replay,
      connectedMQTTClients b' !! i = Some c'
      ∧ tx (client c')
        = tx (client c) ++ [0x90; 0x03; packetIdMsb; packetIdLsb; grantedQoS] ++ replay
      ∧ rx (client c') = more
      ∧ subscribedTopics c' = subscribedTopics c ++ [filter].
Proof.
  intros Hc Hcon Hrx Hw Hnul Hlen. cbv zeta.
  assert (Hlen' : 0 <= len filter < 65536) by (unfold len in *; lia).
  remember (handleSubscribe now i header len_ b) as b' eqn:Hb'.
  unfold handleSubscribe in Hb'. rewrite Hc, Hw in Hb'. cbn [negb] in Hb'.
  destruct (client c) as [cn r t] eqn:Hcl. cbn [connected rx tx] in *. subst cn r.
  unfold be16 in Hb'. cbn [app] in Hb'.
  unfold read at 1 in Hb'. cbn [rx connected tx] in Hb'.
  unfold read at 1 in Hb'. cbn [rx connected tx] in Hb'.
  unfold read at 1 in Hb'. cbn [rx connected tx] in Hb'.
  unfold read at 1 in Hb'. cbn [rx connected tx] in Hb'.
  rewrite word_be16 in Hb' by exact Hlen'.
  replace (Z.to_nat (len filter)) with (length (bytes_of_String filter)) in Hb'
    by (rewrite length_bytes_of_String; unfold len; lia).
  rewrite readBytes_app, String_of_cstr_bytes in Hb' by exact Hnul.
  unfold read at 1 in Hb'. cbn [rx connected tx app] in Hb'.
  unfold write in Hb'. cbn [connected rx tx] in Hb'. fold (grantQoS requestedQoS).
  set (c1 := set_subscribedTopics _ _) in Hb'.
  set (b1 := set_subscriptions _ _) in Hb'.
  assert (Hc1 : connectedMQTTClients b1 !! i = Some c1).
  { subst b1. cbn. now rewrite update_client_lookup, Hc. }
  destruct (replay_client now i filter (grantQoS requestedQoS)
              (retainedInOrder (retainedMessages b1)) b1 c1 Hc1)
    as (Hsub & c' & replay & Hc' & Htx & Hrx' & Hst).
  rewrite <- Hb' in Hsub, Hc'.
  split.
  - rewrite Hsub. reflexivity.
  - exists c', replay. split; [exact Hc' |].
    rewrite Htx, Hrx', Hst. subst c1. cbn. rewrite <- app_assoc. repeat split.
Qed.

(** *** The retained store *)

(** No topic is retained with an empty payload. *)
Definition retainedOk (b : Broker) : Prop :=
  ∀ topic payload, retainedMessages b !! topic = Some payload → payload ≠ "".

Lemma len_zero (s : string) : (len s =? 0) = true ↔ s = "".
Proof.
  unfold len. destruct s as [|c s]; [tauto |].
  split; [|discriminate].
  intros H. apply Z.eqb_eq in H. cbn [String.length] in H. lia.
Qed.

Lemma updateRetained_lookup topic payload b :
  retainedMessages (updateRetained topic payload b) !! topic
  = (if len payload =? 0 then None else Some payload).
Proof.
  unfold updateRetained. destruct (len payload =? 0); cbn.
  - apply lookup_delete_eq.
  - apply lookup_insert_eq.
Qed.

Lemma updateRetained_lookup_ne topic payload b topic' :
  topic ≠ topic' →
  retainedMessages (updateRetained topic payload b) !! topic'
  = retainedMessages b !! topic'.
Proof.
  intros Hne. unfold updateRetained. destruct (len payload =? 0); cbn.
  - now apply lookup_delete_ne.
  - now apply lookup_insert_ne.
Qed.

Lemma updateRetained_ok topic payload b :
  retainedOk b → retainedOk (updateRetained topic payload b).
Proof.
  intros Hok t p. destruct (decide (topic = t)) as [<-|Hne].
  - rewrite updateRetained_lookup. destruct (len payload =? 0) eqn:Hl; [discriminate |].
    intros [= <-]. intros ->. discriminate.
  - rewrite updateRetained_lookup_ne by exact Hne. apply Hok.
Qed.

Lemma retainedOk_eq b b' :
  retainedMessages b' = retainedMessages b → retainedOk b → retainedOk b'.
Proof. unfold retainedOk. now intros ->. Qed.

Lemma handlePublish_retained now i header len_ b :
  retainedOk b → retainedOk (handlePublish now i header len_ b).
Proof.
  intros Hok. unfold handlePublish.
  destruct (_ !! i) as [c|]; [|exact Hok].
  destruct (negb _); [exact Hok |].
  destruct (readPublish _ _ _) as [[[topic pid] payload] w].
  set (qos := Z.land (Z.shiftr header 1) 3).
  assert (Hfinal : ∀ c',
    retainedOk
      (if qos =? 0
       then forward now topic payload (negb (Z.land header 1 =? 0))
              (if negb (Z.land header 1 =? 0)
               then updateRetained topic payload
                      (logMessage now topic payload (update_client i (λ _, c') b))
               else logMessage now topic payload (update_client i (λ _, c') b))
       else update_client i (λ _, c') b)).
  { intros c'. destruct (qos =? 0).
    - apply (retainedOk_eq _ _ (forward_retained _ _ _ _ _)).
      destruct (negb _).
      + apply updateRetained_ok.
        apply (retainedOk_eq b); [apply update_client_retained | exact Hok].
      + apply (retainedOk_eq b); [apply update_client_retained | exact Hok].
    - apply (retainedOk_eq b); [apply update_client_retained | exact Hok]. }
  destruct (_ && _); [|apply Hfinal].
  apply (retainedOk_eq b); [apply update_client_retained | exact Hok].
Qed.

Lemma handlePubRel_retained now i len_ b :
  retainedMessages (handlePubRel now i len_ b) = retainedMessages b.
Proof.
  unfold handlePubRel. destruct (_ !! i) as [c|]; [|reflexivity].
  destruct (negb _); [reflexivity |].
  destruct (readPacketId _) as [pid w].
  destruct (_ !! pid) as [e|].
  - destruct (in_state e =? 1).
    + rewrite update_client_retained, forward_retained. cbn.
      apply update_client_retained.
    + apply update_client_retained.
  - destruct (_ !! pid) as [o|]; [destruct (_ && _) |]; apply update_client_retained.
Qed.

Lemma handlePubAck_retained i len_ b :
  retainedMessages (handlePubAck i len_ b) = retainedMessages b.
Proof.
  unfold handlePubAck. destruct (_ !! i) as [c|]; [|reflexivity].
  destruct (negb _); [reflexivity |].
  destruct (readPacketId _) as [pid w]. apply update_client_retained.
Qed.

Lemma handlePubComp_retained i len_ b :
  retainedMessages (handlePubComp i len_ b) = retainedMessages b.
Proof.
  unfold handlePubComp. destruct (_ !! i) as [c|]; [|reflexivity].
  destruct (negb _); [reflexivity |].
  destruct (readPacketId _) as [pid w]. apply update_client_retained.
Qed.

Lemma handlePubRec_retained now i len_ b :
  retainedMessages (handlePubRec now i len_ b) = retainedMessages b.
Proof.
  unfold handlePubRec. destruct (_ !! i) as [c|]; [|reflexivity].
  destruct (negb _); [reflexivity |].
  destruct (readPacketId _) as [pid w]. apply update_client_retained.
Qed.

Lemma replay_retained now i topic granted (kvs : list (string * string)) :
  ∀ b, retainedMessages
         (foldl (λ b (kv : string * string),
                   if topicMatches kv.1 topic
                   then sendPublish now i kv.1 kv.2 granted true b else b) b kvs)
       = retainedMessages b.
Proof.
  induction kvs as [|kv kvs IH]; intros b; [reflexivity |].
  cbn [foldl]. rewrite IH. destruct (topicMatches _ _); [|reflexivity].
  apply sendPublish_retained.
Qed.

Lemma handleSubscribe_retained now i header len_ b :
  retainedMessages (handleSubscribe now i header len_ b) = retainedMessages b.
Proof.
  unfold handleSubscribe. destruct (_ !! i) as [c|]; [|reflexivity].
  destruct (negb _); [reflexivity |].
  destruct (read (client c)) as [a1 w1]. destruct (read w1) as [a2 w2].
  destruct (read w2) as [a3 w3]. destruct (read w3) as [a4 w4].
  destruct (readBytes _ w4) as [buf w5]. destruct (read w5) as [a6 w6].
  rewrite replay_retained. cbn. apply update_client_retained.
Qed.

Lemma dispatch_retained now i b : retainedOk b → retainedOk (dispatch now i b).
Proof.
  intros Hok. unfold dispatch. destruct (_ !! i) as [c|]; [|exact Hok].
  destruct (2 <=? _); [|exact Hok].
  destruct (read (client c)) as [h w1]. destruct (read w1) as [l w2].
  assert (Hok0 : retainedOk (update_client i (set_client w2) b))
    by (apply (retainedOk_eq b); [apply update_client_retained | exact Hok]).
  repeat match goal with
         | |- retainedOk (if ?x then _ else _) => destruct x
         end;
    first [ now apply handlePublish_retained
          | apply (retainedOk_eq (update_client i (set_client w2) b)); [|exact Hok0];
            first [ apply update_client_retained | apply handlePubAck_retained
                  | apply handlePubRec_retained | apply handlePubRel_retained
                  | apply handlePubComp_retained | apply handleSubscribe_retained ] ].
Qed.

Lemma processMQTTClient_retained now i b :
  retainedOk b → retainedOk (processMQTTClient now i b).
Proof.
  intros Hok. unfold processMQTTClient. destruct (_ !! i) as [c|]; [|exact Hok].
  destruct (negb _); [exact Hok |].
  destruct (_ && _).
  - apply (retainedOk_eq b); [|exact Hok]. rewrite update_client_retained.
    destruct (hasLWT c); [apply forward_retained | reflexivity].
  - destruct (retransmitOutgoing _ _ _) as [c' returned]. destruct returned.
    + apply (retainedOk_eq b); [apply update_client_retained | exact Hok].
    + apply dispatch_retained.
      apply (retainedOk_eq b); [apply update_client_retained | exact Hok].
Qed.

Lemma loopClient_retained now i b : retainedOk b → retainedOk (loopClient now i b).
Proof.
  intros Hok. unfold loopClient. destruct (_ !! i) as [c|]; [|exact Hok].
  destruct (connected _); [destruct (negb _) |].
  - apply (retainedOk_eq b); [apply update_client_retained | exact Hok].
  - now apply processMQTTClient_retained.
  - exact Hok.
Qed.

Lemma loopClients_retained now n : ∀ b, retainedOk b → retainedOk (loopClients now n b).
Proof.
  induction n as [|n IH]; intros b Hok; [exact Hok |].
  cbn [loopClients]. apply IH. now apply loopClient_retained.
Qed.

Lemma step_retained b e : retainedOk b → retainedOk (step b e).
Proof.
  intros Hok. destruct e as [i bytes|i|now accept]; cbn [step].
  - apply (retainedOk_eq b); [apply update_client_retained | exact Hok].
  - apply (retainedOk_eq b); [apply update_client_retained | exact Hok].
  - unfold loop. apply loopClients_retained. destruct accept; exact Hok.
Qed.

Lemma run_retained events : ∀ b, retainedOk b → retainedOk (run events b).
Proof.
  unfold run. induction events as [|e events IH]; intros b Hok; [exact Hok |].
  cbn [foldl]. apply IH. now apply step_retained.
Qed.

(** [handlePublish] at QoS 0 with RETAIN=1 stores a payload that is not
    empty under the topic and erases the topic for an empty payload. *)
Lemma handlePublish_qos0_retain now i header len_ b c :
  connectedMQTTClients b !! i = Some c →
  Z.land (Z.shiftr header 1) 0x03 = 0 →
  Z.land header 0x01 ≠ 0 →
  waitForBytes (client c) len_ = true →
  let topic := (readPublish 0 len_ (client c)).1.1.1 in
  let payload := (readPublish 0 len_ (client c)).1.2 in
  let b' := handlePublish now i header len_ b in
  (payload ≠ "" → retainedMessages b' !! topic = Some payload)
  ∧ (payload = "" → retainedMessages b' !! topic = None)
  ∧ (∀ topic', topic' ≠ topic →
       retainedMessages b' !! topic' = retainedMessages b !! topic').
Proof.
  intros Hc Hq Hr Hw. cbv zeta. unfold handlePublish. rewrite Hc, Hw, Hq. cbn [negb].
  destruct (readPublish 0 len_ (client c)) as [[[topic pid] payload] w].
  cbn [fst snd].
  change (0 =? 1) with false. change (0 =? 2) with false. change (0 =? 0) with true.
  cbn [andb]. cbv iota. destruct (Z.eqb_spec (Z.land header 1) 0) as [|_]; [contradiction |].
  cbn [negb]. rewrite forward_retained.
  split; [|split].
  - intros Hne. rewrite updateRetained_lookup.
    destruct (len payload =? 0) eqn:Hl; [|reflexivity].
    apply len_zero in Hl. contradiction.
  - intros ->. now rewrite updateRetained_lookup.
  - intros topic' Hne. rewrite updateRetained_lookup_ne by congruence.
    cbn. now rewrite update_client_retained.
Qed.

(** *** Retransmission *)

Lemma publishHeader_dup qos retain :
  qos = 1 ∨ qos = 2 →
  Z.land (Z.shiftr (publishHeader 0x38 qos retain) 3) 0x01 = 1
  ∧ Z.land (Z.shiftr (publishHeader 0x38 qos retain) 1) 0x03 = qos.
Proof. intros [->| ->]; destruct retain; split; reflexivity. Qed.

Lemma countRetry_retryCount now outMsg :
  0 <= retryCount outMsg < MAX_QOS_RETRIES →
  retryCount (countRetry now outMsg) = retryCount outMsg + 1.
Proof.
  unfold MAX_QOS_RETRIES. intros H. cbn. unfold u8. apply Z.mod_small.
  change (2 ^ 8) with 256. lia.
Qed.

(** The retransmission loop at an entry whose timeout has passed and
    whose budget is not used up. *)
Lemma retransmitOutgoing_due now packetId outMsg entries c :
  QoS_TIMEOUT_MS < elapsed now (timestampSent outMsg) →
  retryCount outMsg < MAX_QOS_RETRIES →
  retransmitOutgoing now ((packetId, outMsg) :: entries) c
  = retransmitOutgoing now entries
      (set_outgoing (<[packetId := countRetry now outMsg]> (outgoingQoSMessages c))
         (set_client (resend (countRetry now outMsg) (client c)) c)).
Proof.
  intros Hdue Hretry. cbn [retransmitOutgoing].
  destruct (Z.ltb_spec QoS_TIMEOUT_MS (elapsed now (timestampSent outMsg))); [|lia].
  destruct (Z.ltb_spec (retryCount outMsg) MAX_QOS_RETRIES); [reflexivity | lia].
Qed.

Lemma retransmitOutgoing_exhausted now packetId outMsg entries c :
  QoS_TIMEOUT_MS < elapsed now (timestampSent outMsg) →
  MAX_QOS_RETRIES <= retryCount outMsg →
  retransmitOutgoing now ((packetId, outMsg) :: entries) c
  = (set_outgoing (delete packetId (outgoingQoSMessages c))
       (set_client (stop (client c)) c), true).
Proof.
  intros Hdue Hretry. cbn [retransmitOutgoing].
  destruct (Z.ltb_spec QoS_TIMEOUT_MS (elapsed now (timestampSent outMsg))); [|lia].
  destruct (Z.ltb_spec (retryCount outMsg) MAX_QOS_RETRIES); [lia | reflexivity].
Qed.

Lemma retransmitOutgoing_idle now packetId outMsg entries c :
  elapsed now (timestampSent outMsg) <= QoS_TIMEOUT_MS →
  retransmitOutgoing now ((packetId, outMsg) :: entries) c
  = retransmitOutgoing now entries c.
Proof.
  intros Hidle. cbn [retransmitOutgoing].
  destruct (Z.ltb_spec QoS_TIMEOUT_MS (elapsed now (timestampSent outMsg)));
    [lia | reflexivity].
Qed.

(** The packet that is sent again, after the phase of the entry. *)
Lemma resend_publish outMsg w :
  out_state outMsg = 0 → out_qos outMsg = 1 ∨ out_qos outMsg = 2 →
  resend outMsg w
  = sendMQTTPacket w (publishHeader 0x38 (out_qos outMsg) (out_retain outMsg))
      (be16 (len (out_topic outMsg)) ++ bytes_of_String (out_topic outMsg)
       ++ be16 (out_packetId outMsg) ++ bytes_of_String (out_payload outMsg)).
Proof. unfold resend. intros -> [-> | ->]; reflexivity. Qed.

Lemma resend_pubrel outMsg w :
  out_qos outMsg = 2 → out_state outMsg = 1 →
  resend outMsg w = sendPubRel w (out_packetId outMsg).
Proof. unfold resend. intros -> ->. reflexivity. Qed.

(** The retry count of every entry stays within the budget. *)
Definition withinBudget (m : gmap Z OutgoingMessage) : Prop :=
  ∀ packetId outMsg, m !! packetId = Some outMsg →
                     0 <= retryCount outMsg <= MAX_QOS_RETRIES.

Lemma retransmitOutgoing_withinBudget now entries :
  ∀ c,
    (∀ packetId outMsg, In (packetId, outMsg) entries →
                        0 <= retryCount outMsg <= MAX_QOS_RETRIES) →
    withinBudget (outgoingQoSMessages c) →
    withinBudget (outgoingQoSMessages (retransmitOutgoing now entries c).1).
Proof.
  induction entries as [|[packetId outMsg] entries IH]; intros c Hl Hm; [exact Hm |].
  cbn [retransmitOutgoing].
  pose proof (Hl packetId outMsg (or_introl eq_refl)) as Hhead.
  assert (Htail : ∀ p m, In (p, m) entries → 0 <= retryCount m <= MAX_QOS_RETRIES)
    by (intros p m Hin; apply (Hl p m); now right).
  destruct (QoS_TIMEOUT_MS <? _); [|now apply IH].
  destruct (Z.ltb_spec (retryCount outMsg) MAX_QOS_RETRIES) as [Hlt|Hge].
  - apply IH; [exact Htail |]. cbn. intros p m.
    destruct (decide (packetId = p)) as [<-|Hne].
    + rewrite lookup_insert_eq. intros [= <-].
      rewrite countRetry_retryCount by lia. lia.
    + rewrite lookup_insert_ne by exact Hne. apply Hm.
  - cbn. intros p m. destruct (decide (packetId = p)) as [<-|Hne].
    + now rewrite lookup_delete_eq.
    + rewrite lookup_delete_ne by exact Hne. apply Hm.
Qed.

(** A PUBREC for a QoS-2 message that awaits it moves the entry to the
    PUBREL phase and starts its retry count again at 0. *)
Lemma handlePubRec_restarts now i len_ b c outMsg :
  connectedMQTTClients b !! i = Some c →
  waitForBytes (client c) len_ = true →
  outgoingQoSMessages c !! (readPacketId (client c)).1 = Some outMsg →
  out_qos outMsg = 2 → out_state outMsg = 0 →
  ∃ c' sent,
    connectedMQTTClients (handlePubRec now i len_ b) !! i = Some c'
    ∧ outgoingQoSMessages c' !! (readPacketId (client c)).1 = Some sent
    ∧ retryCount sent = 0 ∧ timestampSent sent = now ∧ out_state sent = 1
    ∧ out_qos sent = 2.
Proof.
  intros Hc Hw Ho Hq Hs. unfold handlePubRec. rewrite Hc, Hw. cbn [negb].
  destruct (readPacketId (client c)) as [pid w]. cbn [fst] in *.
  cbn [outgoingQoSMessages set_client]. rewrite Ho, Hq, Hs.
  change ((2 =? 2) && (0 =? 0)) with true. cbv iota.
  rewrite update_client_lookup, Hc. cbn [fmap option_fmap option_map].
  eexists _, _. split; [reflexivity |]. cbn [outgoingQoSMessages set_outgoing].
  rewrite lookup_insert_eq. repeat split.
Qed.

Lemma inOrder_lookup {V} (m : gmap Z V) packetId v :
  In (packetId, v) (inOrder m) → m !! packetId = Some v.
Proof.
  unfold inOrder. intros Hin. apply list_elem_of_In in Hin.
  rewrite merge_sort_Permutation in Hin. now apply elem_of_map_to_list in Hin.
Qed.

(** *** Closing a session *)

(** A client whose TCP connection is gone is removed by [loop] with its
    subscriptions; nothing is published, whether or not it has a will. *)
Lemma loopClient_disconnected now i b c :
  connectedMQTTClients b !! i = Some c →
  connected (client c) = false →
  loopClient now i b = removeDisconnected i b
  ∧ serial (loopClient now i b) = serial b
  ∧ connectedMQTTClients (loopClient now i b) = delete i (connectedMQTTClients b).
Proof.
  intros Hc Hcon. unfold loopClient. rewrite Hc, Hcon. repeat split.
Qed.

(** When the retransmission budget of a message is used up,
    [processMQTTClient] closes the socket and publishes nothing. *)
Lemma processMQTTClient_exhausted now i b c :
  connectedMQTTClients b !! i = Some c →
  connected (client c) = true →
  (0 <? clientKeepAliveSec c)
  && (u32 (clientKeepAliveSec c * 1500) <? elapsed now (lastSeen c)) = false →
  (retransmitOutgoing now (inOrder (outgoingQoSMessages c)) c).2 = true →
  serial (processMQTTClient now i b) = serial b
  ∧ isConnected (processMQTTClient now i b) i = false.
Proof.
  intros Hc Hcon Hkeep Hret. unfold processMQTTClient. rewrite Hc, Hcon, Hkeep.
  cbn [negb]. 
  assert (Hstop : ∀ entries c0,
            (retransmitOutgoing now entries c0).2 = true →
            connected (client (retransmitOutgoing now entries c0).1) = false).
  { induction entries as [|[p m] entries IH]; intros c0; cbn [retransmitOutgoing].
    - discriminate.
    - destruct (QoS_TIMEOUT_MS <? _); [|apply IH].
      destruct (retryCount m <? MAX_QOS_RETRIES); [apply IH | reflexivity]. }
  specialize (Hstop (inOrder (outgoingQoSMessages c)) c Hret).
  destruct (retransmitOutgoing now (inOrder (outgoingQoSMessages c)) c) as [c' returned].
  cbn [fst snd] in *. subst returned.
  split; [apply update_client_serial |].
  unfold isConnected. rewrite update_client_lookup, Hc. exact Hstop.
Qed.

(** The keep-alive timeout is the one path that publishes the will. *)
Lemma processMQTTClient_keepAlive now i b c :
  connectedMQTTClients b !! i = Some c →
  connected (client c) = true →
  (0 <? clientKeepAliveSec c)
  && (u32 (clientKeepAliveSec c * 1500) <? elapsed now (lastSeen c)) = true →
  hasLWT c = true →
  deliveries (processMQTTClient now i b)
  = deliveries b
    ++ map (λ sub, (clientState sub, willTopic c, willMessage c, sub_qos sub, false))
         (receivers b (willTopic c)).
Proof.
  intros Hc Hcon Hkeep Hlwt. unfold processMQTTClient.
  rewrite Hc, Hcon, Hkeep, Hlwt. cbn [negb].
  rewrite update_client_deliveries. apply forward_deliveries.
Qed.

End QoSFacts.

(** ** Facts about the example broker and the broker with [removeClient] *)

Module ExampleFacts.
Import Arduino Topic ExampleBroker.

Lemma splitTopic_loop_scan (topic : string) :
  ∀ part parts,
    splitTopic_loop topic part parts
    = parts ++ match segments topic with
               | first :: others => (part +:+ first) :: others
               | [] => []
               end.
Proof.
  induction topic as [|c topic IH]; intros part parts; cbn [splitTopic_loop segments].
  - now rewrite TopicFacts.append_empty_r.
  - change "/"%char with slash. destruct (Ascii.eqb c slash).
    + rewrite IH, <- app_assoc. cbn [app].
      rewrite TopicFacts.append_empty_r.
      pose proof (TopicFacts.segments_nonempty topic).
      destruct (segments topic); [contradiction | reflexivity].
    + rewrite IH. pose proof (TopicFacts.segments_nonempty topic).
      destruct (segments topic) as [|first others]; [contradiction |].
      now rewrite TopicFacts.append_assoc.
Qed.

(** The three [splitTopic] of the repository return the same segments. *)
Lemma splitTopic_agree (topic : string) :
  ExampleBroker.splitTopic topic = Topic.splitTopic topic.
Proof.
  rewrite TopicFacts.splitTopic_segments. unfold ExampleBroker.splitTopic.
  rewrite splitTopic_loop_scan. pose proof (TopicFacts.segments_nonempty topic).
  destruct (segments topic); [contradiction | reflexivity].
Qed.

(** The matcher of the example broker takes the filter first and, unlike
    [Topic.topicMatches], wants a segment of the topic under a final [#]. *)
Lemma topicMatches_parent_of_wildcard :
  ExampleBroker.topicMatches "a/#" "a" = false
  ∧ Topic.topicMatches "a" "a/#" = true
  ∧ ExampleBroker.topicMatches "a/#" "a/b/c" = true
  ∧ ExampleBroker.topicMatches "a/+" "a/b" = true
  ∧ ExampleBroker.topicMatches "a/b/c" "a/b" = false.
Proof. vm_compute. repeat split. Qed.

(** The example broker retains an empty payload as it is. *)
Lemma retainOnPublish_empty (topic : string) (m : gmap string string) :
  retainOnPublish true topic "" m !! topic = Some "".
Proof. unfold retainOnPublish. apply lookup_insert_eq. Qed.

End ExampleFacts.

Module WebFacts.
Import Arduino WiFi WebBroker WebExamples.

(** After [S] has subscribed to [test], a QoS-1 PUBLISH of [P] with
    RETAIN=1 is forwarded to [S], retained, logged, and then acknowledged
    with PUBACK. *)
Lemma qos1_publish_distributed_then_acknowledged :
  let b := run (twoClients "test"
                ++ [Receive 1 ([0x33; 11; 0; 4] ++ bytes_of_String "test" ++ [0; 7]
                               ++ bytes_of_String "hi!");
                    Loop 3 None]) emptyBroker in
  map (tx ∘ client) (connectedMQTTClients b)
  = [[0x20; 0x02; 0x00; 0x00] ++ [0x90; 0x03; 0; 1; 0]
     ++ [0x31; 9; 0; 4] ++ bytes_of_String "test" ++ bytes_of_String "hi!";
     [0x20; 0x02; 0x00; 0x00] ++ [0x40; 0x02; 0; 7]]
  ∧ retainedMessages b !! "test" = Some "hi!"
  ∧ messageLog b = [{| msg_topic := "test"; msg_payload := "hi!"; msg_timestamp := 3 |}].
Proof. vm_compute. repeat split. Qed.

(** The will of [P] reaches [S] when the peer of [P] drops its
    connection. *)
Lemma will_published_on_tcp_drop :
  let b := run (twoClients "bye" ++ [PeerClose 1; Loop 3 None]) emptyBroker in
  map (tx ∘ client) (connectedMQTTClients b)
  = [[0x20; 0x02; 0x00; 0x00] ++ [0x90; 0x03; 0; 1; 0] ++ willPublish].
Proof. vm_compute. reflexivity. Qed.

(** A SUBSCRIBE with the filters [a] (QoS 1) and [b] (QoS 2) records both
    and is answered by [90 03 00 01 00]. *)
Lemma subscribe_two_filters_fixed_suback :
  let b := run [Loop 0 (Some connectSubscriber);
                Receive 0 [0x82; 10; 0; 1; 0; 1; 97; 1; 0; 1; 98; 2];
                Loop 2 None] emptyBroker in
  map (tx ∘ client) (connectedMQTTClients b)
  = [[0x20; 0x02; 0x00; 0x00] ++ [0x90; 0x03; 0; 1; 0]]
  ∧ map topicFilter (activeSubscriptions b) = ["a"; "b"].
Proof. vm_compute. repeat split. Qed.

End WebFacts.

(** ** Views of topics used to state the results *)

Module TopicViews.
Import Arduino Topic.

(** The segments put together again with a [/] between neighbours. *)
Fixpoint joinTopic (parts : list string) : string :=
  match parts with
  | [] => ""
  | [p] => p
  | p :: ps => p +:+ String slash (joinTopic ps)
  end.

(** The segment has no [/]. *)
Definition slashFree (seg : string) : bool :=
  match strchr slash seg with
  | None => true
  | Some _ => false
  end.

Definition isWildcard (seg : string) : bool :=
  String.eqb seg "+" || String.eqb seg "#".

(** No segment of the filter is [+] or [#]. *)
Definition wildcardFree (filter : string) : bool :=
  forallb (λ seg, negb (isWildcard seg)) (splitTopic filter).

(** No segment of the filter is [#]. *)
Definition hashFree (filter : string) : bool :=
  forallb (λ seg, negb (String.eqb seg "#")) (splitTopic filter).

End TopicViews.

(** ** Splitting and joining topics *)

Module TopicJoin.
Import Arduino Topic TopicFacts TopicViews.

Lemma joinTopic_cons (p q : string) (ps : list string) :
  joinTopic (p :: q :: ps) = p +:+ String slash (joinTopic (q :: ps)).
Proof. reflexivity. Qed.

Lemma joinTopic_String (c : ascii) (p : string) (ps : list string) :
  joinTopic (String c p :: ps) = String c (joinTopic (p :: ps)).
Proof. destruct ps; [reflexivity |]. now rewrite !joinTopic_cons, append_cons. Qed.

Lemma joinTopic_segments (s : string) : joinTopic (segments s) = s.
Proof.
  induction s as [|c s IH]; [reflexivity |]. cbn [segments].
  pose proof (segments_nonempty s) as Hne.
  destruct (Ascii.eqb_spec c slash) as [->|_].
  - destruct (segments s) as [|p ps] eqn:Hs; [contradiction |].
    rewrite joinTopic_cons, IH. reflexivity.
  - destruct (segments s) as [|p ps] eqn:Hs; [contradiction |].
    now rewrite joinTopic_String, IH.
Qed.

Lemma segments_slashFree (s : string) :
  Forall (λ seg, slashFree seg = true) (segments s).
Proof.
  induction s as [|c s IH]; cbn [segments]; [now repeat constructor |].
  destruct (Ascii.eqb_spec c slash) as [->|Hc].
  - constructor; [reflexivity | exact IH].
  - pose proof (segments_nonempty s) as Hne.
    destruct (segments s) as [|p ps]; [contradiction |].
    inversion IH as [|? ? Hp Hps]; subst. constructor; [|exact Hps].
    unfold slashFree in *. cbn [strchr].
    destruct (Ascii.eqb_spec c slash); [contradiction |].
    destruct (strchr slash p); [discriminate | reflexivity].
Qed.

Lemma segments_append_slash (a b : string) :
  segments (a +:+ String slash b) = segments a ++ segments b.
Proof.
  induction a as [|c a IH].
  - cbn [String.append segments]. change (String.append "" ?x) with x.
    cbn [segments]. now rewrite Ascii.eqb_refl.
  - rewrite append_cons. cbn [segments]. rewrite IH.
    pose proof (segments_nonempty a) as Hne.
    destruct (Ascii.eqb c slash); [reflexivity |].
    destruct (segments a) as [|p ps]; [contradiction | reflexivity].
Qed.

Lemma segments_joinTopic (parts : list string) :
  parts ≠ [] → Forall (λ seg, slashFree seg = true) parts →
  segments (joinTopic parts) = parts.
Proof.
  induction parts as [|p ps IH]; [contradiction |]. intros _ Hall.
  inversion Hall as [|? ? Hp Hps]; subst.
  assert (Hseg : segments p = [p]).
  { apply strchr_None_segments. unfold slashFree in Hp.
    destruct (strchr slash p); [discriminate | reflexivity]. }
  destruct ps as [|q ps]; [exact Hseg |].
  rewrite joinTopic_cons, segments_append_slash, Hseg, IH; [reflexivity | discriminate | exact Hps].
Qed.

Lemma splitTopic_inj (a b : string) : splitTopic a = splitTopic b → a = b.
Proof.
  rewrite !splitTopic_segments. intros H.
  rewrite <- (joinTopic_segments a), <- (joinTopic_segments b). now rewrite H.
Qed.

Lemma at_lookup (v : list string) (i : nat) :
  (i < length v)%nat → v !! i = Some (at_ v i).
Proof.
  intros Hi. unfold at_. destruct (lookup_lt_is_Some_2 v i Hi) as [x ->]. reflexivity.
Qed.

Lemma back_elem (v : list string) : v ≠ [] → back v ∈ v.
Proof.
  intros Hne. unfold back.
  destruct (last v) as [x|] eqn:Hl.
  - apply last_Some in Hl as [l' ->]. cbn. set_solver.
  - apply last_None in Hl. contradiction.
Qed.

(** A filter without wildcards matches its own topic and no other. *)
Lemma topicMatches_wildcardFree (topic filter : string) :
  wildcardFree filter = true →
  topicMatches topic filter = true ↔ topic = filter.
Proof.
  intros Hw. unfold wildcardFree in Hw. rewrite forallb_forall in Hw.
  assert (Hseg : ∀ seg, seg ∈ splitTopic filter → seg ≠ "+" ∧ seg ≠ "#").
  { intros seg Hin. apply list_elem_of_In, Hw in Hin. unfold isWildcard in Hin.
    destruct (String.eqb_spec seg "+"), (String.eqb_spec seg "#");
      try discriminate. now split. }
  assert (Hb : back (splitTopic filter) ≠ "#").
  { apply Hseg, back_elem, splitTopic_nonempty. }
  rewrite (topicMatches_exact topic filter Hb). split.
  - intros [Hlen Hall]. apply splitTopic_inj. apply list_eq. intros j.
    destruct (decide (j < length (splitTopic filter))%nat) as [Hj|Hj].
    + rewrite !at_lookup by lia. f_equal.
      destruct (Hall j Hj) as [Hp|He]; [|exact He].
      exfalso. refine (proj1 (Hseg (at_ (splitTopic filter) j) _) Hp).
      apply list_elem_of_lookup. exists j. now apply at_lookup.
    + rewrite !lookup_ge_None_2 by lia. reflexivity.
  - intros ->. split; [reflexivity |]. intros j _. now right.
Qed.

(** The segments of [pre/#]. *)
Lemma splitTopic_under (pre : string) :
  splitTopic (pre +:+ "/#") = splitTopic pre ++ ["#"].
Proof.
  rewrite !splitTopic_segments.
  change "/#" with (String slash "#"). now rewrite segments_append_slash.
Qed.

Lemma at_app_l (v w : list string) (j : nat) :
  (j < length v)%nat → at_ (v ++ w) j = at_ v j.
Proof. intros Hj. unfold at_. now rewrite lookup_app_l. Qed.

Lemma topicMatches_under (topic pre : string) :
  topicMatches topic (pre +:+ "/#") = true ↔
    (length (splitTopic pre) ≤ length (splitTopic topic))%nat
    ∧ ∀ j, (j < length (splitTopic pre))%nat →
           at_ (splitTopic pre) j = "+"
           ∨ at_ (splitTopic topic) j = at_ (splitTopic pre) j.
Proof.
  assert (Hne : pre +:+ "/#" ≠ "#").
  { intros H. apply (f_equal splitTopic) in H. rewrite splitTopic_under in H.
    change (splitTopic "#") with ["#"] in H.
    pose proof (splitTopic_nonempty pre).
    destruct (splitTopic pre) as [|? [|? ?]]; [contradiction | discriminate..]. }
  assert (Hb : back (splitTopic (pre +:+ "/#")) = "#").
  { rewrite splitTopic_under. unfold back. now rewrite last_snoc. }
  rewrite (topicMatches_prefix topic _ Hne Hb), splitTopic_under, length_app.
  cbn [length]. replace (length (splitTopic pre) + 1 - 1)%nat with (length (splitTopic pre)) by lia.
  split; intros [Hl H]; (split; [exact Hl |]); intros j Hj.
  - specialize (H j Hj). now rewrite at_app_l in H.
  - rewrite at_app_l by exact Hj. now apply H.
Qed.

End TopicJoin.

(** ** The matcher of the example broker *)

Module ExampleMatcher.
Import Arduino Topic TopicFacts TopicViews ExampleBroker.

Lemma eqb_sym (a b : string) : String.eqb a b = String.eqb b a.
Proof.
  destruct (String.eqb_spec a b) as [->|Hn]; [now rewrite String.eqb_refl |].
  destruct (String.eqb_spec b a) as [->|]; [contradiction | reflexivity].
Qed.

(** Without [#] among the segments it looks at, the loop of the example
    matcher falls through exactly when the topic is long enough and
    [matchParts] accepts the same segments. *)
Lemma topicMatches_loop_matchParts (n : nat) :
  ∀ i s p,
    (∀ j, (i ≤ j < i + n)%nat → at_ s j ≠ "#") →
    topicMatches_loop n i s p
    = if ((n =? 0)%nat || (i + n <=? length p)%nat) && matchParts n i p s
      then None else Some false.
Proof.
  induction n as [|n IH]; intros i s p Hh; [reflexivity |].
  cbn [topicMatches_loop matchParts Nat.eqb orb].
  destruct (Nat.leb_spec (length p) i) as [Hle|Hlt].
  - destruct (Nat.leb_spec (i + S n) (length p)); [lia | reflexivity].
  - destruct (String.eqb_spec (at_ s i) "#") as [Hx|_]; [now apply Hh in Hx; [|lia] |].
    assert (Hc : ((n =? 0)%nat || (S i + n <=? length p)%nat)
                 = (i + S n <=? length p)%nat).
    { destruct n; cbn [Nat.eqb orb].
      - destruct (Nat.leb_spec (i + 1) (length p)); [reflexivity | lia].
      - destruct (Nat.leb_spec (S i + S n) (length p)),
                 (Nat.leb_spec (i + S (S n)) (length p)); (reflexivity || lia). }
    destruct (String.eqb_spec (at_ s i) "+") as [Hp|Hp].
    + rewrite IH by (intros j Hj; apply Hh; lia). now rewrite Hc.
    + rewrite (eqb_sym (at_ p i)).
      destruct (String.eqb (at_ s i) (at_ p i)); cbn [negb].
      * rewrite IH by (intros j Hj; apply Hh; lia). now rewrite Hc.
      * now rewrite andb_false_r.
Qed.

Lemma topicMatches_hashFree (sub pub : string) :
  hashFree sub = true →
  ExampleBroker.topicMatches sub pub = Topic.topicMatches pub sub.
Proof.
  intros Hh. unfold hashFree in Hh. rewrite forallb_forall in Hh.
  assert (Hseg : ∀ seg, seg ∈ Topic.splitTopic sub → seg ≠ "#").
  { intros seg Hin. apply list_elem_of_In, Hh in Hin.
    destruct (String.eqb_spec seg "#"); [discriminate | assumption]. }
  unfold ExampleBroker.topicMatches, Topic.topicMatches.
  rewrite !ExampleFacts.splitTopic_agree.
  destruct (String.eqb_spec sub "#") as [->|_].
  { exfalso. apply (Hseg "#"); [|reflexivity].
    change (Topic.splitTopic "#") with ["#"]. set_solver. }
  destruct (String.eqb_spec (back (Topic.splitTopic sub)) "#") as [Hb|_].
  { exfalso. apply (Hseg (back (Topic.splitTopic sub))); [|exact Hb].
    apply TopicJoin.back_elem, splitTopic_nonempty. }
  rewrite andb_false_r.
  rewrite topicMatches_loop_matchParts.
  2:{ intros j Hj. apply Hseg. apply list_elem_of_lookup. exists j.
      apply TopicJoin.at_lookup. lia. }
  pose proof (splitTopic_nonempty sub) as Hne.
  set (s := Topic.splitTopic sub) in *. set (p := Topic.splitTopic pub).
  destruct (Nat.eqb_spec (length p) (length s)) as [He|He]; cbn [negb].
  - rewrite He, Nat.leb_refl, orb_true_r. cbn [andb Nat.add].
    destruct (matchParts (length s) 0 p s); [|reflexivity].
    apply Nat.eqb_refl.
  - destruct (((length s =? 0)%nat || (0 + length s <=? length p)%nat)
              && matchParts (length s) 0 p s); [|reflexivity].
    apply Nat.eqb_neq. lia.
Qed.

End ExampleMatcher.

(** ** Views of the Remaining Length digits *)

Module CodecViews.

(** The number a sequence of length bytes stands for in MQTT: seven
    bits a byte, the least significant byte first. *)
Fixpoint digitsValue (ds : list Z) : Z :=
  match ds with
  | [] => 0
  | d :: ds' => Z.land d 127 + 128 * digitsValue ds'
  end.

(** Every byte but the last has its continuation bit set, the last one
    has not, and all of them are bytes. *)
Fixpoint wellFormedDigits (ds : list Z) : bool :=
  match ds with
  | [] => false
  | [d] => (0 <=? d) && (d <? 128)
  | d :: ds' => (128 <=? d) && (d <? 256) && wellFormedDigits ds'
  end.

End CodecViews.

(** ** The Remaining Length encoder and decoder on their whole range *)

Module CodecRange.
Import Codec CodecFacts CodecViews.

Lemma encode_loop_value (room : nat) :
  ∀ v, (0 < room)%nat → 0 <= v < 128 ^ Z.of_nat room →
    ∃ ds, encode_loop room v [] = Some ds
          ∧ (length ds ≤ room)%nat
          ∧ digitsValue ds = v
          ∧ wellFormedDigits ds = true.
Proof.
  induction room as [|room IH]; intros v Hroom Hv; [lia |].
  rewrite Nat2Z.inj_succ, Z.pow_succ_r in Hv by lia.
  simpl encode_loop.
  rewrite Z.rem_mod_nonneg, Z.quot_div_nonneg by lia.
  pose proof (Z.mod_pos_bound v 128 ltac:(lia)) as Hd.
  pose proof (Z.div_mod v 128 ltac:(lia)) as Hdm.
  destruct (digit_bits _ Hd) as (Hlor & Hl127 & Hl128 & Hs127 & Hs128).
  destruct (Z.ltb_spec 0 (v / 128)) as [Hq|Hq].
  - destruct (IH (v / 128)) as (ds & Henc & Hlen & Hval & Hwf).
    { destruct room; [change (128 ^ Z.of_nat 0) with 1 in Hv |]; lia. }
    { split; [lia |]. apply Z.div_lt_upper_bound; lia. }
    rewrite encode_loop_app, Henc. simpl.
    exists (Z.lor (v mod 128) 128 :: ds).
    split; [reflexivity |]. split; [simpl; lia |]. split.
    + cbn [digitsValue]. rewrite Hlor, Hl127, Hval. lia.
    + cbn [wellFormedDigits]. destruct ds as [|d ds]; [discriminate |].
      rewrite Hwf, Hlor.
      destruct (Z.leb_spec 128 (v mod 128 + 128)); [|lia].
      destruct (Z.ltb_spec (v mod 128 + 128) 256); [reflexivity | lia].
  - assert (v / 128 = 0) as Hq0 by (pose proof (Z.div_pos v 128); lia).
    assert (v mod 128 = v) as Hvd by lia.
    exists [v mod 128].
    split; [reflexivity |]. split; [simpl; lia |]. split.
    + cbn [digitsValue]. rewrite Hs127. lia.
    + cbn [wellFormedDigits].
      destruct (Z.leb_spec 0 (v mod 128)); [|lia].
      destruct (Z.ltb_spec (v mod 128) 128); [reflexivity | lia].
Qed.

Lemma encode_loop_overflow (room : nat) :
  ∀ v enc, 128 ^ Z.of_nat room <= v → encode_loop room v enc = None.
Proof.
  induction room as [|room IH]; intros v enc Hv; [reflexivity |].
  rewrite Nat2Z.inj_succ, Z.pow_succ_r in Hv by lia.
  assert (Hp : 1 <= 128 ^ Z.of_nat room) by (apply Z.pow_le_mono_r with (b := 0); lia).
  simpl encode_loop. rewrite Z.quot_div_nonneg by lia.
  assert (Hq : 128 ^ Z.of_nat room <= v / 128) by (apply Z.div_le_lower_bound; lia).
  destruct (Z.ltb_spec 0 (v / 128)); [|lia].
  now apply IH.
Qed.

Lemma land_127_bound (x : Z) : 0 <= Z.land x 127 <= 127.
Proof.
  split; [apply Z.land_nonneg; lia |].
  destruct (Z.le_gt_cases (Z.land x 127) 127) as [H|H]; [exact H |].
  exfalso.
  assert (Hb : Z.land x 127 = Z.land (Z.land x 127) 127)
    by (now rewrite <- Z.land_assoc, Z.land_diag).
  assert (Hmod : Z.land (Z.land x 127) 127 = Z.land x 127 mod 2 ^ 7)
    by (apply (Z.land_ones _ 7); lia).
  pose proof (Z.mod_pos_bound (Z.land x 127) (2 ^ 7) ltac:(lia)).
  change (2 ^ 7) with 128 in *. lia.
Qed.

(** What [decodeRemainingLength] can answer and how much it reads. *)
Lemma decode_range (rx : list Z) :
  let '(value, rest) := decodeRemainingLength rx in
  (value = -1 ∨ 0 <= value < 128 * 128 * 128)
  ∧ ∃ taken, rx = taken ++ rest ∧ (length taken ≤ 4)%nat.
Proof.
  assert (Hstop : ∀ (taken rest : list Z) (value : Z),
             (length taken ≤ 4)%nat →
             value = -1 ∨ 0 <= value < 128 * 128 * 128 →
             (value = -1 ∨ 0 <= value < 128 * 128 * 128)
             ∧ ∃ taken', taken ++ rest = taken' ++ rest ∧ (length taken' ≤ 4)%nat).
  { intros taken rest value Hl Hv. split; [exact Hv |]. now exists taken. }
  unfold decodeRemainingLength.
  destruct rx as [|b1 rx]; [apply (Hstop [] []); [simpl; lia | now left] |].
  cbn [decode_loop]. pose proof (land_127_bound b1).
  change (128 * 128 * 128 <? 1 * 128) with false. cbv iota.
  destruct (Z.land b1 128 =? 0);
    [apply (Hstop [b1] rx); [simpl; lia | right; lia] |].
  destruct rx as [|b2 rx]; [apply (Hstop [b1] []); [simpl; lia | now left] |].
  cbn [decode_loop]. pose proof (land_127_bound b2).
  change (128 * 128 * 128 <? 1 * 128 * 128) with false. cbv iota.
  destruct (Z.land b2 128 =? 0);
    [apply (Hstop [b1; b2] rx); [simpl; lia | right; lia] |].
  destruct rx as [|b3 rx]; [apply (Hstop [b1; b2] []); [simpl; lia | now left] |].
  cbn [decode_loop]. pose proof (land_127_bound b3).
  change (128 * 128 * 128 <? 1 * 128 * 128 * 128) with false. cbv iota.
  destruct (Z.land b3 128 =? 0);
    [apply (Hstop [b1; b2; b3] rx); [simpl; lia | right; lia] |].
  destruct rx as [|b4 rx]; [apply (Hstop [b1; b2; b3] []); [simpl; lia | now left] |].
  cbn [decode_loop].
  change (128 * 128 * 128 <? 1 * 128 * 128 * 128 * 128) with true. cbv iota.
  apply (Hstop [b1; b2; b3; b4] rx); [simpl; lia | now left].
Qed.

End CodecRange.

(** ** What the readers of the QoS broker make of a stream *)

Module QoSWire.
Import Arduino Topic Codec WiFi QoSBroker QoSFacts.

#[local] Arguments sendMQTTPacket : simpl never.
#[local] Arguments publishBody : simpl never.
#[local] Arguments topicMatches : simpl never.
#[local] Arguments u16 : simpl never.
#[local] Arguments word : simpl never.
#[local] Arguments be16 : simpl never.

Lemma read_cons (x : Z) (l : list Z) (cn : bool) (t : list Z) :
  read {| connected := cn; rx := x :: l; tx := t |}
  = (x, {| connected := cn; rx := l; tx := t |}).
Proof. reflexivity. Qed.

Lemma read_be16 (x : Z) (l : list Z) (cn : bool) (t : list Z) :
  0 <= x < 65536 →
  ∃ msb lsb,
    be16 x = [msb; lsb] ∧ word msb lsb = x
    ∧ read {| connected := cn; rx := be16 x ++ l; tx := t |}
      = (msb, {| connected := cn; rx := lsb :: l; tx := t |}).
Proof.
  intros Hx. exists (Z.land (Z.shiftr x 8) 0xFF), (Z.land x 0xFF).
  split; [reflexivity |]. split; [now apply word_be16 | reflexivity].
Qed.

Lemma len_bytes (s : string) : Z.to_nat (len s) = length (bytes_of_String s).
Proof. rewrite length_bytes_of_String. unfold len. lia. Qed.

(** The characters of a buffer stop at its first NUL. *)
Lemma String_of_cstr_nul (s : string) (hidden : list Z) :
  noNul s = true → String_of_cstr (bytes_of_String s ++ 0 :: hidden) = s.
Proof.
  induction s as [|c s IH]; simpl; [reflexivity |].
  intros [Hc Hs]%andb_true_iff.
  destruct (Z.eqb_spec (byte_of_char c) 0) as [H0|_].
  - apply byte_of_char_zero in H0 as ->. discriminate.
  - now rewrite char_of_byte_of_char, IH.
Qed.

(** [readLengthPrefixedString] on a field that is complete. *)
Lemma readLengthPrefixedString_field (s : string) (rest : list Z) (cn : bool) (t : list Z) :
  noNul s = true → len s < 65536 →
  readLengthPrefixedString
    {| connected := cn; rx := be16 (len s) ++ bytes_of_String s ++ rest; tx := t |}
  = (s, {| connected := cn; rx := rest; tx := t |}).
Proof.
  intros Hs Hlen.
  assert (Hl : 0 <= len s < 65536) by (unfold len in *; lia).
  destruct (read_be16 (len s) (bytes_of_String s ++ rest) cn t Hl)
    as (msb & lsb & Hbe & Hword & Hread).
  unfold readLengthPrefixedString, waitForBytes. cbn [rx].
  rewrite Hread. rewrite Hbe. cbn [app length].
  destruct (Z.leb_spec 2 (Z.of_nat (S (S (length (bytes_of_String s ++ rest))))));
    [|lia].
  cbn [negb]. rewrite read_cons, Hword.
  destruct (Z.eqb_spec (len s) 0) as [H0|H0].
  - destruct s; [reflexivity | unfold len in H0; simpl in H0; lia].
  - cbn [rx]. rewrite length_app, length_bytes_of_String.
    destruct (Z.leb_spec (len s) (Z.of_nat (String.length s + length rest)));
      [|unfold len in *; lia].
    cbn [negb]. rewrite len_bytes, readBytes_app. now rewrite String_of_cstr_bytes.
Qed.

(** [readPublish] on a PUBLISH body with any payload bytes. *)
Lemma readPublish_raw qos topic (payloadBytes : list Z) pid rest cn t :
  noNul topic = true → len topic < 65536 → 0 <= pid < 65536 →
  let body := be16 (len topic) ++ bytes_of_String topic
              ++ (if 0 <? qos then be16 pid else []) ++ payloadBytes in
  readPublish qos (Z.of_nat (length body))
    {| connected := cn; rx := body ++ rest; tx := t |}
  = (topic, if 0 <? qos then pid else 0, String_of_cstr payloadBytes,
     {| connected := cn; rx := rest; tx := t |}).
Proof.
  intros Ht Hlt Hpid body.
  assert (Hlen : 0 <= len topic < 65536) by (unfold len in *; lia).
  assert (Hbody : Z.of_nat (length body) - (2 + len topic)
                  = (if 0 <? qos then 2 else 0) + Z.of_nat (length payloadBytes)).
  { unfold body. rewrite !length_app, !length_bytes_of_String.
    destruct (0 <? qos); unfold be16; cbn [length]; unfold len; lia. }
  remember (Z.of_nat (length body)) as L eqn:HL.
  unfold readPublish, body.
  destruct (read_be16 (len topic)
              ((bytes_of_String topic ++ (if 0 <? qos then be16 pid else [])
                ++ payloadBytes) ++ rest) cn t Hlen)
    as (msb & lsb & Hbe & Hword & Hread).
  rewrite <- !app_assoc. rewrite <- !app_assoc in Hread. rewrite Hread, read_cons, Hword.
  rewrite len_bytes, readBytes_app, String_of_cstr_bytes by exact Ht.
  rewrite Hbody.
  destruct (Z.ltb_spec 0 qos) as [Hq|Hq].
  - destruct (read_be16 pid (payloadBytes ++ rest) cn t Hpid)
      as (pmsb & plsb & Hpbe & Hpword & Hpread).
    rewrite <- ?app_assoc. rewrite Hpread, read_cons, Hpword, u16_small by exact Hpid.
    replace (2 + Z.of_nat (length payloadBytes) - 2) with (Z.of_nat (length payloadBytes))
      by lia.
    destruct (Z.ltb_spec 0 (Z.of_nat (length payloadBytes))) as [Hpos|Hzero].
    + now rewrite Nat2Z.id, readBytes_app.
    + destruct payloadBytes; [reflexivity | simpl in Hzero; lia].
  - cbn [app]. replace (0 + Z.of_nat (length payloadBytes)) with (Z.of_nat (length payloadBytes))
      by lia.
    destruct (Z.ltb_spec 0 (Z.of_nat (length payloadBytes))) as [Hpos|Hzero].
    + now rewrite Nat2Z.id, readBytes_app.
    + destruct payloadBytes; [reflexivity | simpl in Hzero; lia].
Qed.

End QoSWire.

(** ** Messages in flight from the QoS broker to a client *)

Module QoSInFlight.
Import Arduino Topic Codec WiFi QoSBroker QoSFacts.

#[local] Arguments sendMQTTPacket : simpl never.
#[local] Arguments publishBody : simpl never.
#[local] Arguments topicMatches : simpl never.
#[local] Arguments u16 : simpl never.
#[local] Arguments word : simpl never.
#[local] Arguments be16 : simpl never.

(** The entry [sendPublish] stores for a message it sends above QoS 0. *)
Definition queued (now : Z) (topic payload : string) (qos : Z) (retain : bool)
    (packetId : Z) : OutgoingMessage :=
  {| out_topic := topic; out_payload := payload; out_qos := qos; out_retain := retain;
     out_packetId := packetId; timestampSent := now; retryCount := 0; out_state := 0 |}.

(** The packet identifier after [packetId]: 65535 is followed by 1. *)
Definition nextId (packetId : Z) : Z :=
  if packetId =? 65535 then 1 else packetId + 1.

Lemma nextId_u16 (packetId : Z) :
  1 <= packetId <= 65535 →
  (if u16 (packetId + 1) =? 0 then 1 else u16 (packetId + 1)) = nextId packetId.
Proof.
  intros Hid. unfold nextId, u16. change (2 ^ 16) with 65536.
  destruct (Z.eqb_spec packetId 65535) as [->|Hne]; [reflexivity |].
  rewrite Z.mod_small by lia.
  destruct (Z.eqb_spec (packetId + 1) 0); [lia | reflexivity].
Qed.

Lemma sendPublish_above_qos0 now j topic payload qos retain b c :
  connectedMQTTClients b !! j = Some c →
  connected (client c) = true → 0 < qos →
  1 <= nextOutgoingPacketId c <= 65535 →
  connectedMQTTClients (sendPublish now j topic payload qos retain b) !! j
  = Some (set_client
            (sendMQTTPacket (client c) (publishHeader 0x30 qos retain)
               (publishBody topic payload qos (nextOutgoingPacketId c)))
            (set_outgoing
               (<[nextOutgoingPacketId c
                  := queued now topic payload qos retain (nextOutgoingPacketId c)]>
                  (outgoingQoSMessages c))
               (set_nextOutgoingPacketId (nextId (nextOutgoingPacketId c)) c))).
Proof.
  intros Hc Hcon Hq Hid. unfold sendPublish. rewrite Hc, Hcon. cbn [negb].
  destruct (Z.ltb_spec 0 qos); [|lia].
  rewrite nextId_u16 by exact Hid.
  cbn [connectedMQTTClients set_serial set_clients].
  rewrite list_lookup_insert_eq by (eapply lookup_lt_Some; eauto).
  reflexivity.
Qed.

Lemma sendPublish_at_qos0 now j topic payload qos retain b c :
  connectedMQTTClients b !! j = Some c →
  connected (client c) = true → qos <= 0 →
  connectedMQTTClients (sendPublish now j topic payload qos retain b) !! j
  = Some (set_client
            (sendMQTTPacket (client c) (publishHeader 0x30 qos retain)
               (publishBody topic payload qos 0)) c).
Proof.
  intros Hc Hcon Hq. unfold sendPublish. rewrite Hc, Hcon. cbn [negb].
  destruct (Z.ltb_spec 0 qos); [lia |].
  cbn [connectedMQTTClients set_serial set_clients].
  rewrite list_lookup_insert_eq by (eapply lookup_lt_Some; eauto).
  reflexivity.
Qed.

Lemma sendPublish_closed now j topic payload qos retain b c :
  connectedMQTTClients b !! j = Some c →
  connected (client c) = false →
  sendPublish now j topic payload qos retain b = b.
Proof. intros Hc Hcon. unfold sendPublish. now rewrite Hc, Hcon. Qed.

Lemma sendPublish_others now j topic payload qos retain b k :
  k ≠ j →
  connectedMQTTClients (sendPublish now j topic payload qos retain b) !! k
  = connectedMQTTClients b !! k.
Proof.
  intros Hne. unfold sendPublish.
  destruct (connectedMQTTClients b !! j) as [c|]; [|reflexivity].
  destruct (negb (connected (client c))); [reflexivity |].
  cbn [connectedMQTTClients set_serial set_clients].
  now rewrite list_lookup_insert_ne.
Qed.

(** The two reads of a packet identifier on any socket. *)
Lemma readPacketId_rx (w : WiFiClient) (packetId : Z) (rest : list Z) :
  rx w = be16 packetId ++ rest → 0 <= packetId < 65536 →
  readPacketId w
  = (packetId, {| connected := connected w; rx := rest; tx := tx w |}).
Proof.
  destruct w as [cn r t]. cbn [rx connected tx]. intros -> Hid.
  now apply readPacketId_be16.
Qed.

Lemma waitForBytes_be16 (w : WiFiClient) (packetId : Z) (rest : list Z) :
  rx w = be16 packetId ++ rest → waitForBytes w 2 = true.
Proof.
  intros Hrx. unfold waitForBytes. rewrite Hrx. unfold be16. cbn [app length].
  apply Z.leb_le. lia.
Qed.

(** [switch (packetType)] once the two leading bytes are read. *)
Lemma dispatch_switch now i b c h len_ rest :
  connectedMQTTClients b !! i = Some c →
  rx (client c) = h :: len_ :: rest →
  let b0 := update_client i
              (set_client {| connected := connected (client c); rx := rest;
                             tx := tx (client c) |}) b in
  dispatch now i b
  = (if Z.shiftr h 4 =? 1
     then update_client i (λ c, set_client (discard len_ (client c)) c) b0
     else if Z.shiftr h 4 =? 3 then handlePublish now i h len_ b0
     else if Z.shiftr h 4 =? 4 then handlePubAck i len_ b0
     else if Z.shiftr h 4 =? 5 then handlePubRec now i len_ b0
     else if Z.shiftr h 4 =? 6 then handlePubRel now i len_ b0
     else if Z.shiftr h 4 =? 7 then handlePubComp i len_ b0
     else if Z.shiftr h 4 =? 8 then handleSubscribe now i h len_ b0
     else if Z.shiftr h 4 =? 12 then handlePingReq now i b0
     else if Z.shiftr h 4 =? 14
     then update_client i (λ c, set_client (stop (client c)) c) b0
     else update_client i (λ c, set_client (stop (discard len_ (client c))) c) b0).
Proof.
  intros Hc Hrx. cbv zeta. unfold dispatch. rewrite Hc, Hrx.
  destruct (Z.leb_spec 2 (Z.of_nat (length (h :: len_ :: rest)))) as [_|Hbad];
    [|cbn [length] in Hbad; lia].
  unfold read. rewrite Hrx. cbn [rx connected tx]. reflexivity.
Qed.

Lemma set_outgoing_id (c : MQTTClientState) :
  set_outgoing (outgoingQoSMessages c) c = c.
Proof. now destruct c. Qed.

(** PUBACK and PUBCOMP erase the entry of their packet identifier, if
    there is one, and write nothing. *)
Lemma handlePubAck_erases i len_ b c packetId rest :
  connectedMQTTClients b !! i = Some c →
  waitForBytes (client c) len_ = true →
  rx (client c) = be16 packetId ++ rest → 0 <= packetId < 65536 →
  handlePubAck i len_ b
  = update_client i
      (λ _, set_outgoing (delete packetId (outgoingQoSMessages c))
              (set_client {| connected := connected (client c); rx := rest;
                             tx := tx (client c) |} c)) b.
Proof.
  intros Hc Hw Hrx Hid. unfold handlePubAck. rewrite Hc, Hw. cbn [negb].
  rewrite (readPacketId_rx _ _ _ Hrx Hid).
  cbn [outgoingQoSMessages set_client].
  destruct (outgoingQoSMessages c !! packetId) eqn:Hl; [reflexivity |].
  rewrite delete_id by exact Hl. f_equal.
Qed.

Lemma handlePubComp_erases i len_ b c packetId rest :
  connectedMQTTClients b !! i = Some c →
  waitForBytes (client c) len_ = true →
  rx (client c) = be16 packetId ++ rest → 0 <= packetId < 65536 →
  handlePubComp i len_ b
  = update_client i
      (λ _, set_outgoing (delete packetId (outgoingQoSMessages c))
              (set_client {| connected := connected (client c); rx := rest;
                             tx := tx (client c) |} c)) b.
Proof.
  intros Hc Hw Hrx Hid. unfold handlePubComp. rewrite Hc, Hw. cbn [negb].
  rewrite (readPacketId_rx _ _ _ Hrx Hid).
  cbn [outgoingQoSMessages set_client].
  destruct (outgoingQoSMessages c !! packetId) eqn:Hl; [reflexivity |].
  rewrite delete_id by exact Hl. f_equal.
Qed.

(** The entry after its PUBREC. *)
Definition released (now : Z) (outMsg : OutgoingMessage) : OutgoingMessage :=
  {| out_topic := out_topic outMsg; out_payload := out_payload outMsg;
     out_qos := out_qos outMsg; out_retain := out_retain outMsg;
     out_packetId := out_packetId outMsg; timestampSent := now; retryCount := 0;
     out_state := 1 |}.

Lemma handlePubRec_cases now i len_ b c packetId rest :
  connectedMQTTClients b !! i = Some c →
  waitForBytes (client c) len_ = true →
  rx (client c) = be16 packetId ++ rest → 0 <= packetId < 65536 →
  let w := {| connected := connected (client c); rx := rest; tx := tx (client c) |} in
  handlePubRec now i len_ b
  = update_client i
      (λ _, match outgoingQoSMessages c !! packetId with
            | Some outMsg =>
                if (out_qos outMsg =? 2) && (out_state outMsg =? 0)
                then set_outgoing (<[packetId := released now outMsg]>
                                     (outgoingQoSMessages c))
                       (set_client (sendPubRel w packetId) c)
                else set_client w c
            | None => set_client (sendPubRel w packetId) c
            end) b.
Proof.
  intros Hc Hw Hrx Hid. cbv zeta. unfold handlePubRec. rewrite Hc, Hw. cbn [negb].
  rewrite (readPacketId_rx _ _ _ Hrx Hid).
  cbn [outgoingQoSMessages set_client client].
  destruct (outgoingQoSMessages c !! packetId) as [outMsg|]; [|reflexivity].
  destruct ((out_qos outMsg =? 2) && (out_state outMsg =? 0)); reflexivity.
Qed.

End QoSInFlight.

Module QoSHandshake.
Import Arduino Topic Codec WiFi QoSBroker QoSFacts QoSInFlight.

#[local] Arguments sendMQTTPacket : simpl never.
#[local] Arguments publishBody : simpl never.
#[local] Arguments topicMatches : simpl never.
#[local] Arguments u16 : simpl never.
#[local] Arguments word : simpl never.
#[local] Arguments be16 : simpl never.

(** The client after [sendPublish] above QoS 0. *)
Definition sentTo (now : Z) (topic payload : string) (qos : Z) (retain : bool)
    (c : MQTTClientState) : MQTTClientState :=
  set_client
    (sendMQTTPacket (client c) (publishHeader 0x30 qos retain)
       (publishBody topic payload qos (nextOutgoingPacketId c)))
    (set_outgoing
       (<[nextOutgoingPacketId c
          := queued now topic payload qos retain (nextOutgoingPacketId c)]>
          (outgoingQoSMessages c))
       (set_nextOutgoingPacketId (nextId (nextOutgoingPacketId c)) c)).

Lemma sentTo_socket now topic payload qos retain c :
  connected (client (sentTo now topic payload qos retain c)) = connected (client c)
  ∧ rx (client (sentTo now topic payload qos retain c)) = rx (client c).
Proof.
  unfold sentTo. cbn [client set_client].
  split; [apply sendMQTTPacket_connected | apply sendMQTTPacket_rx].
Qed.

(** A PUBACK or PUBCOMP on the stream of a client, dispatched. *)
Lemma dispatch_ack now i b c h packetId rest :
  connectedMQTTClients b !! i = Some c →
  rx (client c) = [h; 2] ++ be16 packetId ++ rest →
  Z.shiftr h 4 = 4 ∨ Z.shiftr h 4 = 7 →
  0 <= packetId < 65536 →
  connectedMQTTClients (dispatch now i b) !! i
  = Some (set_outgoing (delete packetId (outgoingQoSMessages c))
            (set_client {| connected := connected (client c); rx := rest;
                           tx := tx (client c) |} c))
  ∧ (∀ k, k ≠ i → connectedMQTTClients (dispatch now i b) !! k
                  = connectedMQTTClients b !! k).
Proof.
  intros Hc Hrx Hh Hid.
  rewrite (dispatch_switch now i b c h 2 (be16 packetId ++ rest) Hc Hrx).
  set (w := {| connected := connected (client c); rx := be16 packetId ++ rest;
               tx := tx (client c) |}).
  assert (H0 : connectedMQTTClients (update_client i (set_client w) b) !! i
               = Some (set_client w c)) by (now rewrite update_client_lookup, Hc).
  assert (Hw : waitForBytes (client (set_client w c)) 2 = true)
    by (apply (waitForBytes_be16 _ packetId rest); reflexivity).
  destruct Hh as [Hh|Hh]; rewrite Hh; cbn [Z.eqb Pos.eqb].
  - rewrite (handlePubAck_erases i 2 _ (set_client w c) packetId rest H0 Hw eq_refl Hid).
    split; [now rewrite update_client_lookup, H0 |].
    intros k Hk. now rewrite !update_client_lookup_ne by congruence.
  - rewrite (handlePubComp_erases i 2 _ (set_client w c) packetId rest H0 Hw eq_refl Hid).
    split; [now rewrite update_client_lookup, H0 |].
    intros k Hk. now rewrite !update_client_lookup_ne by congruence.
Qed.

(** A PUBREC on the stream of a client, dispatched. *)
Lemma dispatch_pubrec now i b c packetId rest :
  connectedMQTTClients b !! i = Some c →
  rx (client c) = [0x50; 2] ++ be16 packetId ++ rest →
  0 <= packetId < 65536 →
  let w := {| connected := connected (client c); rx := rest; tx := tx (client c) |} in
  connectedMQTTClients (dispatch now i b) !! i
  = Some (match outgoingQoSMessages c !! packetId with
          | Some outMsg =>
              if (out_qos outMsg =? 2) && (out_state outMsg =? 0)
              then set_outgoing (<[packetId := released now outMsg]>
                                   (outgoingQoSMessages c))
                     (set_client (sendPubRel w packetId) c)
              else set_client w c
          | None => set_client (sendPubRel w packetId) c
          end)
  ∧ (∀ k, k ≠ i → connectedMQTTClients (dispatch now i b) !! k
                  = connectedMQTTClients b !! k).
Proof.
  intros Hc Hrx Hid. cbv zeta.
  rewrite (dispatch_switch now i b c 0x50 2 (be16 packetId ++ rest) Hc Hrx).
  change (Z.shiftr 0x50 4) with 5. cbn [Z.eqb Pos.eqb].
  set (w := {| connected := connected (client c); rx := be16 packetId ++ rest;
               tx := tx (client c) |}).
  assert (H0 : connectedMQTTClients (update_client i (set_client w) b) !! i
               = Some (set_client w c)) by (now rewrite update_client_lookup, Hc).
  assert (Hw : waitForBytes (client (set_client w c)) 2 = true)
    by (apply (waitForBytes_be16 _ packetId rest); reflexivity).
  pose proof (handlePubRec_cases now i 2 _ (set_client w c) packetId rest H0 Hw eq_refl Hid)
    as Hrec.
  cbv zeta in Hrec. rewrite Hrec. split.
  - rewrite update_client_lookup, H0. reflexivity.
  - intros k Hk. now rewrite !update_client_lookup_ne by congruence.
Qed.

End QoSHandshake.

(** ** One pass of [processMQTTClient] *)

Module QoSSession.
Import Arduino Topic Codec WiFi QoSBroker QoSFacts QoSInFlight.

#[local] Arguments sendMQTTPacket : simpl never.
#[local] Arguments publishBody : simpl never.
#[local] Arguments topicMatches : simpl never.
#[local] Arguments u16 : simpl never.
#[local] Arguments word : simpl never.
#[local] Arguments be16 : simpl never.

Lemma inOrder_empty {V} : inOrder (∅ : gmap Z V) = [].
Proof. unfold inOrder. now rewrite map_to_list_empty. Qed.

Lemma inOrder_singleton {V} (packetId : Z) (v : V) :
  inOrder ({[packetId := v]} : gmap Z V) = [(packetId, v)].
Proof. unfold inOrder. now rewrite map_to_list_singleton. Qed.

Lemma set_client_id (c : MQTTClientState) : set_client (client c) c = c.
Proof. now destruct c. Qed.

Lemma update_client_same i c b :
  connectedMQTTClients b !! i = Some c → update_client i (λ _, c) b = b.
Proof.
  intros Hc. unfold update_client. rewrite Hc, list_insert_id by exact Hc.
  now destruct b.
Qed.

(** The keep-alive test of [processMQTTClient]. *)
Definition keepAliveExpired (now : Z) (c : MQTTClientState) : bool :=
  (0 <? clientKeepAliveSec c)
  && (u32 (clientKeepAliveSec c * 1500) <? elapsed now (lastSeen c)).

Lemma processMQTTClient_expired now i b c :
  connectedMQTTClients b !! i = Some c →
  connected (client c) = true →
  keepAliveExpired now c = true →
  let b' := processMQTTClient now i b in
  deliveries b'
  = deliveries b
    ++ (if hasLWT c
        then map (λ sub, (clientState sub, willTopic c, willMessage c, sub_qos sub, false))
               (receivers b (willTopic c))
        else [])
  ∧ isConnected b' i = false
  ∧ retainedMessages b' = retainedMessages b
  ∧ messageLog b' = messageLog b
  ∧ activeSubscriptions b' = activeSubscriptions b.
Proof.
  intros Hc Hcon Hkeep. cbv zeta. unfold processMQTTClient.
  unfold keepAliveExpired in Hkeep. rewrite Hc, Hcon, Hkeep. cbn [negb].
  rewrite update_client_deliveries, update_client_retained, update_client_messageLog,
    update_client_subscriptions.
  assert (Hi : isConnected
                 (update_client i (λ c0, set_client (stop (client c0)) c0)
                    (if hasLWT c then forward now (willTopic c) (willMessage c) false b
                     else b)) i = false).
  { unfold isConnected. rewrite update_client_lookup.
    match goal with
    | |- context [connectedMQTTClients ?x !! i] => destruct (connectedMQTTClients x !! i)
    end; reflexivity. }
  split; [|split; [exact Hi |]].
  - destruct (hasLWT c); [apply forward_deliveries | now rewrite app_nil_r].
  - destruct (hasLWT c);
      [now rewrite forward_retained, forward_messageLog, forward_subscriptions | easy].
Qed.

Lemma processMQTTClient_idle now i b c :
  connectedMQTTClients b !! i = Some c →
  connected (client c) = true →
  keepAliveExpired now c = false →
  outgoingQoSMessages c = ∅ → incomingQoS2Messages c = ∅ →
  rx (client c) = [] →
  processMQTTClient now i b = b.
Proof.
  intros Hc Hcon Hkeep Hout Hinc Hrx. unfold processMQTTClient.
  unfold keepAliveExpired in Hkeep. rewrite Hc, Hcon, Hkeep. cbn [negb].
  rewrite Hout, inOrder_empty. cbn [retransmitOutgoing].
  rewrite Hinc, inOrder_empty. cbn [foldl].
  rewrite set_client_id, (update_client_same i c b Hc).
  unfold dispatch. now rewrite Hc, Hrx.
Qed.

(** The loop over [incomingQoS2Messages] for a single entry whose PUBREC
    is out: once the entry is older than the timeout, every pass sends
    the PUBREC again and leaves the entry as it is. *)
Lemma processMQTTClient_pubrec_again now i b c packetId inMsg :
  connectedMQTTClients b !! i = Some c →
  connected (client c) = true →
  keepAliveExpired now c = false →
  outgoingQoSMessages c = ∅ →
  incomingQoS2Messages c = {[packetId := inMsg]} →
  in_state inMsg = 1 →
  rx (client c) = [] →
  QoS_TIMEOUT_MS < elapsed now (timestampReceived inMsg) →
  processMQTTClient now i b
  = update_client i
      (λ _, set_client
              {| connected := true; rx := [];
                 tx := tx (client c) ++ 0x50 :: 2 :: be16 (in_packetId inMsg) |} c) b.
Proof.
  intros Hc Hcon Hkeep Hout Hinc Hst Hrx Hold. unfold processMQTTClient.
  unfold keepAliveExpired in Hkeep. rewrite Hc, Hcon, Hkeep. cbn [negb].
  rewrite Hout, inOrder_empty. cbn [retransmitOutgoing].
  rewrite Hinc, inOrder_singleton. cbn [foldl]. unfold resendAck. cbn [snd].
  destruct (Z.ltb_spec QoS_TIMEOUT_MS (elapsed now (timestampReceived inMsg))); [|lia].
  rewrite Hst. change (1 =? 1) with true. cbv iota.
  unfold sendPubRec. rewrite sendMQTTPacket_ack by exact Hcon. rewrite Hrx.
  unfold dispatch. rewrite update_client_lookup, Hc. cbn [fmap option_fmap option_map].
  cbn [client set_client rx length]. reflexivity.
Qed.

End QoSSession.

Module QoSPasses.
Import Arduino Topic Codec WiFi QoSBroker QoSFacts QoSInFlight QoSSession.

#[local] Arguments sendMQTTPacket : simpl never.
#[local] Arguments publishBody : simpl never.
#[local] Arguments topicMatches : simpl never.
#[local] Arguments u16 : simpl never.
#[local] Arguments word : simpl never.
#[local] Arguments be16 : simpl never.

(** Passes of [processMQTTClient] for the client at [i], one for every
    time of [nows]. *)
Definition passes (i : nat) (nows : list Z) (b : Broker) : Broker :=
  foldl (λ b now, processMQTTClient now i b) b nows.

Lemma passes_pubrec_again i packetId inMsg (nows : list Z) :
  ∀ b c,
    connectedMQTTClients b !! i = Some c →
    connected (client c) = true →
    clientKeepAliveSec c = 0 →
    outgoingQoSMessages c = ∅ →
    incomingQoS2Messages c = {[packetId := inMsg]} →
    in_state inMsg = 1 →
    rx (client c) = [] →
    Forall (λ now, QoS_TIMEOUT_MS < elapsed now (timestampReceived inMsg)) nows →
    connectedMQTTClients (passes i nows b) !! i
    = Some (set_client
              {| connected := true; rx := [];
                 tx := tx (client c)
                       ++ concat (map (λ _, 0x50 :: 2 :: be16 (in_packetId inMsg)) nows) |}
              c).
Proof.
  induction nows as [|now nows IH]; intros b c Hc Hcon Hka Hout Hinc Hst Hrx Hall.
  - cbn [passes foldl map concat]. rewrite Hc, app_nil_r. f_equal.
    destruct c as [[cn r t] ? ? ? ? ? ? ? ? ? ? ?]. cbn in *. now subst.
  - inversion Hall as [|? ? Hnow Hnows]; subst.
    change (passes i (now :: nows) b) with (passes i nows (processMQTTClient now i b)).
    cbn [map concat].
    assert (Hkeep : keepAliveExpired now c = false)
      by (unfold keepAliveExpired; now rewrite Hka).
    rewrite (processMQTTClient_pubrec_again now i b c packetId inMsg
               Hc Hcon Hkeep Hout Hinc Hst Hrx Hnow).
    set (c1 := set_client
                 {| connected := true; rx := [];
                    tx := tx (client c) ++ 0x50 :: 2 :: be16 (in_packetId inMsg) |} c).
    rewrite (IH (update_client i (λ _, c1) b) c1); try assumption; try reflexivity.
    + unfold c1. cbn [client set_client tx]. now rewrite <- app_assoc.
    + now rewrite update_client_lookup, Hc.
Qed.

End QoSPasses.

(** ** What refreshes [lastSeen] *)

Module QoSLastSeen.
Import Arduino Topic Codec WiFi QoSBroker QoSFacts QoSInFlight.

#[local] Arguments sendMQTTPacket : simpl never.
#[local] Arguments publishBody : simpl never.
#[local] Arguments topicMatches : simpl never.
#[local] Arguments u16 : simpl never.
#[local] Arguments word : simpl never.
#[local] Arguments be16 : simpl never.

(** The [lastSeen] of every client, in the order of the vector. *)
Definition lastSeens (b : Broker) : list Z := map lastSeen (connectedMQTTClients b).

Lemma insert_lastSeens (l : list MQTTClientState) i c c' :
  l !! i = Some c → lastSeen c' = lastSeen c →
  map lastSeen (<[i := c']> l) = map lastSeen l.
Proof.
  intros Hc Hl. rewrite list_fmap_insert. apply list_insert_id.
  now rewrite list_lookup_fmap, Hc, Hl.
Qed.

Lemma update_client_lastSeens i f b :
  (∀ c, connectedMQTTClients b !! i = Some c → lastSeen (f c) = lastSeen c) →
  lastSeens (update_client i f b) = lastSeens b.
Proof.
  intros Hf. unfold lastSeens, update_client.
  destruct (connectedMQTTClients b !! i) as [c|] eqn:Hc; [|reflexivity].
  cbn [connectedMQTTClients set_clients]. apply (insert_lastSeens _ i c); auto.
Qed.

Lemma update_client_const_lastSeens i c c' b :
  connectedMQTTClients b !! i = Some c → lastSeen c' = lastSeen c →
  lastSeens (update_client i (λ _, c') b) = lastSeens b.
Proof.
  intros Hc Hl. apply update_client_lastSeens. intros c0 Hc0.
  assert (c0 = c) as -> by congruence. exact Hl.
Qed.

Lemma sendPublish_lastSeens now j t p q r b :
  lastSeens (sendPublish now j t p q r b) = lastSeens b.
Proof.
  unfold sendPublish, lastSeens.
  destruct (connectedMQTTClients b !! j) as [c|] eqn:Hc; [|reflexivity].
  destruct (negb _); [reflexivity |].
  cbn [connectedMQTTClients set_serial set_clients].
  apply (insert_lastSeens _ j c _ Hc). now destruct (0 <? q).
Qed.

Lemma forward_lastSeens now t p r b :
  lastSeens (forward now t p r b) = lastSeens b.
Proof.
  unfold forward. generalize (activeSubscriptions b) as subs.
  intros subs. revert b. induction subs as [|sub subs IH]; intros b; [reflexivity |].
  cbn [foldl]. rewrite IH. unfold forwardTo.
  destruct (_ !! clientState sub) as [c|]; [|reflexivity].
  destruct (_ && _); [apply sendPublish_lastSeens | reflexivity].
Qed.

Lemma replay_lastSeens now i topic granted (kvs : list (string * string)) :
  ∀ b, lastSeens
         (foldl (λ b (kv : string * string),
                   if topicMatches kv.1 topic
                   then sendPublish now i kv.1 kv.2 granted true b else b) b kvs)
       = lastSeens b.
Proof.
  induction kvs as [|kv kvs IH]; intros b; [reflexivity |].
  cbn [foldl]. rewrite IH. destruct (topicMatches _ _); [|reflexivity].
  apply sendPublish_lastSeens.
Qed.

Lemma handlePublish_lastSeens now i header len_ b :
  lastSeens (handlePublish now i header len_ b) = lastSeens b.
Proof.
  unfold handlePublish. destruct (_ !! i) as [c|] eqn:Hc; [|reflexivity].
  destruct (negb _); [reflexivity |].
  destruct (readPublish _ _ _) as [[[topic pid] payload] w].
  destruct (_ && _).
  { now apply (update_client_const_lastSeens i c). }
  match goal with
  | |- context [update_client i (λ _, ?c') b] =>
      assert (H0 : lastSeens (update_client i (λ _, c') b) = lastSeens b)
  end.
  { apply update_client_lastSeens. intros c0 Hc0.
    assert (c0 = c) as -> by congruence.
    destruct (_ =? 1); [reflexivity |]. destruct (_ =? 2); reflexivity. }
  destruct (Z.land (Z.shiftr header 1) 3 =? 0); [|exact H0].
  rewrite forward_lastSeens.
  destruct (negb _); [unfold updateRetained; destruct (len payload =? 0) |]; exact H0.
Qed.

Lemma handlePubAck_lastSeens i len_ b :
  lastSeens (handlePubAck i len_ b) = lastSeens b.
Proof.
  unfold handlePubAck. destruct (_ !! i) as [c|] eqn:Hc; [|reflexivity].
  destruct (negb _); [reflexivity |].
  destruct (readPacketId _) as [pid w].
  apply update_client_lastSeens. intros c0 Hc0. assert (c0 = c) as -> by congruence.
  cbn [outgoingQoSMessages set_client]. now destruct (_ !! pid).
Qed.

Lemma handlePubComp_lastSeens i len_ b :
  lastSeens (handlePubComp i len_ b) = lastSeens b.
Proof.
  unfold handlePubComp. destruct (_ !! i) as [c|] eqn:Hc; [|reflexivity].
  destruct (negb _); [reflexivity |].
  destruct (readPacketId _) as [pid w].
  apply update_client_lastSeens. intros c0 Hc0. assert (c0 = c) as -> by congruence.
  cbn [outgoingQoSMessages set_client]. now destruct (_ !! pid).
Qed.

Lemma handlePubRec_lastSeens now i len_ b :
  lastSeens (handlePubRec now i len_ b) = lastSeens b.
Proof.
  unfold handlePubRec. destruct (_ !! i) as [c|] eqn:Hc; [|reflexivity].
  destruct (negb _); [reflexivity |].
  destruct (readPacketId _) as [pid w].
  apply update_client_lastSeens. intros c0 Hc0. assert (c0 = c) as -> by congruence.
  cbn [outgoingQoSMessages set_client].
  destruct (_ !! pid) as [o|]; [|reflexivity]. now destruct (_ && _).
Qed.

Lemma handlePubRel_lastSeens now i len_ b :
  lastSeens (handlePubRel now i len_ b) = lastSeens b.
Proof.
  unfold handlePubRel. destruct (_ !! i) as [c|] eqn:Hc; [|reflexivity].
  destruct (negb _); [reflexivity |].
  destruct (readPacketId _) as [pid w].
  assert (Hu : ∀ c', lastSeen c' = lastSeen c →
                     lastSeens (update_client i (λ _, c') b) = lastSeens b).
  { intros c' Hl. apply update_client_lastSeens. intros c0 Hc0.
    assert (c0 = c) as -> by congruence. exact Hl. }
  cbn [incomingQoS2Messages outgoingQoSMessages set_client].
  destruct (incomingQoS2Messages c !! pid) as [e|].
  - destruct (in_state e =? 1); [|now apply Hu].
    rewrite update_client_lastSeens by reflexivity.
    rewrite forward_lastSeens. unfold lastSeens, logMessage.
    cbn [connectedMQTTClients set_messageLog]. now apply Hu.
  - destruct (outgoingQoSMessages c !! pid) as [o|]; [destruct (_ && _) |]; now apply Hu.
Qed.

Lemma handleSubscribe_lastSeens now i header len_ b :
  lastSeens (handleSubscribe now i header len_ b) = lastSeens b.
Proof.
  unfold handleSubscribe. destruct (_ !! i) as [c|] eqn:Hc; [|reflexivity].
  destruct (negb _); [reflexivity |].
  destruct (read (client c)) as [a1 w1]. destruct (read w1) as [a2 w2].
  destruct (read w2) as [a3 w3]. destruct (read w3) as [a4 w4].
  destruct (readBytes _ w4) as [buf w5]. destruct (read w5) as [a6 w6].
  rewrite replay_lastSeens. unfold lastSeens.
  cbn [connectedMQTTClients set_subscriptions].
  apply update_client_lastSeens. intros c0 Hc0. assert (c0 = c) as -> by congruence.
  reflexivity.
Qed.

(** No packet other than a PINGREQ changes the [lastSeen] of a client. *)
Lemma dispatch_lastSeens now i b c h rest :
  connectedMQTTClients b !! i = Some c →
  rx (client c) = h :: rest →
  Z.shiftr h 4 ≠ 12 →
  lastSeens (dispatch now i b) = lastSeens b.
Proof.
  intros Hc Hrx Hh. destruct rest as [|len_ rest].
  { unfold dispatch. now rewrite Hc, Hrx. }
  rewrite (dispatch_switch now i b c h len_ rest Hc Hrx).
  match goal with
  | |- context [handlePublish now i h len_ ?x] =>
      assert (H0 : lastSeens x = lastSeens b)
        by (apply update_client_lastSeens; reflexivity);
      generalize dependent x; intros b0 H0
  end.
  destruct (Z.eqb_spec (Z.shiftr h 4) 12) as [|_]; [contradiction |].
  repeat match goal with
         | |- lastSeens (if ?x then _ else _) = _ => destruct x
         end;
    rewrite <- H0;
    first [ apply handlePublish_lastSeens | apply handlePubAck_lastSeens
          | apply handlePubRec_lastSeens | apply handlePubRel_lastSeens
          | apply handlePubComp_lastSeens | apply handleSubscribe_lastSeens
          | apply update_client_lastSeens; reflexivity ].
Qed.

(** A PINGREQ is answered and sets the [lastSeen] of its client. *)
Lemma dispatch_pingreq now i b c h len_ rest :
  connectedMQTTClients b !! i = Some c →
  connected (client c) = true →
  rx (client c) = h :: len_ :: rest →
  Z.shiftr h 4 = 12 →
  connectedMQTTClients (dispatch now i b) !! i
  = Some (set_lastSeen now
            (set_client {| connected := true; rx := rest;
                           tx := tx (client c) ++ [0xD0; 0x00] |} c)).
Proof.
  intros Hc Hcon Hrx Hh.
  rewrite (dispatch_switch now i b c h len_ rest Hc Hrx), Hh.
  cbn [Z.eqb Pos.eqb]. unfold handlePingReq.
  rewrite !update_client_lookup, Hc. cbn [fmap option_fmap option_map].
  unfold write. cbn [client set_client connected rx tx]. now rewrite Hcon.
Qed.

End QoSLastSeen.

(** ** The CONNECT branch of [loop] *)

Module QoSConnect.
Import Arduino Topic Codec WiFi QoSBroker QoSFacts QoSInFlight.

#[local] Arguments sendMQTTPacket : simpl never.
#[local] Arguments publishBody : simpl never.
#[local] Arguments topicMatches : simpl never.
#[local] Arguments u16 : simpl never.
#[local] Arguments word : simpl never.
#[local] Arguments be16 : simpl never.

Lemma readLengthPrefixedString_socket (w : WiFiClient) :
  connected (readLengthPrefixedString w).2 = connected w
  ∧ tx (readLengthPrefixedString w).2 = tx w.
Proof.
  unfold readLengthPrefixedString.
  destruct (negb (waitForBytes w 2)); [now split |].
  pose proof (read_connected w) as Hc1. pose proof (read_tx w) as Ht1.
  destruct (read w) as [a1 w1]. cbn [snd] in *.
  pose proof (read_connected w1) as Hc2. pose proof (read_tx w1) as Ht2.
  destruct (read w1) as [a2 w2]. cbn [snd] in *.
  destruct (word a1 a2 =? 0); [cbn [snd]; split; congruence |].
  destruct (negb (waitForBytes w2 (word a1 a2))); [cbn [snd]; split; congruence |].
  pose proof (readBytes_connected (Z.to_nat (word a1 a2)) w2) as Hc3.
  pose proof (readBytes_tx (Z.to_nat (word a1 a2)) w2) as Ht3.
  destruct (readBytes _ w2) as [buf w3]. cbn [snd] in *. split; congruence.
Qed.

(** The CONNECT branch when the byte it takes for the connect flags has
    the will, user name and password bits off. *)
Lemma connectClient_plain now c h rl (skipped : list Z) flagsRead keepMsb keepLsb rest :
  rx (client c) = h :: rl :: skipped ++ flagsRead :: keepMsb :: keepLsb :: rest →
  length skipped = 8%nat →
  Z.shiftr h 4 = 1 →
  rl <= Z.of_nat (length (skipped ++ flagsRead :: keepMsb :: keepLsb :: rest)) →
  connected (client c) = true →
  Z.land (Z.shiftr flagsRead 2) 0x01 = 0 →
  Z.land (Z.shiftr flagsRead 7) 0x01 = 0 →
  Z.land (Z.shiftr flagsRead 6) 0x01 = 0 →
  let w := {| connected := true; rx := rest; tx := tx (client c) |} in
  connectClient now c
  = {| client := write [0x20; 0x02; 0x00; 0x00] (readLengthPrefixedString w).2;
       clientId := (readLengthPrefixedString w).1;
       lastSeen := u32 (now + readLengthPrefixedStringTime w);
       willTopic := willTopic c; willMessage := willMessage c; hasLWT := hasLWT c;
       connectedACKSent := true; subscribedTopics := subscribedTopics c;
       clientKeepAliveSec := u16 (word keepMsb keepLsb);
       outgoingQoSMessages := outgoingQoSMessages c;
       incomingQoS2Messages := incomingQoS2Messages c;
       nextOutgoingPacketId := nextOutgoingPacketId c |}.
Proof.
  intros Hrx Hskip Hh Hrl Hcon Hwill Huser Hpass. cbv zeta.
  destruct skipped as [|s1 [|s2 [|s3 [|s4 [|s5 [|s6 [|s7 [|s8 [|? ?]]]]]]]]];
    try discriminate Hskip.
  unfold connectClient. rewrite Hrx, Hh. change (1 =? 1) with true. cbv iota.
  destruct c as [[cn r t] cid seen wt wm lwt ack subs ka out inc next].
  cbn [client connected rx tx] in *. subst cn r.
  unfold read at 1. cbn [rx connected tx]. unfold read at 1. cbn [rx connected tx].
  unfold waitForBytes. cbn [rx].
  destruct (Z.leb_spec rl
              (Z.of_nat (length ([s1; s2; s3; s4; s5; s6; s7; s8]
                                 ++ flagsRead :: keepMsb :: keepLsb :: rest))));
    [|lia].
  cbn [negb app readBytes]. unfold read, readInt. cbn [rx connected tx].
  rewrite Hwill, Huser, Hpass. change (0 =? 0) with true. cbn [negb].
  cbn [willTopic willMessage hasLWT subscribedTopics outgoingQoSMessages
       incomingQoS2Messages nextOutgoingPacketId].
  destruct (readLengthPrefixedString {| connected := true; rx := rest; tx := t |})
    as [id w']. reflexivity.
Qed.

Lemma readLengthPrefixedStringTime_cases (w : WiFiClient) :
  readLengthPrefixedStringTime w = 0 ∨ readLengthPrefixedStringTime w = 1001.
Proof.
  unfold readLengthPrefixedStringTime.
  destruct (negb (waitForBytes w 2)); [destruct (connected w); auto |].
  destruct (read w) as [a1 w1]. destruct (read w1) as [a2 w2].
  destruct (word a1 a2 =? 0); [auto |].
  destruct (negb (waitForBytes w2 (word a1 a2))); [destruct (connected w); auto | auto].
Qed.

Lemma small_byte_bits (a : Z) :
  0 <= a < 4 →
  Z.land (Z.shiftr a 2) 0x01 = 0 ∧ Z.land (Z.shiftr a 7) 0x01 = 0
  ∧ Z.land (Z.shiftr a 6) 0x01 = 0.
Proof.
  intros Ha.
  assert (a = 0 ∨ a = 1 ∨ a = 2 ∨ a = 3) as [->|[->|[->| ->]]] by lia;
    repeat split; reflexivity.
Qed.

Lemma be16_small (x : Z) :
  0 <= x < 65536 → be16 x = [x / 256; x mod 256].
Proof.
  intros Hx. unfold be16. change 0xFF with (Z.ones 8).
  rewrite !Z.land_ones, Z.shiftr_div_pow2 by lia. change (2 ^ 8) with 256.
  rewrite (Z.mod_small (x / 256)); [reflexivity |].
  split; [apply Z.div_pos; lia | apply Z.div_lt_upper_bound; lia].
Qed.

End QoSConnect.

(** ** The message log *)

Module QoSLog.
Import Arduino Topic Codec WiFi QoSBroker QoSFacts.

#[local] Arguments sendMQTTPacket : simpl never.
#[local] Arguments publishBody : simpl never.
#[local] Arguments topicMatches : simpl never.
#[local] Arguments u16 : simpl never.
#[local] Arguments word : simpl never.
#[local] Arguments be16 : simpl never.

Definition logBounded (b : Broker) : Prop := (length (messageLog b) ≤ 50)%nat.

Lemma logBounded_eq b b' :
  messageLog b' = messageLog b → logBounded b → logBounded b'.
Proof. unfold logBounded. now intros ->. Qed.

Lemma logMessage_bounded now t p b : logBounded b → logBounded (logMessage now t p b).
Proof.
  unfold logBounded, logMessage. cbn [messageLog set_messageLog]. intros Hb.
  destruct (Nat.ltb_spec 50 (length (messageLog b ++ [{| msg_topic := t; msg_payload := p;
                                                      msg_timestamp := now |}]))) as [Hl|Hl].
  - rewrite length_app in Hl. cbn [length] in Hl.
    destruct (messageLog b) as [|m l]; cbn [app tail length] in *; [lia |].
    rewrite length_app. cbn [length]. lia.
  - exact Hl.
Qed.

(** The entry [logMessage] appends is the last one of the log. *)
Lemma logMessage_last now t p b :
  last (messageLog (logMessage now t p b))
  = Some {| msg_topic := t; msg_payload := p; msg_timestamp := now |}.
Proof.
  unfold logMessage. cbn [messageLog set_messageLog].
  destruct (Nat.ltb_spec 50 (length (messageLog b ++ [{| msg_topic := t; msg_payload := p;
                                                      msg_timestamp := now |}]))) as [Hl|Hl];
    [|apply last_snoc].
  destruct (messageLog b) as [|m l]; cbn [app tail length] in *; [lia |].
  apply last_snoc.
Qed.

Lemma updateRetained_messageLog t p b :
  messageLog (updateRetained t p b) = messageLog b.
Proof. unfold updateRetained. now destruct (len p =? 0). Qed.

Lemma handlePublish_bounded now i header len_ b :
  logBounded b → logBounded (handlePublish now i header len_ b).
Proof.
  intros Hok. unfold handlePublish.
  destruct (_ !! i) as [c|]; [|exact Hok].
  destruct (negb _); [exact Hok |].
  destruct (readPublish _ _ _) as [[[topic pid] payload] w].
  destruct (_ && _).
  { apply (logBounded_eq b); [apply update_client_messageLog | exact Hok]. }
  match goal with
  | |- context [update_client i (λ _, ?c') b] =>
      assert (H0 : logBounded (update_client i (λ _, c') b))
        by (apply (logBounded_eq b); [apply update_client_messageLog | exact Hok]);
      generalize dependent (update_client i (λ _, c') b); intros b0 H0
  end.
  destruct (_ =? 0); [|exact H0].
  apply (logBounded_eq _ _ (forward_messageLog _ _ _ _ _)).
  destruct (negb _).
  - apply (logBounded_eq _ _ (updateRetained_messageLog _ _ _)).
    now apply logMessage_bounded.
  - now apply logMessage_bounded.
Qed.

Lemma handlePubRel_bounded now i len_ b :
  logBounded b → logBounded (handlePubRel now i len_ b).
Proof.
  intros Hok. unfold handlePubRel. destruct (_ !! i) as [c|]; [|exact Hok].
  destruct (negb _); [exact Hok |].
  destruct (readPacketId _) as [pid w].
  destruct (_ !! pid) as [e|].
  - destruct (in_state e =? 1).
    + apply (logBounded_eq _ _ (update_client_messageLog _ _ _)).
      apply (logBounded_eq _ _ (forward_messageLog _ _ _ _ _)).
      apply logMessage_bounded.
      apply (logBounded_eq b); [apply update_client_messageLog | exact Hok].
    + apply (logBounded_eq b); [apply update_client_messageLog | exact Hok].
  - destruct (_ !! pid) as [o|]; [destruct (_ && _) |];
      (apply (logBounded_eq b); [apply update_client_messageLog | exact Hok]).
Qed.

Lemma handlePubAck_messageLog i len_ b :
  messageLog (handlePubAck i len_ b) = messageLog b.
Proof.
  unfold handlePubAck. destruct (_ !! i) as [c|]; [|reflexivity].
  destruct (negb _); [reflexivity |].
  destruct (readPacketId _) as [pid w]. apply update_client_messageLog.
Qed.

Lemma handlePubComp_messageLog i len_ b :
  messageLog (handlePubComp i len_ b) = messageLog b.
Proof.
  unfold handlePubComp. destruct (_ !! i) as [c|]; [|reflexivity].
  destruct (negb _); [reflexivity |].
  destruct (readPacketId _) as [pid w]. apply update_client_messageLog.
Qed.

Lemma handlePubRec_messageLog now i len_ b :
  messageLog (handlePubRec now i len_ b) = messageLog b.
Proof.
  unfold handlePubRec. destruct (_ !! i) as [c|]; [|reflexivity].
  destruct (negb _); [reflexivity |].
  destruct (readPacketId _) as [pid w]. apply update_client_messageLog.
Qed.

Lemma replay_messageLog now i topic granted (kvs : list (string * string)) :
  ∀ b, messageLog
         (foldl (λ b (kv : string * string),
                   if topicMatches kv.1 topic
                   then sendPublish now i kv.1 kv.2 granted true b else b) b kvs)
       = messageLog b.
Proof.
  induction kvs as [|kv kvs IH]; intros b; [reflexivity |].
  cbn [foldl]. rewrite IH. destruct (topicMatches _ _); [|reflexivity].
  apply sendPublish_messageLog.
Qed.

Lemma handleSubscribe_messageLog now i header len_ b :
  messageLog (handleSubscribe now i header len_ b) = messageLog b.
Proof.
  unfold handleSubscribe. destruct (_ !! i) as [c|]; [|reflexivity].
  destruct (negb _); [reflexivity |].
  destruct (read (client c)) as [a1 w1]. destruct (read w1) as [a2 w2].
  destruct (read w2) as [a3 w3]. destruct (read w3) as [a4 w4].
  destruct (readBytes _ w4) as [buf w5]. destruct (read w5) as [a6 w6].
  rewrite replay_messageLog. cbn. apply update_client_messageLog.
Qed.

Lemma dispatch_bounded now i b : logBounded b → logBounded (dispatch now i b).
Proof.
  intros Hok. unfold dispatch. destruct (_ !! i) as [c|]; [|exact Hok].
  destruct (2 <=? _); [|exact Hok].
  destruct (read (client c)) as [h w1]. destruct (read w1) as [l w2].
  assert (Hok0 : logBounded (update_client i (set_client w2) b))
    by (apply (logBounded_eq b); [apply update_client_messageLog | exact Hok]).
  repeat match goal with
         | |- logBounded (if ?x then _ else _) => destruct x
         end;
    first [ now apply handlePublish_bounded
          | now apply handlePubRel_bounded
          | apply (logBounded_eq (update_client i (set_client w2) b)); [|exact Hok0];
            first [ apply update_client_messageLog | apply handlePubAck_messageLog
                  | apply handlePubRec_messageLog | apply handlePubComp_messageLog
                  | apply handleSubscribe_messageLog ] ].
Qed.

Lemma processMQTTClient_bounded now i b :
  logBounded b → logBounded (processMQTTClient now i b).
Proof.
  intros Hok. unfold processMQTTClient. destruct (_ !! i) as [c|]; [|exact Hok].
  destruct (negb _); [exact Hok |].
  destruct (_ && _).
  - apply (logBounded_eq b); [|exact Hok]. rewrite update_client_messageLog.
    destruct (hasLWT c); [apply forward_messageLog | reflexivity].
  - destruct (retransmitOutgoing _ _ _) as [c' returned]. destruct returned.
    + apply (logBounded_eq b); [apply update_client_messageLog | exact Hok].
    + apply dispatch_bounded.
      apply (logBounded_eq b); [apply update_client_messageLog | exact Hok].
Qed.

Lemma loopClient_bounded now i b : logBounded b → logBounded (loopClient now i b).
Proof.
  intros Hok. unfold loopClient. destruct (_ !! i) as [c|]; [|exact Hok].
  destruct (connected _); [destruct (negb _) |].
  - apply (logBounded_eq b); [apply update_client_messageLog | exact Hok].
  - now apply processMQTTClient_bounded.
  - exact Hok.
Qed.

Lemma loopClients_bounded now n : ∀ b, logBounded b → logBounded (loopClients now n b).
Proof.
  induction n as [|n IH]; intros b Hok; [exact Hok |].
  cbn [loopClients]. apply IH. now apply loopClient_bounded.
Qed.

Lemma step_bounded b e : logBounded b → logBounded (step b e).
Proof.
  intros Hok. destruct e as [i bytes|i|now accept]; cbn [step].
  - apply (logBounded_eq b); [apply update_client_messageLog | exact Hok].
  - apply (logBounded_eq b); [apply update_client_messageLog | exact Hok].
  - unfold loop. apply loopClients_bounded. destruct accept; exact Hok.
Qed.

Lemma run_bounded events : ∀ b, logBounded b → logBounded (run events b).
Proof.
  unfold run. induction events as [|e events IH]; intros b Hok; [exact Hok |].
  cbn [foldl]. apply IH. now apply step_bounded.
Qed.

End QoSLog.

(** ** Retained messages for a new subscriber *)

Module QoSReplay.
Import Arduino Topic Codec WiFi QoSBroker QoSFacts.

#[local] Arguments sendMQTTPacket : simpl never.
#[local] Arguments publishBody : simpl never.
#[local] Arguments topicMatches : simpl never.
#[local] Arguments u16 : simpl never.
#[local] Arguments word : simpl never.
#[local] Arguments be16 : simpl never.

Lemma replay_deliveries now i topic granted (kvs : list (string * string)) :
  ∀ b,
    isConnected b i = true →
    deliveries
      (foldl (λ b (kv : string * string),
                if topicMatches kv.1 topic
                then sendPublish now i kv.1 kv.2 granted true b else b) b kvs)
    = deliveries b
      ++ map (λ kv : string * string, (i, kv.1, kv.2, granted, true))
           (List.filter (λ kv : string * string, topicMatches kv.1 topic) kvs).
Proof.
  induction kvs as [|kv kvs IH]; intros b Hi; cbn [foldl List.filter map].
  - now rewrite app_nil_r.
  - destruct (topicMatches kv.1 topic).
    + rewrite IH by (now rewrite sendPublish_isConnected).
      rewrite sendPublish_deliveries, Hi. cbn [map]. now rewrite <- app_assoc.
    + now apply IH.
Qed.

Lemma retainedInOrder_elem (m : gmap string string) (topic payload : string) :
  (topic, payload) ∈ retainedInOrder m ↔ m !! topic = Some payload.
Proof.
  unfold retainedInOrder. rewrite merge_sort_Permutation.
  apply elem_of_map_to_list.
Qed.

Lemma retainedInOrder_NoDup (m : gmap string string) :
  NoDup (retainedInOrder m).*1.
Proof.
  unfold retainedInOrder. rewrite merge_sort_Permutation.
  apply NoDup_fst_map_to_list.
Qed.

Lemma handleSubscribe_replay now i header len_ b c
    packetIdMsb packetIdLsb filter requestedQoS more :
  connectedMQTTClients b !! i = Some c →
  connected (client c) = true →
  rx (client c)
  = [packetIdMsb; packetIdLsb] ++ be16 (len filter) ++ bytes_of_String filter
    ++ [requestedQoS] ++ more →
  waitForBytes (client c) len_ = true →
  noNul filter = true → len filter < 65536 →
  deliveries (handleSubscribe now i header len_ b)
  = deliveries b
    ++ map (λ kv : string * string, (i, kv.1, kv.2, grantQoS requestedQoS, true))
         (List.filter (λ kv : string * string, topicMatches kv.1 filter)
            (retainedInOrder (retainedMessages b))).
Proof.
  intros Hc Hcon Hrx Hw Hnul Hlen.
  assert (Hlen' : 0 <= len filter < 65536) by (unfold len in *; lia).
  remember (handleSubscribe now i header len_ b) as b' eqn:Hb'.
  unfold handleSubscribe in Hb'. rewrite Hc, Hw in Hb'. cbn [negb] in Hb'.
  destruct (client c) as [cn r t] eqn:Hcl. cbn [connected rx tx] in *. subst cn r.
  unfold be16 in Hb'. cbn [app] in Hb'.
  unfold read at 1 in Hb'. cbn [rx connected tx] in Hb'.
  unfold read at 1 in Hb'. cbn [rx connected tx] in Hb'.
  unfold read at 1 in Hb'. cbn [rx connected tx] in Hb'.
  unfold read at 1 in Hb'. cbn [rx connected tx] in Hb'.
  rewrite word_be16 in Hb' by exact Hlen'.
  replace (Z.to_nat (len filter)) with (length (bytes_of_String filter)) in Hb'
    by (rewrite length_bytes_of_String; unfold len; lia).
  rewrite readBytes_app, String_of_cstr_bytes in Hb' by exact Hnul.
  unfold read at 1 in Hb'. cbn [rx connected tx app] in Hb'.
  unfold write in Hb'. cbn [connected rx tx] in Hb'.
  set (c1 := set_subscribedTopics _ _) in Hb'.
  set (b1 := set_subscriptions _ _) in Hb'.
  assert (Hc1 : connectedMQTTClients b1 !! i = Some c1).
  { subst b1. cbn. now rewrite update_client_lookup, Hc. }
  assert (Hi : isConnected b1 i = true) by (unfold isConnected; now rewrite Hc1).
  assert (Hr : retainedMessages b1 = retainedMessages b)
    by (subst b1; cbn; apply update_client_retained).
  assert (Hd : deliveries b1 = deliveries b)
    by (subst b1; unfold deliveries; cbn; now rewrite update_client_serial).
  rewrite Hb', (replay_deliveries now i filter (grantQoS requestedQoS) _ b1 Hi), Hd, Hr.
  reflexivity.
Qed.

End QoSReplay.

(** ** The broker with [distributeMessage]: sockets and distribution *)

Module WebWire.
Import Arduino Topic Codec WiFi WebBroker.

#[local] Arguments topicMatches : simpl never.
#[local] Arguments u16 : simpl never.
#[local] Arguments word : simpl never.
#[local] Arguments be16 : simpl never.
#[local] Arguments encodeRemainingLength : simpl never.

(** The bytes of a QoS-0 PUBLISH as [sendPublish] writes them to a
    socket that has sent nothing yet. *)
Definition publishFrame (topic payload : string) (retain : bool) : list Z :=
  tx (sendPublish {| connected := true; rx := []; tx := [] |} topic payload 0 retain 0).

Lemma write_open (bytes : list Z) (cn := true) (r t : list Z) :
  write bytes {| connected := true; rx := r; tx := t |}
  = {| connected := true; rx := r; tx := t ++ bytes |}.
Proof. reflexivity. Qed.

Lemma sendPublish_body_length (topic payload : string) (qos packetId : Z) :
  (if 0 <? qos then 2 + len topic + len payload + 2 else 2 + len topic + len payload)
  = Z.of_nat (length (QoSBroker.publishBody topic payload qos packetId)).
Proof.
  unfold QoSBroker.publishBody. rewrite !length_app, !QoSFacts.length_bytes_of_String.
  unfold be16, len. destruct (0 <? qos); cbn [length]; lia.
Qed.

(** [sendPublish] of this sketch writes the packet that [sendPublish]
    of the QoS broker hands to [sendMQTTPacket]. *)
Lemma sendPublish_sendMQTTPacket (w : WiFiClient) (topic payload : string) (qos : Z)
    (retain : bool) (packetId : Z) :
  sendPublish w topic payload qos retain packetId
  = QoSBroker.sendMQTTPacket w (QoSBroker.publishHeader 0x30 qos retain)
      (QoSBroker.publishBody topic payload qos packetId).
Proof.
  unfold sendPublish, QoSBroker.sendMQTTPacket, QoSBroker.publishHeader.
  destruct w as [cn r t]. cbn [connected].
  destruct cn; [|reflexivity]. cbn [negb].
  rewrite (sendPublish_body_length topic payload qos packetId).
  destruct (encodeRemainingLength _) as [enc|]; [|reflexivity].
  unfold QoSBroker.publishBody.
  destruct retain; destruct (0 <? qos); rewrite !write_open; f_equal;
    now rewrite <- ?app_assoc, ?app_nil_r.
Qed.

Lemma sendPublish_open (r t : list Z) (topic payload : string) (retain : bool) :
  sendPublish {| connected := true; rx := r; tx := t |} topic payload 0 retain 0
  = {| connected := true; rx := r; tx := t ++ publishFrame topic payload retain |}.
Proof.
  unfold publishFrame, sendPublish. cbn [connected negb].
  change (0 <? 0) with false. cbv iota.
  destruct (encodeRemainingLength _) as [enc|].
  - destruct retain; rewrite !write_open; cbn [tx app]; f_equal;
      now rewrite <- ?app_assoc.
  - cbn [tx]. now rewrite app_nil_r.
Qed.

Lemma web_update_client_lookup i f b :
  connectedMQTTClients (update_client i f b) !! i = f <$> connectedMQTTClients b !! i.
Proof.
  unfold update_client. destruct (connectedMQTTClients b !! i) as [c|] eqn:Hc; simpl.
  - apply list_lookup_insert_eq. eapply lookup_lt_Some; eauto.
  - now rewrite Hc.
Qed.

Lemma web_update_client_lookup_ne i j f b :
  i ≠ j →
  connectedMQTTClients (update_client i f b) !! j = connectedMQTTClients b !! j.
Proof.
  intros Hne. unfold update_client.
  destruct (connectedMQTTClients b !! i); [|reflexivity].
  simpl. now apply list_lookup_insert_ne.
Qed.

Lemma web_update_client_subscriptions i f b :
  activeSubscriptions (update_client i f b) = activeSubscriptions b.
Proof. unfold update_client. now destruct (_ !! i). Qed.

Lemma web_update_client_retained i f b :
  retainedMessages (update_client i f b) = retainedMessages b.
Proof. unfold update_client. now destruct (_ !! i). Qed.

Lemma web_update_client_messageLog i f b :
  messageLog (update_client i f b) = messageLog b.
Proof. unfold update_client. now destruct (_ !! i). Qed.

Lemma update_client_pendingQoS2 i f b :
  pendingQoS2 (update_client i f b) = pendingQoS2 b.
Proof. unfold update_client. now destruct (_ !! i). Qed.

(** The subscriptions of the client at [k] that match [topic]. *)
Definition matching (k : nat) (topic : string) (subs : list ActiveSubscription)
    : list ActiveSubscription :=
  List.filter (λ sub, Nat.eqb (clientState sub) k && topicMatches topic (topicFilter sub))
    subs.

(** What is kept by the forwarding loop, and what a connected client
    receives from it. *)
Lemma web_foldl_forwardTo topic payload retain (subs : list ActiveSubscription) :
  ∀ b,
    let b' := foldl (forwardTo topic payload retain) b subs in
    activeSubscriptions b' = activeSubscriptions b
    ∧ retainedMessages b' = retainedMessages b
    ∧ messageLog b' = messageLog b
    ∧ pendingQoS2 b' = pendingQoS2 b
    ∧ ∀ k c,
        connectedMQTTClients b !! k = Some c →
        connectedMQTTClients b' !! k
        = Some (if connected (client c)
                then set_client
                       {| connected := true; rx := rx (client c);
                          tx := tx (client c)
                                ++ concat (map (λ _, publishFrame topic payload retain)
                                             (matching k topic subs)) |} c
                else c).
Proof.
  induction subs as [|sub subs IH]; intros b; cbv zeta.
  - cbn [foldl matching List.filter map concat]. repeat (split; [reflexivity |]).
    intros k c Hc. rewrite Hc. f_equal. rewrite app_nil_r.
    destruct c as [[cn r t] ? ? ? ? ? ?]. cbn. now destruct cn.
  - cbn [foldl].
    destruct (IH (forwardTo topic payload retain b sub)) as (Hs & Hr & Hl & Hp & Hk).
    assert (Hframe : activeSubscriptions (forwardTo topic payload retain b sub)
                     = activeSubscriptions b
                     ∧ retainedMessages (forwardTo topic payload retain b sub)
                       = retainedMessages b
                     ∧ messageLog (forwardTo topic payload retain b sub) = messageLog b
                     ∧ pendingQoS2 (forwardTo topic payload retain b sub) = pendingQoS2 b).
    { unfold forwardTo. destruct (_ !! clientState sub) as [c0|]; [|easy].
      destruct (_ && _); [|easy].
      now rewrite web_update_client_subscriptions, web_update_client_retained,
        web_update_client_messageLog, update_client_pendingQoS2. }
    destruct Hframe as (Hs1 & Hr1 & Hl1 & Hp1).
    split; [congruence |]. split; [congruence |]. split; [congruence |].
    split; [congruence |].
    intros k c Hc. unfold matching. cbn [List.filter]. fold (matching k topic subs).
    destruct (Nat.eqb_spec (clientState sub) k) as [Hk1|Hk1]; cbn [andb].
    + destruct (topicMatches topic (topicFilter sub)) eqn:Hm.
      * destruct (connected (client c)) eqn:Hcon.
        -- assert (H1 : connectedMQTTClients (forwardTo topic payload retain b sub) !! k
                        = Some (set_client
                                  {| connected := true; rx := rx (client c);
                                     tx := tx (client c)
                                           ++ publishFrame topic payload retain |} c)).
           { unfold forwardTo. rewrite Hk1, Hc, Hcon, Hm. cbn [andb].
             rewrite web_update_client_lookup, Hc. cbn [fmap option_fmap option_map].
             do 2 f_equal. destruct (client c) as [cn r t]. cbn in Hcon. subst cn.
             apply sendPublish_open. }
           rewrite (Hk k _ H1). cbn [client set_client connected rx tx map concat].
           rewrite <- app_assoc. reflexivity.
        -- assert (H1 : connectedMQTTClients (forwardTo topic payload retain b sub) !! k
                        = Some c).
           { unfold forwardTo. rewrite Hk1, Hc, Hcon. exact Hc. }
           rewrite (Hk k _ H1), Hcon. reflexivity.
      * assert (H1 : connectedMQTTClients (forwardTo topic payload retain b sub) !! k
                     = Some c).
        { unfold forwardTo. rewrite Hk1, Hc, Hm, andb_false_r. exact Hc. }
        now rewrite (Hk k _ H1).
    + assert (H1 : connectedMQTTClients (forwardTo topic payload retain b sub) !! k
                   = Some c).
      { unfold forwardTo. destruct (_ !! clientState sub) as [c0|]; [|exact Hc].
        destruct (_ && _); [|exact Hc]. now rewrite web_update_client_lookup_ne. }
      now rewrite (Hk k _ H1).
Qed.

Lemma web_updateRetained_lookup topic payload b :
  retainedMessages (updateRetained topic payload b) !! topic
  = (if len payload =? 0 then None else Some payload).
Proof.
  unfold updateRetained. destruct (len payload =? 0); cbn [retainedMessages set_retained].
  - apply lookup_delete_eq.
  - apply lookup_insert_eq.
Qed.

End WebWire.

(** ** The broker with [distributeMessage]: handlers *)

Module WebHandlers.
Import Arduino Topic Codec WiFi WebBroker WebWire.

#[local] Arguments topicMatches : simpl never.
#[local] Arguments u16 : simpl never.
#[local] Arguments word : simpl never.
#[local] Arguments be16 : simpl never.
#[local] Arguments encodeRemainingLength : simpl never.
#[local] Arguments distributeMessage : simpl never.
#[local] Arguments pendingKey : simpl never.

Lemma readWord_be16 (x : Z) (rest : list Z) (cn : bool) (t : list Z) :
  0 <= x < 65536 →
  readWord {| connected := cn; rx := be16 x ++ rest; tx := t |}
  = (x, {| connected := cn; rx := rest; tx := t |}).
Proof.
  intros Hx. unfold readWord, readInt, be16. cbn [app rx connected tx].
  now rewrite QoSFacts.word_be16.
Qed.

Lemma readWord_cons (msb lsb : Z) (rest : list Z) (cn : bool) (t : list Z) :
  readWord {| connected := cn; rx := msb :: lsb :: rest; tx := t |}
  = (word msb lsb, {| connected := cn; rx := rest; tx := t |}).
Proof. reflexivity. Qed.

(** [handlePublish] once the packet is read: what is done with the
    topic, the packet identifier and the payload. *)
Definition published (now : Z) (i : nat) (header : Z) (c : MQTTClientState)
    (topic payload : string) (packetId : Z) (w : WiFiClient) (b : Broker) : Broker :=
  let qos := Z.land (Z.shiftr header 1) 0x03 in
  let retain := negb (Z.land header 0x01 =? 0) in
  let dup := negb (Z.land (Z.shiftr header 3) 0x01 =? 0) in
  if qos =? 2 then
    let w := write ([0x50; 0x02] ++ be16 packetId) w in
    let key := pendingKey c packetId in
    let b := update_client i (λ _, set_client w c) b in
    match dup, pendingQoS2 b !! key with
    | true, Some _ => b
    | _, _ =>
        set_pendingQoS2
          (<[key := {| q2_topic := topic; q2_payload := payload |}]> (pendingQoS2 b)) b
    end
  else
    let b := update_client i (λ _, set_client w c) b in
    let b := distributeMessage now topic payload retain b in
    if qos =? 1 then
      update_client i
        (λ c, set_client (write ([0x40; 0x02] ++ be16 packetId) (client c)) c) b
    else b.

Lemma handlePublish_parsed now i header b c topic payload pid rest :
  let qos := Z.land (Z.shiftr header 1) 0x03 in
  connectedMQTTClients b !! i = Some c →
  rx (client c) = QoSBroker.publishBody topic payload qos pid ++ rest →
  QoSFacts.noNul topic = true → QoSFacts.noNul payload = true →
  len topic < 65536 → 0 <= pid < 65536 →
  handlePublish now i header
    (Z.of_nat (length (QoSBroker.publishBody topic payload qos pid))) b
  = published now i header c topic payload (if 0 <? qos then pid else 0)
      {| connected := connected (client c); rx := rest; tx := tx (client c) |} b.
Proof.
  intros qos Hc Hrx Ht Hp Hlt Hpid.
  assert (Hlen : 0 <= len topic < 65536) by (unfold len in *; lia).
  pose proof (sendPublish_body_length topic payload qos pid) as HL.
  unfold handlePublish, published. fold qos. rewrite Hc.
  unfold waitForBytes. rewrite Hrx, length_app.
  destruct (Z.leb_spec (Z.of_nat (length (QoSBroker.publishBody topic payload qos pid)))
              (Z.of_nat (length (QoSBroker.publishBody topic payload qos pid)
                         + length rest))); [|lia].
  cbn [negb]. rewrite <- HL.
  destruct (client c) as [cn r t]. cbn [rx connected tx] in *. subst r.
  unfold QoSBroker.publishBody. rewrite <- !app_assoc, readWord_be16 by exact Hlen.
  destruct (Z.ltb_spec (len topic) 0); [lia |].
  assert (Hroom : ((if 0 <? qos then 2 + len topic + len payload + 2
                    else 2 + len topic + len payload) - 2 <? len topic) = false).
  { apply Z.ltb_ge. unfold len. destruct (0 <? qos); lia. }
  rewrite Hroom. cbn [orb].
  rewrite QoSWire.len_bytes, QoSFacts.readBytes_app, QoSFacts.String_of_cstr_bytes
    by exact Ht.
  destruct (Z.ltb_spec 0 qos) as [Hq|Hq].
  - destruct (Z.ltb_spec (2 + len topic + len payload + 2 - (2 + len topic)) 2);
      [unfold len in *; lia |].
    cbn [andb]. rewrite readWord_be16, QoSFacts.u16_small by exact Hpid.
    replace (2 + len topic + len payload + 2 - (2 + len topic) - 2) with (len payload)
      by lia.
    destruct (Z.ltb_spec 0 (len payload)) as [Hpos|Hzero].
    + rewrite QoSWire.len_bytes, QoSFacts.readBytes_app,
        QoSFacts.String_of_cstr_bytes by exact Hp. reflexivity.
    + destruct payload; [reflexivity | unfold len in Hzero; simpl in Hzero; lia].
  - cbn [andb app].
    replace (2 + len topic + len payload - (2 + len topic)) with (len payload) by lia.
    destruct (Z.ltb_spec 0 (len payload)) as [Hpos|Hzero].
    + rewrite QoSWire.len_bytes, QoSFacts.readBytes_app,
        QoSFacts.String_of_cstr_bytes by exact Hp. reflexivity.
    + destruct payload; [reflexivity | unfold len in Hzero; simpl in Hzero; lia].
Qed.

(** The packet loop of [loop] for a client with a whole fixed header on
    its stream and a Remaining Length of one byte. *)
Lemma loopClient_frame now i b c header len_ rest :
  connectedMQTTClients b !! i = Some c →
  connected (client c) = true →
  rx (client c) = header :: len_ :: rest →
  0 <= len_ < 128 →
  let b0 := update_client i
              (λ _, set_lastSeen now
                      (set_client {| connected := true; rx := rest; tx := tx (client c) |} c))
              b in
  let packetType := Z.land (Z.shiftr header 4) 0x0F in
  loopClient now i b
  = (if packetType =? 3 then handlePublish now i header len_ b0
     else if packetType =? 8 then handleSubscribe i header len_ b0
     else if packetType =? 12 then handlePingReq i b0
     else if packetType =? 14 then handleDisconnect i b0
     else if packetType =? 4 then handleAck i b0
     else if packetType =? 5 then handleAck i b0
     else if packetType =? 6 then handlePubRel now i len_ b0
     else if packetType =? 7 then handleAck i b0
     else update_client i (λ c, set_client (stop (client c)) c) b0,
     false).
Proof.
  intros Hc Hcon Hrx Hlen. cbv zeta. unfold loopClient. rewrite Hc, Hcon, Hrx.
  unfold decodeRemainingLength. cbn [decode_loop].
  destruct (CodecFacts.digit_bits len_ Hlen) as (_ & _ & _ & H127 & H128).
  rewrite H127, H128. change (128 * 128 * 128 <? 1 * 128) with false.
  change (0 =? 0) with true. cbv iota.
  replace (0 + len_ * 1) with len_ by lia.
  destruct (Z.eqb_spec len_ (-1)); [lia |]. reflexivity.
Qed.

Lemma distributeMessage_frame now topic payload retain b :
  messageLog (distributeMessage now topic payload retain b)
  = messageLog (logMessage now topic payload b)
  ∧ retainedMessages (distributeMessage now topic payload retain b)
    = retainedMessages (if retain then updateRetained topic payload b else b)
  ∧ pendingQoS2 (distributeMessage now topic payload retain b) = pendingQoS2 b
  ∧ activeSubscriptions (distributeMessage now topic payload retain b)
    = activeSubscriptions b.
Proof.
  unfold distributeMessage.
  match goal with
  | |- context [foldl ?f ?b0 ?subs] =>
      destruct (web_foldl_forwardTo topic payload retain subs b0) as (Hs & Hr & Hl & Hp & _)
  end.
  cbv zeta in Hs, Hr, Hl, Hp. rewrite Hs, Hr, Hl, Hp.
  unfold updateRetained. destruct retain; [destruct (len payload =? 0) |]; repeat split.
Qed.

(** [handlePubRel] on a stream that starts with a packet identifier. *)
Lemma handlePubRel_parsed now i len_ b c packetId rest :
  connectedMQTTClients b !! i = Some c →
  connected (client c) = true →
  rx (client c) = be16 packetId ++ rest → 0 <= packetId < 65536 →
  let b1 := update_client i
              (λ _, set_client
                      {| connected := true; rx := rest;
                         tx := tx (client c) ++ [0x70; 0x02] ++ be16 packetId |} c) b in
  handlePubRel now i len_ b
  = match pendingQoS2 b !! pendingKey c packetId with
    | Some msg =>
        let b2 := distributeMessage now (q2_topic msg) (q2_payload msg) false b1 in
        set_pendingQoS2 (delete (pendingKey c packetId) (pendingQoS2 b2)) b2
    | None => b1
    end.
Proof.
  intros Hc Hcon Hrx Hid. cbv zeta. unfold handlePubRel. rewrite Hc.
  unfold waitForBytes. rewrite Hrx. unfold be16 at 1. cbn [app length].
  destruct (Z.leb_spec 2 (Z.of_nat (S (S (length rest))))); [|lia]. cbn [negb].
  destruct (client c) as [cn r t]. cbn [rx connected tx] in *. subst cn r.
  rewrite readWord_be16, QoSFacts.u16_small by exact Hid.
  rewrite write_open, update_client_pendingQoS2. reflexivity.
Qed.

End WebHandlers.

Module WebQoS2.
Import Arduino Topic Codec WiFi WebBroker WebWire WebHandlers.

#[local] Arguments topicMatches : simpl never.
#[local] Arguments u16 : simpl never.
#[local] Arguments word : simpl never.
#[local] Arguments be16 : simpl never.
#[local] Arguments encodeRemainingLength : simpl never.
#[local] Arguments distributeMessage : simpl never.
#[local] Arguments pendingKey : simpl never.
#[local] Arguments QoSBroker.publishBody : simpl never.

(** One turn of the packet loop of [loop] for the client at [i]. *)
Definition serve (now : Z) (i : nat) (b : Broker) : Broker := (loopClient now i b).1.

(** A client as the broker sees it between two packets. *)
Definition session (b : Broker) (i : nat) (id : string) (unread : list Z) : Prop :=
  ∃ c, connectedMQTTClients b !! i = Some c ∧ connected (client c) = true
       ∧ clientId c = id ∧ rx (client c) = unread.

Lemma pendingKey_clientId (c c' : MQTTClientState) (packetId : Z) :
  clientId c' = clientId c → pendingKey c' packetId = pendingKey c packetId.
Proof. unfold pendingKey. now intros ->. Qed.

Lemma serve_publish_qos2 now i b id header topic payload pid rest :
  session b i id
    ([header; Z.of_nat (length (QoSBroker.publishBody topic payload 2 pid))]
     ++ QoSBroker.publishBody topic payload 2 pid ++ rest) →
  Z.land (Z.shiftr header 4) 0x0F = 3 →
  Z.land (Z.shiftr header 1) 0x03 = 2 →
  Z.land (Z.shiftr header 3) 0x01 = 0 →
  Z.of_nat (length (QoSBroker.publishBody topic payload 2 pid)) < 128 →
  QoSFacts.noNul topic = true → QoSFacts.noNul payload = true →
  0 <= pid < 65536 →
  let b' := serve now i b in
  session b' i id rest
  ∧ messageLog b' = messageLog b
  ∧ retainedMessages b' = retainedMessages b
  ∧ pendingQoS2 b'
    = <[id +:+ "-" +:+ decimal pid := {| q2_topic := topic; q2_payload := payload |}]>
        (pendingQoS2 b).
Proof.
  intros (c & Hc & Hcon & Hid & Hrx) Htype Hq Hdup Hfit Ht Hp Hpid. cbv zeta.
  assert (Hlt : len topic < 65536).
  { unfold QoSBroker.publishBody in Hfit.
    rewrite !length_app, QoSFacts.length_bytes_of_String in Hfit. unfold len. lia. }
  unfold serve.
  rewrite (loopClient_frame now i b c header _ _ Hc Hcon Hrx ltac:(lia)).
  cbn [fst]. rewrite Htype. change (3 =? 3) with true. cbv iota.
  set (c0 := set_lastSeen now
               (set_client {| connected := true;
                              rx := QoSBroker.publishBody topic payload 2 pid ++ rest;
                              tx := tx (client c) |} c)).
  assert (H0 : connectedMQTTClients (update_client i (λ _, c0) b) !! i = Some c0)
    by (now rewrite web_update_client_lookup, Hc).
  pose proof (handlePublish_parsed now i header _ c0 topic payload pid rest H0) as Hparse.
  cbv zeta in Hparse. rewrite Hq in Hparse.
  rewrite (Hparse eq_refl Ht Hp Hlt Hpid). clear Hparse.
  unfold published. rewrite Hq, Hdup. change (2 =? 2) with true.
  change (0 =? 0) with true. change (0 <? 2) with true. cbv iota. cbn [negb].
  cbn [client c0 set_lastSeen set_client connected rx tx].
  rewrite write_open.
  set (c1 := set_client _ c0).
  assert (Hkey : pendingKey c0 pid = id +:+ "-" +:+ decimal pid).
  { unfold pendingKey. now rewrite <- Hid. }
  rewrite Hkey.
  split; [|split; [|split]].
  - exists c1. cbn [connectedMQTTClients set_pendingQoS2].
    rewrite web_update_client_lookup, H0. repeat split. exact Hid.
  - cbn [messageLog set_pendingQoS2]. now rewrite !web_update_client_messageLog.
  - cbn [retainedMessages set_pendingQoS2]. now rewrite !web_update_client_retained.
  - cbn [pendingQoS2 set_pendingQoS2]. now rewrite !update_client_pendingQoS2.
Qed.

Lemma serve_pubrel now i b id pid rest :
  session b i id ([0x62; 2] ++ be16 pid ++ rest) →
  0 <= pid < 65536 →
  let key := id +:+ "-" +:+ decimal pid in
  let b' := serve now i b in
  session b' i id rest
  ∧ retainedMessages b' = retainedMessages b
  ∧ pendingQoS2 b' = delete key (pendingQoS2 b)
  ∧ messageLog b'
    = match pendingQoS2 b !! key with
      | Some msg => messageLog (logMessage now (q2_topic msg) (q2_payload msg) b)
      | None => messageLog b
      end.
Proof.
  intros (c & Hc & Hcon & Hid & Hrx) Hpid. cbv zeta. unfold serve.
  rewrite (loopClient_frame now i b c 0x62 2 _ Hc Hcon Hrx ltac:(lia)).
  cbn [fst]. change (Z.land (Z.shiftr 0x62 4) 0x0F) with 6. cbn [Z.eqb Pos.eqb].
  set (c0 := set_lastSeen now
               (set_client {| connected := true; rx := be16 pid ++ rest;
                              tx := tx (client c) |} c)).
  assert (H0 : connectedMQTTClients (update_client i (λ _, c0) b) !! i = Some c0)
    by (now rewrite web_update_client_lookup, Hc).
  rewrite (handlePubRel_parsed now i 2 _ c0 pid rest H0 eq_refl eq_refl Hpid).
  assert (Hkey : pendingKey c0 pid = id +:+ "-" +:+ decimal pid).
  { unfold pendingKey. now rewrite <- Hid. }
  rewrite Hkey, update_client_pendingQoS2.
  set (c1 := set_client {| connected := true; rx := rest;
                           tx := tx (client c0) ++ [0x70; 0x02] ++ be16 pid |} c0).
  set (b1 := update_client i (λ _, c1) (update_client i (λ _, c0) b)).
  assert (H1 : connectedMQTTClients b1 !! i = Some c1)
    by (unfold b1; now rewrite web_update_client_lookup, H0).
  assert (Hframe1 : retainedMessages b1 = retainedMessages b
                    ∧ pendingQoS2 b1 = pendingQoS2 b ∧ messageLog b1 = messageLog b).
  { unfold b1. now rewrite !web_update_client_retained, !update_client_pendingQoS2,
      !web_update_client_messageLog. }
  destruct Hframe1 as (Hr1 & Hp1 & Hl1).
  destruct (pendingQoS2 b !! (id +:+ "-" +:+ decimal pid)) as [msg|] eqn:Hpending.
  - cbv zeta.
    destruct (distributeMessage_frame now (q2_topic msg) (q2_payload msg) false b1)
      as (Hl & Hr & Hp & _).
    cbn [retainedMessages pendingQoS2 messageLog set_pendingQoS2 connectedMQTTClients].
    split; [|split; [|split]].
    + unfold distributeMessage.
      match goal with
      | |- context [foldl ?f ?b0 ?subs] =>
          destruct (web_foldl_forwardTo (q2_topic msg) (q2_payload msg) false subs b0)
            as (_ & _ & _ & _ & Hk)
      end.
      cbv zeta in Hk. specialize (Hk i c1 H1).
      eexists. split; [exact Hk |]. cbn [client c1 set_client connected].
      repeat split. exact Hid.
    + now rewrite Hr, Hr1.
    + now rewrite Hp, Hp1.
    + rewrite Hl. unfold logMessage. cbn [messageLog set_messageLog]. now rewrite Hl1.
  - split; [|split; [|split]].
    + exists c1. split; [exact H1 |]. repeat split. exact Hid.
    + exact Hr1.
    + rewrite Hp1. symmetry. now apply delete_id.
    + exact Hl1.
Qed.

End WebQoS2.

Module WebSession.
Import Arduino Topic Codec WiFi WebBroker WebWire WebHandlers WebQoS2.

#[local] Arguments topicMatches : simpl never.
#[local] Arguments u16 : simpl never.
#[local] Arguments word : simpl never.
#[local] Arguments be16 : simpl never.
#[local] Arguments encodeRemainingLength : simpl never.
#[local] Arguments distributeMessage : simpl never.
#[local] Arguments pendingKey : simpl never.
#[local] Arguments QoSBroker.publishBody : simpl never.

Lemma logMessage_log now topic payload b b' :
  messageLog b' = messageLog b →
  messageLog (logMessage now topic payload b') = messageLog (logMessage now topic payload b).
Proof. unfold logMessage. cbn [messageLog set_messageLog]. now intros ->. Qed.

(** A length-prefixed field of CONNECT that is complete on the stream. *)
Lemma readField_field (s : string) (rest : list Z) (cn : bool) (t : list Z) :
  QoSFacts.noNul s = true → len s < 65536 →
  readField {| connected := cn; rx := be16 (len s) ++ bytes_of_String s ++ rest; tx := t |}
  = Some (s, {| connected := cn; rx := rest; tx := t |}).
Proof.
  intros Hs Hlen. assert (Hl : 0 <= len s < 65536) by (unfold len in *; lia).
  unfold readField. rewrite readWord_be16 by exact Hl.
  unfold waitForBytes. cbn [rx]. rewrite length_app, QoSFacts.length_bytes_of_String.
  destruct (Z.leb_spec (len s) (Z.of_nat (String.length s + length rest)));
    [|unfold len in *; lia].
  cbn [negb].
  now rewrite QoSWire.len_bytes, QoSFacts.readBytes_app, QoSFacts.String_of_cstr_bytes.
Qed.

(** The fields of a will in a CONNECT. *)
Definition willFields (will : option (string * string)) : list Z :=
  match will with
  | Some (wt, wm) =>
      be16 (len wt) ++ bytes_of_String wt ++ be16 (len wm) ++ bytes_of_String wm
  | None => []
  end.

Definition willOk (will : option (string * string)) : bool :=
  match will with
  | Some (wt, wm) =>
      QoSFacts.noNul wt && QoSFacts.noNul wm && (len wt <? 65536) && (len wm <? 65536)
  | None => true
  end.

Lemma handleConnect_parsed now cn t b remainingLength protocol level flags keep1 keep2
    id will rest :
  let unread := be16 (len protocol) ++ bytes_of_String protocol
                ++ [level; flags; keep1; keep2]
                ++ be16 (len id) ++ bytes_of_String id ++ willFields will ++ rest in
  remainingLength <= Z.of_nat (length unread) →
  len protocol < 65536 →
  QoSFacts.noNul id = true → len id < 65536 →
  willOk will = true →
  (Z.land flags 0x04 =? 0) = negb (bool_decide (is_Some will)) →
  Z.land flags 0x80 = 0 → Z.land flags 0x40 = 0 →
  handleConnect now {| connected := cn; rx := unread; tx := t |} remainingLength b
  = set_clients
      (connectedMQTTClients b
       ++ [{| client := write [0x20; 0x02; 0x00; 0x00]
                          {| connected := cn; rx := rest; tx := t |};
              clientId := id; lastSeen := now;
              willTopic := match will with Some (wt, _) => wt | None => "" end;
              willMessage := match will with Some (_, wm) => wm | None => "" end;
              hasLWT := bool_decide (is_Some will); subscribedTopics := [] |}]) b.
Proof.
  intros unread Hrl Hproto Hid Hidlen Hwill Hflag Huser Hpass.
  assert (Hp : 0 <= len protocol < 65536) by (unfold len in *; lia).
  unfold handleConnect, waitForBytes. cbn [rx].
  destruct (Z.leb_spec remainingLength (Z.of_nat (length unread))); [|lia].
  cbn [negb]. unfold unread.
  rewrite readWord_be16 by exact Hp.
  rewrite QoSWire.len_bytes, QoSFacts.readBytes_app.
  cbn [app]. rewrite !QoSWire.read_cons.
  rewrite readField_field by assumption.
  rewrite Hflag, Huser, Hpass. change (0 =? 0) with true. cbn [negb].
  destruct will as [[wt wm]|].
  - rewrite bool_decide_eq_true_2 by eauto. cbn [negb willFields].
    cbn [willOk] in Hwill. rewrite !andb_true_iff, !Z.ltb_lt in Hwill.
    destruct Hwill as [[[Hwt Hwm] Hwtl] Hwml].
    rewrite <- !app_assoc.
    rewrite readField_field by assumption.
    rewrite readField_field by assumption.
    reflexivity.
  - rewrite bool_decide_eq_false_2 by (intros [? ?]; discriminate).
    cbn [negb willFields app]. reflexivity.
Qed.

(** A PUBLISH whose topic length goes beyond the packet, or that has no
    room for its packet identifier, closes the socket. *)
Lemma handlePublish_rejected now i header len_ b c topicLen rest :
  connectedMQTTClients b !! i = Some c →
  rx (client c) = be16 topicLen ++ rest →
  0 <= topicLen < 65536 →
  len_ <= 2 + Z.of_nat (length rest) →
  len_ - 2 < topicLen
  ∨ (0 < Z.land (Z.shiftr header 1) 0x03 ∧ len_ - (2 + topicLen) < 2) →
  handlePublish now i header len_ b
  = update_client i
      (λ _, set_client {| connected := false; rx := []; tx := tx (client c) |} c) b.
Proof.
  intros Hc Hrx Hlen Hcomplete Hbad. unfold handlePublish. rewrite Hc.
  unfold waitForBytes. rewrite Hrx. unfold be16 at 1. cbn [app length].
  destruct (Z.leb_spec len_ (Z.of_nat (S (S (length rest))))); [|lia]. cbn [negb].
  destruct (client c) as [cn r t]. cbn [rx connected tx] in *. subst r.
  rewrite readWord_be16 by exact Hlen.
  destruct (Z.ltb_spec topicLen 0); [lia |].
  destruct (Z.ltb_spec (len_ - 2) topicLen) as [Hlong|Hshort]; cbn [orb].
  - reflexivity.
  - destruct Hbad as [?|[Hq Hroom]]; [lia |].
    destruct (readBytes (Z.to_nat topicLen) _) as [topicChar w] eqn:Hread.
    pose proof (QoSFacts.readBytes_tx (Z.to_nat topicLen)
                  {| connected := cn; rx := rest; tx := t |}) as Htx.
    rewrite Hread in Htx. cbn [snd tx] in Htx.
    destruct (Z.ltb_spec 0 (Z.land (Z.shiftr header 1) 3)); [|lia].
    destruct (Z.ltb_spec (len_ - (2 + topicLen)) 2); [|lia].
    cbn [andb]. unfold stop. now rewrite Htx.
Qed.

End WebSession.

(** ** What every run of the sketch with [distributeMessage] keeps *)

Module WebInvariant.
Import Arduino Topic Codec WiFi WebBroker WebWire WebHandlers.

#[local] Arguments topicMatches : simpl never.
#[local] Arguments u16 : simpl never.
#[local] Arguments word : simpl never.
#[local] Arguments be16 : simpl never.
#[local] Arguments encodeRemainingLength : simpl never.
#[local] Arguments distributeMessage : simpl never.
#[local] Arguments pendingKey : simpl never.

(** No topic is retained with an empty payload, and the log holds at
    most 50 messages. *)
Definition storeOk (b : Broker) : Prop :=
  (∀ topic payload, retainedMessages b !! topic = Some payload → payload ≠ "")
  ∧ (length (messageLog b) ≤ 50)%nat.

Lemma storeOk_eq b b' :
  retainedMessages b' = retainedMessages b → messageLog b' = messageLog b →
  storeOk b → storeOk b'.
Proof. unfold storeOk. now intros -> ->. Qed.

Lemma storeOk_update_client i f b : storeOk b → storeOk (update_client i f b).
Proof.
  apply storeOk_eq; [apply web_update_client_retained | apply web_update_client_messageLog].
Qed.

Lemma storeOk_logMessage now t p b : storeOk b → storeOk (logMessage now t p b).
Proof.
  intros [Hr Hl]. split; [exact Hr |].
  unfold logMessage. cbn [messageLog set_messageLog].
  destruct (Nat.ltb_spec 50 (length (messageLog b ++ [{| msg_topic := t; msg_payload := p;
                                                      msg_timestamp := now |}]))) as [H|H].
  - rewrite length_app in H. cbn [length] in H.
    destruct (messageLog b) as [|m l]; cbn [app tail length] in *; [lia |].
    rewrite length_app. cbn [length]. lia.
  - exact H.
Qed.

Lemma storeOk_updateRetained t p b : storeOk b → storeOk (updateRetained t p b).
Proof.
  intros [Hr Hl]. unfold updateRetained.
  destruct (Z.eqb_spec (len p) 0) as [H0|H0]; (split; [|exact Hl]);
    cbn [retainedMessages set_retained]; intros topic payload Hlook.
  - destruct (decide (t = topic)) as [->|Hne].
    + rewrite lookup_delete_eq in Hlook. discriminate.
    + rewrite lookup_delete_ne in Hlook by exact Hne. eauto.
  - destruct (decide (t = topic)) as [->|Hne].
    + rewrite lookup_insert_eq in Hlook. injection Hlook as <-.
      intros ->. now apply H0.
    + rewrite lookup_insert_ne in Hlook by exact Hne. eauto.
Qed.

Lemma storeOk_distributeMessage now t p r b :
  storeOk b → storeOk (distributeMessage now t p r b).
Proof.
  intros Hok.
  destruct (distributeMessage_frame now t p r b) as (Hl & Hr & _ & _).
  apply (storeOk_eq (if r then updateRetained t p (logMessage now t p b)
                     else logMessage now t p b)).
  - rewrite Hr. unfold updateRetained. destruct r; [|reflexivity].
    now destruct (len p =? 0).
  - rewrite Hl. unfold updateRetained. destruct r; [|reflexivity].
    now destruct (len p =? 0).
  - destruct r; [apply storeOk_updateRetained |]; now apply storeOk_logMessage.
Qed.

Lemma storeOk_set_pendingQoS2 m b : storeOk b → storeOk (set_pendingQoS2 m b).
Proof. now apply storeOk_eq. Qed.

Lemma storeOk_set_subscriptions l b : storeOk b → storeOk (set_subscriptions l b).
Proof. now apply storeOk_eq. Qed.

Lemma storeOk_set_clients l b : storeOk b → storeOk (set_clients l b).
Proof. now apply storeOk_eq. Qed.

Lemma storeOk_handlePublish now i header len_ b :
  storeOk b → storeOk (handlePublish now i header len_ b).
Proof.
  intros Hok. unfold handlePublish.
  destruct (_ !! i) as [c|]; [|exact Hok].
  destruct (negb _); [exact Hok |].
  destruct (readWord _) as [topicLen w].
  destruct (_ || _); [now apply storeOk_update_client |].
  destruct (readBytes _ w) as [topicChar w1].
  destruct (_ && _); [now apply storeOk_update_client |].
  destruct (if 0 <? _ then _ else _) as [packetId w2].
  destruct (if 0 <? _ then _ else _) as [payload w3].
  destruct (_ =? 2).
  - destruct (negb _); [destruct (_ !! _) |];
      repeat first [ apply storeOk_set_pendingQoS2 | apply storeOk_update_client ];
      exact Hok.
  - destruct (_ =? 1);
      repeat first [ apply storeOk_update_client | apply storeOk_distributeMessage ];
      exact Hok.
Qed.

Lemma storeOk_handlePubRel now i len_ b :
  storeOk b → storeOk (handlePubRel now i len_ b).
Proof.
  intros Hok. unfold handlePubRel.
  destruct (_ !! i) as [c|]; [|exact Hok].
  destruct (negb _); [exact Hok |].
  destruct (readWord _) as [x w].
  destruct (_ !! _);
    repeat first [ apply storeOk_set_pendingQoS2 | apply storeOk_distributeMessage
                 | apply storeOk_update_client ];
    exact Hok.
Qed.

Lemma storeOk_replay i topic (kvs : list (string * string)) :
  ∀ b, storeOk b →
       storeOk (foldl (λ b (kv : string * string),
                         if topicMatches kv.1 topic
                         then update_client i
                                (λ c, set_client (sendPublish (client c) kv.1 kv.2 0 true 0) c)
                                b
                         else b) b kvs).
Proof.
  induction kvs as [|kv kvs IH]; intros b Hok; [exact Hok |].
  cbn [foldl]. apply IH. destruct (topicMatches _ _); [|exact Hok].
  now apply storeOk_update_client.
Qed.

Lemma storeOk_subscribeLoop fuel i :
  ∀ bytesRead len_ b, storeOk b → storeOk (subscribeLoop fuel i bytesRead len_ b).1.
Proof.
  induction fuel as [|fuel IH]; intros bytesRead len_ b Hok; [exact Hok |].
  cbn [subscribeLoop]. destruct (_ <? _); [|exact Hok].
  destruct (_ !! i) as [c|]; [|exact Hok].
  destruct (readWord _) as [topicLen w].
  destruct (negb _); [now apply storeOk_update_client |].
  destruct (readBytes _ w) as [topicChar w1].
  destruct (readInt w1) as [qos w2].
  apply IH. apply storeOk_replay. apply storeOk_set_subscriptions.
  now apply storeOk_update_client.
Qed.

Lemma storeOk_handleSubscribe i header len_ b :
  storeOk b → storeOk (handleSubscribe i header len_ b).
Proof.
  intros Hok. unfold handleSubscribe.
  destruct (_ !! i) as [c|]; [|exact Hok].
  destruct (negb _); [exact Hok |].
  destruct (readWord _) as [x w].
  pose proof (storeOk_subscribeLoop (Z.to_nat len_) i 2 len_
                (update_client i (λ _, set_client w c) b)
                (storeOk_update_client _ _ _ Hok)) as Hloop.
  destruct (subscribeLoop _ _ _ _ _) as [b1 completed]. cbn [fst] in Hloop.
  destruct completed; [now apply storeOk_update_client | exact Hloop].
Qed.

Lemma storeOk_removeClient now index b :
  storeOk b → storeOk (removeClient now index b).
Proof.
  intros Hok. unfold removeClient. destruct (_ !! index) as [c|]; [|exact Hok].
  apply storeOk_set_clients, storeOk_set_subscriptions.
  destruct (hasLWT c); [now apply storeOk_distributeMessage | exact Hok].
Qed.

Lemma storeOk_loopClient now i b : storeOk b → storeOk (loopClient now i b).1.
Proof.
  intros Hok. unfold loopClient. destruct (_ !! i) as [c|]; [|exact Hok].
  destruct (connected _); [|now apply storeOk_removeClient].
  destruct (rx (client c)) as [|header rest]; [exact Hok |].
  destruct (decodeRemainingLength rest) as [len_ rest'].
  destruct (_ =? -1); [now apply storeOk_update_client |].
  cbn [fst].
  pose proof (storeOk_update_client i
                (λ _, set_lastSeen now
                        (set_client {| connected := true; rx := rest';
                                       tx := tx (client c) |} c)) b Hok) as H0.
  repeat match goal with
         | |- storeOk (if ?x then _ else _) => destruct x
         end;
    first [ now apply storeOk_handlePublish | now apply storeOk_handleSubscribe
          | now apply storeOk_handlePubRel | now apply storeOk_update_client ].
Qed.

Lemma storeOk_loopClients fuel now :
  ∀ i b, storeOk b → storeOk (loopClients fuel now i b).
Proof.
  induction fuel as [|fuel IH]; intros i b Hok; [exact Hok |].
  cbn [loopClients]. destruct (_ <? _)%nat; [|exact Hok].
  pose proof (storeOk_loopClient now i b Hok) as H1.
  destruct (loopClient now i b) as [b1 removed]. cbn [fst] in H1. now apply IH.
Qed.

Lemma storeOk_handleConnect now w len_ b :
  storeOk b → storeOk (handleConnect now w len_ b).
Proof.
  intros Hok. unfold handleConnect.
  destruct (negb _); [exact Hok |].
  destruct (readWord w) as [n w1]. destruct (readBytes _ w1) as [buf w2].
  destruct (read w2) as [a3 w3]. destruct (read w3) as [flags w4].
  destruct (read w4) as [a5 w5]. destruct (read w5) as [a6 w6].
  destruct (readField w6) as [[id w7]|]; [|exact Hok].
  destruct (if negb _ then _ else _) as [[[wt wm] w8]|]; [|exact Hok].
  destruct (if negb _ then _ else _) as [w9|]; [|exact Hok].
  destruct (if negb _ then _ else _) as [w10|]; [|exact Hok].
  now apply storeOk_set_clients.
Qed.

Lemma storeOk_loop now newClient b : storeOk b → storeOk (loop now newClient b).
Proof.
  intros Hok. unfold loop.
  destruct newClient as [w|]; [|now apply storeOk_loopClients].
  destruct (connected w && negb (waitForBytes w 1)); [exact Hok |].
  apply storeOk_loopClients.
  unfold acceptClient. destruct (negb _); [exact Hok |].
  destruct (rx w) as [|header rest]; [exact Hok |].
  destruct (_ =? 1); [|exact Hok].
  destruct (decodeRemainingLength rest) as [len_ rest'].
  destruct (0 <? len_); [now apply storeOk_handleConnect | exact Hok].
Qed.

Lemma storeOk_step b e : storeOk b → storeOk (step b e).
Proof.
  intros Hok. destruct e as [i bytes|i|now hello]; cbn [step].
  - now apply storeOk_update_client.
  - now apply storeOk_update_client.
  - now apply storeOk_loop.
Qed.

Lemma storeOk_run events : ∀ b, storeOk b → storeOk (run events b).
Proof.
  unfold run. induction events as [|e events IH]; intros b Hok; [exact Hok |].
  cbn [foldl]. apply IH. now apply storeOk_step.
Qed.

Lemma storeOk_emptyBroker : storeOk emptyBroker.
Proof.
  split; [|cbn; lia]. intros topic payload H. cbn in H.
  rewrite lookup_empty in H. discriminate.
Qed.

End WebInvariant.

(** ** The broker with [distributeMessage]: what the QoS-2 path writes *)

Module WebSockets.
Import Arduino Topic Codec WiFi WebBroker WebWire WebHandlers WebQoS2.

#[local] Arguments topicMatches : simpl never.
#[local] Arguments u16 : simpl never.
#[local] Arguments word : simpl never.
#[local] Arguments be16 : simpl never.
#[local] Arguments encodeRemainingLength : simpl never.
#[local] Arguments distributeMessage : simpl never.
#[local] Arguments pendingKey : simpl never.
#[local] Arguments QoSBroker.publishBody : simpl never.

(** The QoS-2 PUBLISH of the client at [i], seen from the socket of the
    client at [k]. *)
Lemma serve_publish_qos2_sockets now i b id header topic payload pid rest k ck :
  session b i id
    ([header; Z.of_nat (length (QoSBroker.publishBody topic payload 2 pid))]
     ++ QoSBroker.publishBody topic payload 2 pid ++ rest) →
  Z.land (Z.shiftr header 4) 0x0F = 3 →
  Z.land (Z.shiftr header 1) 0x03 = 2 →
  Z.land (Z.shiftr header 3) 0x01 = 0 →
  Z.of_nat (length (QoSBroker.publishBody topic payload 2 pid)) < 128 →
  QoSFacts.noNul topic = true → QoSFacts.noNul payload = true →
  0 <= pid < 65536 →
  connectedMQTTClients b !! k = Some ck →
  let b' := serve now i b in
  activeSubscriptions b' = activeSubscriptions b
  ∧ ∃ ck', connectedMQTTClients b' !! k = Some ck'
           ∧ connected (client ck') = connected (client ck)
           ∧ tx (client ck')
             = tx (client ck) ++ (if Nat.eqb k i then [0x50; 0x02] ++ be16 pid else []).
Proof.
  intros (c & Hc & Hcon & Hid & Hrx) Htype Hq Hdup Hfit Ht Hp Hpid Hk. cbv zeta.
  assert (Hlt : len topic < 65536).
  { unfold QoSBroker.publishBody in Hfit.
    rewrite !length_app, QoSFacts.length_bytes_of_String in Hfit. unfold len. lia. }
  unfold serve.
  rewrite (loopClient_frame now i b c header _ _ Hc Hcon Hrx ltac:(lia)).
  cbn [fst]. rewrite Htype. change (3 =? 3) with true. cbv iota.
  set (c0 := set_lastSeen now
               (set_client {| connected := true;
                              rx := QoSBroker.publishBody topic payload 2 pid ++ rest;
                              tx := tx (client c) |} c)).
  assert (H0 : connectedMQTTClients (update_client i (λ _, c0) b) !! i = Some c0)
    by (now rewrite web_update_client_lookup, Hc).
  pose proof (handlePublish_parsed now i header _ c0 topic payload pid rest H0) as Hparse.
  cbv zeta in Hparse. rewrite Hq in Hparse.
  rewrite (Hparse eq_refl Ht Hp Hlt Hpid). clear Hparse.
  unfold published. rewrite Hq, Hdup. change (2 =? 2) with true.
  change (0 =? 0) with true. change (0 <? 2) with true. cbv iota. cbn [negb].
  cbn [client c0 set_lastSeen set_client connected rx tx].
  rewrite write_open.
  set (c1 := set_client _ c0).
  cbn [connectedMQTTClients activeSubscriptions set_pendingQoS2].
  split; [now rewrite !web_update_client_subscriptions |].
  destruct (Nat.eqb_spec k i) as [->|Hne].
  - rewrite web_update_client_lookup, H0. exists c1. split; [reflexivity |].
    rewrite Hc in Hk. injection Hk as <-. subst c1 c0. cbn. now rewrite Hcon.
  - rewrite !web_update_client_lookup_ne by congruence. exists ck.
    rewrite app_nil_r. now repeat split.
Qed.

(** A PUBREL of the client at [i], seen from the socket of the client at
    [k]: the PUBCOMP goes to the publisher, and the message held under
    the key, if there is one, to the subscribers. *)
Lemma serve_pubrel_sockets now i b id pid rest k ck :
  session b i id ([0x62; 2] ++ be16 pid ++ rest) →
  0 <= pid < 65536 →
  connectedMQTTClients b !! k = Some ck →
  let key := id +:+ "-" +:+ decimal pid in
  let b' := serve now i b in
  activeSubscriptions b' = activeSubscriptions b
  ∧ ∃ ck', connectedMQTTClients b' !! k = Some ck'
           ∧ connected (client ck') = connected (client ck)
           ∧ tx (client ck')
             = tx (client ck)
               ++ (if Nat.eqb k i then [0x70; 0x02] ++ be16 pid else [])
               ++ match pendingQoS2 b !! key with
                  | Some msg =>
                      if connected (client ck)
                      then concat (map (λ _, publishFrame (q2_topic msg) (q2_payload msg)
                                               false)
                                     (matching k (q2_topic msg) (activeSubscriptions b)))
                      else []
                  | None => []
                  end.
Proof.
  intros (c & Hc & Hcon & Hid & Hrx) Hpid Hk. cbv zeta. unfold serve.
  rewrite (loopClient_frame now i b c 0x62 2 _ Hc Hcon Hrx ltac:(lia)).
  cbn [fst]. change (Z.land (Z.shiftr 0x62 4) 0x0F) with 6. cbn [Z.eqb Pos.eqb].
  set (c0 := set_lastSeen now
               (set_client {| connected := true; rx := be16 pid ++ rest;
                              tx := tx (client c) |} c)).
  assert (H0 : connectedMQTTClients (update_client i (λ _, c0) b) !! i = Some c0)
    by (now rewrite web_update_client_lookup, Hc).
  rewrite (handlePubRel_parsed now i 2 _ c0 pid rest H0 eq_refl eq_refl Hpid).
  assert (Hkey : pendingKey c0 pid = id +:+ "-" +:+ decimal pid).
  { unfold pendingKey. now rewrite <- Hid. }
  rewrite Hkey, update_client_pendingQoS2.
  set (c1 := set_client {| connected := true; rx := rest;
                           tx := tx (client c0) ++ [0x70; 0x02] ++ be16 pid |} c0).
  set (b1 := update_client i (λ _, c1) (update_client i (λ _, c0) b)).
  assert (Hs1 : activeSubscriptions b1 = activeSubscriptions b)
    by (unfold b1; now rewrite !web_update_client_subscriptions).
  assert (H1 : ∃ ck1, connectedMQTTClients b1 !! k = Some ck1
                      ∧ connected (client ck1) = connected (client ck)
                      ∧ tx (client ck1)
                        = tx (client ck)
                          ++ (if Nat.eqb k i then [0x70; 0x02] ++ be16 pid else [])).
  { unfold b1. destruct (Nat.eqb_spec k i) as [->|Hne].
    - rewrite web_update_client_lookup, H0. exists c1. split; [reflexivity |].
      rewrite Hc in Hk. injection Hk as <-. subst c1 c0. cbn. now rewrite Hcon.
    - rewrite !web_update_client_lookup_ne by congruence. exists ck.
      rewrite app_nil_r. now repeat split. }
  destruct H1 as (ck1 & H1 & Hcon1 & Htx1).
  destruct (pendingQoS2 b !! (id +:+ "-" +:+ decimal pid)) as [msg|] eqn:Hpending.
  - cbv zeta.
    destruct (distributeMessage_frame now (q2_topic msg) (q2_payload msg) false b1)
      as (_ & _ & _ & Hs).
    cbn [activeSubscriptions connectedMQTTClients set_pendingQoS2].
    split; [now rewrite Hs |].
    unfold distributeMessage.
    match goal with
    | |- context [foldl ?f ?b0 ?subs] =>
        destruct (web_foldl_forwardTo (q2_topic msg) (q2_payload msg) false subs b0)
          as (_ & _ & _ & _ & Hf)
    end.
    cbv zeta in Hf. rewrite (Hf k ck1 H1).
    cbn [activeSubscriptions logMessage set_messageLog]. rewrite Hs1, Hcon1.
    eexists. split; [reflexivity |].
    destruct (connected (client ck)) eqn:Hck.
    + cbn [client set_client connected tx]. split; [reflexivity |].
      now rewrite Htx1, <- app_assoc.
    + split; [exact Hcon1 |]. now rewrite Htx1, app_nil_r.
  - split; [exact Hs1 |]. exists ck1. split; [exact H1 |]. split; [exact Hcon1 |].
    now rewrite Htx1, app_nil_r.
Qed.

End WebSockets.

(** ** The bytes a delivery puts on the sockets *)

Module QoSFrames.
Import Arduino Topic Codec WiFi QoSBroker QoSFacts.

#[local] Arguments sendMQTTPacket : simpl never.
#[local] Arguments publishBody : simpl never.
#[local] Arguments publishHeader : simpl never.
#[local] Arguments topicMatches : simpl never.
#[local] Arguments u16 : simpl never.
#[local] Arguments word : simpl never.
#[local] Arguments be16 : simpl never.
#[local] Arguments encodeRemainingLength : simpl never.

(** A packet on the wire: the fixed header, the digits of the Remaining
    Length and the body; nothing when the length has no four digits. *)
Definition packetBytes (fixedHeader : Z) (body : list Z) : list Z :=
  match encodeRemainingLength (Z.of_nat (length body)) with
  | Some encodedRemLen => fixedHeader :: encodedRemLen ++ body
  | None => []
  end.

(** The packet identifier a client is given after [packetId]. *)
Definition followingId (packetId : Z) : Z :=
  let next := u16 (packetId + 1) in
  if next =? 0 then 1 else next.

(** The PUBLISH packets for the messages [(topic, payload, qos)], one
    after the other, as a client receives them whose next packet
    identifier is [packetId]: a message above QoS 0 takes an identifier,
    a message at QoS 0 takes none. *)
Fixpoint publishFrames (retain : bool) (packetId : Z)
    (msgs : list (string * string * Z)) : list Z :=
  match msgs with
  | [] => []
  | (topic, payload, qos) :: msgs' =>
      if 0 <? qos then
        packetBytes (publishHeader 0x30 qos retain) (publishBody topic payload qos packetId)
        ++ publishFrames retain (followingId packetId) msgs'
      else
        packetBytes (publishHeader 0x30 qos retain) (publishBody topic payload qos 0)
        ++ publishFrames retain packetId msgs'
  end.

(** The subscriptions of the client at position [k] whose filter matches
    [topic], in the order of [activeSubscriptions]. *)
Definition subscriptionsOf (k : nat) (topic : string) (subs : list ActiveSubscription)
    : list ActiveSubscription :=
  List.filter (λ sub, Nat.eqb (clientState sub) k && topicMatches topic (topicFilter sub))
    subs.

(** What the client at [k] receives when a message is forwarded. *)
Definition forwarded (k : nat) (topic payload : string) (retain : bool)
    (b : Broker) (c : MQTTClientState) : list Z :=
  if connected (client c) then
    publishFrames retain (nextOutgoingPacketId c)
      (map (λ sub, (topic, payload, sub_qos sub))
         (subscriptionsOf k topic (activeSubscriptions b)))
  else [].

Lemma sendMQTTPacket_bytes (w : WiFiClient) (h : Z) (body : list Z) :
  connected w = true →
  sendMQTTPacket w h body
  = {| connected := true; rx := rx w; tx := tx w ++ packetBytes h body |}.
Proof.
  intros Hcon. unfold sendMQTTPacket, packetBytes. rewrite Hcon. cbn [negb].
  destruct w as [cn r t]. cbn [connected rx tx] in *. subst cn.
  destruct (encodeRemainingLength _) as [ds|].
  - unfold write. cbn [connected rx tx]. f_equal.
    rewrite <- !app_assoc. reflexivity.
  - now rewrite app_nil_r.
Qed.

Lemma sendPublish_bytes now j t p q r b c :
  connectedMQTTClients b !! j = Some c →
  connected (client c) = true →
  ∃ c', connectedMQTTClients (sendPublish now j t p q r b) !! j = Some c'
        ∧ connected (client c') = true
        ∧ rx (client c') = rx (client c)
        ∧ tx (client c') = tx (client c) ++ publishFrames r (nextOutgoingPacketId c) [(t, p, q)]
        ∧ nextOutgoingPacketId c'
          = (if 0 <? q then followingId (nextOutgoingPacketId c)
             else nextOutgoingPacketId c).
Proof.
  intros Hc Hcon. unfold sendPublish. rewrite Hc, Hcon. cbn [negb].
  cbn [connectedMQTTClients set_serial set_clients].
  rewrite list_lookup_insert_eq by (eapply lookup_lt_Some; eauto).
  eexists. split; [reflexivity |].
  cbn [publishFrames]. rewrite !app_nil_r.
  destruct (0 <? q);
    cbn [client set_client set_outgoing set_nextOutgoingPacketId nextOutgoingPacketId];
    rewrite sendMQTTPacket_bytes by exact Hcon; cbn [connected rx tx];
    repeat split; reflexivity.
Qed.

Lemma sendPublish_lookup_ne now j t p q r b k :
  k ≠ j →
  connectedMQTTClients (sendPublish now j t p q r b) !! k
  = connectedMQTTClients b !! k.
Proof.
  intros Hne. unfold sendPublish.
  destruct (connectedMQTTClients b !! j) as [c|]; [|reflexivity].
  destruct (negb (connected (client c))); [reflexivity |].
  cbn [connectedMQTTClients set_serial set_clients].
  now apply list_lookup_insert_ne.
Qed.

(** The forwarding loop, seen from the socket of the client at [k]. *)
Lemma foldl_forwardTo_bytes now t p r (subs : list ActiveSubscription) :
  ∀ b k c,
    connectedMQTTClients b !! k = Some c →
    ∃ c', connectedMQTTClients (foldl (forwardTo now t p r) b subs) !! k = Some c'
          ∧ connected (client c') = connected (client c)
          ∧ rx (client c') = rx (client c)
          ∧ tx (client c')
            = tx (client c)
              ++ (if connected (client c)
                  then publishFrames r (nextOutgoingPacketId c)
                         (map (λ sub, (t, p, sub_qos sub)) (subscriptionsOf k t subs))
                  else []).
Proof.
  induction subs as [|sub subs IH]; intros b k c Hc.
  - exists c. cbn [foldl subscriptionsOf List.filter map publishFrames].
    repeat split; [exact Hc |]. destruct (connected (client c)); now rewrite app_nil_r.
  - cbn [foldl]. unfold subscriptionsOf. cbn [List.filter].
    fold (subscriptionsOf k t subs).
    unfold forwardTo at 2.
    destruct (connectedMQTTClients b !! clientState sub) as [cj|] eqn:Hj.
    + destruct (Nat.eqb_spec (clientState sub) k) as [Hk|Hk].
      * rewrite Hk, Hc in Hj. injection Hj as <-. cbn [andb].
        destruct (connected (client c)) eqn:Hcon; cbn [andb].
        -- destruct (topicMatches t (topicFilter sub)) eqn:Hm.
           ++ rewrite Hk.
              destruct (sendPublish_bytes now k t p (sub_qos sub) r b c Hc Hcon)
                as (c1 & H1 & Hcon1 & Hrx1 & Htx1 & Hid1).
              destruct (IH _ k c1 H1) as (c' & H' & Hcon' & Hrx' & Htx').
              exists c'. split; [exact H' |]. split; [congruence |].
              split; [congruence |].
              rewrite Htx', Htx1, Hcon1, Hid1. cbn [map publishFrames].
              destruct (0 <? sub_qos sub); rewrite ?app_nil_r, <- ?app_assoc; reflexivity.
           ++ destruct (IH b k c Hc) as (c' & H' & Hcon' & Hrx' & Htx').
              exists c'. rewrite Hcon in Htx', Hcon'. now repeat split.
        -- destruct (IH b k c Hc) as (c' & H' & Hcon' & Hrx' & Htx').
           exists c'. rewrite Hcon in Htx', Hcon'. now repeat split.
      * cbn [andb].
        assert (Hb : connectedMQTTClients
                       (if connected (client cj) && topicMatches t (topicFilter sub)
                        then sendPublish now (clientState sub) t p (sub_qos sub) r b
                        else b) !! k = Some c).
        { destruct (_ && _); [|exact Hc].
          rewrite sendPublish_lookup_ne by congruence. exact Hc. }
        exact (IH _ k c Hb).
    + destruct (Nat.eqb_spec (clientState sub) k) as [Hk|Hk]; [congruence |].
      cbn [andb]. exact (IH b k c Hc).
Qed.

Lemma forward_bytes now t p r b k c :
  connectedMQTTClients b !! k = Some c →
  ∃ c', connectedMQTTClients (forward now t p r b) !! k = Some c'
        ∧ connected (client c') = connected (client c)
        ∧ rx (client c') = rx (client c)
        ∧ tx (client c') = tx (client c) ++ forwarded k t p r b c.
Proof. apply (foldl_forwardTo_bytes now t p r (activeSubscriptions b) b k c). Qed.

(** [forwarded] looks at the socket state, the packet identifier and the
    subscriptions only. *)
Lemma forwarded_ext k t p r b b' c c' :
  activeSubscriptions b' = activeSubscriptions b →
  connected (client c') = connected (client c) →
  nextOutgoingPacketId c' = nextOutgoingPacketId c →
  forwarded k t p r b' c' = forwarded k t p r b c.
Proof. unfold forwarded. now intros -> -> ->. Qed.

(** A QoS-0 PUBLISH, seen from the socket of the client at [k]. *)
Lemma handlePublish_qos0_bytes now i header len_ b c k ck :
  connectedMQTTClients b !! i = Some c →
  Z.land (Z.shiftr header 1) 0x03 = 0 →
  waitForBytes (client c) len_ = true →
  connectedMQTTClients b !! k = Some ck →
  let topic := (readPublish 0 len_ (client c)).1.1.1 in
  let payload := (readPublish 0 len_ (client c)).1.2 in
  ∃ ck', connectedMQTTClients (handlePublish now i header len_ b) !! k = Some ck'
         ∧ tx (client ck')
           = tx (client ck)
             ++ forwarded k topic payload (negb (Z.land header 0x01 =? 0)) b ck.
Proof.
  intros Hc Hq Hw Hk. cbv zeta. unfold handlePublish. rewrite Hc, Hw, Hq. cbn [negb].
  pose proof (readPublish_socket 0 len_ (client c)) as [Hrc Hrt].
  destruct (readPublish 0 len_ (client c)) as [[[topic pid] payload] w].
  cbn [fst snd] in *.
  change (0 =? 1) with false. change (0 =? 2) with false. change (0 =? 0) with true.
  cbn [andb]. cbv iota.
  set (r := negb (Z.land header 1 =? 0)).
  set (b0 := update_client i (λ _, set_client w c) b).
  set (b1 := if r then updateRetained topic payload (logMessage now topic payload b0)
             else logMessage now topic payload b0).
  assert (Hsub : activeSubscriptions b1 = activeSubscriptions b).
  { subst b1 b0. unfold updateRetained.
    destruct r; [destruct (len payload =? 0) |]; cbn; apply update_client_subscriptions. }
  assert (Hcl : connectedMQTTClients b1 = connectedMQTTClients b0).
  { subst b1. unfold updateRetained. destruct r; [destruct (len payload =? 0) |];
      reflexivity. }
  assert (H0 : ∃ c0, connectedMQTTClients b1 !! k = Some c0
                     ∧ connected (client c0) = connected (client ck)
                     ∧ nextOutgoingPacketId c0 = nextOutgoingPacketId ck
                     ∧ tx (client c0) = tx (client ck)).
  { rewrite Hcl. subst b0. destruct (decide (i = k)) as [<-|Hne].
    - rewrite update_client_lookup, Hc. rewrite Hc in Hk. injection Hk as <-.
      eexists. split; [reflexivity |]. cbn. repeat split; assumption.
    - rewrite update_client_lookup_ne by exact Hne. exists ck. now repeat split. }
  destruct H0 as (c0 & H0 & Hcon0 & Hid0 & Htx0).
  destruct (forward_bytes now topic payload r b1 k c0 H0) as (ck' & H' & _ & _ & Htx').
  exists ck'. split; [exact H' |].
  rewrite Htx', Htx0. f_equal. now apply forwarded_ext.
Qed.

(** The PUBREL of a stored QoS-2 message, seen from the socket of the
    client at [k]: the publisher is sent the PUBCOMP first. *)
Lemma handlePubRel_bytes now i len_ b c e k ck :
  connectedMQTTClients b !! i = Some c →
  waitForBytes (client c) len_ = true →
  incomingQoS2Messages c !! (readPacketId (client c)).1 = Some e →
  in_state e = 1 →
  connectedMQTTClients b !! k = Some ck →
  ∃ ck', connectedMQTTClients (handlePubRel now i len_ b) !! k = Some ck'
         ∧ tx (client ck')
           = tx (client ck)
             ++ (if Nat.eqb k i && connected (client ck)
                 then 0x70 :: 2 :: be16 (readPacketId (client c)).1 else [])
             ++ forwarded k (in_topic e) (in_payload e)
                  ((in_qos e =? 2) && (in_qos e =? 2)) b ck.
Proof.
  intros Hc Hw He Hst Hk. unfold handlePubRel. rewrite Hc, Hw. cbn [negb].
  pose proof (readPacketId_socket (client c)) as [Hrc Hrt].
  destruct (readPacketId (client c)) as [pid w]. cbn [fst snd] in *.
  cbn [incomingQoS2Messages set_client]. rewrite He, Hst.
  change (1 =? 1) with true. cbv iota.
  set (r := (in_qos e =? 2) && (in_qos e =? 2)).
  set (c1 := set_incoming _ _).
  assert (Hc1 : connected (client c1) = connected (client c)
                ∧ nextOutgoingPacketId c1 = nextOutgoingPacketId c
                ∧ tx (client c1)
                  = tx (client c)
                    ++ (if connected (client c) then 0x70 :: 2 :: be16 pid else [])).
  { subst c1. cbn [client set_incoming set_client nextOutgoingPacketId].
    unfold sendPubComp. rewrite sendMQTTPacket_connected.
    split; [exact Hrc |]. split; [reflexivity |].
    destruct (connected (client c)) eqn:Hcon.
    - rewrite sendMQTTPacket_ack by congruence. cbn [tx]. now rewrite Hrt.
    - unfold sendMQTTPacket. rewrite Hrc. cbn [negb]. now rewrite app_nil_r. }
  destruct Hc1 as (Hcon1 & Hid1 & Htx1).
  set (b1 := logMessage now (in_topic e) (in_payload e) (update_client i (λ _, c1) b)).
  assert (Hsub : activeSubscriptions b1 = activeSubscriptions b)
    by (subst b1; cbn; apply update_client_subscriptions).
  assert (H0 : ∃ c0, connectedMQTTClients b1 !! k = Some c0
                     ∧ connected (client c0) = connected (client ck)
                     ∧ nextOutgoingPacketId c0 = nextOutgoingPacketId ck
                     ∧ tx (client c0)
                       = tx (client ck)
                         ++ (if Nat.eqb k i && connected (client ck)
                             then 0x70 :: 2 :: be16 pid else [])).
  { subst b1. cbn [connectedMQTTClients logMessage set_messageLog].
    destruct (Nat.eqb_spec k i) as [->|Hne]; cbn [andb].
    - rewrite update_client_lookup, Hc. rewrite Hc in Hk. injection Hk as <-.
      exists c1. now repeat split.
    - rewrite update_client_lookup_ne by congruence. exists ck.
      rewrite app_nil_r. now repeat split. }
  destruct H0 as (c0 & H0 & Hcon0 & Hid0 & Htx0).
  destruct (forward_bytes now (in_topic e) (in_payload e) r b1 k c0 H0)
    as (c2 & H2 & Hcon2 & _ & Htx2).
  destruct (decide (i = k)) as [<-|Hne].
  - rewrite update_client_lookup, H2. eexists. split; [reflexivity |].
    cbn [client set_incoming]. rewrite Htx2, Htx0, <- app_assoc.
    do 2 f_equal. now apply forwarded_ext.
  - rewrite update_client_lookup_ne by exact Hne. exists c2. split; [exact H2 |].
    rewrite Htx2, Htx0, <- app_assoc. do 2 f_equal. now apply forwarded_ext.
Qed.

(** The keep-alive timeout, seen from the socket of the client at [k]. *)
Lemma keepAlive_bytes now i b c k ck :
  connectedMQTTClients b !! i = Some c →
  connected (client c) = true →
  (0 <? clientKeepAliveSec c)
  && (u32 (clientKeepAliveSec c * 1500) <? elapsed now (lastSeen c)) = true →
  connectedMQTTClients b !! k = Some ck →
  ∃ ck', connectedMQTTClients (processMQTTClient now i b) !! k = Some ck'
         ∧ tx (client ck')
           = tx (client ck)
             ++ (if hasLWT c then forwarded k (willTopic c) (willMessage c) false b ck
                 else []).
Proof.
  intros Hc Hcon Hkeep Hk. unfold processMQTTClient. rewrite Hc, Hcon, Hkeep. cbn [negb].
  assert (H0 : ∃ c0, connectedMQTTClients
                       (if hasLWT c then forward now (willTopic c) (willMessage c) false b
                        else b) !! k = Some c0
                     ∧ tx (client c0)
                       = tx (client ck)
                         ++ (if hasLWT c
                             then forwarded k (willTopic c) (willMessage c) false b ck
                             else [])).
  { destruct (hasLWT c).
    - destruct (forward_bytes now (willTopic c) (willMessage c) false b k ck Hk)
        as (c0 & H0 & _ & _ & Htx0). now exists c0.
    - exists ck. now rewrite app_nil_r. }
  destruct H0 as (c0 & H0 & Htx0).
  destruct (decide (i = k)) as [<-|Hne].
  - rewrite update_client_lookup, H0. eexists. split; [reflexivity |]. exact Htx0.
  - rewrite update_client_lookup_ne by exact Hne. now exists c0.
Qed.

(** The replay of the retained store to a new subscriber. *)
Lemma replay_bytes now i filter granted (kvs : list (string * string)) :
  ∀ b c,
    connectedMQTTClients b !! i = Some c →
    connected (client c) = true →
    ∃ c', connectedMQTTClients
            (foldl (λ b (kv : string * string),
                      if topicMatches kv.1 filter
                      then sendPublish now i kv.1 kv.2 granted true b else b) b kvs) !! i
          = Some c'
          ∧ connected (client c') = true
          ∧ tx (client c')
            = tx (client c)
              ++ publishFrames true (nextOutgoingPacketId c)
                   (map (λ kv : string * string, (kv.1, kv.2, granted))
                      (List.filter (λ kv : string * string, topicMatches kv.1 filter) kvs)).
Proof.
  induction kvs as [|kv kvs IH]; intros b c Hc Hcon; cbn [foldl List.filter map].
  - exists c. cbn [publishFrames]. now rewrite app_nil_r.
  - destruct (topicMatches kv.1 filter).
    + destruct (sendPublish_bytes now i kv.1 kv.2 granted true b c Hc Hcon)
        as (c1 & H1 & Hcon1 & _ & Htx1 & Hid1).
      destruct (IH _ c1 H1 Hcon1) as (c' & H' & Hcon' & Htx').
      exists c'. split; [exact H' |]. split; [exact Hcon' |].
      rewrite Htx', Htx1, Hid1. cbn [map publishFrames].
      destruct (0 <? granted); rewrite ?app_nil_r, <- ?app_assoc; reflexivity.
    + now apply IH.
Qed.

Lemma handleSubscribe_bytes now i header len_ b c
    packetIdMsb packetIdLsb filter requestedQoS more :
  connectedMQTTClients b !! i = Some c →
  connected (client c) = true →
  rx (client c)
  = [packetIdMsb; packetIdLsb] ++ be16 (len filter) ++ bytes_of_String filter
    ++ [requestedQoS] ++ more →
  waitForBytes (client c) len_ = true →
  noNul filter = true → len filter < 65536 →
  ∃ c', connectedMQTTClients (handleSubscribe now i header len_ b) !! i = Some c'
        ∧ tx (client c')
          = tx (client c)
            ++ [0x90; 0x03; packetIdMsb; packetIdLsb; grantQoS requestedQoS]
            ++ publishFrames true (nextOutgoingPacketId c)
                 (map (λ kv : string * string, (kv.1, kv.2, grantQoS requestedQoS))
                    (List.filter (λ kv : string * string, topicMatches kv.1 filter)
                       (retainedInOrder (retainedMessages b)))).
Proof.
  intros Hc Hcon Hrx Hw Hnul Hlen.
  assert (Hlen' : 0 <= len filter < 65536) by (unfold len in *; lia).
  remember (handleSubscribe now i header len_ b) as b' eqn:Hb'.
  unfold handleSubscribe in Hb'. rewrite Hc, Hw in Hb'. cbn [negb] in Hb'.
  destruct (client c) as [cn r t] eqn:Hcl. cbn [connected rx tx] in *. subst cn r.
  unfold be16 in Hb'. cbn [app] in Hb'.
  unfold read at 1 in Hb'. cbn [rx connected tx] in Hb'.
  unfold read at 1 in Hb'. cbn [rx connected tx] in Hb'.
  unfold read at 1 in Hb'. cbn [rx connected tx] in Hb'.
  unfold read at 1 in Hb'. cbn [rx connected tx] in Hb'.
  rewrite word_be16 in Hb' by exact Hlen'.
  replace (Z.to_nat (len filter)) with (length (bytes_of_String filter)) in Hb'
    by (rewrite length_bytes_of_String; unfold len; lia).
  rewrite readBytes_app, String_of_cstr_bytes in Hb' by exact Hnul.
  unfold read at 1 in Hb'. cbn [rx connected tx app] in Hb'.
  unfold write in Hb'. cbn [connected rx tx] in Hb'.
  set (c1 := set_subscribedTopics _ _) in Hb'.
  set (b1 := set_subscriptions _ _) in Hb'.
  assert (Hc1 : connectedMQTTClients b1 !! i = Some c1).
  { subst b1. cbn. now rewrite update_client_lookup, Hc. }
  assert (Hr : retainedMessages b1 = retainedMessages b)
    by (subst b1; cbn; apply update_client_retained).
  destruct (replay_bytes now i filter (grantQoS requestedQoS)
              (retainedInOrder (retainedMessages b1)) b1 c1 Hc1 eq_refl)
    as (c' & H' & _ & Htx').
  rewrite <- Hb' in H'. exists c'. split; [exact H' |].
  rewrite Htx', Hr. subst c1. cbn [client set_subscribedTopics set_client tx
                                  nextOutgoingPacketId].
  now rewrite <- app_assoc.
Qed.

(** [std::map] walks its keys in ascending order. *)
Lemma leb_trans (a b c : string) :
  String.leb a b = true → String.leb b c = true → String.leb a c = true.
Proof.
  unfold String.leb. revert b c.
  induction a as [|x a IH]; intros [|y b] [|z c]; cbn; try easy.
  unfold Ascii.compare.
  destruct (N.compare_spec (N_of_ascii x) (N_of_ascii y)) as [Hxy|Hxy|Hxy];
    destruct (N.compare_spec (N_of_ascii y) (N_of_ascii z)) as [Hyz|Hyz|Hyz];
    try easy.
  - rewrite Hxy, Hyz, N.compare_refl. apply IH.
  - intros _ _. rewrite Hxy. now rewrite (proj2 (N.compare_lt_iff _ _) Hyz).
  - intros _ _. rewrite <- Hyz. now rewrite (proj2 (N.compare_lt_iff _ _) Hxy).
  - intros _ _.
    now rewrite (proj2 (N.compare_lt_iff _ _) (N.lt_trans _ _ _ Hxy Hyz)).
Qed.

#[local] Instance key_leb_total : Total key_leb.
Proof. intros a b. apply String.leb_total. Qed.

#[local] Instance key_leb_trans : Transitive key_leb.
Proof. intros a b c. apply leb_trans. Qed.

Lemma retainedInOrder_sorted (m : gmap string string) :
  StronglySorted key_leb (retainedInOrder m).
Proof. unfold retainedInOrder. apply StronglySorted_merge_sort; apply _. Qed.

End QoSFrames.

(** ** Main results *)



(** C2.  A QoS-1 PUBLISH is acknowledged and then dropped: PUBACK
    [0x40, 0x02, pid_hi, pid_lo] goes to the publisher, and nothing is
    forwarded, retained or logged, since the delivery of [handlePublish]
    is guarded by [qos == 0]. *)
Theorem qos1_publish_acknowledged_not_delivered
    (now : Z) (i : nat) (header len_ : Z) (b : QoSBroker.Broker)
    (c : QoSBroker.MQTTClientState)
    (Hq : Z.land (Z.shiftr header 1) 0x03 = 1)
    (Hc : QoSBroker.connectedMQTTClients b !! i = Some c)
    (Hcon : WiFi.connected (QoSBroker.client c) = true)
    (Hw : WiFi.waitForBytes (QoSBroker.client c) len_ = true) :
  let b' := QoSBroker.handlePublish now i header len_ b in
  let packetId := (QoSBroker.readPublish 1 len_ (QoSBroker.client c)).1.1.2 in
  QoSFacts.deliveries b' = QoSFacts.deliveries b
  ∧ QoSBroker.messageLog b' = QoSBroker.messageLog b
  ∧ QoSBroker.retainedMessages b' = QoSBroker.retainedMessages b
  ∧ (∀ j, j ≠ i → QoSBroker.connectedMQTTClients b' !! j
                  = QoSBroker.connectedMQTTClients b !! j)
  ∧ (WiFi.tx ∘ QoSBroker.client) <$> QoSBroker.connectedMQTTClients b' !! i
    = Some (WiFi.tx (QoSBroker.client c) ++ [0x40; 0x02] ++ WiFi.be16 packetId).
Proof.
  cbv zeta.
  destruct (QoSFacts.handlePublish_not_delivered now i header len_ b ltac:(lia))
    as (Hser & Hlog & Hret & _ & Hother & _).
  split; [unfold QoSFacts.deliveries; now rewrite Hser |].
  split; [exact Hlog |]. split; [exact Hret |]. split; [exact Hother |].
  unfold QoSBroker.handlePublish. rewrite Hc, Hw, Hq. cbn [negb].
  pose proof (QoSFacts.readPublish_socket 1 len_ (QoSBroker.client c)) as [Hrc Hrt].
  destruct (QoSBroker.readPublish 1 len_ (QoSBroker.client c)) as [[[topic pid] payload] w].
  cbn [fst snd] in *.
  change (1 =? 1) with true. change (1 =? 0) with false. change (1 =? 2) with false.
  cbn [andb]. cbv iota.
  rewrite QoSFacts.update_client_lookup, Hc. cbn.
  unfold QoSBroker.sendPubAck. rewrite QoSFacts.sendMQTTPacket_ack by congruence.
  cbn. now rewrite Hrt.
Qed.

(** The PUBLISH [33 0B 00 04 "test" 00 07 "hi!"] (QoS 1, RETAIN, packet
    identifier 7) while client 0 is subscribed to [test]. *)
Lemma qos1_publish_acknowledged_not_delivered_witness :
  let b := QoSExamples.subscriberAndPublisher "test" 0 false
             (QoSBroker.publishBody "test" "hi!" 1 7) in
  let b' := QoSBroker.handlePublish 0 1 0x33 11 b in
  let packetId :=
    (QoSBroker.readPublish 1 11
       (QoSBroker.client
          (QoSExamples.connectedClient "pub" false
             (QoSBroker.publishBody "test" "hi!" 1 7)))).1.1.2 in
  QoSFacts.deliveries b' = QoSFacts.deliveries b
  ∧ QoSBroker.messageLog b' = QoSBroker.messageLog b
  ∧ QoSBroker.retainedMessages b' = QoSBroker.retainedMessages b
  ∧ (∀ j, j ≠ 1%nat → QoSBroker.connectedMQTTClients b' !! j
                      = QoSBroker.connectedMQTTClients b !! j)
  ∧ (WiFi.tx ∘ QoSBroker.client) <$> QoSBroker.connectedMQTTClients b' !! 1%nat
    = Some (WiFi.tx
              (QoSBroker.client
                 (QoSExamples.connectedClient "pub" false
                    (QoSBroker.publishBody "test" "hi!" 1 7)))
            ++ [0x40; 0x02] ++ WiFi.be16 packetId).
Proof.
  apply (qos1_publish_acknowledged_not_delivered 0 1%nat 0x33 11
           (QoSExamples.subscriberAndPublisher "test" 0 false
              (QoSBroker.publishBody "test" "hi!" 1 7))
           (QoSExamples.connectedClient "pub" false
              (QoSBroker.publishBody "test" "hi!" 1 7))).
  - reflexivity.
  - reflexivity.
  - reflexivity.
  - reflexivity.
Defined.

(** C4, as stated, fails: a QoS-0 PUBLISH on [test] is forwarded to a
    subscription granted QoS 1 in a PUBLISH of QoS 1 (first byte 0x32,
    packet identifier 1), above [min(0, 1) = 0]. *)
Lemma qos0_publish_forwarded_at_qos1 :
  let b := QoSExamples.subscriberAndPublisher "test" 1 false
             (QoSBroker.publishBody "test" "hi!" 0 0) in
  let b' := QoSBroker.handlePublish 0 1 0x30 9 b in
  map QoSBroker.sent_qos (QoSBroker.serial b') = [1]
  ∧ Z.min (Z.land (Z.shiftr 0x30 1) 0x03) 1 = 0
  ∧ (WiFi.tx ∘ QoSBroker.client) <$> QoSBroker.connectedMQTTClients b' !! 0%nat
    = Some ([0x32; 11; 0; 4] ++ Arduino.bytes_of_String "test" ++ [0; 1]
            ++ Arduino.bytes_of_String "hi!").
Proof. vm_compute. repeat split. Qed.

(** C4, amended.  A message that is ready for delivery (a QoS-0 PUBLISH
    in [handlePublish], a stored QoS-2 message at its PUBREL in
    [handlePubRel]) is sent once to every subscription of a connected
    client whose filter matches its topic, at the QoS granted to that
    subscription, whatever the QoS of the publisher; the header of the
    PUBLISH carries that QoS.  On the sockets: every connected client is
    written one PUBLISH packet for each of its matching subscriptions,
    in the order of [activeSubscriptions], with the header of the
    granted QoS and, above QoS 0, the next packet identifiers of that
    client; the publisher of the QoS-2 message is written the PUBCOMP
    before them; a client without a matching subscription is written
    nothing. *)
Theorem forwarded_at_granted_qos
    (now : Z) (i : nat) (len_ : Z) (b : QoSBroker.Broker) (c : QoSBroker.MQTTClientState)
    (Hc : QoSBroker.connectedMQTTClients b !! i = Some c)
    (Hw : WiFi.waitForBytes (QoSBroker.client c) len_ = true) :
  (∀ header,
     Z.land (Z.shiftr header 1) 0x03 = 0 →
     let topic := (QoSBroker.readPublish 0 len_ (QoSBroker.client c)).1.1.1 in
     let payload := (QoSBroker.readPublish 0 len_ (QoSBroker.client c)).1.2 in
     QoSFacts.deliveries (QoSBroker.handlePublish now i header len_ b)
     = QoSFacts.deliveries b
       ++ map (λ sub, (QoSBroker.clientState sub, topic, payload, QoSBroker.sub_qos sub,
                       negb (Z.land header 0x01 =? 0)))
            (QoSFacts.receivers b topic))
  ∧ (∀ e,
       QoSBroker.incomingQoS2Messages c
         !! (QoSBroker.readPacketId (QoSBroker.client c)).1 = Some e →
       QoSBroker.in_state e = 1 →
       QoSFacts.deliveries (QoSBroker.handlePubRel now i len_ b)
       = QoSFacts.deliveries b
         ++ map (λ sub, (QoSBroker.clientState sub, QoSBroker.in_topic e,
                         QoSBroker.in_payload e, QoSBroker.sub_qos sub,
                         (QoSBroker.in_qos e =? 2) && (QoSBroker.in_qos e =? 2)))
              (QoSFacts.receivers b (QoSBroker.in_topic e)))
  ∧ (∀ qos retain,
       0 <= qos <= 3 →
       Z.land (Z.shiftr (QoSBroker.publishHeader 0x30 qos retain) 1) 0x03 = qos)
  ∧ (∀ header k ck,
       Z.land (Z.shiftr header 1) 0x03 = 0 →
       QoSBroker.connectedMQTTClients b !! k = Some ck →
       let topic := (QoSBroker.readPublish 0 len_ (QoSBroker.client c)).1.1.1 in
       let payload := (QoSBroker.readPublish 0 len_ (QoSBroker.client c)).1.2 in
       ∃ ck',
         QoSBroker.connectedMQTTClients (QoSBroker.handlePublish now i header len_ b) !! k
         = Some ck'
         ∧ WiFi.tx (QoSBroker.client ck')
           = WiFi.tx (QoSBroker.client ck)
             ++ (if WiFi.connected (QoSBroker.client ck)
                 then QoSFrames.publishFrames (negb (Z.land header 0x01 =? 0))
                        (QoSBroker.nextOutgoingPacketId ck)
                        (map (λ sub, (topic, payload, QoSBroker.sub_qos sub))
                           (QoSFrames.subscriptionsOf k topic
                              (QoSBroker.activeSubscriptions b)))
                 else []))
  ∧ (∀ e k ck,
       QoSBroker.incomingQoS2Messages c
         !! (QoSBroker.readPacketId (QoSBroker.client c)).1 = Some e →
       QoSBroker.in_state e = 1 →
       QoSBroker.connectedMQTTClients b !! k = Some ck →
       ∃ ck',
         QoSBroker.connectedMQTTClients (QoSBroker.handlePubRel now i len_ b) !! k
         = Some ck'
         ∧ WiFi.tx (QoSBroker.client ck')
           = WiFi.tx (QoSBroker.client ck)
             ++ (if Nat.eqb k i && WiFi.connected (QoSBroker.client ck)
                 then 0x70 :: 2 :: WiFi.be16 (QoSBroker.readPacketId (QoSBroker.client c)).1
                 else [])
             ++ (if WiFi.connected (QoSBroker.client ck)
                 then QoSFrames.publishFrames
                        ((QoSBroker.in_qos e =? 2) && (QoSBroker.in_qos e =? 2))
                        (QoSBroker.nextOutgoingPacketId ck)
                        (map (λ sub, (QoSBroker.in_topic e, QoSBroker.in_payload e,
                                      QoSBroker.sub_qos sub))
                           (QoSFrames.subscriptionsOf k (QoSBroker.in_topic e)
                              (QoSBroker.activeSubscriptions b)))
                 else [])).
Proof.
  split; [|split; [|split; [|split]]].
  - intros header Hq. now apply (QoSFacts.handlePublish_qos0_delivers now i header len_ b c).
  - intros e He Hst. now apply (QoSFacts.handlePubRel_delivers now i len_ b c e).
  - apply QoSFacts.publishHeader_qos.
  - intros header k ck Hq Hk.
    exact (QoSFrames.handlePublish_qos0_bytes now i header len_ b c k ck Hc Hq Hw Hk).
  - intros e k ck He Hst Hk.
    exact (QoSFrames.handlePubRel_bytes now i len_ b c e k ck Hc Hw He Hst Hk).
Qed.

Lemma forwarded_at_granted_qos_witness :
  let b := QoSExamples.subscriberAndPublisher "test" 1 false
             (QoSBroker.publishBody "test" "hi!" 0 0) in
  QoSFacts.deliveries (QoSBroker.handlePublish 0 1 0x30 9 b)
  = [(0%nat, "test", "hi!", 1, false)]
  ∧ (WiFi.tx ∘ QoSBroker.client)
      <$> QoSBroker.connectedMQTTClients (QoSBroker.handlePublish 0 1 0x30 9 b) !! 0%nat
    = Some ([0x32; 11; 0; 4] ++ Arduino.bytes_of_String "test" ++ [0; 1]
            ++ Arduino.bytes_of_String "hi!")
  ∧ (WiFi.tx ∘ QoSBroker.client)
      <$> QoSBroker.connectedMQTTClients (QoSBroker.handlePublish 0 1 0x30 9 b) !! 1%nat
    = Some [].
Proof.
  intros b.
  pose proof (forwarded_at_granted_qos 0 1%nat 9 b
                (QoSExamples.connectedClient "pub" false
                   (QoSBroker.publishBody "test" "hi!" 0 0)) eq_refl eq_refl)
    as (Hd & _ & _ & Hsock & _).
  split; [exact (Hd 0x30 eq_refl) |]. split.
  - destruct (Hsock 0x30 0%nat (QoSExamples.connectedClient "sub" false [])
                eq_refl eq_refl) as (ck' & Hk' & Htx).
    rewrite Hk'. cbn [fmap option_fmap option_map compose]. rewrite Htx.
    vm_compute. reflexivity.
  - destruct (Hsock 0x30 1%nat
                (QoSExamples.connectedClient "pub" false
                   (QoSBroker.publishBody "test" "hi!" 0 0))
                eq_refl eq_refl) as (ck' & Hk' & Htx).
    rewrite Hk'. cbn [fmap option_fmap option_map compose]. rewrite Htx.
    vm_compute. reflexivity.
Defined.

(** C6, as stated, fails: a SUBSCRIBE with the two filters [a] (QoS 1)
    and [b] (QoS 2) is answered by the SUBACK [90 03 00 01 01], of
    length 3 with a single granted QoS, where the claim has length 4
    and the two bytes 1 and 2; one subscription is added, and the second
    filter stays unread on the stream. *)
Lemma subscribe_two_filters_single_grant :
  let b := QoSExamples.subscriberAndPublisher "x" 0 false
             ([0; 1] ++ [0; 1; 97; 1] ++ [0; 1; 98; 2]) in
  let b' := QoSBroker.handleSubscribe 0 1 0x82 10 b in
  (WiFi.tx ∘ QoSBroker.client) <$> QoSBroker.connectedMQTTClients b' !! 1%nat
  = Some [0x90; 0x03; 0; 1; 1]
  ∧ [0x90; 0x03; 0; 1; 1] ≠ [0x90; 2 + 2; 0; 1; 1; 2]
  ∧ QoSBroker.activeSubscriptions b'
    = QoSBroker.activeSubscriptions b
      ++ [{| QoSBroker.clientState := 1; QoSBroker.topicFilter := "a";
             QoSBroker.sub_qos := 1 |}]
  ∧ (WiFi.rx ∘ QoSBroker.client) <$> QoSBroker.connectedMQTTClients b' !! 1%nat
    = Some [0; 1; 98; 2].
Proof. vm_compute. repeat split. discriminate. Qed.

(** C6, amended.  [handleSubscribe] reads the packet identifier and the
    first tuple (length, filter, requested QoS) only; the granted QoS is
    the requested one if it is at most 2 and 0 otherwise; the broker
    writes the SUBACK [0x90, 0x03, pid_hi, pid_lo, granted] before any
    retained message, records the subscription, and leaves what follows
    the first tuple on the stream. *)
Theorem subscribe_grants_first_filter
    (now : Z) (i : nat) (header len_ : Z) (b : QoSBroker.Broker)
    (c : QoSBroker.MQTTClientState)
    (packetIdMsb packetIdLsb : Z) (filter : string) (requestedQoS : Z) (more : list Z)
    (Hc : QoSBroker.connectedMQTTClients b !! i = Some c)
    (Hcon : WiFi.connected (QoSBroker.client c) = true)
    (Hrx : WiFi.rx (QoSBroker.client c)
           = [packetIdMsb; packetIdLsb] ++ WiFi.be16 (Arduino.len filter)
             ++ Arduino.bytes_of_String filter ++ [requestedQoS] ++ more)
    (Hw : WiFi.waitForBytes (QoSBroker.client c) len_ = true)
    (Hnul : QoSFacts.noNul filter = true)
    (Hlen : Arduino.len filter < 65536) :
  let b' := QoSBroker.handleSubscribe now i header len_ b in
  let grantedQoS := if 2 <? requestedQoS then 0 else requestedQoS in
  QoSBroker.activeSubscriptions b'
  = QoSBroker.activeSubscriptions b
    ++ [{| QoSBroker.clientState := i; QoSBroker.topicFilter := filter;
           QoSBroker.sub_qos := grantedQoS |}]
  ∧ ∃ c' replay,
      QoSBroker.connectedMQTTClients b' !! i = Some c'
      ∧ WiFi.tx (QoSBroker.client c')
        = WiFi.tx (QoSBroker.client c)
          ++ [0x90; 0x03; packetIdMsb; packetIdLsb; grantedQoS] ++ replay
      ∧ WiFi.rx (QoSBroker.client c') = more
      ∧ QoSBroker.subscribedTopics c' = QoSBroker.subscribedTopics c ++ [filter].
Proof.
  exact (QoSFacts.handleSubscribe_first_filter now i header len_ b c
           packetIdMsb packetIdLsb filter requestedQoS more Hc Hcon Hrx Hw Hnul Hlen).
Qed.

Lemma subscribe_grants_first_filter_witness :
  let b := QoSExamples.subscriberAndPublisher "x" 0 false
             ([0; 1] ++ [0; 1; 97; 1] ++ [0; 1; 98; 2]) in
  let b' := QoSBroker.handleSubscribe 0 1 0x82 10 b in
  QoSBroker.activeSubscriptions b'
  = QoSBroker.activeSubscriptions b
    ++ [{| QoSBroker.clientState := 1; QoSBroker.topicFilter := "a";
           QoSBroker.sub_qos := 1 |}]
  ∧ ∃ c' replay,
      QoSBroker.connectedMQTTClients b' !! 1%nat = Some c'
      ∧ WiFi.tx (QoSBroker.client c') = [] ++ [0x90; 0x03; 0; 1; 1] ++ replay
      ∧ WiFi.rx (QoSBroker.client c') = [0; 1; 98; 2]
      ∧ QoSBroker.subscribedTopics c' = [] ++ ["a"].
Proof.
  apply (subscribe_grants_first_filter 0 1%nat 0x82 10
           (QoSExamples.subscriberAndPublisher "x" 0 false
              ([0; 1] ++ [0; 1; 97; 1] ++ [0; 1; 98; 2]))
           (QoSExamples.connectedClient "pub" false
              ([0; 1] ++ [0; 1; 97; 1] ++ [0; 1; 98; 2]))
           0 1 "a" 1 [0; 1; 98; 2]).
  - reflexivity.
  - reflexivity.
  - reflexivity.
  - reflexivity.
  - reflexivity.
  - vm_compute. reflexivity.
Defined.

(** C7.  A PUBLISH with RETAIN=1 above QoS 0 never reaches the retained
    store: [handlePublish] leaves the store as it is, whatever the
    payload, and so does [handlePubRel] when it forwards a stored QoS-2
    message. *)
Theorem retained_publish_above_qos0_not_stored
    (now : Z) (i : nat) (header len_ : Z) (b : QoSBroker.Broker)
    (Hq : Z.land (Z.shiftr header 1) 0x03 ≠ 0)
    (Hr : Z.land header 0x01 ≠ 0) :
  QoSBroker.retainedMessages (QoSBroker.handlePublish now i header len_ b)
  = QoSBroker.retainedMessages b
  ∧ (∀ now' len', QoSBroker.retainedMessages (QoSBroker.handlePubRel now' i len' b)
                  = QoSBroker.retainedMessages b).
Proof.
  split.
  - now destruct (QoSFacts.handlePublish_not_delivered now i header len_ b Hq)
      as (_ & _ & Hret & _).
  - intros now' len'. apply QoSFacts.handlePubRel_retained.
Qed.

(** The PUBLISH [33 0B 00 04 "test" 00 07 "hi!"] (QoS 1, RETAIN=1): the
    topic [test] has no retained entry afterwards. *)
Lemma retained_publish_above_qos0_not_stored_witness :
  QoSBroker.retainedMessages
    (QoSBroker.handlePublish 0 1 0x33 11
       (QoSExamples.subscriberAndPublisher "test" 0 false
          (QoSBroker.publishBody "test" "hi!" 1 7))) !! "test"
  = None.
Proof.
  rewrite (proj1 (retained_publish_above_qos0_not_stored 0 1%nat 0x33 11
                    (QoSExamples.subscriberAndPublisher "test" 0 false
                       (QoSBroker.publishBody "test" "hi!" 1 7))
                    ltac:(vm_compute; discriminate) ltac:(vm_compute; discriminate))).
  reflexivity.
Defined.

(** A QoS-2 PUBLISH with RETAIN=1 and its PUBREL: the message is
    forwarded, and the topic has no retained entry. *)
Lemma retained_qos2_publish_not_stored :
  let b := QoSBroker.dispatch 2 1
             (QoSBroker.dispatch 1 1
                (QoSExamples.subscriberAndPublisher "test" 0 false
                   (QoSFacts.publishPacket false 2 true "test" "hi!" 9
                    ++ QoSFacts.pubrelPacket 9))) in
  QoSBroker.retainedMessages b !! "test" = None
  ∧ QoSFacts.deliveries b = [(0%nat, "test", "hi!", 0, true)].
Proof. vm_compute. repeat split. Qed.

(** The retained store at QoS 0: a QoS-0 PUBLISH with RETAIN=1 stores its
    payload under its topic when the payload is not empty and erases the
    topic when it is empty, and it touches no other topic; whatever
    happens at the broker, no topic is ever retained with an empty
    payload. *)
Theorem retained_store_after_qos0_publish
    (now : Z) (i : nat) (header len_ : Z) (b : QoSBroker.Broker)
    (c : QoSBroker.MQTTClientState)
    (Hc : QoSBroker.connectedMQTTClients b !! i = Some c)
    (Hq : Z.land (Z.shiftr header 1) 0x03 = 0)
    (Hr : Z.land header 0x01 ≠ 0)
    (Hw : WiFi.waitForBytes (QoSBroker.client c) len_ = true) :
  let topic := (QoSBroker.readPublish 0 len_ (QoSBroker.client c)).1.1.1 in
  let payload := (QoSBroker.readPublish 0 len_ (QoSBroker.client c)).1.2 in
  let b' := QoSBroker.handlePublish now i header len_ b in
  (payload ≠ "" → QoSBroker.retainedMessages b' !! topic = Some payload)
  ∧ (payload = "" → QoSBroker.retainedMessages b' !! topic = None)
  ∧ (∀ topic', topic' ≠ topic →
       QoSBroker.retainedMessages b' !! topic' = QoSBroker.retainedMessages b !! topic')
  ∧ (∀ events, QoSFacts.retainedOk b → QoSFacts.retainedOk (QoSBroker.run events b))
  ∧ (∀ events, QoSFacts.retainedOk (QoSBroker.run events QoSBroker.emptyBroker)).
Proof.
  cbv zeta.
  destruct (QoSFacts.handlePublish_qos0_retain now i header len_ b c Hc Hq Hr Hw)
    as (Hfull & Hempty & Hother).
  split; [exact Hfull |]. split; [exact Hempty |]. split; [exact Hother |].
  split.
  - intros events. apply QoSFacts.run_retained.
  - intros events. apply QoSFacts.run_retained. intros topic payload Hl.
    cbn in Hl. rewrite lookup_empty in Hl. discriminate.
Qed.

Lemma retained_store_after_qos0_publish_witness :
  let b := QoSExamples.subscriberAndPublisher "test" 0 false
             (QoSBroker.publishBody "test" "hi!" 0 0) in
  QoSBroker.retainedMessages (QoSBroker.handlePublish 0 1 0x31 9 b) !! "test"
  = Some "hi!".
Proof.
  intros b.
  refine (proj1 (retained_store_after_qos0_publish 0 1%nat 0x31 9 b
                   (QoSExamples.connectedClient "pub" false
                      (QoSBroker.publishBody "test" "hi!" 0 0)) _ _ _ _) _).
  - reflexivity.
  - reflexivity.
  - vm_compute. discriminate.
  - reflexivity.
  - vm_compute. discriminate.
Defined.

(** C8, as stated, fails twice.  When exactly QOS_TIMEOUT_MS have
    elapsed since the last send, nothing is sent again: the loop tests
    [millis() - timestampSent > QoS_TIMEOUT_MS].  And one entry is sent
    again more than MAX_QOS_RETRIES times: a QoS-2 message to a silent
    subscriber is retransmitted three times as a PUBLISH with DUP=1,
    the PUBREC that then arrives sets its retry count back to 0, and the
    PUBREL is retransmitted after that. *)
Lemma retransmission_timeout_and_budget :
  (QoSBroker.QoS_TIMEOUT_MS
   <= QoSBroker.elapsed 5000 (QoSBroker.timestampSent QoSExamples.sentAtZero)
   ∧ QoSBroker.retryCount QoSExamples.sentAtZero < QoSBroker.MAX_QOS_RETRIES
   ∧ QoSBroker.retransmitOutgoing 5000
       (QoSBroker.inOrder (QoSBroker.outgoingQoSMessages QoSExamples.awaitingPubAck))
       QoSExamples.awaitingPubAck
     = (QoSExamples.awaitingPubAck, false))
  ∧ (WiFi.tx ∘ QoSBroker.client)
      <$> QoSBroker.connectedMQTTClients
            (QoSBroker.run
               [QoSBroker.Loop 0 false; QoSBroker.Loop 5001 false;
                QoSBroker.Loop 10002 false; QoSBroker.Loop 15003 false;
                QoSBroker.Receive 0 [0x50; 2; 0; 1]; QoSBroker.Loop 15004 false;
                QoSBroker.Loop 20005 false]
               (QoSExamples.subscriberAndPublisher "test" 2 false
                  (QoSFacts.publishPacket false 0 false "test" "hi!" 0))) !! 0%nat
    = Some (([0x34; 11; 0; 4] ++ Arduino.bytes_of_String "test" ++ [0; 1]
             ++ Arduino.bytes_of_String "hi!")
            ++ QoSExamples.dupPublish ++ QoSExamples.dupPublish ++ QoSExamples.dupPublish
            ++ [0x62; 2; 0; 1] ++ [0x62; 2; 0; 1]).
Proof. vm_compute. repeat split; discriminate. Qed.

(** C8, amended.  When more than QOS_TIMEOUT_MS (5000 ms) have elapsed
    since the last send of an outbound in-flight message: if its retry
    count is below MAX_QOS_RETRIES (3), the count is incremented, the
    send time is set to now and the packet of the current phase is sent
    again (the PUBLISH with DUP=1 while PUBACK or PUBREC is awaited, the
    PUBREL while PUBCOMP is awaited); otherwise the socket is closed and
    the entry erased.  The retry count of an entry never exceeds
    MAX_QOS_RETRIES, and it starts again at 0 when a PUBREC moves the
    entry to the PUBREL phase. *)
Theorem retransmission_after_timeout
    (now packetId : Z) (outMsg : QoSBroker.OutgoingMessage)
    (entries : list (Z * QoSBroker.OutgoingMessage)) (c : QoSBroker.MQTTClientState)
    (Hdue : QoSBroker.QoS_TIMEOUT_MS < QoSBroker.elapsed now (QoSBroker.timestampSent outMsg))
    (Hbudget : 0 <= QoSBroker.retryCount outMsg <= QoSBroker.MAX_QOS_RETRIES) :
  (QoSBroker.retryCount outMsg < QoSBroker.MAX_QOS_RETRIES →
   let sent := QoSBroker.countRetry now outMsg in
   QoSBroker.retransmitOutgoing now ((packetId, outMsg) :: entries) c
   = QoSBroker.retransmitOutgoing now entries
       (QoSBroker.set_outgoing (<[packetId := sent]> (QoSBroker.outgoingQoSMessages c))
          (QoSBroker.set_client (QoSBroker.resend sent (QoSBroker.client c)) c))
   ∧ QoSBroker.retryCount sent = QoSBroker.retryCount outMsg + 1
   ∧ QoSBroker.retryCount sent <= QoSBroker.MAX_QOS_RETRIES
   ∧ QoSBroker.timestampSent sent = now
   ∧ (QoSBroker.out_state outMsg = 0 →
      QoSBroker.out_qos outMsg = 1 ∨ QoSBroker.out_qos outMsg = 2 →
      QoSBroker.resend sent (QoSBroker.client c)
      = QoSBroker.sendMQTTPacket (QoSBroker.client c)
          (QoSBroker.publishHeader 0x38 (QoSBroker.out_qos outMsg)
             (QoSBroker.out_retain outMsg))
          (WiFi.be16 (Arduino.len (QoSBroker.out_topic outMsg))
           ++ Arduino.bytes_of_String (QoSBroker.out_topic outMsg)
           ++ WiFi.be16 (QoSBroker.out_packetId outMsg)
           ++ Arduino.bytes_of_String (QoSBroker.out_payload outMsg))
      ∧ Z.land (Z.shiftr (QoSBroker.publishHeader 0x38 (QoSBroker.out_qos outMsg)
                            (QoSBroker.out_retain outMsg)) 3) 0x01 = 1)
   ∧ (QoSBroker.out_qos outMsg = 2 → QoSBroker.out_state outMsg = 1 →
      QoSBroker.resend sent (QoSBroker.client c)
      = QoSBroker.sendPubRel (QoSBroker.client c) (QoSBroker.out_packetId outMsg)))
  ∧ (QoSBroker.retryCount outMsg = QoSBroker.MAX_QOS_RETRIES →
     QoSBroker.retransmitOutgoing now ((packetId, outMsg) :: entries) c
     = (QoSBroker.set_outgoing (delete packetId (QoSBroker.outgoingQoSMessages c))
          (QoSBroker.set_client (WiFi.stop (QoSBroker.client c)) c), true)
     ∧ WiFi.connected (WiFi.stop (QoSBroker.client c)) = false)
  ∧ (∀ others c',
       (∀ p m, In (p, m) others →
               0 <= QoSBroker.retryCount m <= QoSBroker.MAX_QOS_RETRIES) →
       QoSFacts.withinBudget (QoSBroker.outgoingQoSMessages c') →
       QoSFacts.withinBudget
         (QoSBroker.outgoingQoSMessages (QoSBroker.retransmitOutgoing now others c').1))
  ∧ (∀ i len_ b c' awaited,
       QoSBroker.connectedMQTTClients b !! i = Some c' →
       WiFi.waitForBytes (QoSBroker.client c') len_ = true →
       QoSBroker.outgoingQoSMessages c'
         !! (QoSBroker.readPacketId (QoSBroker.client c')).1 = Some awaited →
       QoSBroker.out_qos awaited = 2 → QoSBroker.out_state awaited = 0 →
       ∃ c'' released,
         QoSBroker.connectedMQTTClients (QoSBroker.handlePubRec now i len_ b) !! i
         = Some c''
         ∧ QoSBroker.outgoingQoSMessages c''
             !! (QoSBroker.readPacketId (QoSBroker.client c')).1 = Some released
         ∧ QoSBroker.retryCount released = 0
         ∧ QoSBroker.timestampSent released = now
         ∧ QoSBroker.out_state released = 1
         ∧ QoSBroker.out_qos released = 2).
Proof.
  split; [|split; [|split]]; [| | |apply QoSFacts.handlePubRec_restarts].
  - intros Hlt. cbv zeta.
    split; [now apply QoSFacts.retransmitOutgoing_due |].
    rewrite QoSFacts.countRetry_retryCount by lia.
    split; [reflexivity |]. split; [lia |]. split; [reflexivity |]. split.
    + intros Hst Hq. split.
      * exact (QoSFacts.resend_publish (QoSBroker.countRetry now outMsg)
                 (QoSBroker.client c) Hst Hq).
      * now apply QoSFacts.publishHeader_dup.
    + intros Hq Hst.
      exact (QoSFacts.resend_pubrel (QoSBroker.countRetry now outMsg)
               (QoSBroker.client c) Hq Hst).
  - intros Heq. split; [|reflexivity].
    apply QoSFacts.retransmitOutgoing_exhausted; [exact Hdue | lia].
  - intros others c'. apply QoSFacts.retransmitOutgoing_withinBudget.
Qed.

Lemma retransmission_after_timeout_witness :
  WiFi.tx
    (QoSBroker.client
       (QoSBroker.retransmitOutgoing 5001 [(1, QoSExamples.sentAtZero)]
          QoSExamples.awaitingPubAck).1)
  = [0x3A; 11; 0; 4] ++ Arduino.bytes_of_String "test" ++ [0; 1]
    ++ Arduino.bytes_of_String "hi!".
Proof.
  assert (Hdue : QoSBroker.QoS_TIMEOUT_MS
                 < QoSBroker.elapsed 5001 (QoSBroker.timestampSent QoSExamples.sentAtZero))
    by (vm_compute; reflexivity).
  assert (Hbudget : 0 <= QoSBroker.retryCount QoSExamples.sentAtZero
                    <= QoSBroker.MAX_QOS_RETRIES)
    by (vm_compute; split; discriminate).
  assert (Hlt : QoSBroker.retryCount QoSExamples.sentAtZero < QoSBroker.MAX_QOS_RETRIES)
    by (vm_compute; reflexivity).
  rewrite (proj1 (proj1 (retransmission_after_timeout 5001 1 QoSExamples.sentAtZero []
                           QoSExamples.awaitingPubAck Hdue Hbudget) Hlt)).
  vm_compute. reflexivity.
Defined.

(** C3.  In the QoS broker a session that loses its TCP connection is
    removed without its will being published, and a session closed
    because a retransmission budget is used up publishes nothing
    either.  In the broker with [removeClient] the will is published
    when the session is removed after a DISCONNECT: [S] subscribes to
    [bye], [P] connects with the will [gone] on [bye] and sends
    DISCONNECT, and [S] receives the will. *)
Theorem lwt_lost_on_drop_and_sent_after_disconnect
    (now : Z) (i : nat) (b : QoSBroker.Broker) (c : QoSBroker.MQTTClientState)
    (Hc : QoSBroker.connectedMQTTClients b !! i = Some c)
    (Hlwt : QoSBroker.hasLWT c = true)
    (Hdrop : WiFi.connected (QoSBroker.client c) = false) :
  (QoSBroker.serial (QoSBroker.loopClient now i b) = QoSBroker.serial b
   ∧ QoSBroker.connectedMQTTClients (QoSBroker.loopClient now i b)
     = delete i (QoSBroker.connectedMQTTClients b))
  ∧ (∀ now' j b' c',
       QoSBroker.connectedMQTTClients b' !! j = Some c' →
       WiFi.connected (QoSBroker.client c') = true →
       (0 <? QoSBroker.clientKeepAliveSec c')
       && (WiFi.u32 (QoSBroker.clientKeepAliveSec c' * 1500)
           <? QoSBroker.elapsed now' (QoSBroker.lastSeen c')) = false →
       (QoSBroker.retransmitOutgoing now'
          (QoSBroker.inOrder (QoSBroker.outgoingQoSMessages c')) c').2 = true →
       QoSBroker.serial (QoSBroker.processMQTTClient now' j b') = QoSBroker.serial b'
       ∧ QoSFacts.isConnected (QoSBroker.processMQTTClient now' j b') j = false)
  ∧ (let b := WebBroker.run
                (WebExamples.twoClients "bye"
                 ++ [WebBroker.Receive 1 [0xE0; 0x00]; WebBroker.Loop 3 None;
                     WebBroker.Loop 4 None])
                WebBroker.emptyBroker in
     map (WiFi.tx ∘ WebBroker.client) (WebBroker.connectedMQTTClients b)
     = [[0x20; 0x02; 0x00; 0x00] ++ [0x90; 0x03; 0; 1; 0] ++ WebExamples.willPublish]).
Proof.
  split; [|split].
  - destruct (QoSFacts.loopClient_disconnected now i b c Hc Hdrop) as (_ & Hs & Hl).
    now split.
  - intros now' j b' c'. apply QoSFacts.processMQTTClient_exhausted.
  - vm_compute. reflexivity.
Qed.

(** Session 1 holds the will [gone] on [bye], session 0 subscribes to
    [bye], and the peer of session 1 drops its connection. *)
Lemma lwt_lost_on_drop_and_sent_after_disconnect_witness :
  let b := QoSBroker.step (QoSExamples.subscriberAndPublisher "bye" 0 true [])
             (QoSBroker.PeerClose 1) in
  QoSBroker.serial (QoSBroker.loopClient 3 1 b) = QoSBroker.serial b
  ∧ QoSBroker.connectedMQTTClients (QoSBroker.loopClient 3 1 b)
    = delete 1%nat (QoSBroker.connectedMQTTClients b).
Proof.
  intros b.
  refine (proj1 (lwt_lost_on_drop_and_sent_after_disconnect 3 1%nat b
                   (QoSBroker.set_client
                      {| WiFi.connected := false; WiFi.rx := []; WiFi.tx := [] |}
                      (QoSExamples.connectedClient "pub" true [])) _ _ _));
    reflexivity.
Defined.

(** C9.  The topic matcher: [#] matches every topic, every topic matches
    itself as a filter, and the four sample pairs of the specification
    are decided as stated. *)
Theorem topicMatches_algebra :
  (∀ t, Topic.topicMatches t "#" = true)
  ∧ (∀ t, Topic.topicMatches t t = true)
  ∧ Topic.topicMatches "a/b" "a/+" = true
  ∧ Topic.topicMatches "a/b/c" "a/#" = true
  ∧ Topic.topicMatches "a" "a/#" = true
  ∧ Topic.topicMatches "a/b" "a/b/c" = false.
Proof.
  split; [reflexivity |].
  split; [| repeat split; vm_compute; reflexivity].
  intros t. unfold Topic.topicMatches.
  destruct (String.eqb t "#"); [reflexivity |].
  destruct (negb _ && _).
  - rewrite TopicFacts.matchParts_refl.
    destruct (Nat.leb_spec (length (Topic.splitTopic t) - 1)
                (length (Topic.splitTopic t))); [reflexivity | lia].
  - rewrite Nat.eqb_refl. apply TopicFacts.matchParts_refl.
Qed.

(** C10.  A [#] that is not the last segment of the filter is an ordinary
    segment: a matching topic carries the literal segment [#] wherever
    the filter has a [#] before its last segment; when the filter does
    not end in [#], a matching topic has as many segments as the filter;
    and the topics that match the filter [a/#/c] are those that split
    into the three segments [a], [#], [c]. *)
Theorem hash_inside_filter_is_literal (topic filter : string)
    (Hmatch : Topic.topicMatches topic filter = true) :
  (∀ i, (S i < length (Topic.splitTopic filter))%nat →
        Topic.at_ (Topic.splitTopic filter) i = "#" →
        Topic.at_ (Topic.splitTopic topic) i = "#")
  ∧ (Topic.back (Topic.splitTopic filter) ≠ "#" →
     length (Topic.splitTopic topic) = length (Topic.splitTopic filter))
  ∧ (filter = "a/#/c" → Topic.splitTopic topic = ["a"; "#"; "c"]).
Proof.
  split; [|split].
  - intros i Hi Hf.
    destruct (String.eqb_spec (Topic.back (Topic.splitTopic filter)) "#") as [Hb|Hb].
    + destruct (String.eqb_spec filter "#") as [->|Hne];
      [change (Topic.splitTopic "#") with ["#"] in Hi; cbn [length] in Hi; lia |].
      apply (TopicFacts.topicMatches_prefix topic filter Hne Hb) in Hmatch as [_ Hseg].
      destruct (Hseg i ltac:(lia)) as [Hp|Ht]; congruence.
    + apply (TopicFacts.topicMatches_exact topic filter Hb) in Hmatch as [_ Hseg].
      destruct (Hseg i ltac:(lia)) as [Hp|Ht]; congruence.
  - intros Hb. now apply (TopicFacts.topicMatches_exact topic filter Hb) in Hmatch as [Hlen _].
  - intros ->.
    apply TopicFacts.topicMatches_exact in Hmatch as [Hlen Hseg];
      [|vm_compute; discriminate].
    change (Topic.splitTopic "a/#/c") with ["a"; "#"; "c"] in *.
    destruct (Topic.splitTopic topic) as [|x [|y [|z [|? ?]]]]; try discriminate.
    pose proof (Hseg 0%nat ltac:(simpl; lia)) as [H0|H0]; [discriminate |].
    pose proof (Hseg 1%nat ltac:(simpl; lia)) as [H1|H1]; [discriminate |].
    pose proof (Hseg 2%nat ltac:(simpl; lia)) as [H2|H2]; [discriminate |].
    unfold Topic.at_ in *. simpl in *. congruence.
Qed.

Lemma hash_inside_filter_is_literal_witness :
  (∀ i, (S i < length (Topic.splitTopic "a/#/c"))%nat →
        Topic.at_ (Topic.splitTopic "a/#/c") i = "#" →
        Topic.at_ (Topic.splitTopic "a/#/c") i = "#")
  ∧ (Topic.back (Topic.splitTopic "a/#/c") ≠ "#" →
     length (Topic.splitTopic "a/#/c") = length (Topic.splitTopic "a/#/c"))
  ∧ ("a/#/c" = "a/#/c" → Topic.splitTopic "a/#/c" = ["a"; "#"; "c"]).
Proof.
  apply (hash_inside_filter_is_literal "a/#/c" "a/#/c").
  vm_compute. reflexivity.
Defined.

(** C5.  The round trip of the Remaining Length fails for every length
    that needs four digits: the encoder produces its four bytes, and
    [decodeRemainingLength] answers -1 on them, because it tests the
    multiplier after it has multiplied it. *)
Theorem four_digit_length_fails_round_trip (v : Z) (rest : list Z)
    (Hlo : 128 * 128 * 128 <= v) (Hhi : v <= Codec.MAX_REMAINING_LENGTH) :
  ∃ ds, Codec.encodeRemainingLength v = Some ds
        ∧ length ds = 4%nat
        ∧ (Codec.decodeRemainingLength (ds ++ rest)).1 = -1.
Proof.
  unfold Codec.MAX_REMAINING_LENGTH in Hhi.
  unfold Codec.encodeRemainingLength, Codec.decodeRemainingLength.
  destruct (CodecFacts.encode_decode_digits 4 v ltac:(lia)
              ltac:(change (128 ^ Z.of_nat 4) with 268435456; lia))
    as (ds & Henc & Hlen & Hub & Hlb & Hdec).
  assert (length ds = 4%nat) as Hl4.
  { destruct (decide (length ds = 4%nat)) as [|Hn]; [assumption |].
    assert (128 ^ Z.of_nat (length ds) <= 128 ^ 3)
      by (apply Z.pow_le_mono_r; lia).
    change (128 ^ 3) with 2097152 in *. lia. }
  exists ds. split; [exact Henc |]. split; [exact Hl4 |].
  destruct (Hdec rest 1 0 ltac:(lia)) as [_ Hbad]. apply Hbad.
  rewrite Hl4. reflexivity.
Qed.

Lemma four_digit_length_fails_round_trip_witness :
  ∃ ds, Codec.encodeRemainingLength 2097152 = Some ds
        ∧ length ds = 4%nat
        ∧ (Codec.decodeRemainingLength (ds ++ [])).1 = -1.
Proof.
  apply (four_digit_length_fails_round_trip 2097152 []).
  - vm_compute. discriminate.
  - vm_compute. discriminate.
Defined.

(** ** Further properties *)

(** X1.  [splitTopic] and joining with [/] are inverse to each other:
    the segments of a topic are never an empty list, none of them holds
    a [/], joined they give the topic back, and a non-empty list of
    segments without [/] is what [splitTopic] returns for their join. *)
Theorem splitTopic_joinTopic (topic : string) :
  TopicViews.joinTopic (Topic.splitTopic topic) = topic
  ∧ Topic.splitTopic topic ≠ []
  ∧ Forall (λ seg, TopicViews.slashFree seg = true) (Topic.splitTopic topic)
  ∧ (∀ parts, parts ≠ [] → Forall (λ seg, TopicViews.slashFree seg = true) parts →
              Topic.splitTopic (TopicViews.joinTopic parts) = parts).
Proof.
  rewrite TopicFacts.splitTopic_segments. split; [apply TopicJoin.joinTopic_segments |].
  split; [apply TopicFacts.segments_nonempty |].
  split; [apply TopicJoin.segments_slashFree |].
  intros parts Hne Hall. rewrite TopicFacts.splitTopic_segments.
  now apply TopicJoin.segments_joinTopic.
Qed.

(** X2.  The [splitTopic] of the example broker, which scans the topic
    character by character, returns the same segments as the
    [splitTopic] of the brokers, which jumps from [/] to [/] with
    [indexOf] and [substring]. *)
Theorem splitTopic_implementations_agree (topic : string) :
  ExampleBroker.splitTopic topic = Topic.splitTopic topic.
Proof. apply ExampleFacts.splitTopic_agree. Qed.

(** X3.  A filter none of whose segments is [+] or [#] matches its own
    topic and no other topic. *)
Theorem wildcard_free_filter_matches_itself_only (topic filter : string)
    (Hfree : TopicViews.wildcardFree filter = true) :
  Topic.topicMatches topic filter = true ↔ topic = filter.
Proof. now apply TopicJoin.topicMatches_wildcardFree. Qed.

Lemma wildcard_free_filter_matches_itself_only_witness :
  Topic.topicMatches "home/kitchen" "home/kitchen/temp" = true
  ↔ "home/kitchen" = "home/kitchen/temp".
Proof.
  apply (wildcard_free_filter_matches_itself_only "home/kitchen" "home/kitchen/temp").
  reflexivity.
Defined.

(** X4.  The filter [pre/#] matches the topics that have at least as
    many segments as [pre] and agree with [pre] at each of its segments
    other than [+]: the topics below [pre] and also the topics with
    exactly the segments of [pre]. *)
Theorem filter_under_hash (topic pre : string) :
  Topic.topicMatches topic (pre +:+ "/#") = true ↔
    (length (Topic.splitTopic pre) ≤ length (Topic.splitTopic topic))%nat
    ∧ ∀ j, (j < length (Topic.splitTopic pre))%nat →
           Topic.at_ (Topic.splitTopic pre) j = "+"
           ∨ Topic.at_ (Topic.splitTopic topic) j = Topic.at_ (Topic.splitTopic pre) j.
Proof. apply TopicJoin.topicMatches_under. Qed.

(** X5.  For a filter without a [#] segment the matcher of the example
    broker, [topicMatches(sub, pub)], decides as the matcher of the
    brokers, [topicMatches(topic, filter)], with the arguments swapped. *)
Theorem example_matcher_agrees_without_hash (sub pub : string)
    (Hfree : TopicViews.hashFree sub = true) :
  ExampleBroker.topicMatches sub pub = Topic.topicMatches pub sub.
Proof. now apply ExampleMatcher.topicMatches_hashFree. Qed.

Lemma example_matcher_agrees_without_hash_witness :
  ExampleBroker.topicMatches "a/+/c" "a/b/c" = Topic.topicMatches "a/b/c" "a/+/c".
Proof.
  apply (example_matcher_agrees_without_hash "a/+/c" "a/b/c"). reflexivity.
Defined.

(** X6.  A Remaining Length below 128*128*128 = 2097152 survives the
    round trip: the encoder of [sendMQTTPacket] produces its digits, and
    [decodeRemainingLength] reads the length back from them and leaves
    what follows on the stream. *)
Theorem remaining_length_round_trip_three_digits (v : Z) (rest : list Z)
    (Hv : 0 <= v < 128 * 128 * 128) :
  ∃ ds, Codec.encodeRemainingLength v = Some ds
        ∧ Codec.decodeRemainingLength (ds ++ rest) = (v, rest).
Proof. now apply CodecFacts.decode_encode_three_digits. Qed.

Lemma remaining_length_round_trip_three_digits_witness :
  ∃ ds, Codec.encodeRemainingLength 321 = Some ds
        ∧ Codec.decodeRemainingLength (ds ++ [7; 8]) = (321, [7; 8]).
Proof.
  apply (remaining_length_round_trip_three_digits 321 [7; 8]).
  vm_compute. split; [discriminate | reflexivity].
Defined.

(** X7.  Whatever arrives on the stream, [decodeRemainingLength] answers
    -1 or a length below 2097152, and it takes at most four bytes off
    the stream, which are a prefix of what arrived. *)
Theorem decodeRemainingLength_range (rx : list Z) :
  ((Codec.decodeRemainingLength rx).1 = -1
   ∨ 0 <= (Codec.decodeRemainingLength rx).1 < 128 * 128 * 128)
  ∧ ∃ taken, rx = taken ++ (Codec.decodeRemainingLength rx).2 ∧ (length taken ≤ 4)%nat.
Proof.
  pose proof (CodecRange.decode_range rx) as H.
  destruct (Codec.decodeRemainingLength rx) as [value rest]. exact H.
Qed.

(** X8.  The encoder of [sendMQTTPacket] is right on the whole range of
    MQTT: for a length up to 268435455 it stores at most four digits
    that stand for the length, every digit but the last with the
    continuation bit; a larger length would need a fifth slot of
    [encodedRemLen[4]]. *)
Theorem encodeRemainingLength_digits (v : Z) :
  (0 <= v <= Codec.MAX_REMAINING_LENGTH →
   ∃ ds, Codec.encodeRemainingLength v = Some ds
         ∧ (length ds ≤ 4)%nat
         ∧ CodecViews.digitsValue ds = v
         ∧ CodecViews.wellFormedDigits ds = true)
  ∧ (Codec.MAX_REMAINING_LENGTH < v → Codec.encodeRemainingLength v = None).
Proof.
  unfold Codec.MAX_REMAINING_LENGTH, Codec.encodeRemainingLength. split.
  - intros Hv. apply CodecRange.encode_loop_value; [lia |].
    change (128 ^ Z.of_nat 4) with 268435456. lia.
  - intros Hv. apply CodecRange.encode_loop_overflow.
    change (128 ^ Z.of_nat 4) with 268435456. lia.
Qed.

(** X9.  [readLengthPrefixedString] returns a field that is complete on
    the stream and leaves what follows it; with fewer than two bytes it
    answers the empty string and reads nothing; and when fewer bytes
    follow than the prefix announces it answers the empty string after
    it has taken the two bytes of the prefix, so that the bytes of the
    field stay on the stream. *)
Theorem readLengthPrefixedString_cases (s : string) (rest : list Z) (cn : bool)
    (t : list Z)
    (Hnul : QoSFacts.noNul s = true) (Hlen : Arduino.len s < 65536) :
  QoSBroker.readLengthPrefixedString
    {| WiFi.connected := cn;
       WiFi.rx := WiFi.be16 (Arduino.len s) ++ Arduino.bytes_of_String s ++ rest;
       WiFi.tx := t |}
  = (s, {| WiFi.connected := cn; WiFi.rx := rest; WiFi.tx := t |})
  ∧ (∀ w, (length (WiFi.rx w) < 2)%nat → QoSBroker.readLengthPrefixedString w = ("", w))
  ∧ (∀ msb lsb field,
       Z.of_nat (length field) < WiFi.word msb lsb →
       QoSBroker.readLengthPrefixedString
         {| WiFi.connected := cn; WiFi.rx := msb :: lsb :: field; WiFi.tx := t |}
       = ("", {| WiFi.connected := cn; WiFi.rx := field; WiFi.tx := t |})).
Proof.
  split; [now apply QoSWire.readLengthPrefixedString_field |]. split.
  - intros w Hw. unfold QoSBroker.readLengthPrefixedString, WiFi.waitForBytes.
    destruct (Z.leb_spec 2 (Z.of_nat (length (WiFi.rx w)))); [lia | reflexivity].
  - intros msb lsb field Hshort.
    unfold QoSBroker.readLengthPrefixedString, WiFi.waitForBytes.
    cbn [WiFi.rx length].
    destruct (Z.leb_spec 2 (Z.of_nat (S (S (length field))))); [|lia].
    cbn [negb]. rewrite !QoSWire.read_cons.
    destruct (Z.eqb_spec (WiFi.word msb lsb) 0); [reflexivity |].
    cbn [WiFi.rx].
    destruct (Z.leb_spec (WiFi.word msb lsb) (Z.of_nat (length field))); [lia | reflexivity].
Qed.

Lemma readLengthPrefixedString_cases_witness :
  QoSBroker.readLengthPrefixedString
    {| WiFi.connected := true;
       WiFi.rx := WiFi.be16 (Arduino.len "dev1") ++ Arduino.bytes_of_String "dev1" ++ [0; 3];
       WiFi.tx := [] |}
  = ("dev1", {| WiFi.connected := true; WiFi.rx := [0; 3]; WiFi.tx := [] |}).
Proof.
  refine (proj1 (readLengthPrefixedString_cases "dev1" [0; 3] true [] _ _)).
  - reflexivity.
  - vm_compute. reflexivity.
Defined.

(** X10.  The body that [sendPublish] builds for a PUBLISH is read back
    by the reads of [handlePublish], when its length fits the [byte]
    that [handlePublish] takes as Remaining Length: the same topic,
    packet identifier (0 at QoS 0) and payload, with what follows the
    packet left on the stream. *)
Theorem publish_body_round_trip (qos pid : Z) (topic payload : string)
    (rest : list Z) (cn : bool) (t : list Z)
    (Htopic : QoSFacts.noNul topic = true) (Hpayload : QoSFacts.noNul payload = true)
    (Hlen : Arduino.len topic < 65536) (Hpid : 0 <= pid < 65536)
    (Hfit : Z.of_nat (length (QoSBroker.publishBody topic payload qos pid)) < 256) :
  QoSBroker.readPublish qos
    (Z.of_nat (length (QoSBroker.publishBody topic payload qos pid)))
    {| WiFi.connected := cn;
       WiFi.rx := QoSBroker.publishBody topic payload qos pid ++ rest;
       WiFi.tx := t |}
  = (topic, (if 0 <? qos then pid else 0), payload,
     {| WiFi.connected := cn; WiFi.rx := rest; WiFi.tx := t |}).
Proof.
  pose proof (QoSWire.readPublish_raw qos topic (Arduino.bytes_of_String payload)
                pid rest cn t Htopic Hlen Hpid) as H.
  cbv zeta in H. rewrite QoSFacts.String_of_cstr_bytes in H by exact Hpayload.
  exact H.
Qed.

Lemma publish_body_round_trip_witness :
  QoSBroker.readPublish 0
    (Z.of_nat (length (QoSBroker.publishBody "test" "hi!" 0 0)))
    {| WiFi.connected := true;
       WiFi.rx := QoSBroker.publishBody "test" "hi!" 0 0 ++ [0xC0; 0];
       WiFi.tx := [] |}
  = ("test", (if 0 <? 0 then 0 else 0), "hi!",
     {| WiFi.connected := true; WiFi.rx := [0xC0; 0]; WiFi.tx := [] |}).
Proof.
  apply (publish_body_round_trip 0 0 "test" "hi!" [0xC0; 0] true []).
  - reflexivity.
  - reflexivity.
  - vm_compute. reflexivity.
  - lia.
  - vm_compute. reflexivity.
Defined.

(** X11.  The payload of an inbound PUBLISH is cut at its first NUL
    byte: [handlePublish] copies the payload into a [char] buffer and
    makes a [String] of it, so the bytes from the NUL on are read off
    the stream and lost. *)
Theorem publish_payload_cut_at_nul (qos pid : Z) (topic shown : string)
    (hidden rest : list Z) (cn : bool) (t : list Z)
    (Htopic : QoSFacts.noNul topic = true) (Hshown : QoSFacts.noNul shown = true)
    (Hlen : Arduino.len topic < 65536) (Hpid : 0 <= pid < 65536)
    (Hfit : Z.of_nat (length (WiFi.be16 (Arduino.len topic)
                              ++ Arduino.bytes_of_String topic
                              ++ (if 0 <? qos then WiFi.be16 pid else [])
                              ++ (Arduino.bytes_of_String shown ++ 0 :: hidden))) < 256) :
  let body := WiFi.be16 (Arduino.len topic) ++ Arduino.bytes_of_String topic
              ++ (if 0 <? qos then WiFi.be16 pid else [])
              ++ (Arduino.bytes_of_String shown ++ 0 :: hidden) in
  QoSBroker.readPublish qos (Z.of_nat (length body))
    {| WiFi.connected := cn; WiFi.rx := body ++ rest; WiFi.tx := t |}
  = (topic, (if 0 <? qos then pid else 0), shown,
     {| WiFi.connected := cn; WiFi.rx := rest; WiFi.tx := t |}).
Proof.
  pose proof (QoSWire.readPublish_raw qos topic
                (Arduino.bytes_of_String shown ++ 0 :: hidden)
                pid rest cn t Htopic Hlen Hpid) as H.
  cbv zeta in H. rewrite QoSWire.String_of_cstr_nul in H by exact Hshown.
  exact H.
Qed.

Lemma publish_payload_cut_at_nul_witness :
  QoSBroker.readPublish 0 10
    {| WiFi.connected := true;
       WiFi.rx := [0; 1; 116; 97; 98; 0; 99; 100; 101; 102] ++ [];
       WiFi.tx := [] |}
  = ("t", 0, "ab", {| WiFi.connected := true; WiFi.rx := []; WiFi.tx := [] |}).
Proof.
  refine (publish_payload_cut_at_nul 0 0 "t" "ab" [99; 100; 101; 102] [] true [] _ _ _ _ _).
  - reflexivity.
  - reflexivity.
  - vm_compute. reflexivity.
  - lia.
  - vm_compute. reflexivity.
Defined.

(** X12.  [sendPublish] to a connected client above QoS 0 takes the
    client's next packet identifier for the message, stores the message
    under it with retry count 0 in state 0, and moves the counter on,
    from 65535 to 1 so that 0 is never used; at QoS 0 it stores nothing
    and leaves the counter; to a client whose socket is closed it does
    nothing at all; and it never touches another client. *)
Theorem sendPublish_queues_and_numbers (now : Z) (j : nat) (topic payload : string)
    (qos : Z) (retain : bool) (b : QoSBroker.Broker) (c : QoSBroker.MQTTClientState)
    (Hc : QoSBroker.connectedMQTTClients b !! j = Some c) :
  let b' := QoSBroker.sendPublish now j topic payload qos retain b in
  let packetId := QoSBroker.nextOutgoingPacketId c in
  (WiFi.connected (QoSBroker.client c) = true → 0 < qos → 1 <= packetId <= 65535 →
   ∃ c', QoSBroker.connectedMQTTClients b' !! j = Some c'
         ∧ QoSBroker.outgoingQoSMessages c'
           = <[packetId := QoSInFlight.queued now topic payload qos retain packetId]>
               (QoSBroker.outgoingQoSMessages c)
         ∧ QoSBroker.nextOutgoingPacketId c'
           = (if packetId =? 65535 then 1 else packetId + 1)
         ∧ 1 <= QoSBroker.nextOutgoingPacketId c' <= 65535
         ∧ QoSBroker.client c'
           = QoSBroker.sendMQTTPacket (QoSBroker.client c)
               (QoSBroker.publishHeader 0x30 qos retain)
               (QoSBroker.publishBody topic payload qos packetId))
  ∧ (WiFi.connected (QoSBroker.client c) = true → qos <= 0 →
     ∃ c', QoSBroker.connectedMQTTClients b' !! j = Some c'
           ∧ QoSBroker.outgoingQoSMessages c' = QoSBroker.outgoingQoSMessages c
           ∧ QoSBroker.nextOutgoingPacketId c' = packetId
           ∧ QoSBroker.client c'
             = QoSBroker.sendMQTTPacket (QoSBroker.client c)
                 (QoSBroker.publishHeader 0x30 qos retain)
                 (QoSBroker.publishBody topic payload qos 0))
  ∧ (WiFi.connected (QoSBroker.client c) = false → b' = b)
  ∧ (∀ k, k ≠ j → QoSBroker.connectedMQTTClients b' !! k
                  = QoSBroker.connectedMQTTClients b !! k).
Proof.
  cbv zeta. split; [|split; [|split]].
  - intros Hcon Hq Hid. eexists. split.
    + exact (QoSInFlight.sendPublish_above_qos0 now j topic payload qos retain b c
               Hc Hcon Hq Hid).
    + split; [reflexivity |]. split; [reflexivity |]. split; [|reflexivity].
      change (1 <= QoSInFlight.nextId (QoSBroker.nextOutgoingPacketId c) <= 65535).
      unfold QoSInFlight.nextId.
      destruct (Z.eqb_spec (QoSBroker.nextOutgoingPacketId c) 65535); lia.
  - intros Hcon Hq. eexists. split.
    + exact (QoSInFlight.sendPublish_at_qos0 now j topic payload qos retain b c
               Hc Hcon Hq).
    + repeat split.
  - intros Hcon. now apply (QoSInFlight.sendPublish_closed now j topic payload qos retain b c).
  - intros k Hk. now apply QoSInFlight.sendPublish_others.
Qed.

Lemma sendPublish_queues_and_numbers_witness :
  let c := QoSBroker.set_nextOutgoingPacketId 65535
             (QoSExamples.connectedClient "sub" false []) in
  let b := QoSBroker.set_clients [c] QoSBroker.emptyBroker in
  ∃ c', QoSBroker.connectedMQTTClients
          (QoSBroker.sendPublish 7 0 "test" "hi!" 1 false b) !! 0%nat = Some c'
        ∧ QoSBroker.outgoingQoSMessages c'
          = <[65535 := QoSInFlight.queued 7 "test" "hi!" 1 false 65535]>
              (QoSBroker.outgoingQoSMessages c)
        ∧ QoSBroker.nextOutgoingPacketId c' = (if 65535 =? 65535 then 1 else 65535 + 1)
        ∧ 1 <= QoSBroker.nextOutgoingPacketId c' <= 65535
        ∧ QoSBroker.client c'
          = QoSBroker.sendMQTTPacket (QoSBroker.client c)
              (QoSBroker.publishHeader 0x30 1 false)
              (QoSBroker.publishBody "test" "hi!" 1 65535).
Proof.
  cbv zeta.
  refine (proj1 (sendPublish_queues_and_numbers 7 0%nat "test" "hi!" 1 false
                   (QoSBroker.set_clients
                      [QoSBroker.set_nextOutgoingPacketId 65535
                         (QoSExamples.connectedClient "sub" false [])]
                      QoSBroker.emptyBroker)
                   (QoSBroker.set_nextOutgoingPacketId 65535
                      (QoSExamples.connectedClient "sub" false [])) _) _ _ _).
  - reflexivity.
  - reflexivity.
  - reflexivity.
  - vm_compute. split; discriminate.
Defined.

(** X13.  The QoS-1 delivery to a subscriber ends with its PUBACK: the
    PUBLISH that [sendPublish] sends at QoS 1 is held under its packet
    identifier, and the PUBACK with that identifier, read by the switch
    of [processMQTTClient], erases the entry and writes nothing, so that
    the table of messages in flight is what it was before. *)
Theorem puback_ends_qos1_delivery (now now' : Z) (j : nat) (topic payload : string)
    (retain : bool) (b : QoSBroker.Broker) (c : QoSBroker.MQTTClientState)
    (more : list Z)
    (Hc : QoSBroker.connectedMQTTClients b !! j = Some c)
    (Hcon : WiFi.connected (QoSBroker.client c) = true)
    (Hid : 1 <= QoSBroker.nextOutgoingPacketId c <= 65535)
    (Hfresh : QoSBroker.outgoingQoSMessages c !! QoSBroker.nextOutgoingPacketId c = None)
    (Hrx : WiFi.rx (QoSBroker.client c)
           = [0x40; 2] ++ WiFi.be16 (QoSBroker.nextOutgoingPacketId c) ++ more) :
  let packetId := QoSBroker.nextOutgoingPacketId c in
  let b1 := QoSBroker.sendPublish now j topic payload 1 retain b in
  let b2 := QoSBroker.dispatch now' j b1 in
  ∃ c1 c2,
    QoSBroker.connectedMQTTClients b1 !! j = Some c1
    ∧ QoSBroker.outgoingQoSMessages c1 !! packetId
      = Some (QoSInFlight.queued now topic payload 1 retain packetId)
    ∧ QoSBroker.connectedMQTTClients b2 !! j = Some c2
    ∧ QoSBroker.outgoingQoSMessages c2 = QoSBroker.outgoingQoSMessages c
    ∧ WiFi.tx (QoSBroker.client c2) = WiFi.tx (QoSBroker.client c1)
    ∧ WiFi.rx (QoSBroker.client c2) = more
    ∧ WiFi.connected (QoSBroker.client c2) = true.
Proof.
  cbv zeta.
  pose proof (QoSInFlight.sendPublish_above_qos0 now j topic payload 1 retain b c
                Hc Hcon ltac:(lia) Hid) as H1.
  fold (QoSHandshake.sentTo now topic payload 1 retain c) in H1.
  destruct (QoSHandshake.sentTo_socket now topic payload 1 retain c) as [Hcon1 Hrx1].
  destruct (QoSHandshake.dispatch_ack now' j _ _ 0x40 (QoSBroker.nextOutgoingPacketId c)
              more H1 ltac:(now rewrite Hrx1) ltac:(now left) ltac:(lia)) as [H2 _].
  eexists _, _. split; [exact H1 |]. split.
  { unfold QoSHandshake.sentTo.
    cbn [QoSBroker.outgoingQoSMessages QoSBroker.set_client QoSBroker.set_outgoing].
    apply lookup_insert_eq. }
  split; [exact H2 |].
  cbn [QoSBroker.outgoingQoSMessages QoSBroker.set_outgoing QoSBroker.client
       QoSBroker.set_client WiFi.tx WiFi.rx WiFi.connected].
  split.
  { unfold QoSHandshake.sentTo.
    cbn [QoSBroker.outgoingQoSMessages QoSBroker.set_client QoSBroker.set_outgoing].
    rewrite delete_insert_eq. now apply delete_id. }
  split; [reflexivity |]. split; [reflexivity |]. now rewrite Hcon1.
Qed.

Lemma puback_ends_qos1_delivery_witness :
  let c := QoSExamples.connectedClient "sub" false ([0x40; 2] ++ WiFi.be16 1 ++ []) in
  let b := QoSBroker.set_clients [c] QoSBroker.emptyBroker in
  let b1 := QoSBroker.sendPublish 0 0 "test" "hi!" 1 false b in
  let b2 := QoSBroker.dispatch 9 0 b1 in
  ∃ c1 c2,
    QoSBroker.connectedMQTTClients b1 !! 0%nat = Some c1
    ∧ QoSBroker.outgoingQoSMessages c1 !! 1
      = Some (QoSInFlight.queued 0 "test" "hi!" 1 false 1)
    ∧ QoSBroker.connectedMQTTClients b2 !! 0%nat = Some c2
    ∧ QoSBroker.outgoingQoSMessages c2 = QoSBroker.outgoingQoSMessages c
    ∧ WiFi.tx (QoSBroker.client c2) = WiFi.tx (QoSBroker.client c1)
    ∧ WiFi.rx (QoSBroker.client c2) = []
    ∧ WiFi.connected (QoSBroker.client c2) = true.
Proof.
  cbv zeta.
  apply (puback_ends_qos1_delivery 0 9 0%nat "test" "hi!" false
           (QoSBroker.set_clients
              [QoSExamples.connectedClient "sub" false ([0x40; 2] ++ WiFi.be16 1 ++ [])]
              QoSBroker.emptyBroker)
           (QoSExamples.connectedClient "sub" false ([0x40; 2] ++ WiFi.be16 1 ++ []))
           []).
  - reflexivity.
  - reflexivity.
  - vm_compute. split; discriminate.
  - reflexivity.
  - reflexivity.
Defined.

(** X14.  The QoS-2 delivery to a subscriber: the PUBLISH that
    [sendPublish] sends at QoS 2 is held in state 0; its PUBREC is
    answered by the PUBREL [62 02 pid] and moves the entry to state 1
    with retry count 0; its PUBCOMP erases the entry and writes nothing,
    so that the table of messages in flight is what it was before. *)
Theorem qos2_delivery_handshake (now now' now'' : Z) (j : nat) (topic payload : string)
    (retain : bool) (b : QoSBroker.Broker) (c : QoSBroker.MQTTClientState)
    (more : list Z)
    (Hc : QoSBroker.connectedMQTTClients b !! j = Some c)
    (Hcon : WiFi.connected (QoSBroker.client c) = true)
    (Hid : 1 <= QoSBroker.nextOutgoingPacketId c <= 65535)
    (Hfresh : QoSBroker.outgoingQoSMessages c !! QoSBroker.nextOutgoingPacketId c = None)
    (Hrx : WiFi.rx (QoSBroker.client c)
           = [0x50; 2] ++ WiFi.be16 (QoSBroker.nextOutgoingPacketId c)
             ++ [0x70; 2] ++ WiFi.be16 (QoSBroker.nextOutgoingPacketId c) ++ more) :
  let packetId := QoSBroker.nextOutgoingPacketId c in
  let b1 := QoSBroker.sendPublish now j topic payload 2 retain b in
  let b2 := QoSBroker.dispatch now' j b1 in
  let b3 := QoSBroker.dispatch now'' j b2 in
  ∃ c1 c2 c3,
    QoSBroker.connectedMQTTClients b1 !! j = Some c1
    ∧ QoSBroker.outgoingQoSMessages c1 !! packetId
      = Some (QoSInFlight.queued now topic payload 2 retain packetId)
    ∧ QoSBroker.connectedMQTTClients b2 !! j = Some c2
    ∧ QoSBroker.outgoingQoSMessages c2 !! packetId
      = Some (QoSInFlight.released now'
                (QoSInFlight.queued now topic payload 2 retain packetId))
    ∧ WiFi.tx (QoSBroker.client c2)
      = WiFi.tx (QoSBroker.client c1) ++ [0x62; 2] ++ WiFi.be16 packetId
    ∧ QoSBroker.connectedMQTTClients b3 !! j = Some c3
    ∧ QoSBroker.outgoingQoSMessages c3 = QoSBroker.outgoingQoSMessages c
    ∧ WiFi.tx (QoSBroker.client c3) = WiFi.tx (QoSBroker.client c2)
    ∧ WiFi.rx (QoSBroker.client c3) = more.
Proof.
  cbv zeta. set (packetId := QoSBroker.nextOutgoingPacketId c) in *.
  pose proof (QoSInFlight.sendPublish_above_qos0 now j topic payload 2 retain b c
                Hc Hcon ltac:(lia) Hid) as H1.
  fold packetId in H1.
  fold (QoSHandshake.sentTo now topic payload 2 retain c) in H1.
  destruct (QoSHandshake.sentTo_socket now topic payload 2 retain c) as [Hcon1 Hrx1].
  set (c1 := QoSHandshake.sentTo now topic payload 2 retain c) in *.
  assert (Hq1 : QoSBroker.outgoingQoSMessages c1 !! packetId
                = Some (QoSInFlight.queued now topic payload 2 retain packetId)).
  { unfold c1, QoSHandshake.sentTo.
    cbn [QoSBroker.outgoingQoSMessages QoSBroker.set_client QoSBroker.set_outgoing].
    apply lookup_insert_eq. }
  destruct (QoSHandshake.dispatch_pubrec now' j _ c1 packetId
              ([0x70; 2] ++ WiFi.be16 packetId ++ more)
              H1 ltac:(now rewrite Hrx1) ltac:(lia)) as [H2 _].
  cbv zeta in H2. rewrite Hq1 in H2.
  change ((QoSBroker.out_qos (QoSInFlight.queued now topic payload 2 retain packetId) =? 2)
          && (QoSBroker.out_state (QoSInFlight.queued now topic payload 2 retain packetId)
              =? 0)) with true in H2.
  cbv iota in H2.
  match type of H2 with _ = Some ?x => set (c2 := x) in * end.
  assert (Hsock2 : QoSBroker.client c2
                   = {| WiFi.connected := true;
                        WiFi.rx := [0x70; 2] ++ WiFi.be16 packetId ++ more;
                        WiFi.tx := WiFi.tx (QoSBroker.client c1)
                                   ++ 0x62 :: 2 :: WiFi.be16 packetId |}).
  { unfold c2. cbn [QoSBroker.client QoSBroker.set_client QoSBroker.set_outgoing].
    unfold QoSBroker.sendPubRel. rewrite QoSFacts.sendMQTTPacket_ack by exact (eq_trans Hcon1 Hcon).
    cbn [WiFi.rx WiFi.tx]. reflexivity. }
  destruct (QoSHandshake.dispatch_ack now'' j _ c2 0x70 packetId more H2
              ltac:(now rewrite Hsock2) ltac:(now right) ltac:(lia)) as [H3 _].
  exists c1, c2. eexists. split; [exact H1 |]. split; [exact Hq1 |].
  split; [exact H2 |]. split.
  { unfold c2. cbn [QoSBroker.outgoingQoSMessages QoSBroker.set_client QoSBroker.set_outgoing].
    apply lookup_insert_eq. }
  split; [now rewrite Hsock2 |]. split; [exact H3 |].
  cbn [QoSBroker.outgoingQoSMessages QoSBroker.set_outgoing QoSBroker.client
       QoSBroker.set_client WiFi.tx WiFi.rx].
  split; [|split; reflexivity].
  unfold c2. cbn [QoSBroker.outgoingQoSMessages QoSBroker.set_client QoSBroker.set_outgoing].
  rewrite delete_insert_eq. unfold c1, QoSHandshake.sentTo.
  cbn [QoSBroker.outgoingQoSMessages QoSBroker.set_client QoSBroker.set_outgoing].
  rewrite delete_insert_eq. now apply delete_id.
Qed.

Lemma qos2_delivery_handshake_witness :
  let c := QoSExamples.connectedClient "sub" false
             ([0x50; 2] ++ WiFi.be16 1 ++ [0x70; 2] ++ WiFi.be16 1 ++ []) in
  let b := QoSBroker.set_clients [c] QoSBroker.emptyBroker in
  let b1 := QoSBroker.sendPublish 0 0 "test" "hi!" 2 false b in
  let b2 := QoSBroker.dispatch 8 0 b1 in
  let b3 := QoSBroker.dispatch 9 0 b2 in
  ∃ c1 c2 c3,
    QoSBroker.connectedMQTTClients b1 !! 0%nat = Some c1
    ∧ QoSBroker.outgoingQoSMessages c1 !! 1
      = Some (QoSInFlight.queued 0 "test" "hi!" 2 false 1)
    ∧ QoSBroker.connectedMQTTClients b2 !! 0%nat = Some c2
    ∧ QoSBroker.outgoingQoSMessages c2 !! 1
      = Some (QoSInFlight.released 8 (QoSInFlight.queued 0 "test" "hi!" 2 false 1))
    ∧ WiFi.tx (QoSBroker.client c2)
      = WiFi.tx (QoSBroker.client c1) ++ [0x62; 2] ++ WiFi.be16 1
    ∧ QoSBroker.connectedMQTTClients b3 !! 0%nat = Some c3
    ∧ QoSBroker.outgoingQoSMessages c3 = QoSBroker.outgoingQoSMessages c
    ∧ WiFi.tx (QoSBroker.client c3) = WiFi.tx (QoSBroker.client c2)
    ∧ WiFi.rx (QoSBroker.client c3) = [].
Proof.
  cbv zeta.
  apply (qos2_delivery_handshake 0 8 9 0%nat "test" "hi!" false
           (QoSBroker.set_clients
              [QoSExamples.connectedClient "sub" false
                 ([0x50; 2] ++ WiFi.be16 1 ++ [0x70; 2] ++ WiFi.be16 1 ++ [])]
              QoSBroker.emptyBroker)
           (QoSExamples.connectedClient "sub" false
              ([0x50; 2] ++ WiFi.be16 1 ++ [0x70; 2] ++ WiFi.be16 1 ++ []))
           []).
  - reflexivity.
  - reflexivity.
  - vm_compute. split; discriminate.
  - reflexivity.
  - reflexivity.
Defined.

(** X15.  A PUBREC outside the handshake: for a packet identifier that
    is not in flight the broker answers with a PUBREL all the same and
    stores nothing; for an entry that is not a QoS-2 message in state 0
    (a QoS-1 message, or a QoS-2 message whose PUBREL is out already)
    it writes nothing and leaves the entry as it is. *)
Theorem pubrec_outside_handshake (now : Z) (i : nat) (b : QoSBroker.Broker)
    (c : QoSBroker.MQTTClientState) (packetId : Z) (rest : list Z)
    (Hc : QoSBroker.connectedMQTTClients b !! i = Some c)
    (Hcon : WiFi.connected (QoSBroker.client c) = true)
    (Hrx : WiFi.rx (QoSBroker.client c) = [0x50; 2] ++ WiFi.be16 packetId ++ rest)
    (Hid : 0 <= packetId < 65536) :
  let b' := QoSBroker.dispatch now i b in
  (QoSBroker.outgoingQoSMessages c !! packetId = None →
   ∃ c', QoSBroker.connectedMQTTClients b' !! i = Some c'
         ∧ QoSBroker.outgoingQoSMessages c' = QoSBroker.outgoingQoSMessages c
         ∧ WiFi.tx (QoSBroker.client c')
           = WiFi.tx (QoSBroker.client c) ++ [0x62; 2] ++ WiFi.be16 packetId)
  ∧ (∀ outMsg,
       QoSBroker.outgoingQoSMessages c !! packetId = Some outMsg →
       QoSBroker.out_qos outMsg ≠ 2 ∨ QoSBroker.out_state outMsg ≠ 0 →
       ∃ c', QoSBroker.connectedMQTTClients b' !! i = Some c'
             ∧ QoSBroker.outgoingQoSMessages c' = QoSBroker.outgoingQoSMessages c
             ∧ WiFi.tx (QoSBroker.client c') = WiFi.tx (QoSBroker.client c)).
Proof.
  cbv zeta.
  destruct (QoSHandshake.dispatch_pubrec now i b c packetId rest Hc Hrx Hid) as [H _].
  cbv zeta in H. split.
  - intros Hnone. rewrite Hnone in H. eexists. split; [exact H |].
    cbn [QoSBroker.outgoingQoSMessages QoSBroker.client QoSBroker.set_client].
    split; [reflexivity |]. unfold QoSBroker.sendPubRel.
    rewrite QoSFacts.sendMQTTPacket_ack by exact Hcon. reflexivity.
  - intros outMsg Hsome Hnot. rewrite Hsome in H.
    assert (Hcond : (QoSBroker.out_qos outMsg =? 2) && (QoSBroker.out_state outMsg =? 0)
                    = false).
    { destruct Hnot as [Hq|Hs].
      - apply Z.eqb_neq in Hq. now rewrite Hq.
      - apply Z.eqb_neq in Hs. rewrite Hs. apply andb_false_r. }
    rewrite Hcond in H. eexists. split; [exact H |]. split; reflexivity.
Qed.

Lemma pubrec_outside_handshake_witness :
  let c := QoSExamples.connectedClient "sub" false ([0x50; 2] ++ WiFi.be16 5 ++ []) in
  let b := QoSBroker.set_clients [c] QoSBroker.emptyBroker in
  ∃ c', QoSBroker.connectedMQTTClients (QoSBroker.dispatch 3 0 b) !! 0%nat = Some c'
        ∧ QoSBroker.outgoingQoSMessages c' = QoSBroker.outgoingQoSMessages c
        ∧ WiFi.tx (QoSBroker.client c')
          = WiFi.tx (QoSBroker.client c) ++ [0x62; 2] ++ WiFi.be16 5.
Proof.
  cbv zeta.
  refine (proj1 (pubrec_outside_handshake 3 0%nat
                   (QoSBroker.set_clients
                      [QoSExamples.connectedClient "sub" false
                         ([0x50; 2] ++ WiFi.be16 5 ++ [])]
                      QoSBroker.emptyBroker)
                   (QoSExamples.connectedClient "sub" false
                      ([0x50; 2] ++ WiFi.be16 5 ++ []))
                   5 [] _ _ _ _) _).
  - reflexivity.
  - reflexivity.
  - reflexivity.
  - lia.
  - reflexivity.
Defined.

(** X16.  The keep-alive of [processMQTTClient]: once a client with a
    keep-alive above 0 has been idle for more than 1.5 times its
    keep-alive, its will, if it has one, is forwarded to every matching
    subscription of a connected client, at the QoS of the subscription
    and with RETAIN off, and its socket is closed; the will is neither
    logged nor retained.  On the sockets: every connected client is
    written one PUBLISH packet of the will for each of its matching
    subscriptions, and no client is written anything else.  While the
    test does not fire, a client with nothing in flight and nothing to
    read is left as it is. *)
Theorem keep_alive_timeout (now : Z) (i : nat) (b : QoSBroker.Broker)
    (c : QoSBroker.MQTTClientState)
    (Hc : QoSBroker.connectedMQTTClients b !! i = Some c)
    (Hcon : WiFi.connected (QoSBroker.client c) = true) :
  let b' := QoSBroker.processMQTTClient now i b in
  (0 < QoSBroker.clientKeepAliveSec c →
   WiFi.u32 (QoSBroker.clientKeepAliveSec c * 1500)
   < QoSBroker.elapsed now (QoSBroker.lastSeen c) →
   QoSFacts.deliveries b'
   = QoSFacts.deliveries b
     ++ (if QoSBroker.hasLWT c
         then map (λ sub, (QoSBroker.clientState sub, QoSBroker.willTopic c,
                           QoSBroker.willMessage c, QoSBroker.sub_qos sub, false))
                (QoSFacts.receivers b (QoSBroker.willTopic c))
         else [])
   ∧ QoSFacts.isConnected b' i = false
   ∧ QoSBroker.retainedMessages b' = QoSBroker.retainedMessages b
   ∧ QoSBroker.messageLog b' = QoSBroker.messageLog b
   ∧ QoSBroker.activeSubscriptions b' = QoSBroker.activeSubscriptions b
   ∧ (∀ k ck,
        QoSBroker.connectedMQTTClients b !! k = Some ck →
        ∃ ck',
          QoSBroker.connectedMQTTClients b' !! k = Some ck'
          ∧ WiFi.tx (QoSBroker.client ck')
            = WiFi.tx (QoSBroker.client ck)
              ++ (if QoSBroker.hasLWT c && WiFi.connected (QoSBroker.client ck)
                  then QoSFrames.publishFrames false (QoSBroker.nextOutgoingPacketId ck)
                         (map (λ sub, (QoSBroker.willTopic c, QoSBroker.willMessage c,
                                       QoSBroker.sub_qos sub))
                            (QoSFrames.subscriptionsOf k (QoSBroker.willTopic c)
                               (QoSBroker.activeSubscriptions b)))
                  else [])))
  ∧ (QoSBroker.clientKeepAliveSec c <= 0
     ∨ QoSBroker.elapsed now (QoSBroker.lastSeen c)
       <= WiFi.u32 (QoSBroker.clientKeepAliveSec c * 1500) →
     QoSBroker.outgoingQoSMessages c = ∅ →
     QoSBroker.incomingQoS2Messages c = ∅ →
     WiFi.rx (QoSBroker.client c) = [] →
     b' = b).
Proof.
  cbv zeta. split.
  - intros Hka Hidle.
    assert (Hexp : QoSSession.keepAliveExpired now c = true).
    { unfold QoSSession.keepAliveExpired.
      destruct (Z.ltb_spec 0 (QoSBroker.clientKeepAliveSec c)); [|lia].
      destruct (Z.ltb_spec (WiFi.u32 (QoSBroker.clientKeepAliveSec c * 1500))
                  (QoSBroker.elapsed now (QoSBroker.lastSeen c))); [reflexivity | lia]. }
    destruct (QoSSession.processMQTTClient_expired now i b c Hc Hcon Hexp)
      as (H1 & H2 & H3 & H4 & H5).
    repeat (split; [assumption |]).
    intros k ck Hk.
    destruct (QoSFrames.keepAlive_bytes now i b c k ck Hc Hcon Hexp Hk)
      as (ck' & Hk' & Htx).
    exists ck'. split; [exact Hk' |]. rewrite Htx. unfold QoSFrames.forwarded.
    now destruct (QoSBroker.hasLWT c).
  - intros Hno Hout Hinc Hrx.
    apply (QoSSession.processMQTTClient_idle now i b c Hc Hcon); try assumption.
    unfold QoSSession.keepAliveExpired.
    destruct (Z.ltb_spec 0 (QoSBroker.clientKeepAliveSec c)); [|reflexivity].
    destruct (Z.ltb_spec (WiFi.u32 (QoSBroker.clientKeepAliveSec c * 1500))
                (QoSBroker.elapsed now (QoSBroker.lastSeen c))); [lia | reflexivity].
Qed.

(** Session 1 has the will [gone] on [bye] and a keep-alive of 10 s,
    session 0 subscribes to [bye]; 15001 ms after the last PINGREQ the
    will goes to session 0. *)
Lemma keep_alive_timeout_witness :
  let c := {| QoSBroker.client := {| WiFi.connected := true; WiFi.rx := []; WiFi.tx := [] |};
              QoSBroker.clientId := "pub"; QoSBroker.lastSeen := 0;
              QoSBroker.willTopic := "bye"; QoSBroker.willMessage := "gone";
              QoSBroker.hasLWT := true; QoSBroker.connectedACKSent := true;
              QoSBroker.subscribedTopics := []; QoSBroker.clientKeepAliveSec := 10;
              QoSBroker.outgoingQoSMessages := ∅; QoSBroker.incomingQoS2Messages := ∅;
              QoSBroker.nextOutgoingPacketId := 1 |} in
  let b := QoSBroker.set_clients [QoSExamples.connectedClient "sub" false []; c]
             (QoSExamples.subscriberAndPublisher "bye" 0 false []) in
  QoSFacts.deliveries (QoSBroker.processMQTTClient 15001 1 b)
  = [(0%nat, "bye", "gone", 0, false)]
  ∧ QoSFacts.isConnected (QoSBroker.processMQTTClient 15001 1 b) 1 = false
  ∧ (WiFi.tx ∘ QoSBroker.client)
      <$> QoSBroker.connectedMQTTClients (QoSBroker.processMQTTClient 15001 1 b) !! 0%nat
    = Some ([0x30; 9; 0; 3] ++ Arduino.bytes_of_String "bye"
            ++ Arduino.bytes_of_String "gone")
  ∧ (WiFi.tx ∘ QoSBroker.client)
      <$> QoSBroker.connectedMQTTClients (QoSBroker.processMQTTClient 15001 1 b) !! 1%nat
    = Some [].
Proof.
  cbv zeta.
  match goal with
  | |- context [QoSBroker.processMQTTClient 15001 1 ?b0] =>
      pose proof (proj1 (keep_alive_timeout 15001 1%nat b0 _ eq_refl eq_refl)
                    ltac:(reflexivity) ltac:(vm_compute; reflexivity))
        as (Hd & Hi & _ & _ & _ & Hsock)
  end.
  split; [exact Hd |]. split; [exact Hi |]. split.
  - destruct (Hsock 0%nat _ eq_refl) as (ck' & Hk' & Htx).
    rewrite Hk'. cbn [fmap option_fmap option_map compose]. rewrite Htx.
    vm_compute. reflexivity.
  - destruct (Hsock 1%nat _ eq_refl) as (ck' & Hk' & Htx).
    rewrite Hk'. cbn [fmap option_fmap option_map compose]. rewrite Htx.
    vm_compute. reflexivity.
Defined.

(** X17.  The PUBREC of an inbound QoS-2 message has no retry budget and
    its entry keeps the time of reception: once the entry is older than
    QOS_TIMEOUT_MS, every pass of [processMQTTClient] writes the PUBREC
    again, as long as the PUBREL does not arrive. *)
Theorem pubrec_resent_on_every_pass (i : nat) (packetId : Z)
    (inMsg : QoSBroker.IncomingQoS2State) (nows : list Z)
    (b : QoSBroker.Broker) (c : QoSBroker.MQTTClientState)
    (Hc : QoSBroker.connectedMQTTClients b !! i = Some c)
    (Hcon : WiFi.connected (QoSBroker.client c) = true)
    (Hka : QoSBroker.clientKeepAliveSec c = 0)
    (Hout : QoSBroker.outgoingQoSMessages c = ∅)
    (Hinc : QoSBroker.incomingQoS2Messages c = {[packetId := inMsg]})
    (Hst : QoSBroker.in_state inMsg = 1)
    (Hrx : WiFi.rx (QoSBroker.client c) = [])
    (Hold : Forall (λ now, QoSBroker.QoS_TIMEOUT_MS
                           < QoSBroker.elapsed now (QoSBroker.timestampReceived inMsg))
              nows) :
  ∃ c', QoSBroker.connectedMQTTClients (QoSPasses.passes i nows b) !! i = Some c'
        ∧ WiFi.tx (QoSBroker.client c')
          = WiFi.tx (QoSBroker.client c)
            ++ concat (map (λ _, [0x50; 2] ++ WiFi.be16 (QoSBroker.in_packetId inMsg)) nows)
        ∧ QoSBroker.incomingQoS2Messages c' = QoSBroker.incomingQoS2Messages c
        ∧ WiFi.connected (QoSBroker.client c') = true.
Proof.
  eexists. split.
  - exact (QoSPasses.passes_pubrec_again i packetId inMsg nows b c
             Hc Hcon Hka Hout Hinc Hst Hrx Hold).
  - repeat split.
Qed.

Lemma pubrec_resent_on_every_pass_witness :
  let inMsg := {| QoSBroker.in_topic := "test"; QoSBroker.in_payload := "hi!";
                  QoSBroker.in_qos := 2; QoSBroker.in_packetId := 9;
                  QoSBroker.timestampReceived := 0; QoSBroker.in_state := 1 |} in
  let c := QoSBroker.set_incoming {[ 9 := inMsg ]}
             (QoSExamples.connectedClient "pub" false []) in
  let b := QoSBroker.set_clients [c] QoSBroker.emptyBroker in
  ∃ c', QoSBroker.connectedMQTTClients
          (QoSPasses.passes 0 [5001; 5002; 5003] b) !! 0%nat = Some c'
        ∧ WiFi.tx (QoSBroker.client c')
          = WiFi.tx (QoSBroker.client c)
            ++ concat (map (λ _, [0x50; 2] ++ WiFi.be16 9) [5001; 5002; 5003])
        ∧ QoSBroker.incomingQoS2Messages c' = QoSBroker.incomingQoS2Messages c
        ∧ WiFi.connected (QoSBroker.client c') = true.
Proof.
  cbv zeta.
  refine (pubrec_resent_on_every_pass 0%nat 9
            {| QoSBroker.in_topic := "test"; QoSBroker.in_payload := "hi!";
               QoSBroker.in_qos := 2; QoSBroker.in_packetId := 9;
               QoSBroker.timestampReceived := 0; QoSBroker.in_state := 1 |}
            [5001; 5002; 5003]
            (QoSBroker.set_clients
               [QoSBroker.set_incoming
                  {[ 9 := {| QoSBroker.in_topic := "test"; QoSBroker.in_payload := "hi!";
                             QoSBroker.in_qos := 2; QoSBroker.in_packetId := 9;
                             QoSBroker.timestampReceived := 0; QoSBroker.in_state := 1 |} ]}
                  (QoSExamples.connectedClient "pub" false [])]
               QoSBroker.emptyBroker)
            (QoSBroker.set_incoming
               {[ 9 := {| QoSBroker.in_topic := "test"; QoSBroker.in_payload := "hi!";
                          QoSBroker.in_qos := 2; QoSBroker.in_packetId := 9;
                          QoSBroker.timestampReceived := 0; QoSBroker.in_state := 1 |} ]}
               (QoSExamples.connectedClient "pub" false []))
            _ _ _ _ _ _ _ _).
  - reflexivity.
  - reflexivity.
  - reflexivity.
  - reflexivity.
  - reflexivity.
  - reflexivity.
  - reflexivity.
  - repeat constructor.
Defined.

(** X18.  A packet of a type the switch of [processMQTTClient] has no
    handler for, UNSUBSCRIBE (10) among them, closes the socket of the
    client like a DISCONNECT (14): nothing is written, what is left of
    the stream is dropped, and the subscriptions stay as they are until
    [loop] removes the client. *)
Theorem unhandled_packet_closes_socket (now : Z) (i : nat) (b : QoSBroker.Broker)
    (c : QoSBroker.MQTTClientState) (h len_ : Z) (rest : list Z)
    (Hc : QoSBroker.connectedMQTTClients b !! i = Some c)
    (Hrx : WiFi.rx (QoSBroker.client c) = h :: len_ :: rest)
    (Htype : ¬ In (Z.shiftr h 4) [1; 3; 4; 5; 6; 7; 8; 12]) :
  let b' := QoSBroker.dispatch now i b in
  QoSBroker.connectedMQTTClients b' !! i
  = Some (QoSBroker.set_client
            {| WiFi.connected := false; WiFi.rx := [];
               WiFi.tx := WiFi.tx (QoSBroker.client c) |} c)
  ∧ (∀ k, k ≠ i → QoSBroker.connectedMQTTClients b' !! k
                  = QoSBroker.connectedMQTTClients b !! k)
  ∧ QoSBroker.activeSubscriptions b' = QoSBroker.activeSubscriptions b
  ∧ QoSBroker.serial b' = QoSBroker.serial b.
Proof.
  cbv zeta. rewrite (QoSInFlight.dispatch_switch now i b c h len_ rest Hc Hrx).
  cbn [In] in Htype.
  repeat match goal with
         | |- context [Z.shiftr h 4 =? ?n] =>
             destruct (Z.eqb_spec (Z.shiftr h 4) n) as [Heq|_];
             [try (exfalso; apply Htype; rewrite Heq; tauto) |]
         end;
    (split; [rewrite !QoSFacts.update_client_lookup, Hc; reflexivity |]);
    (split; [intros k Hk; now rewrite !QoSFacts.update_client_lookup_ne by congruence |]);
    now rewrite !QoSFacts.update_client_subscriptions, !QoSFacts.update_client_serial.
Qed.

Lemma unhandled_packet_closes_socket_witness :
  let c := QoSExamples.connectedClient "pub" false ([0xA2; 5; 0; 1; 0; 1; 97]) in
  let b := QoSExamples.subscriberAndPublisher "a" 0 false ([0xA2; 5; 0; 1; 0; 1; 97]) in
  let b' := QoSBroker.dispatch 0 1 b in
  QoSBroker.connectedMQTTClients b' !! 1%nat
  = Some (QoSBroker.set_client
            {| WiFi.connected := false; WiFi.rx := [];
               WiFi.tx := WiFi.tx (QoSBroker.client c) |} c)
  ∧ (∀ k, k ≠ 1%nat → QoSBroker.connectedMQTTClients b' !! k
                      = QoSBroker.connectedMQTTClients b !! k)
  ∧ QoSBroker.activeSubscriptions b' = QoSBroker.activeSubscriptions b
  ∧ QoSBroker.serial b' = QoSBroker.serial b.
Proof.
  cbv zeta.
  apply (unhandled_packet_closes_socket 0 1%nat
           (QoSExamples.subscriberAndPublisher "a" 0 false ([0xA2; 5; 0; 1; 0; 1; 97]))
           (QoSExamples.connectedClient "pub" false ([0xA2; 5; 0; 1; 0; 1; 97]))
           0xA2 5 [0; 1; 0; 1; 97]).
  - reflexivity.
  - reflexivity.
  - vm_compute. intuition discriminate.
Defined.

(** X19.  Of the packets that the switch of [processMQTTClient] reads,
    the PINGREQ alone refreshes [lastSeen]: it is answered by
    [D0 00] and sets the [lastSeen] of its client to the time of the
    pass; any other packet, a PUBLISH included, leaves the [lastSeen] of
    every client as it was. *)
Theorem only_pingreq_refreshes_lastSeen (now : Z) (i : nat) (b : QoSBroker.Broker)
    (c : QoSBroker.MQTTClientState) (h : Z) (rest : list Z)
    (Hc : QoSBroker.connectedMQTTClients b !! i = Some c)
    (Hcon : WiFi.connected (QoSBroker.client c) = true)
    (Hrx : WiFi.rx (QoSBroker.client c) = h :: rest) :
  let b' := QoSBroker.dispatch now i b in
  (Z.shiftr h 4 ≠ 12 → QoSLastSeen.lastSeens b' = QoSLastSeen.lastSeens b)
  ∧ (Z.shiftr h 4 = 12 → rest ≠ [] →
     ∃ c', QoSBroker.connectedMQTTClients b' !! i = Some c'
           ∧ QoSBroker.lastSeen c' = now
           ∧ WiFi.tx (QoSBroker.client c') = WiFi.tx (QoSBroker.client c) ++ [0xD0; 0x00]).
Proof.
  cbv zeta. split.
  - intros Hh. now apply (QoSLastSeen.dispatch_lastSeens now i b c h rest).
  - intros Hh Hrest. destruct rest as [|len_ rest]; [contradiction |].
    eexists. split.
    + exact (QoSLastSeen.dispatch_pingreq now i b c h len_ rest Hc Hcon Hrx Hh).
    + split; reflexivity.
Qed.

(** A QoS-0 PUBLISH read at time 9000 leaves [lastSeen] at 0. *)
Lemma only_pingreq_refreshes_lastSeen_witness :
  let b := QoSExamples.subscriberAndPublisher "test" 0 false
             (QoSFacts.publishPacket false 0 false "test" "hi!" 0) in
  QoSLastSeen.lastSeens (QoSBroker.dispatch 9000 1 b) = QoSLastSeen.lastSeens b.
Proof.
  cbv zeta.
  refine (proj1 (only_pingreq_refreshes_lastSeen 9000 1%nat
                   (QoSExamples.subscriberAndPublisher "test" 0 false
                      (QoSFacts.publishPacket false 0 false "test" "hi!" 0))
                   (QoSExamples.connectedClient "pub" false
                      (QoSFacts.publishPacket false 0 false "test" "hi!" 0))
                   0x30 _ _ _ _) _).
  - reflexivity.
  - reflexivity.
  - reflexivity.
  - vm_compute. discriminate.
Defined.

(** X20.  The CONNECT branch of [loop] skips eight bytes of the variable
    header before it reads the connect flags, and the variable header
    of MQTT 3.1.1 has seven bytes before them.  So for a CONNECT of
    MQTT 3.1.1 the high byte of the keep-alive is taken for the connect
    flags: with a keep-alive below 1024 s and a client identifier
    shorter than 256 bytes, no will is registered whatever the flags
    say, and the CONNACK [20 02 00 00] is sent.  The length of the
    client identifier is read one byte late as well, and [lastSeen] is
    the time of the pass, or 1001 ms later when that misread length made
    [readLengthPrefixedString] wait for bytes that do not come. *)
Theorem connect_of_mqtt311_misread (now : Z) (c : QoSBroker.MQTTClientState)
    (h rl flags keepAlive : Z) (id : string) (more : list Z)
    (Hh : Z.shiftr h 4 = 1)
    (Hrx : WiFi.rx (QoSBroker.client c)
           = [h; rl] ++ [0; 4; 77; 81; 84; 84; 4; flags] ++ WiFi.be16 keepAlive
             ++ WiFi.be16 (Arduino.len id) ++ Arduino.bytes_of_String id ++ more)
    (Hrl : rl <= 12 + Arduino.len id + Z.of_nat (length more))
    (Hcon : WiFi.connected (QoSBroker.client c) = true)
    (Hka : 0 <= keepAlive < 1024) (Hid : Arduino.len id < 256) :
  let c' := QoSBroker.connectClient now c in
  QoSBroker.connectedACKSent c' = true
  ∧ QoSBroker.hasLWT c' = QoSBroker.hasLWT c
  ∧ QoSBroker.willTopic c' = QoSBroker.willTopic c
  ∧ QoSBroker.willMessage c' = QoSBroker.willMessage c
  ∧ (QoSBroker.lastSeen c' = WiFi.u32 now ∨ QoSBroker.lastSeen c' = WiFi.u32 (now + 1001))
  ∧ WiFi.tx (QoSBroker.client c')
    = WiFi.tx (QoSBroker.client c) ++ [0x20; 0x02; 0x00; 0x00].
Proof.
  cbv zeta.
  assert (Hlen : 0 <= Arduino.len id < 65536) by (unfold Arduino.len in *; lia).
  rewrite (QoSConnect.be16_small keepAlive), (QoSConnect.be16_small (Arduino.len id))
    in Hrx by lia.
  rewrite (Z.div_small (Arduino.len id) 256) in Hrx by lia.
  assert (Hflags : 0 <= keepAlive / 256 < 4).
  { split; [apply Z.div_pos; lia | apply Z.div_lt_upper_bound; lia]. }
  destruct (QoSConnect.small_byte_bits _ Hflags) as (Hwill & Huser & Hpass).
  rewrite (QoSConnect.connectClient_plain now c h rl [0; 4; 77; 81; 84; 84; 4; flags]
             (keepAlive / 256) (keepAlive mod 256) 0
             (Arduino.len id mod 256 :: Arduino.bytes_of_String id ++ more)
             Hrx eq_refl Hh).
  - cbn [QoSBroker.connectedACKSent QoSBroker.hasLWT QoSBroker.willTopic
         QoSBroker.willMessage QoSBroker.clientKeepAliveSec QoSBroker.lastSeen
         QoSBroker.client].
    repeat (split; [reflexivity |]).
    split.
    { destruct (QoSConnect.readLengthPrefixedStringTime_cases
                  {| WiFi.connected := true;
                     WiFi.rx := Arduino.len id mod 256
                                :: Arduino.bytes_of_String id ++ more;
                     WiFi.tx := WiFi.tx (QoSBroker.client c) |}) as [-> | ->];
        [left; now rewrite Z.add_0_r | now right]. }
    destruct (QoSConnect.readLengthPrefixedString_socket
                  {| WiFi.connected := true;
                     WiFi.rx := Arduino.len id mod 256
                                :: Arduino.bytes_of_String id ++ more;
                     WiFi.tx := WiFi.tx (QoSBroker.client c) |}) as [Hc' Ht'].
    rewrite QoSFacts.write_tx by exact Hc'. now rewrite Ht'.
  - cbn [app length]. rewrite length_app, QoSFacts.length_bytes_of_String.
    unfold Arduino.len in *. lia.
  - exact Hcon.
  - exact Hwill.
  - exact Huser.
  - exact Hpass.
Qed.

(** The CONNECT of the client [P] with the will flag set, the will
    [gone] on [bye] and a keep-alive of 60 s, in a pass entered at
    [millis() = 5]: the length of the client identifier is read as 336,
    [readLengthPrefixedString] waits and answers the empty string, and
    [lastSeen] is 1006. *)
Lemma connect_of_mqtt311_misread_witness :
  let c := QoSBroker.newState 0
             {| WiFi.connected := true;
                WiFi.rx := [0x10; 24] ++ [0; 4; 77; 81; 84; 84; 4; 6] ++ WiFi.be16 60
                           ++ WiFi.be16 (Arduino.len "P") ++ Arduino.bytes_of_String "P"
                           ++ [0; 3; 98; 121; 101; 0; 4; 103; 111; 110; 101];
                WiFi.tx := [] |} in
  let c' := QoSBroker.connectClient 5 c in
  QoSBroker.connectedACKSent c' = true
  ∧ QoSBroker.hasLWT c' = QoSBroker.hasLWT c
  ∧ QoSBroker.willTopic c' = QoSBroker.willTopic c
  ∧ QoSBroker.willMessage c' = QoSBroker.willMessage c
  ∧ (QoSBroker.lastSeen c' = WiFi.u32 5 ∨ QoSBroker.lastSeen c' = WiFi.u32 (5 + 1001))
  ∧ WiFi.tx (QoSBroker.client c')
    = WiFi.tx (QoSBroker.client c) ++ [0x20; 0x02; 0x00; 0x00]
  ∧ QoSBroker.lastSeen c' = 1006
  ∧ QoSBroker.clientId c' = "".
Proof.
  cbv zeta.
  match goal with
  | |- context [QoSBroker.connectClient 5 ?c0] =>
      pose proof (connect_of_mqtt311_misread 5 c0 0x10 24 6 60 "P"
                    [0; 3; 98; 121; 101; 0; 4; 103; 111; 110; 101]
                    eq_refl eq_refl ltac:(vm_compute; discriminate) eq_refl
                    ltac:(lia) ltac:(vm_compute; reflexivity))
        as (H1 & H2 & H3 & H4 & H5 & H6)
  end.
  cbv zeta in H1, H2, H3, H4, H5, H6.
  repeat (split; [assumption |]).
  split; vm_compute; reflexivity.
Defined.

(** X21.  The message log of the QoS broker never holds more than 50
    entries, whatever the clients send and however often [loop] runs;
    [logMessage] drops the oldest entry for the newest, which is the
    last entry of the log. *)
Theorem messageLog_bounded (events : list QoSBroker.Event) :
  (length (QoSBroker.messageLog (QoSBroker.run events QoSBroker.emptyBroker)) ≤ 50)%nat
  ∧ (∀ b, (length (QoSBroker.messageLog b) ≤ 50)%nat →
          (length (QoSBroker.messageLog (QoSBroker.run events b)) ≤ 50)%nat)
  ∧ (∀ now topic payload b,
       last (QoSBroker.messageLog (QoSBroker.logMessage now topic payload b))
       = Some {| QoSBroker.msg_topic := topic; QoSBroker.msg_payload := payload;
                 QoSBroker.msg_timestamp := now |}).
Proof.
  split; [|split].
  - apply QoSLog.run_bounded. unfold QoSLog.logBounded. cbn. lia.
  - intros b Hb. now apply QoSLog.run_bounded.
  - intros now topic payload b. apply QoSLog.logMessage_last.
Qed.

(** X22.  A new subscriber of the QoS broker gets the retained store
    replayed: after the SUBACK, [handleSubscribe] sends every retained
    message whose topic matches the filter, once, in the order of the
    topics, with RETAIN set and at the QoS it has granted.  On the
    socket of the subscriber the SUBACK is followed by one PUBLISH
    packet for each of these messages, with the next packet identifiers
    of the client above QoS 0; the store is walked with its topics in
    ascending order, every topic once with its payload. *)
Theorem subscribe_replays_retained (now : Z) (i : nat) (header len_ : Z)
    (b : QoSBroker.Broker) (c : QoSBroker.MQTTClientState)
    (packetIdMsb packetIdLsb : Z) (filter : string) (requestedQoS : Z) (more : list Z)
    (Hc : QoSBroker.connectedMQTTClients b !! i = Some c)
    (Hcon : WiFi.connected (QoSBroker.client c) = true)
    (Hrx : WiFi.rx (QoSBroker.client c)
           = [packetIdMsb; packetIdLsb] ++ WiFi.be16 (Arduino.len filter)
             ++ Arduino.bytes_of_String filter ++ [requestedQoS] ++ more)
    (Hw : WiFi.waitForBytes (QoSBroker.client c) len_ = true)
    (Hnul : QoSFacts.noNul filter = true)
    (Hlen : Arduino.len filter < 65536) :
  QoSFacts.deliveries (QoSBroker.handleSubscribe now i header len_ b)
  = QoSFacts.deliveries b
    ++ map (λ kv : string * string,
              (i, kv.1, kv.2, QoSBroker.grantQoS requestedQoS, true))
         (List.filter (λ kv : string * string, Topic.topicMatches kv.1 filter)
            (QoSBroker.retainedInOrder (QoSBroker.retainedMessages b)))
  ∧ (∀ topic payload,
       (topic, payload) ∈ QoSBroker.retainedInOrder (QoSBroker.retainedMessages b)
       ↔ QoSBroker.retainedMessages b !! topic = Some payload)
  ∧ NoDup (QoSBroker.retainedInOrder (QoSBroker.retainedMessages b)).*1
  ∧ StronglySorted (λ kv kv' : string * string, String.leb kv.1 kv'.1 = true)
      (QoSBroker.retainedInOrder (QoSBroker.retainedMessages b))
  ∧ (∃ c',
       QoSBroker.connectedMQTTClients (QoSBroker.handleSubscribe now i header len_ b) !! i
       = Some c'
       ∧ WiFi.tx (QoSBroker.client c')
         = WiFi.tx (QoSBroker.client c)
           ++ [0x90; 0x03; packetIdMsb; packetIdLsb; QoSBroker.grantQoS requestedQoS]
           ++ QoSFrames.publishFrames true (QoSBroker.nextOutgoingPacketId c)
                (map (λ kv : string * string,
                        (kv.1, kv.2, QoSBroker.grantQoS requestedQoS))
                   (List.filter (λ kv : string * string, Topic.topicMatches kv.1 filter)
                      (QoSBroker.retainedInOrder (QoSBroker.retainedMessages b))))).
Proof.
  split; [|split; [|split; [|split]]].
  - now apply (QoSReplay.handleSubscribe_replay now i header len_ b c
                 packetIdMsb packetIdLsb filter requestedQoS more).
  - intros topic payload. apply QoSReplay.retainedInOrder_elem.
  - apply QoSReplay.retainedInOrder_NoDup.
  - apply QoSFrames.retainedInOrder_sorted.
  - now apply (QoSFrames.handleSubscribe_bytes now i header len_ b c
                 packetIdMsb packetIdLsb filter requestedQoS more).
Qed.

(** [home/temp] and [home/hum] are retained, [garden/temp] too; client 1
    subscribes to [home/+] at QoS 1. *)
Lemma subscribe_replays_retained_witness :
  let b := QoSBroker.set_retained
             (<["home/temp" := "21"]> (<["garden/temp" := "9"]> (<["home/hum" := "40"]> ∅)))
             (QoSExamples.subscriberAndPublisher "x" 0 false
                ([0; 1] ++ WiFi.be16 (Arduino.len "home/+")
                 ++ Arduino.bytes_of_String "home/+" ++ [1] ++ [])) in
  QoSFacts.deliveries (QoSBroker.handleSubscribe 0 1 0x82 11 b)
  = [(1%nat, "home/hum", "40", 1, true); (1%nat, "home/temp", "21", 1, true)]
  ∧ (WiFi.tx ∘ QoSBroker.client)
      <$> QoSBroker.connectedMQTTClients (QoSBroker.handleSubscribe 0 1 0x82 11 b) !! 1%nat
    = Some ([0x90; 3; 0; 1; 1]
            ++ ([0x33; 14; 0; 8] ++ Arduino.bytes_of_String "home/hum" ++ [0; 1]
                ++ Arduino.bytes_of_String "40")
            ++ ([0x33; 15; 0; 9] ++ Arduino.bytes_of_String "home/temp" ++ [0; 2]
                ++ Arduino.bytes_of_String "21")).
Proof.
  cbv zeta.
  assert (Hall := (subscribe_replays_retained 0 1%nat 0x82 11
    (QoSBroker.set_retained
       (<["home/temp" := "21"]> (<["garden/temp" := "9"]> (<["home/hum" := "40"]> ∅)))
       (QoSExamples.subscriberAndPublisher "x" 0 false
          ([0; 1] ++ WiFi.be16 (Arduino.len "home/+")
           ++ Arduino.bytes_of_String "home/+" ++ [1] ++ [])))
    (QoSExamples.connectedClient "pub" false
       ([0; 1] ++ WiFi.be16 (Arduino.len "home/+")
        ++ Arduino.bytes_of_String "home/+" ++ [1] ++ []))
    0 1 "home/+" 1 []
    ltac:(reflexivity) ltac:(reflexivity) ltac:(reflexivity) ltac:(reflexivity)
    ltac:(reflexivity) ltac:(vm_compute; reflexivity))).
  destruct Hall as (Hreplay & _ & _ & _ & c' & Hc' & Htx).
  split.
  - rewrite Hreplay. vm_compute. reflexivity.
  - rewrite Hc'. cbn [fmap option_fmap option_map compose]. rewrite Htx.
    vm_compute. reflexivity.
Defined.

(** X23.  The two [sendPublish] of the repository write the same
    packet: what the sketch with [distributeMessage] writes piece by
    piece is what the QoS broker builds as header and body and hands to
    [sendMQTTPacket], for every socket, topic, payload, QoS, RETAIN and
    packet identifier. *)
Theorem sendPublish_implementations_agree (w : WiFi.WiFiClient) (topic payload : string)
    (qos : Z) (retain : bool) (packetId : Z) :
  WebBroker.sendPublish w topic payload qos retain packetId
  = QoSBroker.sendMQTTPacket w (QoSBroker.publishHeader 0x30 qos retain)
      (QoSBroker.publishBody topic payload qos packetId).
Proof. apply WebWire.sendPublish_sendMQTTPacket. Qed.

(** X24.  [distributeMessage] appends the message to the log, applies
    RETAIN (a payload that is not empty is stored under the topic, an
    empty one erases the topic, and without RETAIN the store is left),
    and writes one QoS-0 PUBLISH to a connected client for each of its
    subscriptions that matches, so a client with two matching filters
    receives the message twice; a client whose socket is closed
    receives nothing. *)
Theorem distributeMessage_effects (now : Z) (topic payload : string) (retain : bool)
    (b : WebBroker.Broker) :
  let b' := WebBroker.distributeMessage now topic payload retain b in
  WebBroker.messageLog b'
  = WebBroker.messageLog (WebBroker.logMessage now topic payload b)
  ∧ WebBroker.retainedMessages b'
    = (if retain
       then if Arduino.len payload =? 0
            then delete topic (WebBroker.retainedMessages b)
            else <[topic := payload]> (WebBroker.retainedMessages b)
       else WebBroker.retainedMessages b)
  ∧ WebBroker.activeSubscriptions b' = WebBroker.activeSubscriptions b
  ∧ (∀ k c,
       WebBroker.connectedMQTTClients b !! k = Some c →
       WebBroker.connectedMQTTClients b' !! k
       = Some (if WiFi.connected (WebBroker.client c)
               then WebBroker.set_client
                      {| WiFi.connected := true; WiFi.rx := WiFi.rx (WebBroker.client c);
                         WiFi.tx := WiFi.tx (WebBroker.client c)
                                    ++ concat
                                         (map (λ _, WebWire.publishFrame topic payload retain)
                                            (WebWire.matching k topic
                                               (WebBroker.activeSubscriptions b))) |} c
               else c)).
Proof.
  cbv zeta. unfold WebBroker.distributeMessage.
  set (b0 := if retain
             then WebBroker.updateRetained topic payload
                    (WebBroker.logMessage now topic payload b)
             else WebBroker.logMessage now topic payload b).
  assert (Hsubs : WebBroker.activeSubscriptions b0 = WebBroker.activeSubscriptions b).
  { unfold b0, WebBroker.updateRetained. destruct retain; [|reflexivity].
    now destruct (Arduino.len payload =? 0). }
  assert (Hclients : WebBroker.connectedMQTTClients b0 = WebBroker.connectedMQTTClients b).
  { unfold b0, WebBroker.updateRetained. destruct retain; [|reflexivity].
    now destruct (Arduino.len payload =? 0). }
  destruct (WebWire.web_foldl_forwardTo topic payload retain (WebBroker.activeSubscriptions b0) b0)
    as (Hs & Hr & Hl & _ & Hk).
  split; [|split; [|split]].
  - rewrite Hl. unfold b0, WebBroker.updateRetained. destruct retain; [|reflexivity].
    now destruct (Arduino.len payload =? 0).
  - rewrite Hr. unfold b0, WebBroker.updateRetained. destruct retain; [|reflexivity].
    now destruct (Arduino.len payload =? 0).
  - now rewrite Hs.
  - intros k c Hc. rewrite <- Hsubs. apply Hk. now rewrite Hclients.
Qed.

(** X25.  The QoS-2 path of the sketch with [distributeMessage]: a
    QoS-2 PUBLISH is answered by PUBREC and held under the key
    [clientId-packetId] without being distributed; the first PUBREL
    distributes it once, which the log shows, and erases the key; a
    second PUBREL distributes nothing.  The message is distributed with
    RETAIN off, so the retained store is never changed, whatever the
    RETAIN bit of the PUBLISH.  On the sockets: the publisher is written
    the PUBREC [50 02 pid] for the PUBLISH and the PUBCOMP [70 02 pid]
    for each PUBREL; at the first PUBREL every connected client is
    written one QoS-0 PUBLISH of the message for each of its matching
    subscriptions, after the PUBCOMP if it is the publisher; nothing
    else is written to any client. *)
Theorem web_qos2_once_and_never_retained (now1 now2 now3 : Z) (i : nat)
    (b : WebBroker.Broker) (c : WebBroker.MQTTClientState) (header : Z)
    (topic payload : string) (pid : Z) (rest : list Z)
    (Hc : WebBroker.connectedMQTTClients b !! i = Some c)
    (Hcon : WiFi.connected (WebBroker.client c) = true)
    (Hrx : WiFi.rx (WebBroker.client c)
           = [header; Z.of_nat (length (QoSBroker.publishBody topic payload 2 pid))]
             ++ QoSBroker.publishBody topic payload 2 pid
             ++ ([0x62; 2] ++ WiFi.be16 pid ++ [0x62; 2] ++ WiFi.be16 pid ++ rest))
    (Htype : Z.land (Z.shiftr header 4) 0x0F = 3)
    (Hqos : Z.land (Z.shiftr header 1) 0x03 = 2)
    (Hdup : Z.land (Z.shiftr header 3) 0x01 = 0)
    (Hfit : Z.of_nat (length (QoSBroker.publishBody topic payload 2 pid)) < 128)
    (Htopic : QoSFacts.noNul topic = true) (Hpayload : QoSFacts.noNul payload = true)
    (Hpid : 0 <= pid < 65536) :
  let key := WebBroker.pendingKey c pid in
  let b1 := WebQoS2.serve now1 i b in
  let b2 := WebQoS2.serve now2 i b1 in
  let b3 := WebQoS2.serve now3 i b2 in
  (WebBroker.messageLog b1 = WebBroker.messageLog b
   ∧ WebBroker.pendingQoS2 b1 !! key
     = Some {| WebBroker.q2_topic := topic; WebBroker.q2_payload := payload |})
  ∧ (WebBroker.messageLog b2
     = WebBroker.messageLog (WebBroker.logMessage now2 topic payload b)
     ∧ WebBroker.pendingQoS2 b2 !! key = None)
  ∧ (WebBroker.messageLog b3 = WebBroker.messageLog b2
     ∧ WebBroker.pendingQoS2 b3 !! key = None)
  ∧ WebBroker.retainedMessages b1 = WebBroker.retainedMessages b
  ∧ WebBroker.retainedMessages b2 = WebBroker.retainedMessages b
  ∧ WebBroker.retainedMessages b3 = WebBroker.retainedMessages b
  ∧ (∀ k ck,
       WebBroker.connectedMQTTClients b !! k = Some ck →
       ∃ c1 c2 c3,
         WebBroker.connectedMQTTClients b1 !! k = Some c1
         ∧ WebBroker.connectedMQTTClients b2 !! k = Some c2
         ∧ WebBroker.connectedMQTTClients b3 !! k = Some c3
         ∧ WiFi.tx (WebBroker.client c1)
           = WiFi.tx (WebBroker.client ck)
             ++ (if Nat.eqb k i then [0x50; 0x02] ++ WiFi.be16 pid else [])
         ∧ WiFi.tx (WebBroker.client c2)
           = WiFi.tx (WebBroker.client c1)
             ++ (if Nat.eqb k i then [0x70; 0x02] ++ WiFi.be16 pid else [])
             ++ (if WiFi.connected (WebBroker.client ck)
                 then concat (map (λ _, WebWire.publishFrame topic payload false)
                                (WebWire.matching k topic (WebBroker.activeSubscriptions b)))
                 else [])
         ∧ WiFi.tx (WebBroker.client c3)
           = WiFi.tx (WebBroker.client c2)
             ++ (if Nat.eqb k i then [0x70; 0x02] ++ WiFi.be16 pid else [])).
Proof.
  cbv zeta. unfold WebBroker.pendingKey.
  set (id := WebBroker.clientId c). set (key := id +:+ "-" +:+ WebBroker.decimal pid).
  assert (Hs : WebQoS2.session b i id
                 ([header; Z.of_nat (length (QoSBroker.publishBody topic payload 2 pid))]
                  ++ QoSBroker.publishBody topic payload 2 pid
                  ++ ([0x62; 2] ++ WiFi.be16 pid ++ [0x62; 2] ++ WiFi.be16 pid ++ rest)))
    by (exists c; repeat split; assumption).
  destruct (WebQoS2.serve_publish_qos2 now1 i b id header topic payload pid _
              Hs Htype Hqos Hdup Hfit Htopic Hpayload Hpid) as (Hs1 & Hl1 & Hr1 & Hp1).
  destruct (WebQoS2.serve_pubrel now2 i _ id pid _ Hs1 Hpid) as (Hs2 & Hr2 & Hp2 & Hl2).
  destruct (WebQoS2.serve_pubrel now3 i _ id pid _ Hs2 Hpid) as (Hs3 & Hr3 & Hp3 & Hl3).
  fold key in Hp1, Hp2, Hp3, Hl2, Hl3.
  rewrite Hp1, lookup_insert_eq in Hl2. cbn [WebBroker.q2_topic WebBroker.q2_payload] in Hl2.
  rewrite Hp2, lookup_delete_eq in Hl3.
  split; [split; [exact Hl1 | now rewrite Hp1, lookup_insert_eq] |].
  split; [split; [|now rewrite Hp2, lookup_delete_eq] |].
  { rewrite Hl2. now apply WebSession.logMessage_log. }
  split; [split; [exact Hl3 | now rewrite Hp3, lookup_delete_eq] |].
  split; [exact Hr1 |]. split; [congruence |]. split; [congruence |].
  intros k ck Hk.
  destruct (WebSockets.serve_publish_qos2_sockets now1 i b id header topic payload pid _
              k ck Hs Htype Hqos Hdup Hfit Htopic Hpayload Hpid Hk)
    as (Hsub1 & c1 & Hk1 & Hcon1 & Htx1).
  destruct (WebSockets.serve_pubrel_sockets now2 i _ id pid _ k c1 Hs1 Hpid Hk1)
    as (Hsub2 & c2 & Hk2 & Hcon2 & Htx2).
  destruct (WebSockets.serve_pubrel_sockets now3 i _ id pid _ k c2 Hs2 Hpid Hk2)
    as (Hsub3 & c3 & Hk3 & Hcon3 & Htx3).
  cbv zeta in Htx2, Htx3. fold key in Htx2, Htx3.
  rewrite Hp1, lookup_insert_eq in Htx2.
  cbn [WebBroker.q2_topic WebBroker.q2_payload] in Htx2.
  rewrite Hp2, lookup_delete_eq, app_nil_r in Htx3.
  rewrite Hsub1, Hcon1 in Htx2.
  exists c1, c2, c3. repeat (split; [assumption |]). exact Htx3.
Qed.

(** [P] sends [test] with the payload [hi!] at QoS 2 with RETAIN=1 and
    then two PUBRELs; [S] is subscribed to [test]. *)
Lemma web_qos2_once_and_never_retained_witness :
  let s := {| WebBroker.client := {| WiFi.connected := true; WiFi.rx := []; WiFi.tx := [] |};
              WebBroker.clientId := "S"; WebBroker.lastSeen := 0;
              WebBroker.willTopic := ""; WebBroker.willMessage := "";
              WebBroker.hasLWT := false; WebBroker.subscribedTopics := ["test"] |} in
  let c := {| WebBroker.client :=
                {| WiFi.connected := true;
                   WiFi.rx := [0x35; Z.of_nat (length (QoSBroker.publishBody "test" "hi!" 2 9))]
                              ++ QoSBroker.publishBody "test" "hi!" 2 9
                              ++ ([0x62; 2] ++ WiFi.be16 9 ++ [0x62; 2] ++ WiFi.be16 9 ++ []);
                   WiFi.tx := [] |};
              WebBroker.clientId := "P"; WebBroker.lastSeen := 0;
              WebBroker.willTopic := ""; WebBroker.willMessage := "";
              WebBroker.hasLWT := false; WebBroker.subscribedTopics := [] |} in
  let b := WebBroker.set_subscriptions
             [{| WebBroker.clientState := 1; WebBroker.topicFilter := "test" |}]
             (WebBroker.set_clients [c; s] WebBroker.emptyBroker) in
  let key := WebBroker.pendingKey c 9 in
  let b1 := WebQoS2.serve 1 0 b in
  let b2 := WebQoS2.serve 2 0 b1 in
  let b3 := WebQoS2.serve 3 0 b2 in
  let sent := λ b k, (WiFi.tx ∘ WebBroker.client) <$> WebBroker.connectedMQTTClients b !! k in
  (WebBroker.messageLog b1 = WebBroker.messageLog b
   ∧ WebBroker.pendingQoS2 b1 !! key
     = Some {| WebBroker.q2_topic := "test"; WebBroker.q2_payload := "hi!" |})
  ∧ (WebBroker.messageLog b2
     = WebBroker.messageLog (WebBroker.logMessage 2 "test" "hi!" b)
     ∧ WebBroker.pendingQoS2 b2 !! key = None)
  ∧ (WebBroker.messageLog b3 = WebBroker.messageLog b2
     ∧ WebBroker.pendingQoS2 b3 !! key = None)
  ∧ WebBroker.retainedMessages b1 = WebBroker.retainedMessages b
  ∧ WebBroker.retainedMessages b2 = WebBroker.retainedMessages b
  ∧ WebBroker.retainedMessages b3 = WebBroker.retainedMessages b
  ∧ sent b1 0%nat = Some [0x50; 2; 0; 9] ∧ sent b1 1%nat = Some []
  ∧ sent b2 0%nat = Some [0x50; 2; 0; 9; 0x70; 2; 0; 9]
  ∧ sent b2 1%nat
    = Some ([0x30; 9; 0; 4] ++ Arduino.bytes_of_String "test"
            ++ Arduino.bytes_of_String "hi!")
  ∧ sent b3 0%nat = Some [0x50; 2; 0; 9; 0x70; 2; 0; 9; 0x70; 2; 0; 9]
  ∧ sent b3 1%nat = sent b2 1%nat.
Proof.
  cbv zeta.
  match goal with
  | |- context [WebQoS2.serve 1 0 ?b0] =>
      pose proof (web_qos2_once_and_never_retained 1 2 3 0%nat b0 _ 0x35 "test" "hi!" 9 []
                    eq_refl eq_refl eq_refl eq_refl eq_refl eq_refl
                    ltac:(vm_compute; reflexivity) eq_refl eq_refl ltac:(lia))
        as (H1 & H2 & H3 & Hr1 & Hr2 & Hr3 & Hsock)
  end.
  cbv zeta in Hsock.
  repeat (split; [assumption |]).
  destruct (Hsock 0%nat _ eq_refl) as (p1 & p2 & p3 & Hp1 & Hp2 & Hp3 & Ht1 & Ht2 & Ht3).
  destruct (Hsock 1%nat _ eq_refl) as (s1 & s2 & s3 & Hs1 & Hs2 & Hs3 & Hu1 & Hu2 & Hu3).
  rewrite Hp1, Hp2, Hp3, Hs1, Hs2, Hs3.
  cbn [fmap option_fmap option_map compose].
  rewrite Hu3, Hu2, Hu1, Ht3, Ht2, Ht1.
  repeat split; vm_compute; reflexivity.
Defined.

(** X26.  The sketch with [distributeMessage] closes the socket of a
    client whose PUBLISH is malformed: a topic length that goes beyond
    the packet, or a PUBLISH above QoS 0 without room for the packet
    identifier.  The message is not distributed, logged or retained. *)
Theorem web_malformed_publish_closes_socket (now : Z) (i : nat) (b : WebBroker.Broker)
    (c : WebBroker.MQTTClientState) (header len_ topicLen : Z) (rest : list Z)
    (Hc : WebBroker.connectedMQTTClients b !! i = Some c)
    (Hcon : WiFi.connected (WebBroker.client c) = true)
    (Hrx : WiFi.rx (WebBroker.client c)
           = [header; len_] ++ WiFi.be16 topicLen ++ rest)
    (Htype : Z.land (Z.shiftr header 4) 0x0F = 3)
    (Hlen : 0 <= len_ < 128) (Htopic : 0 <= topicLen < 65536)
    (Hcomplete : len_ <= 2 + Z.of_nat (length rest))
    (Hbad : len_ - 2 < topicLen
            ∨ (0 < Z.land (Z.shiftr header 1) 0x03 ∧ len_ - (2 + topicLen) < 2)) :
  let b' := WebQoS2.serve now i b in
  (∃ c', WebBroker.connectedMQTTClients b' !! i = Some c'
         ∧ WiFi.connected (WebBroker.client c') = false
         ∧ WiFi.tx (WebBroker.client c') = WiFi.tx (WebBroker.client c))
  ∧ (∀ k, k ≠ i → WebBroker.connectedMQTTClients b' !! k
                  = WebBroker.connectedMQTTClients b !! k)
  ∧ WebBroker.messageLog b' = WebBroker.messageLog b
  ∧ WebBroker.retainedMessages b' = WebBroker.retainedMessages b
  ∧ WebBroker.pendingQoS2 b' = WebBroker.pendingQoS2 b
  ∧ WebBroker.activeSubscriptions b' = WebBroker.activeSubscriptions b.
Proof.
  cbv zeta. unfold WebQoS2.serve.
  rewrite (WebHandlers.loopClient_frame now i b c header len_ _ Hc Hcon Hrx Hlen).
  cbn [fst]. rewrite Htype. change (3 =? 3) with true. cbv iota.
  match goal with
  | |- context [WebBroker.update_client i (λ _, ?c1) b] =>
      set (c0 := c1);
      assert (H0 : WebBroker.connectedMQTTClients
                     (WebBroker.update_client i (λ _, c0) b) !! i = Some c0)
        by (now rewrite WebWire.web_update_client_lookup, Hc)
  end.
  rewrite (WebSession.handlePublish_rejected now i header len_ _ c0 topicLen rest
             H0 eq_refl Htopic Hcomplete Hbad).
  split; [|split].
  - eexists. split; [now rewrite WebWire.web_update_client_lookup, H0 |]. split; reflexivity.
  - intros k Hk. now rewrite !WebWire.web_update_client_lookup_ne by congruence.
  - now rewrite !WebWire.web_update_client_messageLog, !WebWire.web_update_client_retained,
      !WebWire.update_client_pendingQoS2, !WebWire.web_update_client_subscriptions.
Qed.

(** A QoS-1 PUBLISH on [test] that ends after its topic. *)
Lemma web_malformed_publish_closes_socket_witness :
  let c := {| WebBroker.client :=
                {| WiFi.connected := true;
                   WiFi.rx := [0x32; 6] ++ WiFi.be16 4 ++ [116; 101; 115; 116];
                   WiFi.tx := [] |};
              WebBroker.clientId := "P"; WebBroker.lastSeen := 0;
              WebBroker.willTopic := ""; WebBroker.willMessage := "";
              WebBroker.hasLWT := false; WebBroker.subscribedTopics := [] |} in
  let b := WebBroker.set_clients [c] WebBroker.emptyBroker in
  let b' := WebQoS2.serve 1 0 b in
  (∃ c', WebBroker.connectedMQTTClients b' !! 0%nat = Some c'
         ∧ WiFi.connected (WebBroker.client c') = false
         ∧ WiFi.tx (WebBroker.client c') = WiFi.tx (WebBroker.client c))
  ∧ (∀ k, k ≠ 0%nat → WebBroker.connectedMQTTClients b' !! k
                      = WebBroker.connectedMQTTClients b !! k)
  ∧ WebBroker.messageLog b' = WebBroker.messageLog b
  ∧ WebBroker.retainedMessages b' = WebBroker.retainedMessages b
  ∧ WebBroker.pendingQoS2 b' = WebBroker.pendingQoS2 b
  ∧ WebBroker.activeSubscriptions b' = WebBroker.activeSubscriptions b.
Proof.
  cbv zeta.
  refine (web_malformed_publish_closes_socket 1 0%nat _ _ 0x32 6 4 [116; 101; 115; 116]
            _ _ _ _ _ _ _ _).
  - reflexivity.
  - reflexivity.
  - reflexivity.
  - reflexivity.
  - lia.
  - lia.
  - vm_compute. discriminate.
  - right. vm_compute. split; reflexivity.
Defined.

(** X27.  [handleConnect] reads a CONNECT with any protocol name: the
    new client gets the client identifier of the packet and, when the
    will flag is set, its will topic and message; the keep-alive is
    read and dropped; the CONNACK [20 02 00 00] is written and the
    client is appended to [connectedMQTTClients]. *)
Theorem web_connect_registers_client (now : Z) (t : list Z) (b : WebBroker.Broker)
    (remainingLength : Z) (protocol : string) (level flags keep1 keep2 : Z)
    (id : string) (will : option (string * string)) (rest : list Z)
    (Hcomplete :
       remainingLength
       <= Z.of_nat (length (WiFi.be16 (Arduino.len protocol)
                            ++ Arduino.bytes_of_String protocol
                            ++ [level; flags; keep1; keep2]
                            ++ WiFi.be16 (Arduino.len id) ++ Arduino.bytes_of_String id
                            ++ WebSession.willFields will ++ rest)))
    (Hprotocol : Arduino.len protocol < 65536)
    (Hid : QoSFacts.noNul id = true) (Hidlen : Arduino.len id < 65536)
    (Hwill : WebSession.willOk will = true)
    (Hflag : Z.land flags 0x04 = match will with Some _ => 4 | None => 0 end)
    (Huser : Z.land flags 0x80 = 0) (Hpass : Z.land flags 0x40 = 0) :
  WebBroker.handleConnect now
    {| WiFi.connected := true;
       WiFi.rx := WiFi.be16 (Arduino.len protocol) ++ Arduino.bytes_of_String protocol
                  ++ [level; flags; keep1; keep2]
                  ++ WiFi.be16 (Arduino.len id) ++ Arduino.bytes_of_String id
                  ++ WebSession.willFields will ++ rest;
       WiFi.tx := t |} remainingLength b
  = WebBroker.set_clients
      (WebBroker.connectedMQTTClients b
       ++ [{| WebBroker.client :=
                {| WiFi.connected := true; WiFi.rx := rest;
                   WiFi.tx := t ++ [0x20; 0x02; 0x00; 0x00] |};
              WebBroker.clientId := id; WebBroker.lastSeen := now;
              WebBroker.willTopic := match will with Some (wt, _) => wt | None => "" end;
              WebBroker.willMessage := match will with Some (_, wm) => wm | None => "" end;
              WebBroker.hasLWT := match will with Some _ => true | None => false end;
              WebBroker.subscribedTopics := [] |}]) b.
Proof.
  rewrite (WebSession.handleConnect_parsed now true t b remainingLength protocol level
             flags keep1 keep2 id will rest Hcomplete Hprotocol Hid Hidlen Hwill).
  - destruct will as [[wt wm]|]; reflexivity.
  - rewrite Hflag. destruct will as [[wt wm]|]; reflexivity.
  - exact Huser.
  - exact Hpass.
Qed.

(** The CONNECT of [P] with the will [gone] on [bye]. *)
Lemma web_connect_registers_client_witness :
  WebBroker.handleConnect 1
    {| WiFi.connected := true;
       WiFi.rx := WiFi.be16 (Arduino.len "MQTT") ++ Arduino.bytes_of_String "MQTT"
                  ++ [4; 6; 0; 60]
                  ++ WiFi.be16 (Arduino.len "P") ++ Arduino.bytes_of_String "P"
                  ++ WebSession.willFields (Some ("bye", "gone")) ++ [];
       WiFi.tx := [] |} 24 WebBroker.emptyBroker
  = WebBroker.set_clients
      (WebBroker.connectedMQTTClients WebBroker.emptyBroker
       ++ [{| WebBroker.client :=
                {| WiFi.connected := true; WiFi.rx := [];
                   WiFi.tx := [] ++ [0x20; 0x02; 0x00; 0x00] |};
              WebBroker.clientId := "P"; WebBroker.lastSeen := 1;
              WebBroker.willTopic := "bye"; WebBroker.willMessage := "gone";
              WebBroker.hasLWT := true; WebBroker.subscribedTopics := [] |}])
      WebBroker.emptyBroker.
Proof.
  apply (web_connect_registers_client 1 [] WebBroker.emptyBroker 24 "MQTT" 4 6 0 60 "P"
           (Some ("bye", "gone")) []).
  - vm_compute. discriminate.
  - vm_compute. reflexivity.
  - reflexivity.
  - vm_compute. reflexivity.
  - reflexivity.
  - reflexivity.
  - reflexivity.
  - reflexivity.
Defined.

(** X28.  In every run of the sketch with [distributeMessage], whatever
    the clients send, no topic is retained with an empty payload and
    the message log never holds more than 50 entries. *)
Theorem web_store_and_log_invariant (events : list WebBroker.Event) :
  let b := WebBroker.run events WebBroker.emptyBroker in
  (∀ topic payload, WebBroker.retainedMessages b !! topic = Some payload → payload ≠ "")
  ∧ (length (WebBroker.messageLog b) ≤ 50)%nat.
Proof.
  cbv zeta. apply WebInvariant.storeOk_run, WebInvariant.storeOk_emptyBroker.
Qed.
